(** * ThinEngine: state cache, resource factory and draw dispatcher

    A shallow embedding of the WebGL "thin engine" class: the object that
    owns one graphics context, remembers what is bound to it and only talks
    to the driver when a binding changes.  The engine is a record of its
    fields; every method is a function on that record; the driver is a log
    of the calls it received.  JavaScript objects that are shared by
    reference (data buffers, internal textures, uniform locations, effects)
    live in stores indexed by their identity. *)

From Stdlib Require Import ZArith String Ascii DecimalString List Bool Lia.
From stdpp Require Import base option list gmap strings.

Local Open Scope Z_scope.

(** ** JavaScript values *)

(** Identity of a heap object; two references are [===] when equal. *)
Abbreviation Ref := Z (only parsing).
Abbreviation WebGLBuffer := Z (only parsing).
Abbreviation WebGLProgram := Z (only parsing).
Abbreviation WebGLTexture := Z (only parsing).
Abbreviation WebGLVertexArrayObject := Z (only parsing).
Abbreviation WebGLUniformLocation := Z (only parsing).

(** [Nullable<T>]: [None] is [null]. *)
Abbreviation Nullable A := (option A) (only parsing).
(** A field or array entry that may never have been written: the outer
    [None] is [undefined], [Some None] is [null].  [undefined !== null]. *)
Abbreviation Slot A := (option (option A)) (only parsing).

(** [a !== b] on slots. *)
Definition strict_ne {A} `{EqDecision A} (a b : A) : bool := bool_decide (a ≠ b).
(** JavaScript truthiness of an object-or-null-or-undefined value. *)
Definition truthy_slot {A} (s : Slot A) : bool :=
  match s with Some (Some _) => true | _ => false end.
(** Truthiness of a number that may be absent: [0] and [undefined] are falsy. *)
Definition truthy_num (n : option Z) : bool :=
  match n with Some v => negb (v =? 0) | None => false end.
(** Truthiness of a string that may be absent. *)
Definition truthy_str (s : option string) : bool :=
  match s with Some v => negb (String.eqb v "") | None => false end.
(** Truthiness of an optional boolean argument. *)
Definition truthy_bool (b : option bool) : bool := default false b.
(** An integer as an operand of string [+]: its decimal digits (the
    notation JavaScript uses below 10^21). *)
Definition js_number (n : Z) : string := NilZero.string_of_int (Z.to_int n).
(** The string ["\n"]. *)
Definition line_feed : string := String "010"%char EmptyString.

Inductive JSError : Type :=
  | Error (msg : string)
  | RangeError (msg : string)
  | TypeError (msg : string)
  | ThrownString (msg : string).

(** What the logger was handed.  [Logger.Error] may be given an array: a
    message followed by the values that go with it, numbers as they are and
    objects by their identity. *)
Inductive LogEntry : Type :=
  | Warn (msg : string)
  | LogError (msg : string) (values : list Z).

(** Callbacks and observers run by the engine; the engine only records
    that it invoked them. *)
Inductive Event : Type :=
  | PreventDefault
  | ContextLostNotified
  | OnCompiledCalled (effect : Ref).

(** ** The driver *)

(** Enumerants of the WebGL context (values of the WebGL specification). *)
Module gl.
Definition POINTS := 0.
Definition LINES := 1.
Definition LINE_LOOP := 2.
Definition LINE_STRIP := 3.
Definition TRIANGLES := 4.
Definition TRIANGLE_STRIP := 5.
Definition TRIANGLE_FAN := 6.
Definition NONE := 0.
Definition LEQUAL := 515.
Definition TEXTURE_2D := 3553.
Definition UNSIGNED_SHORT := 5123.
Definition INT := 5124.
Definition UNSIGNED_INT := 5125.
Definition FLOAT := 5126.
Definition TEXTURE_3D := 32879.
Definition TEXTURE0 := 33984.
Definition TEXTURE_CUBE_MAP := 34067.
Definition ARRAY_BUFFER := 34962.
Definition ELEMENT_ARRAY_BUFFER := 34963.
Definition STATIC_DRAW := 35044.
Definition DYNAMIC_DRAW := 35048.
Definition TEXTURE_2D_ARRAY := 35866.
Definition UNPACK_PREMULTIPLY_ALPHA_WEBGL := 37441.
Definition UNPACK_COLORSPACE_CONVERSION_WEBGL := 37443.
Definition UNPACK_FLIP_Y_WEBGL := 37440.
Definition NEAREST := 9728.
Definition LINEAR := 9729.
Definition NEAREST_MIPMAP_NEAREST := 9984.
Definition LINEAR_MIPMAP_NEAREST := 9985.
Definition NEAREST_MIPMAP_LINEAR := 9986.
Definition LINEAR_MIPMAP_LINEAR := 9987.
End gl.

(** The index payloads the engine accepts ([IndicesArray]) and produces. *)
Inductive IndicesArray : Type :=
  | NumberArray (xs : list Z)
  | Int32Array (xs : list Z)
  | Uint32Array (xs : list Z)
  | Uint16Array (xs : list Z).

(** What [bufferData] is handed.  Vertex payloads are carried as they
    were given; their element values take no part in any binding decision. *)
Inductive BufferSource : Type :=
  | Float32ArrayOf (xs : list Z)
  | Uint8ArrayOfLength (n : Z)
  | RawData (bytes : list Z)
  | IndexData (d : IndicesArray).

Inductive GLCall : Type :=
  | createBuffer
  | bindBuffer (target : Z) (buffer : Nullable WebGLBuffer)
  | bufferData (target : Z) (data : BufferSource) (usage : Z)
  | deleteBuffer (buffer : Nullable WebGLBuffer)
  | bindVertexArray (vao : Nullable WebGLVertexArrayObject)
  | enableVertexAttribArray (index : Z)
  | disableVertexAttribArray (index : Z)
  | vertexAttribPointer (indx size type : Z) (normalized : bool) (stride offset : Z)
  | vertexAttribIPointer (indx size type stride offset : Z)
  | vertexAttribDivisor (index divisor : Z)
  | useProgram (program : Nullable WebGLProgram)
  | activeTexture (texture : Z)
  | bindTexture (target : Z) (texture : Nullable WebGLTexture)
  | uniform1i (location : WebGLUniformLocation) (x : Z)
  | drawElements (mode count type offset : Z)
  | drawElementsInstanced (mode count type offset instanceCount : Z)
  | drawArrays (mode first count : Z)
  | drawArraysInstanced (mode first count instanceCount : Z)
  | colorMask (r g b a : bool)
  | pixelStorei (pname param : Z)
  | stateCall (name : string) (args : list Z).

(** The context: the calls it has received so far (oldest first), the next
    handle it will hand out, and whether it currently declines to allocate
    (a creation call then returns [null]). *)
Record GL : Type := mkGL {
  calls : list GLCall;
  nextHandle : Z;
  failAlloc : bool
}.

Definition gl_call (c : GLCall) (g : GL) : GL :=
  {| calls := calls g ++ [c]; nextHandle := nextHandle g; failAlloc := failAlloc g |}.
Definition gl_calls (cs : list GLCall) (g : GL) : GL :=
  {| calls := calls g ++ cs; nextHandle := nextHandle g; failAlloc := failAlloc g |}.

(** [gl.createBuffer()]: a fresh handle, or [null]. *)
Definition gl_createBuffer (g : GL) : Nullable WebGLBuffer * GL :=
  if failAlloc g
  then (None, gl_call createBuffer g)
  else (Some (nextHandle g),
        {| calls := calls g ++ [createBuffer]; nextHandle := nextHandle g + 1;
           failAlloc := failAlloc g |}).

(** ** Objects held by reference *)

Record Caps : Type := mkCaps {
  maxVertexAttribs : Z;
  uintIndices : bool;
  textureFloat : bool;
  textureFloatLinearFiltering : bool;
  textureHalfFloatLinearFiltering : bool;
  supportSRGBBuffers : bool
}.

(** [DataBuffer] / [WebGLDataBuffer]. *)
Record DataBuffer : Type := mkDataBuffer {
  references : Z;
  capacity : Z;
  is32Bits : bool;
  underlyingResource : Nullable WebGLBuffer
}.

Definition DataBuffer_set_references (v : Z) (b : DataBuffer) : DataBuffer :=
  {| references := v; capacity := capacity b; is32Bits := is32Bits b;
     underlyingResource := underlyingResource b |}.
Definition DataBuffer_set_capacity (v : Z) (b : DataBuffer) : DataBuffer :=
  {| references := references b; capacity := v; is32Bits := is32Bits b;
     underlyingResource := underlyingResource b |}.
Definition DataBuffer_set_is32Bits (v : bool) (b : DataBuffer) : DataBuffer :=
  {| references := references b; capacity := capacity b; is32Bits := v;
     underlyingResource := underlyingResource b |}.

(** The fields of [InternalTexture] that binding reads or writes. *)
Record InternalTexture : Type := mkInternalTexture {
  _associatedChannel : Z;
  isMultiview : bool;
  isCube : bool;
  is3D : bool;
  is2DArray : bool;
  _hardwareTexture : Nullable WebGLTexture
}.

Definition InternalTexture_set_associatedChannel (v : Z) (t : InternalTexture)
  : InternalTexture :=
  {| _associatedChannel := v; isMultiview := isMultiview t; isCube := isCube t;
     is3D := is3D t; is2DArray := is2DArray t; _hardwareTexture := _hardwareTexture t |}.

(** The entries of [_currentBufferPointers]; a field is [None] until the
    first [_vertexAttribPointer] on that index writes it. *)
Record BufferPointer : Type := mkBufferPointer {
  active : bool;
  bp_index : option Z;
  bp_size : option Z;
  bp_type : option Z;
  bp_normalized : option bool;
  bp_stride : option Z;
  bp_offset : option Z;
  bp_buffer : option Ref
}.

(** What the engine reads of an [Effect]. *)
Record Effect : Type := mkEffect {
  _key : string;
  _refCount : Z;
  effect_isReady : bool;
  attributesNames : list string;
  attributeLocations : list Z;
  pipelineProgram : Nullable WebGLProgram
}.

Definition Effect_set_refCount (v : Z) (f : Effect) : Effect :=
  {| _key := _key f; _refCount := v; effect_isReady := effect_isReady f;
     attributesNames := attributesNames f; attributeLocations := attributeLocations f;
     pipelineProgram := pipelineProgram f |}.

(** What the engine reads of a [VertexBuffer]. *)
Record VertexBuffer : Type := mkVertexBuffer {
  getBuffer : Nullable Ref;
  getSize : Z;
  vb_type : Z;
  vb_normalized : bool;
  byteStride : Z;
  byteOffset : Z;
  getIsInstanced : bool;
  getInstanceDivisor : Z
}.

Record RenderTargetWrapper : Type := mkRenderTargetWrapper {
  rt_textures : Nullable (list Ref)
}.

Record Viewport : Type := mkViewport { vx : Z; vy : Z; vz : Z; vw : Z }.

(** ** Constants and collaborators outside the sources *)

(** The engine's enumeration constants ([Constants.*]) come from a module
    that is not part of the sources; the engine only ever compares against
    them, so they are taken as parameters. *)
Record Constants : Type := mkConstants {
  MATERIAL_TriangleFillMode : Z;
  MATERIAL_WireFrameFillMode : Z;
  MATERIAL_PointFillMode : Z;
  MATERIAL_PointListDrawMode : Z;
  MATERIAL_LineListDrawMode : Z;
  MATERIAL_LineLoopDrawMode : Z;
  MATERIAL_LineStripDrawMode : Z;
  MATERIAL_TriangleStripDrawMode : Z;
  MATERIAL_TriangleFanDrawMode : Z;
  TEXTURETYPE_UNSIGNED_BYTE : Z;
  TEXTURETYPE_FLOAT : Z;
  TEXTURETYPE_HALF_FLOAT : Z;
  TEXTURE_NEAREST_SAMPLINGMODE : Z;
  TEXTURE_TRILINEAR_SAMPLINGMODE : Z;
  TEXTUREFORMAT_RGBA : Z
}.

(** Arguments of [createEffect]. *)
Record IShaderPath : Type := mkShaderPath {
  vertexToken : option string;
  vertexSource : option string;
  vertexElement : option string;
  vertex : option string;
  fragmentToken : option string;
  fragmentSource : option string;
  fragmentElement : option string;
  fragment : option string
}.

Inductive BaseName : Type :=
  | BaseNameString (s : string)
  | BaseNamePath (p : IShaderPath).

Record IEffectCreationOptions : Type := mkEffectCreationOptions {
  opt_attributes : option (list string);
  opt_defines : option string
}.

Inductive AttributesNamesOrOptions : Type :=
  | AttributesNames (names : list string)
  | CreationOptions (o : IEffectCreationOptions).

(** Arguments of [_createInternalTexture]. *)
Record InternalTextureCreationOptions : Type := mkTextureCreationOptions {
  o_generateMipMaps : option bool;
  o_createMipMaps : option bool;
  o_type : option Z;
  o_samplingMode : option Z;
  o_format : option Z;
  o_useSRGBBuffer : option bool;
  o_samples : option Z;
  o_label : option string;
  o_createMSAATexture : option bool;
  o_comparisonFunction : option Z
}.

Inductive TextureOptions : Type :=
  | OptionsUndefined
  | OptionsBoolean (b : bool)
  | OptionsObject (o : InternalTextureCreationOptions).

(** The local variables of [_createInternalTexture] once the options and
    the capabilities have been taken into account. *)
Record TextureSettings : Type := mkTextureSettings {
  generateMipMaps : bool;
  createMipMaps : bool;
  type_ : Z;
  samplingMode : Z;
  format : Z;
  useSRGBBuffer : bool;
  samples : Z;
  label : option string;
  createMSAATexture : bool;
  comparisonFunction : Z
}.

(** How a call of a method ends. *)
Inductive Completion (A : Type) : Type :=
  | Return (a : A)
  | Throw (err : JSError).
Arguments Return {A} a.
Arguments Throw {A} err.

Section ThinEngine.

(** State of the collaborators whose classes are not part of the sources:
    the depth-culling, stencil and alpha state objects, the draw-call
    counter and the per-context state object. *)
Context {Ext : Type}.

(** What those collaborators do when the engine calls them.  A state object
    may issue driver calls of its own when applied; none of them can reach
    the engine's binding caches.  [Effect_new] is the [Effect] constructor
    as far as [createEffect] and the binding methods read its result: the
    fields of the new object.  [typedArray_maxLength] is the largest length
    the JavaScript runtime accepts for a typed array. *)
Record Externals : Type := mkExternals {
  depthCullingState_apply : Ext -> Ext * list GLCall;
  stencilStateComposer_apply : Ext -> Ext * list GLCall;
  alphaState_apply : Z -> Ext -> Ext * list GLCall;
  depthCullingState_reset : Ext -> Ext;
  depthCullingState_set_depthFunc : Z -> Ext -> Ext;
  stencilStateComposer_reset : Ext -> Ext;
  alphaState_reset : Ext -> Ext;
  _resetAlphaMode : Ext -> Ext;
  _reportDrawCall : Ext -> Ext;
  getStateObject : Ext -> Ext;
  deleteStateObject : Ext -> Ext;
  _GetGlobalDefines : bool -> bool -> bool -> option string;
  typedArray_maxLength : Z;
  WebGLDataBuffer_fields : DataBuffer;
  Effect_new : BaseName -> AttributesNamesOrOptions -> option string -> string -> Effect
}.

Variable X : Externals.
Variable K : Constants.

(** The engine: the fields of [this] that the embedded methods read or
    write, then the object stores, then the world outside (log, callbacks,
    collaborators). *)
#[projections(primitive)] Record Engine : Type := mkEngine {
  _gl : GL;
  _caps : Caps;
  _webGLVersion : Z;
  isWebGPU : bool;
  _contextWasLost : bool;
  _doNotHandleContextLost : bool;
  preventCacheWipeBetweenFrames : bool;
  isNDCHalfZRange : bool;
  useReverseDepthBuffer : bool;
  useExactSrgbConversions : bool;
  _currentProgram : Slot WebGLProgram;
  _vertexAttribArraysEnabled : list bool;
  _cachedVertexArrayObject : Slot WebGLVertexArrayObject;
  _uintIndicesCurrentlySet : bool;
  _currentBoundBuffer : gmap Z (Nullable Ref);
  _currentBufferPointers : list BufferPointer;
  _currentInstanceLocations : list Z;
  _currentInstanceBuffers : list Ref;
  _vaoRecordInProgress : bool;
  _mustWipeVertexAttributes : bool;
  _cachedVertexBuffers : Slot Ref;
  _cachedIndexBuffer : Slot Ref;
  _cachedEffectForVertexBuffers : Slot Ref;
  _currentEffect : Slot Ref;
  _viewportCached : Viewport;
  _colorWrite : bool;
  _colorWriteChanged : bool;
  _unpackFlipYCached : Nullable bool;
  _currentRenderTarget : Nullable RenderTargetWrapper;
  _boundTexturesCache : gmap Z (Nullable Ref);
  _activeChannel : Z;
  _currentTextureChannel : Z;
  _boundUniforms : gmap Z Ref;
  _compiledEffects : gmap string Ref;
  buffers : gmap Ref DataBuffer;
  textures : gmap Ref InternalTexture;
  uniforms : gmap Ref (option Z);
  effects : gmap Ref Effect;
  nextObject : Ref;
  logger : list LogEntry;
  events : list Event;
  ext : Ext
}.

(** Field assignment.  The fields that no method writes have none, except
    those that callers set to configure an engine. *)
Definition set_gl (v : GL) (e : Engine) : Engine :=
  {| _gl := v; _caps := _caps e; _webGLVersion := _webGLVersion e; isWebGPU := isWebGPU e;
     _contextWasLost := _contextWasLost e; _doNotHandleContextLost := _doNotHandleContextLost e;
     preventCacheWipeBetweenFrames := preventCacheWipeBetweenFrames e; isNDCHalfZRange :=
     isNDCHalfZRange e; useReverseDepthBuffer := useReverseDepthBuffer e;
     useExactSrgbConversions := useExactSrgbConversions e; _currentProgram := _currentProgram e;
     _vertexAttribArraysEnabled := _vertexAttribArraysEnabled e; _cachedVertexArrayObject :=
     _cachedVertexArrayObject e; _uintIndicesCurrentlySet := _uintIndicesCurrentlySet e;
     _currentBoundBuffer := _currentBoundBuffer e; _currentBufferPointers :=
     _currentBufferPointers e; _currentInstanceLocations := _currentInstanceLocations e;
     _currentInstanceBuffers := _currentInstanceBuffers e; _vaoRecordInProgress :=
     _vaoRecordInProgress e; _mustWipeVertexAttributes := _mustWipeVertexAttributes e;
     _cachedVertexBuffers := _cachedVertexBuffers e; _cachedIndexBuffer := _cachedIndexBuffer e;
     _cachedEffectForVertexBuffers := _cachedEffectForVertexBuffers e; _currentEffect :=
     _currentEffect e; _viewportCached := _viewportCached e; _colorWrite := _colorWrite e;
     _colorWriteChanged := _colorWriteChanged e; _unpackFlipYCached := _unpackFlipYCached e;
     _currentRenderTarget := _currentRenderTarget e; _boundTexturesCache := _boundTexturesCache
     e; _activeChannel := _activeChannel e; _currentTextureChannel := _currentTextureChannel e;
     _boundUniforms := _boundUniforms e; _compiledEffects := _compiledEffects e; buffers :=
     buffers e; textures := textures e; uniforms := uniforms e; effects := effects e; nextObject
     := nextObject e; logger := logger e; events := events e; ext := ext e |}.
Definition set_caps (v : Caps) (e : Engine) : Engine :=
  {| _gl := _gl e; _caps := v; _webGLVersion := _webGLVersion e; isWebGPU := isWebGPU e;
     _contextWasLost := _contextWasLost e; _doNotHandleContextLost := _doNotHandleContextLost e;
     preventCacheWipeBetweenFrames := preventCacheWipeBetweenFrames e; isNDCHalfZRange :=
     isNDCHalfZRange e; useReverseDepthBuffer := useReverseDepthBuffer e;
     useExactSrgbConversions := useExactSrgbConversions e; _currentProgram := _currentProgram e;
     _vertexAttribArraysEnabled := _vertexAttribArraysEnabled e; _cachedVertexArrayObject :=
     _cachedVertexArrayObject e; _uintIndicesCurrentlySet := _uintIndicesCurrentlySet e;
     _currentBoundBuffer := _currentBoundBuffer e; _currentBufferPointers :=
     _currentBufferPointers e; _currentInstanceLocations := _currentInstanceLocations e;
     _currentInstanceBuffers := _currentInstanceBuffers e; _vaoRecordInProgress :=
     _vaoRecordInProgress e; _mustWipeVertexAttributes := _mustWipeVertexAttributes e;
     _cachedVertexBuffers := _cachedVertexBuffers e; _cachedIndexBuffer := _cachedIndexBuffer e;
     _cachedEffectForVertexBuffers := _cachedEffectForVertexBuffers e; _currentEffect :=
     _currentEffect e; _viewportCached := _viewportCached e; _colorWrite := _colorWrite e;
     _colorWriteChanged := _colorWriteChanged e; _unpackFlipYCached := _unpackFlipYCached e;
     _currentRenderTarget := _currentRenderTarget e; _boundTexturesCache := _boundTexturesCache
     e; _activeChannel := _activeChannel e; _currentTextureChannel := _currentTextureChannel e;
     _boundUniforms := _boundUniforms e; _compiledEffects := _compiledEffects e; buffers :=
     buffers e; textures := textures e; uniforms := uniforms e; effects := effects e; nextObject
     := nextObject e; logger := logger e; events := events e; ext := ext e |}.
Definition set_contextWasLost (v : bool) (e : Engine) : Engine :=
  {| _gl := _gl e; _caps := _caps e; _webGLVersion := _webGLVersion e; isWebGPU := isWebGPU e;
     _contextWasLost := v; _doNotHandleContextLost := _doNotHandleContextLost e;
     preventCacheWipeBetweenFrames := preventCacheWipeBetweenFrames e; isNDCHalfZRange :=
     isNDCHalfZRange e; useReverseDepthBuffer := useReverseDepthBuffer e;
     useExactSrgbConversions := useExactSrgbConversions e; _currentProgram := _currentProgram e;
     _vertexAttribArraysEnabled := _vertexAttribArraysEnabled e; _cachedVertexArrayObject :=
     _cachedVertexArrayObject e; _uintIndicesCurrentlySet := _uintIndicesCurrentlySet e;
     _currentBoundBuffer := _currentBoundBuffer e; _currentBufferPointers :=
     _currentBufferPointers e; _currentInstanceLocations := _currentInstanceLocations e;
     _currentInstanceBuffers := _currentInstanceBuffers e; _vaoRecordInProgress :=
     _vaoRecordInProgress e; _mustWipeVertexAttributes := _mustWipeVertexAttributes e;
     _cachedVertexBuffers := _cachedVertexBuffers e; _cachedIndexBuffer := _cachedIndexBuffer e;
     _cachedEffectForVertexBuffers := _cachedEffectForVertexBuffers e; _currentEffect :=
     _currentEffect e; _viewportCached := _viewportCached e; _colorWrite := _colorWrite e;
     _colorWriteChanged := _colorWriteChanged e; _unpackFlipYCached := _unpackFlipYCached e;
     _currentRenderTarget := _currentRenderTarget e; _boundTexturesCache := _boundTexturesCache
     e; _activeChannel := _activeChannel e; _currentTextureChannel := _currentTextureChannel e;
     _boundUniforms := _boundUniforms e; _compiledEffects := _compiledEffects e; buffers :=
     buffers e; textures := textures e; uniforms := uniforms e; effects := effects e; nextObject
     := nextObject e; logger := logger e; events := events e; ext := ext e |}.
Definition set_doNotHandleContextLost (v : bool) (e : Engine) : Engine :=
  {| _gl := _gl e; _caps := _caps e; _webGLVersion := _webGLVersion e; isWebGPU := isWebGPU e;
     _contextWasLost := _contextWasLost e; _doNotHandleContextLost := v;
     preventCacheWipeBetweenFrames := preventCacheWipeBetweenFrames e; isNDCHalfZRange :=
     isNDCHalfZRange e; useReverseDepthBuffer := useReverseDepthBuffer e;
     useExactSrgbConversions := useExactSrgbConversions e; _currentProgram := _currentProgram e;
     _vertexAttribArraysEnabled := _vertexAttribArraysEnabled e; _cachedVertexArrayObject :=
     _cachedVertexArrayObject e; _uintIndicesCurrentlySet := _uintIndicesCurrentlySet e;
     _currentBoundBuffer := _currentBoundBuffer e; _currentBufferPointers :=
     _currentBufferPointers e; _currentInstanceLocations := _currentInstanceLocations e;
     _currentInstanceBuffers := _currentInstanceBuffers e; _vaoRecordInProgress :=
     _vaoRecordInProgress e; _mustWipeVertexAttributes := _mustWipeVertexAttributes e;
     _cachedVertexBuffers := _cachedVertexBuffers e; _cachedIndexBuffer := _cachedIndexBuffer e;
     _cachedEffectForVertexBuffers := _cachedEffectForVertexBuffers e; _currentEffect :=
     _currentEffect e; _viewportCached := _viewportCached e; _colorWrite := _colorWrite e;
     _colorWriteChanged := _colorWriteChanged e; _unpackFlipYCached := _unpackFlipYCached e;
     _currentRenderTarget := _currentRenderTarget e; _boundTexturesCache := _boundTexturesCache
     e; _activeChannel := _activeChannel e; _currentTextureChannel := _currentTextureChannel e;
     _boundUniforms := _boundUniforms e; _compiledEffects := _compiledEffects e; buffers :=
     buffers e; textures := textures e; uniforms := uniforms e; effects := effects e; nextObject
     := nextObject e; logger := logger e; events := events e; ext := ext e |}.
Definition set_preventCacheWipeBetweenFrames (v : bool) (e : Engine) : Engine :=
  {| _gl := _gl e; _caps := _caps e; _webGLVersion := _webGLVersion e; isWebGPU := isWebGPU e;
     _contextWasLost := _contextWasLost e; _doNotHandleContextLost := _doNotHandleContextLost e;
     preventCacheWipeBetweenFrames := v; isNDCHalfZRange := isNDCHalfZRange e;
     useReverseDepthBuffer := useReverseDepthBuffer e; useExactSrgbConversions :=
     useExactSrgbConversions e; _currentProgram := _currentProgram e; _vertexAttribArraysEnabled
     := _vertexAttribArraysEnabled e; _cachedVertexArrayObject := _cachedVertexArrayObject e;
     _uintIndicesCurrentlySet := _uintIndicesCurrentlySet e; _currentBoundBuffer :=
     _currentBoundBuffer e; _currentBufferPointers := _currentBufferPointers e;
     _currentInstanceLocations := _currentInstanceLocations e; _currentInstanceBuffers :=
     _currentInstanceBuffers e; _vaoRecordInProgress := _vaoRecordInProgress e;
     _mustWipeVertexAttributes := _mustWipeVertexAttributes e; _cachedVertexBuffers :=
     _cachedVertexBuffers e; _cachedIndexBuffer := _cachedIndexBuffer e;
     _cachedEffectForVertexBuffers := _cachedEffectForVertexBuffers e; _currentEffect :=
     _currentEffect e; _viewportCached := _viewportCached e; _colorWrite := _colorWrite e;
     _colorWriteChanged := _colorWriteChanged e; _unpackFlipYCached := _unpackFlipYCached e;
     _currentRenderTarget := _currentRenderTarget e; _boundTexturesCache := _boundTexturesCache
     e; _activeChannel := _activeChannel e; _currentTextureChannel := _currentTextureChannel e;
     _boundUniforms := _boundUniforms e; _compiledEffects := _compiledEffects e; buffers :=
     buffers e; textures := textures e; uniforms := uniforms e; effects := effects e; nextObject
     := nextObject e; logger := logger e; events := events e; ext := ext e |}.
Definition set_useReverseDepthBuffer (v : bool) (e : Engine) : Engine :=
  {| _gl := _gl e; _caps := _caps e; _webGLVersion := _webGLVersion e; isWebGPU := isWebGPU e;
     _contextWasLost := _contextWasLost e; _doNotHandleContextLost := _doNotHandleContextLost e;
     preventCacheWipeBetweenFrames := preventCacheWipeBetweenFrames e;
     isNDCHalfZRange := isNDCHalfZRange e; useReverseDepthBuffer := v; useExactSrgbConversions :=
     useExactSrgbConversions e; _currentProgram := _currentProgram e; _vertexAttribArraysEnabled
     := _vertexAttribArraysEnabled e; _cachedVertexArrayObject := _cachedVertexArrayObject e;
     _uintIndicesCurrentlySet := _uintIndicesCurrentlySet e; _currentBoundBuffer :=
     _currentBoundBuffer e; _currentBufferPointers := _currentBufferPointers e;
     _currentInstanceLocations := _currentInstanceLocations e; _currentInstanceBuffers :=
     _currentInstanceBuffers e; _vaoRecordInProgress := _vaoRecordInProgress e;
     _mustWipeVertexAttributes := _mustWipeVertexAttributes e; _cachedVertexBuffers :=
     _cachedVertexBuffers e; _cachedIndexBuffer := _cachedIndexBuffer e;
     _cachedEffectForVertexBuffers := _cachedEffectForVertexBuffers e; _currentEffect :=
     _currentEffect e; _viewportCached := _viewportCached e; _colorWrite := _colorWrite e;
     _colorWriteChanged := _colorWriteChanged e; _unpackFlipYCached := _unpackFlipYCached e;
     _currentRenderTarget := _currentRenderTarget e; _boundTexturesCache := _boundTexturesCache
     e; _activeChannel := _activeChannel e; _currentTextureChannel := _currentTextureChannel e;
     _boundUniforms := _boundUniforms e; _compiledEffects := _compiledEffects e; buffers :=
     buffers e; textures := textures e; uniforms := uniforms e; effects := effects e; nextObject
     := nextObject e; logger := logger e; events := events e; ext := ext e |}.
Definition set_currentProgram (v : Slot WebGLProgram) (e : Engine) : Engine :=
  {| _gl := _gl e; _caps := _caps e; _webGLVersion := _webGLVersion e; isWebGPU := isWebGPU e;
     _contextWasLost := _contextWasLost e; _doNotHandleContextLost := _doNotHandleContextLost e;
     preventCacheWipeBetweenFrames := preventCacheWipeBetweenFrames e; isNDCHalfZRange :=
     isNDCHalfZRange e; useReverseDepthBuffer := useReverseDepthBuffer e;
     useExactSrgbConversions := useExactSrgbConversions e; _currentProgram := v;
     _vertexAttribArraysEnabled := _vertexAttribArraysEnabled e; _cachedVertexArrayObject :=
     _cachedVertexArrayObject e; _uintIndicesCurrentlySet := _uintIndicesCurrentlySet e;
     _currentBoundBuffer := _currentBoundBuffer e; _currentBufferPointers :=
     _currentBufferPointers e; _currentInstanceLocations := _currentInstanceLocations e;
     _currentInstanceBuffers := _currentInstanceBuffers e; _vaoRecordInProgress :=
     _vaoRecordInProgress e; _mustWipeVertexAttributes := _mustWipeVertexAttributes e;
     _cachedVertexBuffers := _cachedVertexBuffers e; _cachedIndexBuffer := _cachedIndexBuffer e;
     _cachedEffectForVertexBuffers := _cachedEffectForVertexBuffers e; _currentEffect :=
     _currentEffect e; _viewportCached := _viewportCached e; _colorWrite := _colorWrite e;
     _colorWriteChanged := _colorWriteChanged e; _unpackFlipYCached := _unpackFlipYCached e;
     _currentRenderTarget := _currentRenderTarget e; _boundTexturesCache := _boundTexturesCache
     e; _activeChannel := _activeChannel e; _currentTextureChannel := _currentTextureChannel e;
     _boundUniforms := _boundUniforms e; _compiledEffects := _compiledEffects e; buffers :=
     buffers e; textures := textures e; uniforms := uniforms e; effects := effects e; nextObject
     := nextObject e; logger := logger e; events := events e; ext := ext e |}.
Definition set_vertexAttribArraysEnabled (v : list bool) (e : Engine) : Engine :=
  {| _gl := _gl e; _caps := _caps e; _webGLVersion := _webGLVersion e; isWebGPU := isWebGPU e;
     _contextWasLost := _contextWasLost e; _doNotHandleContextLost := _doNotHandleContextLost e;
     preventCacheWipeBetweenFrames := preventCacheWipeBetweenFrames e; isNDCHalfZRange :=
     isNDCHalfZRange e; useReverseDepthBuffer := useReverseDepthBuffer e;
     useExactSrgbConversions := useExactSrgbConversions e; _currentProgram := _currentProgram e;
     _vertexAttribArraysEnabled := v; _cachedVertexArrayObject := _cachedVertexArrayObject e;
     _uintIndicesCurrentlySet := _uintIndicesCurrentlySet e; _currentBoundBuffer :=
     _currentBoundBuffer e; _currentBufferPointers := _currentBufferPointers e;
     _currentInstanceLocations := _currentInstanceLocations e; _currentInstanceBuffers :=
     _currentInstanceBuffers e; _vaoRecordInProgress := _vaoRecordInProgress e;
     _mustWipeVertexAttributes := _mustWipeVertexAttributes e; _cachedVertexBuffers :=
     _cachedVertexBuffers e; _cachedIndexBuffer := _cachedIndexBuffer e;
     _cachedEffectForVertexBuffers := _cachedEffectForVertexBuffers e; _currentEffect :=
     _currentEffect e; _viewportCached := _viewportCached e; _colorWrite := _colorWrite e;
     _colorWriteChanged := _colorWriteChanged e; _unpackFlipYCached := _unpackFlipYCached e;
     _currentRenderTarget := _currentRenderTarget e; _boundTexturesCache := _boundTexturesCache
     e; _activeChannel := _activeChannel e; _currentTextureChannel := _currentTextureChannel e;
     _boundUniforms := _boundUniforms e; _compiledEffects := _compiledEffects e; buffers :=
     buffers e; textures := textures e; uniforms := uniforms e; effects := effects e; nextObject
     := nextObject e; logger := logger e; events := events e; ext := ext e |}.
Definition set_cachedVertexArrayObject (v : Slot WebGLVertexArrayObject) (e : Engine) : Engine :=
  {| _gl := _gl e; _caps := _caps e; _webGLVersion := _webGLVersion e; isWebGPU := isWebGPU e;
     _contextWasLost := _contextWasLost e; _doNotHandleContextLost := _doNotHandleContextLost e;
     preventCacheWipeBetweenFrames := preventCacheWipeBetweenFrames e; isNDCHalfZRange :=
     isNDCHalfZRange e; useReverseDepthBuffer := useReverseDepthBuffer e;
     useExactSrgbConversions := useExactSrgbConversions e; _currentProgram := _currentProgram e;
     _vertexAttribArraysEnabled := _vertexAttribArraysEnabled e; _cachedVertexArrayObject := v;
     _uintIndicesCurrentlySet := _uintIndicesCurrentlySet e; _currentBoundBuffer :=
     _currentBoundBuffer e; _currentBufferPointers := _currentBufferPointers e;
     _currentInstanceLocations := _currentInstanceLocations e; _currentInstanceBuffers :=
     _currentInstanceBuffers e; _vaoRecordInProgress := _vaoRecordInProgress e;
     _mustWipeVertexAttributes := _mustWipeVertexAttributes e; _cachedVertexBuffers :=
     _cachedVertexBuffers e; _cachedIndexBuffer := _cachedIndexBuffer e;
     _cachedEffectForVertexBuffers := _cachedEffectForVertexBuffers e; _currentEffect :=
     _currentEffect e; _viewportCached := _viewportCached e; _colorWrite := _colorWrite e;
     _colorWriteChanged := _colorWriteChanged e; _unpackFlipYCached := _unpackFlipYCached e;
     _currentRenderTarget := _currentRenderTarget e; _boundTexturesCache := _boundTexturesCache
     e; _activeChannel := _activeChannel e; _currentTextureChannel := _currentTextureChannel e;
     _boundUniforms := _boundUniforms e; _compiledEffects := _compiledEffects e; buffers :=
     buffers e; textures := textures e; uniforms := uniforms e; effects := effects e; nextObject
     := nextObject e; logger := logger e; events := events e; ext := ext e |}.
Definition set_uintIndicesCurrentlySet (v : bool) (e : Engine) : Engine :=
  {| _gl := _gl e; _caps := _caps e; _webGLVersion := _webGLVersion e; isWebGPU := isWebGPU e;
     _contextWasLost := _contextWasLost e; _doNotHandleContextLost := _doNotHandleContextLost e;
     preventCacheWipeBetweenFrames := preventCacheWipeBetweenFrames e; isNDCHalfZRange :=
     isNDCHalfZRange e; useReverseDepthBuffer := useReverseDepthBuffer e;
     useExactSrgbConversions := useExactSrgbConversions e; _currentProgram := _currentProgram e;
     _vertexAttribArraysEnabled := _vertexAttribArraysEnabled e; _cachedVertexArrayObject :=
     _cachedVertexArrayObject e; _uintIndicesCurrentlySet := v; _currentBoundBuffer :=
     _currentBoundBuffer e; _currentBufferPointers := _currentBufferPointers e;
     _currentInstanceLocations := _currentInstanceLocations e; _currentInstanceBuffers :=
     _currentInstanceBuffers e; _vaoRecordInProgress := _vaoRecordInProgress e;
     _mustWipeVertexAttributes := _mustWipeVertexAttributes e; _cachedVertexBuffers :=
     _cachedVertexBuffers e; _cachedIndexBuffer := _cachedIndexBuffer e;
     _cachedEffectForVertexBuffers := _cachedEffectForVertexBuffers e; _currentEffect :=
     _currentEffect e; _viewportCached := _viewportCached e; _colorWrite := _colorWrite e;
     _colorWriteChanged := _colorWriteChanged e; _unpackFlipYCached := _unpackFlipYCached e;
     _currentRenderTarget := _currentRenderTarget e; _boundTexturesCache := _boundTexturesCache
     e; _activeChannel := _activeChannel e; _currentTextureChannel := _currentTextureChannel e;
     _boundUniforms := _boundUniforms e; _compiledEffects := _compiledEffects e; buffers :=
     buffers e; textures := textures e; uniforms := uniforms e; effects := effects e; nextObject
     := nextObject e; logger := logger e; events := events e; ext := ext e |}.
Definition set_currentBoundBuffer (v : gmap Z (Nullable Ref)) (e : Engine) : Engine :=
  {| _gl := _gl e; _caps := _caps e; _webGLVersion := _webGLVersion e; isWebGPU := isWebGPU e;
     _contextWasLost := _contextWasLost e; _doNotHandleContextLost := _doNotHandleContextLost e;
     preventCacheWipeBetweenFrames := preventCacheWipeBetweenFrames e; isNDCHalfZRange :=
     isNDCHalfZRange e; useReverseDepthBuffer := useReverseDepthBuffer e;
     useExactSrgbConversions := useExactSrgbConversions e; _currentProgram := _currentProgram e;
     _vertexAttribArraysEnabled := _vertexAttribArraysEnabled e; _cachedVertexArrayObject :=
     _cachedVertexArrayObject e; _uintIndicesCurrentlySet := _uintIndicesCurrentlySet e;
     _currentBoundBuffer := v; _currentBufferPointers := _currentBufferPointers e;
     _currentInstanceLocations := _currentInstanceLocations e; _currentInstanceBuffers :=
     _currentInstanceBuffers e; _vaoRecordInProgress := _vaoRecordInProgress e;
     _mustWipeVertexAttributes := _mustWipeVertexAttributes e; _cachedVertexBuffers :=
     _cachedVertexBuffers e; _cachedIndexBuffer := _cachedIndexBuffer e;
     _cachedEffectForVertexBuffers := _cachedEffectForVertexBuffers e; _currentEffect :=
     _currentEffect e; _viewportCached := _viewportCached e; _colorWrite := _colorWrite e;
     _colorWriteChanged := _colorWriteChanged e; _unpackFlipYCached := _unpackFlipYCached e;
     _currentRenderTarget := _currentRenderTarget e; _boundTexturesCache := _boundTexturesCache
     e; _activeChannel := _activeChannel e; _currentTextureChannel := _currentTextureChannel e;
     _boundUniforms := _boundUniforms e; _compiledEffects := _compiledEffects e; buffers :=
     buffers e; textures := textures e; uniforms := uniforms e; effects := effects e; nextObject
     := nextObject e; logger := logger e; events := events e; ext := ext e |}.
Definition set_currentBufferPointers (v : list BufferPointer) (e : Engine) : Engine :=
  {| _gl := _gl e; _caps := _caps e; _webGLVersion := _webGLVersion e; isWebGPU := isWebGPU e;
     _contextWasLost := _contextWasLost e; _doNotHandleContextLost := _doNotHandleContextLost e;
     preventCacheWipeBetweenFrames := preventCacheWipeBetweenFrames e; isNDCHalfZRange :=
     isNDCHalfZRange e; useReverseDepthBuffer := useReverseDepthBuffer e;
     useExactSrgbConversions := useExactSrgbConversions e; _currentProgram := _currentProgram e;
     _vertexAttribArraysEnabled := _vertexAttribArraysEnabled e; _cachedVertexArrayObject :=
     _cachedVertexArrayObject e; _uintIndicesCurrentlySet := _uintIndicesCurrentlySet e;
     _currentBoundBuffer := _currentBoundBuffer e; _currentBufferPointers := v;
     _currentInstanceLocations := _currentInstanceLocations e; _currentInstanceBuffers :=
     _currentInstanceBuffers e; _vaoRecordInProgress := _vaoRecordInProgress e;
     _mustWipeVertexAttributes := _mustWipeVertexAttributes e; _cachedVertexBuffers :=
     _cachedVertexBuffers e; _cachedIndexBuffer := _cachedIndexBuffer e;
     _cachedEffectForVertexBuffers := _cachedEffectForVertexBuffers e; _currentEffect :=
     _currentEffect e; _viewportCached := _viewportCached e; _colorWrite := _colorWrite e;
     _colorWriteChanged := _colorWriteChanged e; _unpackFlipYCached := _unpackFlipYCached e;
     _currentRenderTarget := _currentRenderTarget e; _boundTexturesCache := _boundTexturesCache
     e; _activeChannel := _activeChannel e; _currentTextureChannel := _currentTextureChannel e;
     _boundUniforms := _boundUniforms e; _compiledEffects := _compiledEffects e; buffers :=
     buffers e; textures := textures e; uniforms := uniforms e; effects := effects e; nextObject
     := nextObject e; logger := logger e; events := events e; ext := ext e |}.
Definition set_currentInstanceLocations (v : list Z) (e : Engine) : Engine :=
  {| _gl := _gl e; _caps := _caps e; _webGLVersion := _webGLVersion e; isWebGPU := isWebGPU e;
     _contextWasLost := _contextWasLost e; _doNotHandleContextLost := _doNotHandleContextLost e;
     preventCacheWipeBetweenFrames := preventCacheWipeBetweenFrames e; isNDCHalfZRange :=
     isNDCHalfZRange e; useReverseDepthBuffer := useReverseDepthBuffer e;
     useExactSrgbConversions := useExactSrgbConversions e; _currentProgram := _currentProgram e;
     _vertexAttribArraysEnabled := _vertexAttribArraysEnabled e; _cachedVertexArrayObject :=
     _cachedVertexArrayObject e; _uintIndicesCurrentlySet := _uintIndicesCurrentlySet e;
     _currentBoundBuffer := _currentBoundBuffer e; _currentBufferPointers :=
     _currentBufferPointers e; _currentInstanceLocations := v; _currentInstanceBuffers :=
     _currentInstanceBuffers e; _vaoRecordInProgress := _vaoRecordInProgress e;
     _mustWipeVertexAttributes := _mustWipeVertexAttributes e; _cachedVertexBuffers :=
     _cachedVertexBuffers e; _cachedIndexBuffer := _cachedIndexBuffer e;
     _cachedEffectForVertexBuffers := _cachedEffectForVertexBuffers e; _currentEffect :=
     _currentEffect e; _viewportCached := _viewportCached e; _colorWrite := _colorWrite e;
     _colorWriteChanged := _colorWriteChanged e; _unpackFlipYCached := _unpackFlipYCached e;
     _currentRenderTarget := _currentRenderTarget e; _boundTexturesCache := _boundTexturesCache
     e; _activeChannel := _activeChannel e; _currentTextureChannel := _currentTextureChannel e;
     _boundUniforms := _boundUniforms e; _compiledEffects := _compiledEffects e; buffers :=
     buffers e; textures := textures e; uniforms := uniforms e; effects := effects e; nextObject
     := nextObject e; logger := logger e; events := events e; ext := ext e |}.
Definition set_currentInstanceBuffers (v : list Ref) (e : Engine) : Engine :=
  {| _gl := _gl e; _caps := _caps e; _webGLVersion := _webGLVersion e; isWebGPU := isWebGPU e;
     _contextWasLost := _contextWasLost e; _doNotHandleContextLost := _doNotHandleContextLost e;
     preventCacheWipeBetweenFrames := preventCacheWipeBetweenFrames e; isNDCHalfZRange :=
     isNDCHalfZRange e; useReverseDepthBuffer := useReverseDepthBuffer e;
     useExactSrgbConversions := useExactSrgbConversions e; _currentProgram := _currentProgram e;
     _vertexAttribArraysEnabled := _vertexAttribArraysEnabled e; _cachedVertexArrayObject :=
     _cachedVertexArrayObject e; _uintIndicesCurrentlySet := _uintIndicesCurrentlySet e;
     _currentBoundBuffer := _currentBoundBuffer e; _currentBufferPointers :=
     _currentBufferPointers e; _currentInstanceLocations := _currentInstanceLocations e;
     _currentInstanceBuffers := v; _vaoRecordInProgress := _vaoRecordInProgress e;
     _mustWipeVertexAttributes := _mustWipeVertexAttributes e; _cachedVertexBuffers :=
     _cachedVertexBuffers e; _cachedIndexBuffer := _cachedIndexBuffer e;
     _cachedEffectForVertexBuffers := _cachedEffectForVertexBuffers e; _currentEffect :=
     _currentEffect e; _viewportCached := _viewportCached e; _colorWrite := _colorWrite e;
     _colorWriteChanged := _colorWriteChanged e; _unpackFlipYCached := _unpackFlipYCached e;
     _currentRenderTarget := _currentRenderTarget e; _boundTexturesCache := _boundTexturesCache
     e; _activeChannel := _activeChannel e; _currentTextureChannel := _currentTextureChannel e;
     _boundUniforms := _boundUniforms e; _compiledEffects := _compiledEffects e; buffers :=
     buffers e; textures := textures e; uniforms := uniforms e; effects := effects e; nextObject
     := nextObject e; logger := logger e; events := events e; ext := ext e |}.
Definition set_vaoRecordInProgress (v : bool) (e : Engine) : Engine :=
  {| _gl := _gl e; _caps := _caps e; _webGLVersion := _webGLVersion e; isWebGPU := isWebGPU e;
     _contextWasLost := _contextWasLost e; _doNotHandleContextLost := _doNotHandleContextLost e;
     preventCacheWipeBetweenFrames := preventCacheWipeBetweenFrames e; isNDCHalfZRange :=
     isNDCHalfZRange e; useReverseDepthBuffer := useReverseDepthBuffer e;
     useExactSrgbConversions := useExactSrgbConversions e; _currentProgram := _currentProgram e;
     _vertexAttribArraysEnabled := _vertexAttribArraysEnabled e; _cachedVertexArrayObject :=
     _cachedVertexArrayObject e; _uintIndicesCurrentlySet := _uintIndicesCurrentlySet e;
     _currentBoundBuffer := _currentBoundBuffer e; _currentBufferPointers :=
     _currentBufferPointers e; _currentInstanceLocations := _currentInstanceLocations e;
     _currentInstanceBuffers := _currentInstanceBuffers e; _vaoRecordInProgress := v;
     _mustWipeVertexAttributes := _mustWipeVertexAttributes e; _cachedVertexBuffers :=
     _cachedVertexBuffers e; _cachedIndexBuffer := _cachedIndexBuffer e;
     _cachedEffectForVertexBuffers := _cachedEffectForVertexBuffers e; _currentEffect :=
     _currentEffect e; _viewportCached := _viewportCached e; _colorWrite := _colorWrite e;
     _colorWriteChanged := _colorWriteChanged e; _unpackFlipYCached := _unpackFlipYCached e;
     _currentRenderTarget := _currentRenderTarget e; _boundTexturesCache := _boundTexturesCache
     e; _activeChannel := _activeChannel e; _currentTextureChannel := _currentTextureChannel e;
     _boundUniforms := _boundUniforms e; _compiledEffects := _compiledEffects e; buffers :=
     buffers e; textures := textures e; uniforms := uniforms e; effects := effects e; nextObject
     := nextObject e; logger := logger e; events := events e; ext := ext e |}.
Definition set_mustWipeVertexAttributes (v : bool) (e : Engine) : Engine :=
  {| _gl := _gl e; _caps := _caps e; _webGLVersion := _webGLVersion e; isWebGPU := isWebGPU e;
     _contextWasLost := _contextWasLost e; _doNotHandleContextLost := _doNotHandleContextLost e;
     preventCacheWipeBetweenFrames := preventCacheWipeBetweenFrames e; isNDCHalfZRange :=
     isNDCHalfZRange e; useReverseDepthBuffer := useReverseDepthBuffer e;
     useExactSrgbConversions := useExactSrgbConversions e; _currentProgram := _currentProgram e;
     _vertexAttribArraysEnabled := _vertexAttribArraysEnabled e; _cachedVertexArrayObject :=
     _cachedVertexArrayObject e; _uintIndicesCurrentlySet := _uintIndicesCurrentlySet e;
     _currentBoundBuffer := _currentBoundBuffer e; _currentBufferPointers :=
     _currentBufferPointers e; _currentInstanceLocations := _currentInstanceLocations e;
     _currentInstanceBuffers := _currentInstanceBuffers e; _vaoRecordInProgress :=
     _vaoRecordInProgress e; _mustWipeVertexAttributes := v; _cachedVertexBuffers :=
     _cachedVertexBuffers e; _cachedIndexBuffer := _cachedIndexBuffer e;
     _cachedEffectForVertexBuffers := _cachedEffectForVertexBuffers e; _currentEffect :=
     _currentEffect e; _viewportCached := _viewportCached e; _colorWrite := _colorWrite e;
     _colorWriteChanged := _colorWriteChanged e; _unpackFlipYCached := _unpackFlipYCached e;
     _currentRenderTarget := _currentRenderTarget e; _boundTexturesCache := _boundTexturesCache
     e; _activeChannel := _activeChannel e; _currentTextureChannel := _currentTextureChannel e;
     _boundUniforms := _boundUniforms e; _compiledEffects := _compiledEffects e; buffers :=
     buffers e; textures := textures e; uniforms := uniforms e; effects := effects e; nextObject
     := nextObject e; logger := logger e; events := events e; ext := ext e |}.
Definition set_cachedVertexBuffers (v : Slot Ref) (e : Engine) : Engine :=
  {| _gl := _gl e; _caps := _caps e; _webGLVersion := _webGLVersion e; isWebGPU := isWebGPU e;
     _contextWasLost := _contextWasLost e; _doNotHandleContextLost := _doNotHandleContextLost e;
     preventCacheWipeBetweenFrames := preventCacheWipeBetweenFrames e; isNDCHalfZRange :=
     isNDCHalfZRange e; useReverseDepthBuffer := useReverseDepthBuffer e;
     useExactSrgbConversions := useExactSrgbConversions e; _currentProgram := _currentProgram e;
     _vertexAttribArraysEnabled := _vertexAttribArraysEnabled e; _cachedVertexArrayObject :=
     _cachedVertexArrayObject e; _uintIndicesCurrentlySet := _uintIndicesCurrentlySet e;
     _currentBoundBuffer := _currentBoundBuffer e; _currentBufferPointers :=
     _currentBufferPointers e; _currentInstanceLocations := _currentInstanceLocations e;
     _currentInstanceBuffers := _currentInstanceBuffers e; _vaoRecordInProgress :=
     _vaoRecordInProgress e; _mustWipeVertexAttributes := _mustWipeVertexAttributes e;
     _cachedVertexBuffers := v; _cachedIndexBuffer := _cachedIndexBuffer e;
     _cachedEffectForVertexBuffers := _cachedEffectForVertexBuffers e; _currentEffect :=
     _currentEffect e; _viewportCached := _viewportCached e; _colorWrite := _colorWrite e;
     _colorWriteChanged := _colorWriteChanged e; _unpackFlipYCached := _unpackFlipYCached e;
     _currentRenderTarget := _currentRenderTarget e; _boundTexturesCache := _boundTexturesCache
     e; _activeChannel := _activeChannel e; _currentTextureChannel := _currentTextureChannel e;
     _boundUniforms := _boundUniforms e; _compiledEffects := _compiledEffects e; buffers :=
     buffers e; textures := textures e; uniforms := uniforms e; effects := effects e; nextObject
     := nextObject e; logger := logger e; events := events e; ext := ext e |}.
Definition set_cachedIndexBuffer (v : Slot Ref) (e : Engine) : Engine :=
  {| _gl := _gl e; _caps := _caps e; _webGLVersion := _webGLVersion e; isWebGPU := isWebGPU e;
     _contextWasLost := _contextWasLost e; _doNotHandleContextLost := _doNotHandleContextLost e;
     preventCacheWipeBetweenFrames := preventCacheWipeBetweenFrames e; isNDCHalfZRange :=
     isNDCHalfZRange e; useReverseDepthBuffer := useReverseDepthBuffer e;
     useExactSrgbConversions := useExactSrgbConversions e; _currentProgram := _currentProgram e;
     _vertexAttribArraysEnabled := _vertexAttribArraysEnabled e; _cachedVertexArrayObject :=
     _cachedVertexArrayObject e; _uintIndicesCurrentlySet := _uintIndicesCurrentlySet e;
     _currentBoundBuffer := _currentBoundBuffer e; _currentBufferPointers :=
     _currentBufferPointers e; _currentInstanceLocations := _currentInstanceLocations e;
     _currentInstanceBuffers := _currentInstanceBuffers e; _vaoRecordInProgress :=
     _vaoRecordInProgress e; _mustWipeVertexAttributes := _mustWipeVertexAttributes e;
     _cachedVertexBuffers := _cachedVertexBuffers e; _cachedIndexBuffer := v;
     _cachedEffectForVertexBuffers := _cachedEffectForVertexBuffers e; _currentEffect :=
     _currentEffect e; _viewportCached := _viewportCached e; _colorWrite := _colorWrite e;
     _colorWriteChanged := _colorWriteChanged e; _unpackFlipYCached := _unpackFlipYCached e;
     _currentRenderTarget := _currentRenderTarget e; _boundTexturesCache := _boundTexturesCache
     e; _activeChannel := _activeChannel e; _currentTextureChannel := _currentTextureChannel e;
     _boundUniforms := _boundUniforms e; _compiledEffects := _compiledEffects e; buffers :=
     buffers e; textures := textures e; uniforms := uniforms e; effects := effects e; nextObject
     := nextObject e; logger := logger e; events := events e; ext := ext e |}.
Definition set_cachedEffectForVertexBuffers (v : Slot Ref) (e : Engine) : Engine :=
  {| _gl := _gl e; _caps := _caps e; _webGLVersion := _webGLVersion e; isWebGPU := isWebGPU e;
     _contextWasLost := _contextWasLost e; _doNotHandleContextLost := _doNotHandleContextLost e;
     preventCacheWipeBetweenFrames := preventCacheWipeBetweenFrames e; isNDCHalfZRange :=
     isNDCHalfZRange e; useReverseDepthBuffer := useReverseDepthBuffer e;
     useExactSrgbConversions := useExactSrgbConversions e; _currentProgram := _currentProgram e;
     _vertexAttribArraysEnabled := _vertexAttribArraysEnabled e; _cachedVertexArrayObject :=
     _cachedVertexArrayObject e; _uintIndicesCurrentlySet := _uintIndicesCurrentlySet e;
     _currentBoundBuffer := _currentBoundBuffer e; _currentBufferPointers :=
     _currentBufferPointers e; _currentInstanceLocations := _currentInstanceLocations e;
     _currentInstanceBuffers := _currentInstanceBuffers e; _vaoRecordInProgress :=
     _vaoRecordInProgress e; _mustWipeVertexAttributes := _mustWipeVertexAttributes e;
     _cachedVertexBuffers := _cachedVertexBuffers e; _cachedIndexBuffer := _cachedIndexBuffer e;
     _cachedEffectForVertexBuffers := v; _currentEffect := _currentEffect e; _viewportCached :=
     _viewportCached e; _colorWrite := _colorWrite e; _colorWriteChanged := _colorWriteChanged
     e; _unpackFlipYCached := _unpackFlipYCached e; _currentRenderTarget := _currentRenderTarget
     e; _boundTexturesCache := _boundTexturesCache e; _activeChannel := _activeChannel e;
     _currentTextureChannel := _currentTextureChannel e; _boundUniforms := _boundUniforms e;
     _compiledEffects := _compiledEffects e; buffers := buffers e; textures := textures e;
     uniforms := uniforms e; effects := effects e; nextObject := nextObject e; logger := logger
     e; events := events e; ext := ext e |}.
Definition set_currentEffect (v : Slot Ref) (e : Engine) : Engine :=
  {| _gl := _gl e; _caps := _caps e; _webGLVersion := _webGLVersion e; isWebGPU := isWebGPU e;
     _contextWasLost := _contextWasLost e; _doNotHandleContextLost := _doNotHandleContextLost e;
     preventCacheWipeBetweenFrames := preventCacheWipeBetweenFrames e; isNDCHalfZRange :=
     isNDCHalfZRange e; useReverseDepthBuffer := useReverseDepthBuffer e;
     useExactSrgbConversions := useExactSrgbConversions e; _currentProgram := _currentProgram e;
     _vertexAttribArraysEnabled := _vertexAttribArraysEnabled e; _cachedVertexArrayObject :=
     _cachedVertexArrayObject e; _uintIndicesCurrentlySet := _uintIndicesCurrentlySet e;
     _currentBoundBuffer := _currentBoundBuffer e; _currentBufferPointers :=
     _currentBufferPointers e; _currentInstanceLocations := _currentInstanceLocations e;
     _currentInstanceBuffers := _currentInstanceBuffers e; _vaoRecordInProgress :=
     _vaoRecordInProgress e; _mustWipeVertexAttributes := _mustWipeVertexAttributes e;
     _cachedVertexBuffers := _cachedVertexBuffers e; _cachedIndexBuffer := _cachedIndexBuffer e;
     _cachedEffectForVertexBuffers := _cachedEffectForVertexBuffers e; _currentEffect := v;
     _viewportCached := _viewportCached e; _colorWrite := _colorWrite e; _colorWriteChanged :=
     _colorWriteChanged e; _unpackFlipYCached := _unpackFlipYCached e; _currentRenderTarget :=
     _currentRenderTarget e; _boundTexturesCache := _boundTexturesCache e; _activeChannel :=
     _activeChannel e; _currentTextureChannel := _currentTextureChannel e; _boundUniforms :=
     _boundUniforms e; _compiledEffects := _compiledEffects e; buffers := buffers e; textures :=
     textures e; uniforms := uniforms e; effects := effects e; nextObject := nextObject e;
     logger := logger e; events := events e; ext := ext e |}.
Definition set_viewportCached (v : Viewport) (e : Engine) : Engine :=
  {| _gl := _gl e; _caps := _caps e; _webGLVersion := _webGLVersion e; isWebGPU := isWebGPU e;
     _contextWasLost := _contextWasLost e; _doNotHandleContextLost := _doNotHandleContextLost e;
     preventCacheWipeBetweenFrames := preventCacheWipeBetweenFrames e; isNDCHalfZRange :=
     isNDCHalfZRange e; useReverseDepthBuffer := useReverseDepthBuffer e;
     useExactSrgbConversions := useExactSrgbConversions e; _currentProgram := _currentProgram e;
     _vertexAttribArraysEnabled := _vertexAttribArraysEnabled e; _cachedVertexArrayObject :=
     _cachedVertexArrayObject e; _uintIndicesCurrentlySet := _uintIndicesCurrentlySet e;
     _currentBoundBuffer := _currentBoundBuffer e; _currentBufferPointers :=
     _currentBufferPointers e; _currentInstanceLocations := _currentInstanceLocations e;
     _currentInstanceBuffers := _currentInstanceBuffers e; _vaoRecordInProgress :=
     _vaoRecordInProgress e; _mustWipeVertexAttributes := _mustWipeVertexAttributes e;
     _cachedVertexBuffers := _cachedVertexBuffers e; _cachedIndexBuffer := _cachedIndexBuffer e;
     _cachedEffectForVertexBuffers := _cachedEffectForVertexBuffers e; _currentEffect :=
     _currentEffect e; _viewportCached := v; _colorWrite := _colorWrite e; _colorWriteChanged :=
     _colorWriteChanged e; _unpackFlipYCached := _unpackFlipYCached e; _currentRenderTarget :=
     _currentRenderTarget e; _boundTexturesCache := _boundTexturesCache e; _activeChannel :=
     _activeChannel e; _currentTextureChannel := _currentTextureChannel e; _boundUniforms :=
     _boundUniforms e; _compiledEffects := _compiledEffects e; buffers := buffers e; textures :=
     textures e; uniforms := uniforms e; effects := effects e; nextObject := nextObject e;
     logger := logger e; events := events e; ext := ext e |}.
Definition set_colorWrite (v : bool) (e : Engine) : Engine :=
  {| _gl := _gl e; _caps := _caps e; _webGLVersion := _webGLVersion e; isWebGPU := isWebGPU e;
     _contextWasLost := _contextWasLost e; _doNotHandleContextLost := _doNotHandleContextLost e;
     preventCacheWipeBetweenFrames := preventCacheWipeBetweenFrames e; isNDCHalfZRange :=
     isNDCHalfZRange e; useReverseDepthBuffer := useReverseDepthBuffer e;
     useExactSrgbConversions := useExactSrgbConversions e; _currentProgram := _currentProgram e;
     _vertexAttribArraysEnabled := _vertexAttribArraysEnabled e; _cachedVertexArrayObject :=
     _cachedVertexArrayObject e; _uintIndicesCurrentlySet := _uintIndicesCurrentlySet e;
     _currentBoundBuffer := _currentBoundBuffer e; _currentBufferPointers :=
     _currentBufferPointers e; _currentInstanceLocations := _currentInstanceLocations e;
     _currentInstanceBuffers := _currentInstanceBuffers e; _vaoRecordInProgress :=
     _vaoRecordInProgress e; _mustWipeVertexAttributes := _mustWipeVertexAttributes e;
     _cachedVertexBuffers := _cachedVertexBuffers e; _cachedIndexBuffer := _cachedIndexBuffer e;
     _cachedEffectForVertexBuffers := _cachedEffectForVertexBuffers e; _currentEffect :=
     _currentEffect e; _viewportCached := _viewportCached e; _colorWrite := v;
     _colorWriteChanged := _colorWriteChanged e; _unpackFlipYCached := _unpackFlipYCached e;
     _currentRenderTarget := _currentRenderTarget e; _boundTexturesCache := _boundTexturesCache
     e; _activeChannel := _activeChannel e; _currentTextureChannel := _currentTextureChannel e;
     _boundUniforms := _boundUniforms e; _compiledEffects := _compiledEffects e; buffers :=
     buffers e; textures := textures e; uniforms := uniforms e; effects := effects e; nextObject
     := nextObject e; logger := logger e; events := events e; ext := ext e |}.
Definition set_colorWriteChanged (v : bool) (e : Engine) : Engine :=
  {| _gl := _gl e; _caps := _caps e; _webGLVersion := _webGLVersion e; isWebGPU := isWebGPU e;
     _contextWasLost := _contextWasLost e; _doNotHandleContextLost := _doNotHandleContextLost e;
     preventCacheWipeBetweenFrames := preventCacheWipeBetweenFrames e; isNDCHalfZRange :=
     isNDCHalfZRange e; useReverseDepthBuffer := useReverseDepthBuffer e;
     useExactSrgbConversions := useExactSrgbConversions e; _currentProgram := _currentProgram e;
     _vertexAttribArraysEnabled := _vertexAttribArraysEnabled e; _cachedVertexArrayObject :=
     _cachedVertexArrayObject e; _uintIndicesCurrentlySet := _uintIndicesCurrentlySet e;
     _currentBoundBuffer := _currentBoundBuffer e; _currentBufferPointers :=
     _currentBufferPointers e; _currentInstanceLocations := _currentInstanceLocations e;
     _currentInstanceBuffers := _currentInstanceBuffers e; _vaoRecordInProgress :=
     _vaoRecordInProgress e; _mustWipeVertexAttributes := _mustWipeVertexAttributes e;
     _cachedVertexBuffers := _cachedVertexBuffers e; _cachedIndexBuffer := _cachedIndexBuffer e;
     _cachedEffectForVertexBuffers := _cachedEffectForVertexBuffers e; _currentEffect :=
     _currentEffect e; _viewportCached := _viewportCached e; _colorWrite := _colorWrite e;
     _colorWriteChanged := v; _unpackFlipYCached := _unpackFlipYCached e; _currentRenderTarget
     := _currentRenderTarget e; _boundTexturesCache := _boundTexturesCache e; _activeChannel :=
     _activeChannel e; _currentTextureChannel := _currentTextureChannel e; _boundUniforms :=
     _boundUniforms e; _compiledEffects := _compiledEffects e; buffers := buffers e; textures :=
     textures e; uniforms := uniforms e; effects := effects e; nextObject := nextObject e;
     logger := logger e; events := events e; ext := ext e |}.
Definition set_unpackFlipYCached (v : Nullable bool) (e : Engine) : Engine :=
  {| _gl := _gl e; _caps := _caps e; _webGLVersion := _webGLVersion e; isWebGPU := isWebGPU e;
     _contextWasLost := _contextWasLost e; _doNotHandleContextLost := _doNotHandleContextLost e;
     preventCacheWipeBetweenFrames := preventCacheWipeBetweenFrames e; isNDCHalfZRange :=
     isNDCHalfZRange e; useReverseDepthBuffer := useReverseDepthBuffer e;
     useExactSrgbConversions := useExactSrgbConversions e; _currentProgram := _currentProgram e;
     _vertexAttribArraysEnabled := _vertexAttribArraysEnabled e; _cachedVertexArrayObject :=
     _cachedVertexArrayObject e; _uintIndicesCurrentlySet := _uintIndicesCurrentlySet e;
     _currentBoundBuffer := _currentBoundBuffer e; _currentBufferPointers :=
     _currentBufferPointers e; _currentInstanceLocations := _currentInstanceLocations e;
     _currentInstanceBuffers := _currentInstanceBuffers e; _vaoRecordInProgress :=
     _vaoRecordInProgress e; _mustWipeVertexAttributes := _mustWipeVertexAttributes e;
     _cachedVertexBuffers := _cachedVertexBuffers e; _cachedIndexBuffer := _cachedIndexBuffer e;
     _cachedEffectForVertexBuffers := _cachedEffectForVertexBuffers e; _currentEffect :=
     _currentEffect e; _viewportCached := _viewportCached e; _colorWrite := _colorWrite e;
     _colorWriteChanged := _colorWriteChanged e; _unpackFlipYCached := v; _currentRenderTarget
     := _currentRenderTarget e; _boundTexturesCache := _boundTexturesCache e; _activeChannel :=
     _activeChannel e; _currentTextureChannel := _currentTextureChannel e; _boundUniforms :=
     _boundUniforms e; _compiledEffects := _compiledEffects e; buffers := buffers e; textures :=
     textures e; uniforms := uniforms e; effects := effects e; nextObject := nextObject e;
     logger := logger e; events := events e; ext := ext e |}.
Definition set_boundTexturesCache (v : gmap Z (Nullable Ref)) (e : Engine) : Engine :=
  {| _gl := _gl e; _caps := _caps e; _webGLVersion := _webGLVersion e; isWebGPU := isWebGPU e;
     _contextWasLost := _contextWasLost e; _doNotHandleContextLost := _doNotHandleContextLost e;
     preventCacheWipeBetweenFrames := preventCacheWipeBetweenFrames e; isNDCHalfZRange :=
     isNDCHalfZRange e; useReverseDepthBuffer := useReverseDepthBuffer e;
     useExactSrgbConversions := useExactSrgbConversions e; _currentProgram := _currentProgram e;
     _vertexAttribArraysEnabled := _vertexAttribArraysEnabled e; _cachedVertexArrayObject :=
     _cachedVertexArrayObject e; _uintIndicesCurrentlySet := _uintIndicesCurrentlySet e;
     _currentBoundBuffer := _currentBoundBuffer e; _currentBufferPointers :=
     _currentBufferPointers e; _currentInstanceLocations := _currentInstanceLocations e;
     _currentInstanceBuffers := _currentInstanceBuffers e; _vaoRecordInProgress :=
     _vaoRecordInProgress e; _mustWipeVertexAttributes := _mustWipeVertexAttributes e;
     _cachedVertexBuffers := _cachedVertexBuffers e; _cachedIndexBuffer := _cachedIndexBuffer e;
     _cachedEffectForVertexBuffers := _cachedEffectForVertexBuffers e; _currentEffect :=
     _currentEffect e; _viewportCached := _viewportCached e; _colorWrite := _colorWrite e;
     _colorWriteChanged := _colorWriteChanged e; _unpackFlipYCached := _unpackFlipYCached e;
     _currentRenderTarget := _currentRenderTarget e; _boundTexturesCache := v; _activeChannel :=
     _activeChannel e; _currentTextureChannel := _currentTextureChannel e; _boundUniforms :=
     _boundUniforms e; _compiledEffects := _compiledEffects e; buffers := buffers e; textures :=
     textures e; uniforms := uniforms e; effects := effects e; nextObject := nextObject e;
     logger := logger e; events := events e; ext := ext e |}.
Definition set_activeChannel (v : Z) (e : Engine) : Engine :=
  {| _gl := _gl e; _caps := _caps e; _webGLVersion := _webGLVersion e; isWebGPU := isWebGPU e;
     _contextWasLost := _contextWasLost e; _doNotHandleContextLost := _doNotHandleContextLost e;
     preventCacheWipeBetweenFrames := preventCacheWipeBetweenFrames e; isNDCHalfZRange :=
     isNDCHalfZRange e; useReverseDepthBuffer := useReverseDepthBuffer e;
     useExactSrgbConversions := useExactSrgbConversions e; _currentProgram := _currentProgram e;
     _vertexAttribArraysEnabled := _vertexAttribArraysEnabled e; _cachedVertexArrayObject :=
     _cachedVertexArrayObject e; _uintIndicesCurrentlySet := _uintIndicesCurrentlySet e;
     _currentBoundBuffer := _currentBoundBuffer e; _currentBufferPointers :=
     _currentBufferPointers e; _currentInstanceLocations := _currentInstanceLocations e;
     _currentInstanceBuffers := _currentInstanceBuffers e; _vaoRecordInProgress :=
     _vaoRecordInProgress e; _mustWipeVertexAttributes := _mustWipeVertexAttributes e;
     _cachedVertexBuffers := _cachedVertexBuffers e; _cachedIndexBuffer := _cachedIndexBuffer e;
     _cachedEffectForVertexBuffers := _cachedEffectForVertexBuffers e; _currentEffect :=
     _currentEffect e; _viewportCached := _viewportCached e; _colorWrite := _colorWrite e;
     _colorWriteChanged := _colorWriteChanged e; _unpackFlipYCached := _unpackFlipYCached e;
     _currentRenderTarget := _currentRenderTarget e; _boundTexturesCache := _boundTexturesCache
     e; _activeChannel := v; _currentTextureChannel := _currentTextureChannel e; _boundUniforms
     := _boundUniforms e; _compiledEffects := _compiledEffects e; buffers := buffers e; textures
     := textures e; uniforms := uniforms e; effects := effects e; nextObject := nextObject e;
     logger := logger e; events := events e; ext := ext e |}.
Definition set_currentTextureChannel (v : Z) (e : Engine) : Engine :=
  {| _gl := _gl e; _caps := _caps e; _webGLVersion := _webGLVersion e; isWebGPU := isWebGPU e;
     _contextWasLost := _contextWasLost e; _doNotHandleContextLost := _doNotHandleContextLost e;
     preventCacheWipeBetweenFrames := preventCacheWipeBetweenFrames e; isNDCHalfZRange :=
     isNDCHalfZRange e; useReverseDepthBuffer := useReverseDepthBuffer e;
     useExactSrgbConversions := useExactSrgbConversions e; _currentProgram := _currentProgram e;
     _vertexAttribArraysEnabled := _vertexAttribArraysEnabled e; _cachedVertexArrayObject :=
     _cachedVertexArrayObject e; _uintIndicesCurrentlySet := _uintIndicesCurrentlySet e;
     _currentBoundBuffer := _currentBoundBuffer e; _currentBufferPointers :=
     _currentBufferPointers e; _currentInstanceLocations := _currentInstanceLocations e;
     _currentInstanceBuffers := _currentInstanceBuffers e; _vaoRecordInProgress :=
     _vaoRecordInProgress e; _mustWipeVertexAttributes := _mustWipeVertexAttributes e;
     _cachedVertexBuffers := _cachedVertexBuffers e; _cachedIndexBuffer := _cachedIndexBuffer e;
     _cachedEffectForVertexBuffers := _cachedEffectForVertexBuffers e; _currentEffect :=
     _currentEffect e; _viewportCached := _viewportCached e; _colorWrite := _colorWrite e;
     _colorWriteChanged := _colorWriteChanged e; _unpackFlipYCached := _unpackFlipYCached e;
     _currentRenderTarget := _currentRenderTarget e; _boundTexturesCache := _boundTexturesCache
     e; _activeChannel := _activeChannel e; _currentTextureChannel := v; _boundUniforms :=
     _boundUniforms e; _compiledEffects := _compiledEffects e; buffers := buffers e; textures :=
     textures e; uniforms := uniforms e; effects := effects e; nextObject := nextObject e;
     logger := logger e; events := events e; ext := ext e |}.
Definition set_boundUniforms (v : gmap Z Ref) (e : Engine) : Engine :=
  {| _gl := _gl e; _caps := _caps e; _webGLVersion := _webGLVersion e; isWebGPU := isWebGPU e;
     _contextWasLost := _contextWasLost e; _doNotHandleContextLost := _doNotHandleContextLost e;
     preventCacheWipeBetweenFrames := preventCacheWipeBetweenFrames e; isNDCHalfZRange :=
     isNDCHalfZRange e; useReverseDepthBuffer := useReverseDepthBuffer e;
     useExactSrgbConversions := useExactSrgbConversions e; _currentProgram := _currentProgram e;
     _vertexAttribArraysEnabled := _vertexAttribArraysEnabled e; _cachedVertexArrayObject :=
     _cachedVertexArrayObject e; _uintIndicesCurrentlySet := _uintIndicesCurrentlySet e;
     _currentBoundBuffer := _currentBoundBuffer e; _currentBufferPointers :=
     _currentBufferPointers e; _currentInstanceLocations := _currentInstanceLocations e;
     _currentInstanceBuffers := _currentInstanceBuffers e; _vaoRecordInProgress :=
     _vaoRecordInProgress e; _mustWipeVertexAttributes := _mustWipeVertexAttributes e;
     _cachedVertexBuffers := _cachedVertexBuffers e; _cachedIndexBuffer := _cachedIndexBuffer e;
     _cachedEffectForVertexBuffers := _cachedEffectForVertexBuffers e; _currentEffect :=
     _currentEffect e; _viewportCached := _viewportCached e; _colorWrite := _colorWrite e;
     _colorWriteChanged := _colorWriteChanged e; _unpackFlipYCached := _unpackFlipYCached e;
     _currentRenderTarget := _currentRenderTarget e; _boundTexturesCache := _boundTexturesCache
     e; _activeChannel := _activeChannel e; _currentTextureChannel := _currentTextureChannel e;
     _boundUniforms := v; _compiledEffects := _compiledEffects e; buffers := buffers e; textures
     := textures e; uniforms := uniforms e; effects := effects e; nextObject := nextObject e;
     logger := logger e; events := events e; ext := ext e |}.
Definition set_compiledEffects (v : gmap string Ref) (e : Engine) : Engine :=
  {| _gl := _gl e; _caps := _caps e; _webGLVersion := _webGLVersion e; isWebGPU := isWebGPU e;
     _contextWasLost := _contextWasLost e; _doNotHandleContextLost := _doNotHandleContextLost e;
     preventCacheWipeBetweenFrames := preventCacheWipeBetweenFrames e; isNDCHalfZRange :=
     isNDCHalfZRange e; useReverseDepthBuffer := useReverseDepthBuffer e;
     useExactSrgbConversions := useExactSrgbConversions e; _currentProgram := _currentProgram e;
     _vertexAttribArraysEnabled := _vertexAttribArraysEnabled e; _cachedVertexArrayObject :=
     _cachedVertexArrayObject e; _uintIndicesCurrentlySet := _uintIndicesCurrentlySet e;
     _currentBoundBuffer := _currentBoundBuffer e; _currentBufferPointers :=
     _currentBufferPointers e; _currentInstanceLocations := _currentInstanceLocations e;
     _currentInstanceBuffers := _currentInstanceBuffers e; _vaoRecordInProgress :=
     _vaoRecordInProgress e; _mustWipeVertexAttributes := _mustWipeVertexAttributes e;
     _cachedVertexBuffers := _cachedVertexBuffers e; _cachedIndexBuffer := _cachedIndexBuffer e;
     _cachedEffectForVertexBuffers := _cachedEffectForVertexBuffers e; _currentEffect :=
     _currentEffect e; _viewportCached := _viewportCached e; _colorWrite := _colorWrite e;
     _colorWriteChanged := _colorWriteChanged e; _unpackFlipYCached := _unpackFlipYCached e;
     _currentRenderTarget := _currentRenderTarget e; _boundTexturesCache := _boundTexturesCache
     e; _activeChannel := _activeChannel e; _currentTextureChannel := _currentTextureChannel e;
     _boundUniforms := _boundUniforms e; _compiledEffects := v; buffers := buffers e; textures
     := textures e; uniforms := uniforms e; effects := effects e; nextObject := nextObject e;
     logger := logger e; events := events e; ext := ext e |}.
Definition set_buffers (v : gmap Ref DataBuffer) (e : Engine) : Engine :=
  {| _gl := _gl e; _caps := _caps e; _webGLVersion := _webGLVersion e; isWebGPU := isWebGPU e;
     _contextWasLost := _contextWasLost e; _doNotHandleContextLost := _doNotHandleContextLost e;
     preventCacheWipeBetweenFrames := preventCacheWipeBetweenFrames e; isNDCHalfZRange :=
     isNDCHalfZRange e; useReverseDepthBuffer := useReverseDepthBuffer e;
     useExactSrgbConversions := useExactSrgbConversions e; _currentProgram := _currentProgram e;
     _vertexAttribArraysEnabled := _vertexAttribArraysEnabled e; _cachedVertexArrayObject :=
     _cachedVertexArrayObject e; _uintIndicesCurrentlySet := _uintIndicesCurrentlySet e;
     _currentBoundBuffer := _currentBoundBuffer e; _currentBufferPointers :=
     _currentBufferPointers e; _currentInstanceLocations := _currentInstanceLocations e;
     _currentInstanceBuffers := _currentInstanceBuffers e; _vaoRecordInProgress :=
     _vaoRecordInProgress e; _mustWipeVertexAttributes := _mustWipeVertexAttributes e;
     _cachedVertexBuffers := _cachedVertexBuffers e; _cachedIndexBuffer := _cachedIndexBuffer e;
     _cachedEffectForVertexBuffers := _cachedEffectForVertexBuffers e; _currentEffect :=
     _currentEffect e; _viewportCached := _viewportCached e; _colorWrite := _colorWrite e;
     _colorWriteChanged := _colorWriteChanged e; _unpackFlipYCached := _unpackFlipYCached e;
     _currentRenderTarget := _currentRenderTarget e; _boundTexturesCache := _boundTexturesCache
     e; _activeChannel := _activeChannel e; _currentTextureChannel := _currentTextureChannel e;
     _boundUniforms := _boundUniforms e; _compiledEffects := _compiledEffects e; buffers := v;
     textures := textures e; uniforms := uniforms e; effects := effects e; nextObject :=
     nextObject e; logger := logger e; events := events e; ext := ext e |}.
Definition set_textures (v : gmap Ref InternalTexture) (e : Engine) : Engine :=
  {| _gl := _gl e; _caps := _caps e; _webGLVersion := _webGLVersion e; isWebGPU := isWebGPU e;
     _contextWasLost := _contextWasLost e; _doNotHandleContextLost := _doNotHandleContextLost e;
     preventCacheWipeBetweenFrames := preventCacheWipeBetweenFrames e; isNDCHalfZRange :=
     isNDCHalfZRange e; useReverseDepthBuffer := useReverseDepthBuffer e;
     useExactSrgbConversions := useExactSrgbConversions e; _currentProgram := _currentProgram e;
     _vertexAttribArraysEnabled := _vertexAttribArraysEnabled e; _cachedVertexArrayObject :=
     _cachedVertexArrayObject e; _uintIndicesCurrentlySet := _uintIndicesCurrentlySet e;
     _currentBoundBuffer := _currentBoundBuffer e; _currentBufferPointers :=
     _currentBufferPointers e; _currentInstanceLocations := _currentInstanceLocations e;
     _currentInstanceBuffers := _currentInstanceBuffers e; _vaoRecordInProgress :=
     _vaoRecordInProgress e; _mustWipeVertexAttributes := _mustWipeVertexAttributes e;
     _cachedVertexBuffers := _cachedVertexBuffers e; _cachedIndexBuffer := _cachedIndexBuffer e;
     _cachedEffectForVertexBuffers := _cachedEffectForVertexBuffers e; _currentEffect :=
     _currentEffect e; _viewportCached := _viewportCached e; _colorWrite := _colorWrite e;
     _colorWriteChanged := _colorWriteChanged e; _unpackFlipYCached := _unpackFlipYCached e;
     _currentRenderTarget := _currentRenderTarget e; _boundTexturesCache := _boundTexturesCache
     e; _activeChannel := _activeChannel e; _currentTextureChannel := _currentTextureChannel e;
     _boundUniforms := _boundUniforms e; _compiledEffects := _compiledEffects e; buffers :=
     buffers e; textures := v; uniforms := uniforms e; effects := effects e; nextObject :=
     nextObject e; logger := logger e; events := events e; ext := ext e |}.
Definition set_uniforms (v : gmap Ref (option Z)) (e : Engine) : Engine :=
  {| _gl := _gl e; _caps := _caps e; _webGLVersion := _webGLVersion e; isWebGPU := isWebGPU e;
     _contextWasLost := _contextWasLost e; _doNotHandleContextLost := _doNotHandleContextLost e;
     preventCacheWipeBetweenFrames := preventCacheWipeBetweenFrames e; isNDCHalfZRange :=
     isNDCHalfZRange e; useReverseDepthBuffer := useReverseDepthBuffer e;
     useExactSrgbConversions := useExactSrgbConversions e; _currentProgram := _currentProgram e;
     _vertexAttribArraysEnabled := _vertexAttribArraysEnabled e; _cachedVertexArrayObject :=
     _cachedVertexArrayObject e; _uintIndicesCurrentlySet := _uintIndicesCurrentlySet e;
     _currentBoundBuffer := _currentBoundBuffer e; _currentBufferPointers :=
     _currentBufferPointers e; _currentInstanceLocations := _currentInstanceLocations e;
     _currentInstanceBuffers := _currentInstanceBuffers e; _vaoRecordInProgress :=
     _vaoRecordInProgress e; _mustWipeVertexAttributes := _mustWipeVertexAttributes e;
     _cachedVertexBuffers := _cachedVertexBuffers e; _cachedIndexBuffer := _cachedIndexBuffer e;
     _cachedEffectForVertexBuffers := _cachedEffectForVertexBuffers e; _currentEffect :=
     _currentEffect e; _viewportCached := _viewportCached e; _colorWrite := _colorWrite e;
     _colorWriteChanged := _colorWriteChanged e; _unpackFlipYCached := _unpackFlipYCached e;
     _currentRenderTarget := _currentRenderTarget e; _boundTexturesCache := _boundTexturesCache
     e; _activeChannel := _activeChannel e; _currentTextureChannel := _currentTextureChannel e;
     _boundUniforms := _boundUniforms e; _compiledEffects := _compiledEffects e; buffers :=
     buffers e; textures := textures e; uniforms := v; effects := effects e; nextObject :=
     nextObject e; logger := logger e; events := events e; ext := ext e |}.
Definition set_effects (v : gmap Ref Effect) (e : Engine) : Engine :=
  {| _gl := _gl e; _caps := _caps e; _webGLVersion := _webGLVersion e; isWebGPU := isWebGPU e;
     _contextWasLost := _contextWasLost e; _doNotHandleContextLost := _doNotHandleContextLost e;
     preventCacheWipeBetweenFrames := preventCacheWipeBetweenFrames e; isNDCHalfZRange :=
     isNDCHalfZRange e; useReverseDepthBuffer := useReverseDepthBuffer e;
     useExactSrgbConversions := useExactSrgbConversions e; _currentProgram := _currentProgram e;
     _vertexAttribArraysEnabled := _vertexAttribArraysEnabled e; _cachedVertexArrayObject :=
     _cachedVertexArrayObject e; _uintIndicesCurrentlySet := _uintIndicesCurrentlySet e;
     _currentBoundBuffer := _currentBoundBuffer e; _currentBufferPointers :=
     _currentBufferPointers e; _currentInstanceLocations := _currentInstanceLocations e;
     _currentInstanceBuffers := _currentInstanceBuffers e; _vaoRecordInProgress :=
     _vaoRecordInProgress e; _mustWipeVertexAttributes := _mustWipeVertexAttributes e;
     _cachedVertexBuffers := _cachedVertexBuffers e; _cachedIndexBuffer := _cachedIndexBuffer e;
     _cachedEffectForVertexBuffers := _cachedEffectForVertexBuffers e; _currentEffect :=
     _currentEffect e; _viewportCached := _viewportCached e; _colorWrite := _colorWrite e;
     _colorWriteChanged := _colorWriteChanged e; _unpackFlipYCached := _unpackFlipYCached e;
     _currentRenderTarget := _currentRenderTarget e; _boundTexturesCache := _boundTexturesCache
     e; _activeChannel := _activeChannel e; _currentTextureChannel := _currentTextureChannel e;
     _boundUniforms := _boundUniforms e; _compiledEffects := _compiledEffects e; buffers :=
     buffers e; textures := textures e; uniforms := uniforms e; effects := v; nextObject :=
     nextObject e; logger := logger e; events := events e; ext := ext e |}.
Definition set_nextObject (v : Ref) (e : Engine) : Engine :=
  {| _gl := _gl e; _caps := _caps e; _webGLVersion := _webGLVersion e; isWebGPU := isWebGPU e;
     _contextWasLost := _contextWasLost e; _doNotHandleContextLost := _doNotHandleContextLost e;
     preventCacheWipeBetweenFrames := preventCacheWipeBetweenFrames e; isNDCHalfZRange :=
     isNDCHalfZRange e; useReverseDepthBuffer := useReverseDepthBuffer e;
     useExactSrgbConversions := useExactSrgbConversions e; _currentProgram := _currentProgram e;
     _vertexAttribArraysEnabled := _vertexAttribArraysEnabled e; _cachedVertexArrayObject :=
     _cachedVertexArrayObject e; _uintIndicesCurrentlySet := _uintIndicesCurrentlySet e;
     _currentBoundBuffer := _currentBoundBuffer e; _currentBufferPointers :=
     _currentBufferPointers e; _currentInstanceLocations := _currentInstanceLocations e;
     _currentInstanceBuffers := _currentInstanceBuffers e; _vaoRecordInProgress :=
     _vaoRecordInProgress e; _mustWipeVertexAttributes := _mustWipeVertexAttributes e;
     _cachedVertexBuffers := _cachedVertexBuffers e; _cachedIndexBuffer := _cachedIndexBuffer e;
     _cachedEffectForVertexBuffers := _cachedEffectForVertexBuffers e; _currentEffect :=
     _currentEffect e; _viewportCached := _viewportCached e; _colorWrite := _colorWrite e;
     _colorWriteChanged := _colorWriteChanged e; _unpackFlipYCached := _unpackFlipYCached e;
     _currentRenderTarget := _currentRenderTarget e; _boundTexturesCache := _boundTexturesCache
     e; _activeChannel := _activeChannel e; _currentTextureChannel := _currentTextureChannel e;
     _boundUniforms := _boundUniforms e; _compiledEffects := _compiledEffects e; buffers :=
     buffers e; textures := textures e; uniforms := uniforms e; effects := effects e; nextObject
     := v; logger := logger e; events := events e; ext := ext e |}.
Definition set_logger (v : list LogEntry) (e : Engine) : Engine :=
  {| _gl := _gl e; _caps := _caps e; _webGLVersion := _webGLVersion e; isWebGPU := isWebGPU e;
     _contextWasLost := _contextWasLost e; _doNotHandleContextLost := _doNotHandleContextLost e;
     preventCacheWipeBetweenFrames := preventCacheWipeBetweenFrames e; isNDCHalfZRange :=
     isNDCHalfZRange e; useReverseDepthBuffer := useReverseDepthBuffer e;
     useExactSrgbConversions := useExactSrgbConversions e; _currentProgram := _currentProgram e;
     _vertexAttribArraysEnabled := _vertexAttribArraysEnabled e; _cachedVertexArrayObject :=
     _cachedVertexArrayObject e; _uintIndicesCurrentlySet := _uintIndicesCurrentlySet e;
     _currentBoundBuffer := _currentBoundBuffer e; _currentBufferPointers :=
     _currentBufferPointers e; _currentInstanceLocations := _currentInstanceLocations e;
     _currentInstanceBuffers := _currentInstanceBuffers e; _vaoRecordInProgress :=
     _vaoRecordInProgress e; _mustWipeVertexAttributes := _mustWipeVertexAttributes e;
     _cachedVertexBuffers := _cachedVertexBuffers e; _cachedIndexBuffer := _cachedIndexBuffer e;
     _cachedEffectForVertexBuffers := _cachedEffectForVertexBuffers e; _currentEffect :=
     _currentEffect e; _viewportCached := _viewportCached e; _colorWrite := _colorWrite e;
     _colorWriteChanged := _colorWriteChanged e; _unpackFlipYCached := _unpackFlipYCached e;
     _currentRenderTarget := _currentRenderTarget e; _boundTexturesCache := _boundTexturesCache
     e; _activeChannel := _activeChannel e; _currentTextureChannel := _currentTextureChannel e;
     _boundUniforms := _boundUniforms e; _compiledEffects := _compiledEffects e; buffers :=
     buffers e; textures := textures e; uniforms := uniforms e; effects := effects e; nextObject
     := nextObject e; logger := v; events := events e; ext := ext e |}.
Definition set_events (v : list Event) (e : Engine) : Engine :=
  {| _gl := _gl e; _caps := _caps e; _webGLVersion := _webGLVersion e; isWebGPU := isWebGPU e;
     _contextWasLost := _contextWasLost e; _doNotHandleContextLost := _doNotHandleContextLost e;
     preventCacheWipeBetweenFrames := preventCacheWipeBetweenFrames e; isNDCHalfZRange :=
     isNDCHalfZRange e; useReverseDepthBuffer := useReverseDepthBuffer e;
     useExactSrgbConversions := useExactSrgbConversions e; _currentProgram := _currentProgram e;
     _vertexAttribArraysEnabled := _vertexAttribArraysEnabled e; _cachedVertexArrayObject :=
     _cachedVertexArrayObject e; _uintIndicesCurrentlySet := _uintIndicesCurrentlySet e;
     _currentBoundBuffer := _currentBoundBuffer e; _currentBufferPointers :=
     _currentBufferPointers e; _currentInstanceLocations := _currentInstanceLocations e;
     _currentInstanceBuffers := _currentInstanceBuffers e; _vaoRecordInProgress :=
     _vaoRecordInProgress e; _mustWipeVertexAttributes := _mustWipeVertexAttributes e;
     _cachedVertexBuffers := _cachedVertexBuffers e; _cachedIndexBuffer := _cachedIndexBuffer e;
     _cachedEffectForVertexBuffers := _cachedEffectForVertexBuffers e; _currentEffect :=
     _currentEffect e; _viewportCached := _viewportCached e; _colorWrite := _colorWrite e;
     _colorWriteChanged := _colorWriteChanged e; _unpackFlipYCached := _unpackFlipYCached e;
     _currentRenderTarget := _currentRenderTarget e; _boundTexturesCache := _boundTexturesCache
     e; _activeChannel := _activeChannel e; _currentTextureChannel := _currentTextureChannel e;
     _boundUniforms := _boundUniforms e; _compiledEffects := _compiledEffects e; buffers :=
     buffers e; textures := textures e; uniforms := uniforms e; effects := effects e; nextObject
     := nextObject e; logger := logger e; events := v; ext := ext e |}.
Definition set_ext (v : Ext) (e : Engine) : Engine :=
  {| _gl := _gl e; _caps := _caps e; _webGLVersion := _webGLVersion e; isWebGPU := isWebGPU e;
     _contextWasLost := _contextWasLost e; _doNotHandleContextLost := _doNotHandleContextLost e;
     preventCacheWipeBetweenFrames := preventCacheWipeBetweenFrames e; isNDCHalfZRange :=
     isNDCHalfZRange e; useReverseDepthBuffer := useReverseDepthBuffer e;
     useExactSrgbConversions := useExactSrgbConversions e; _currentProgram := _currentProgram e;
     _vertexAttribArraysEnabled := _vertexAttribArraysEnabled e; _cachedVertexArrayObject :=
     _cachedVertexArrayObject e; _uintIndicesCurrentlySet := _uintIndicesCurrentlySet e;
     _currentBoundBuffer := _currentBoundBuffer e; _currentBufferPointers :=
     _currentBufferPointers e; _currentInstanceLocations := _currentInstanceLocations e;
     _currentInstanceBuffers := _currentInstanceBuffers e; _vaoRecordInProgress :=
     _vaoRecordInProgress e; _mustWipeVertexAttributes := _mustWipeVertexAttributes e;
     _cachedVertexBuffers := _cachedVertexBuffers e; _cachedIndexBuffer := _cachedIndexBuffer e;
     _cachedEffectForVertexBuffers := _cachedEffectForVertexBuffers e; _currentEffect :=
     _currentEffect e; _viewportCached := _viewportCached e; _colorWrite := _colorWrite e;
     _colorWriteChanged := _colorWriteChanged e; _unpackFlipYCached := _unpackFlipYCached e;
     _currentRenderTarget := _currentRenderTarget e; _boundTexturesCache := _boundTexturesCache
     e; _activeChannel := _activeChannel e; _currentTextureChannel := _currentTextureChannel e;
     _boundUniforms := _boundUniforms e; _compiledEffects := _compiledEffects e; buffers :=
     buffers e; textures := textures e; uniforms := uniforms e; effects := effects e; nextObject
     := nextObject e; logger := logger e; events := events e; ext := v |}.

(** ** Methods that may throw

    A method either returns or throws ([Completion]); in both cases the
    writes it made before stay in the engine. *)
Definition M (A : Type) : Type := Engine -> Completion A * Engine.

Definition ret {A} (a : A) : M A := fun e => (Return a, e).
Definition throw {A} (err : JSError) : M A := fun e => (Throw err, e).
Definition bind {A B} (m : M A) (k : A -> M B) : M B :=
  fun e => match m e with
           | (Return a, e') => k a e'
           | (Throw err, e') => (Throw err, e')
           end.
(** A method that cannot throw, run for its effect. *)
Definition run (f : Engine -> Engine) : M unit := fun e => (Return tt, f e).
(** A method that cannot throw and returns a value. *)
Definition call {A} (f : Engine -> A * Engine) : M A :=
  fun e => let '(a, e') := f e in (Return a, e').
Definition get {A} (f : Engine -> A) : M A := fun e => (Return (f e), e).

Notation "'let!' x ':=' m 'in' k" := (bind m (fun x => k))
  (at level 10, x name, m at level 100, k at level 200, only parsing).
Notation "m ;;; k" := (bind m (fun _ => k))
  (at level 100, k at level 200, right associativity, only parsing).

(** [for (const x of l) body(x)] *)
Fixpoint for_each {A} (l : list A) (body : A -> M unit) : M unit :=
  match l with
  | [] => ret tt
  | x :: l' => body x ;;; for_each l' body
  end.

(** The engine after a method, whether it returned or threw. *)
Definition after {A} (m : M A) (e : Engine) : Engine := snd (m e).
Definition returns {A} (m : M A) (e : Engine) : Prop := exists a, fst (m e) = Return a.

(** ** Small helpers on the engine *)

(** [this._gl.<call>(...)] *)
Definition gl_do (c : GLCall) (e : Engine) : Engine := set_gl (gl_call c (_gl e)) e.

(** [arr[i]] on a JavaScript array: [undefined] outside [0 .. length-1]. *)
Definition js_index {A} (l : list A) (i : Z) : option A :=
  if i <? 0 then None else l !! Z.to_nat i.

(** [arr[i] = v] on an array of booleans: writing past the end extends the
    array, the holes reading as falsy; a negative index is a named
    property, which no loop over the array ever visits. *)
Definition js_array_set (l : list bool) (i : Z) (v : bool) : list bool :=
  if i <? 0 then l
  else if (Z.to_nat i <? length l)%nat then <[Z.to_nat i := v]> l
  else l ++ replicate (Z.to_nat i - length l)%nat false ++ [v].

(** [buffer ? buffer.underlyingResource : null] *)
Definition resourceOf (e : Engine) (buffer : Nullable Ref) : Nullable WebGLBuffer :=
  match buffer with
  | Some b => match buffers e !! b with
              | Some d => underlyingResource d
              | None => None
              end
  | None => None
  end.

(** ** Index data *)

Definition BYTES_PER_ELEMENT (a : IndicesArray) : option Z :=
  match a with
  | NumberArray _ => None
  | Int32Array _ | Uint32Array _ => Some 4
  | Uint16Array _ => Some 2
  end.

Definition elements (a : IndicesArray) : list Z :=
  match a with
  | NumberArray xs | Int32Array xs | Uint32Array xs | Uint16Array xs => xs
  end.

(** [new Uint16Array(indices)] and [new Uint32Array(indices)]: every element
    is reduced modulo the element range. *)
Definition new_Uint16Array (xs : list Z) : IndicesArray :=
  Uint16Array (map (fun x => x mod 65536) xs).
Definition new_Uint32Array (xs : list Z) : IndicesArray :=
  Uint32Array (map (fun x => x mod 4294967296) xs).

(** The scan of [_normalizeIndexData]: does the loop reach its [return]? *)
Fixpoint needs32Bits (xs : list Z) : bool :=
  match xs with
  | [] => false
  | x :: xs' => if 65535 <=? x then true else needs32Bits xs'
  end.

Definition _normalizeIndexData (indices : IndicesArray) (e : Engine) : IndicesArray :=
  if bool_decide (BYTES_PER_ELEMENT indices = Some 2) then indices
  else if uintIndices (_caps e) then
    match indices with
    | Uint32Array _ => indices
    | _ => if needs32Bits (elements indices)
           then new_Uint32Array (elements indices)
           else new_Uint16Array (elements indices)
    end
  else new_Uint16Array (elements indices).

(** ** Buffer binding *)

Definition _unbindVertexArrayObject (e : Engine) : Engine :=
  if negb (truthy_slot (_cachedVertexArrayObject e)) then e
  else gl_do (bindVertexArray None) (set_cachedVertexArrayObject (Some None) e).

Definition _bindBuffer (buffer : Nullable Ref) (target : Z) (e : Engine) : Engine :=
  if _vaoRecordInProgress e || strict_ne (_currentBoundBuffer e !! target) (Some buffer)
  then set_currentBoundBuffer (<[target := buffer]> (_currentBoundBuffer e))
         (gl_do (bindBuffer target (resourceOf e buffer)) e)
  else e.

Definition bindArrayBuffer (buffer : Nullable Ref) (e : Engine) : Engine :=
  let e := if negb (_vaoRecordInProgress e) then _unbindVertexArrayObject e else e in
  _bindBuffer buffer gl.ARRAY_BUFFER e.

Definition bindIndexBuffer (buffer : Nullable Ref) (e : Engine) : Engine :=
  let e := if negb (_vaoRecordInProgress e) then _unbindVertexArrayObject e else e in
  _bindBuffer buffer gl.ELEMENT_ARRAY_BUFFER e.

Definition _resetVertexBufferBinding (e : Engine) : Engine :=
  set_cachedVertexBuffers (Some None) (bindArrayBuffer None e).

Definition _resetIndexBufferBinding (e : Engine) : Engine :=
  set_cachedIndexBuffer (Some None) (bindIndexBuffer None e).

(** ** Buffer creation and release *)

(** [this._gl.createBuffer()] *)
Definition createBuffer_ (e : Engine) : Nullable WebGLBuffer * Engine :=
  let '(vbo, g) := gl_createBuffer (_gl e) in (vbo, set_gl g e).

(** [new WebGLDataBuffer(vbo)]: a new object holding the handle; its other
    fields start as the class declares them. *)
Definition new_WebGLDataBuffer (vbo : Nullable WebGLBuffer) (e : Engine) : Ref * Engine :=
  let r := nextObject e in
  let d := {| references := references (WebGLDataBuffer_fields X);
              capacity := capacity (WebGLDataBuffer_fields X);
              is32Bits := is32Bits (WebGLDataBuffer_fields X);
              underlyingResource := vbo |} in
  (r, set_nextObject (r + 1) (set_buffers (<[r := d]> (buffers e)) e)).

(** [dataBuffer.<field> = ...] *)
Definition update_buffer (r : Ref) (f : DataBuffer -> DataBuffer) (e : Engine) : Engine :=
  set_buffers (alter f r (buffers e)) e.

(** The first argument of [createVertexBuffer]: a [number[]], a binary
    buffer or view, or a size in bytes. *)
Inductive VertexData : Type :=
  | DataNumbers (xs : list Z)
  | DataBytes (bytes : list Z)
  | DataSize (n : Z).

Definition _createVertexBuffer (data : VertexData) (usage : Z) : M Ref :=
  let! vbo := call createBuffer_ in
  if negb (bool_decide (is_Some vbo)) then throw (Error "Unable to create vertex buffer")
  else
    let! dataBuffer := call (new_WebGLDataBuffer vbo) in
    run (bindArrayBuffer (Some dataBuffer)) ;;;
    match data with
    | DataNumbers xs =>
        run (gl_do (bufferData gl.ARRAY_BUFFER (Float32ArrayOf xs) usage)) ;;;
        run (update_buffer dataBuffer (DataBuffer_set_capacity (Z.of_nat (length xs) * 4)))
    | DataBytes bytes =>
        run (gl_do (bufferData gl.ARRAY_BUFFER (RawData bytes) usage)) ;;;
        run (update_buffer dataBuffer (DataBuffer_set_capacity (Z.of_nat (length bytes))))
    | DataSize n =>
        (if (n <? 0) || (typedArray_maxLength X <? n)
         then throw (RangeError ("Invalid typed array length: " +:+ js_number n))
         else ret tt) ;;;
        run (gl_do (bufferData gl.ARRAY_BUFFER (Uint8ArrayOfLength n) usage)) ;;;
        run (update_buffer dataBuffer (DataBuffer_set_capacity n))
    end ;;;
    run _resetVertexBufferBinding ;;;
    run (update_buffer dataBuffer (DataBuffer_set_references 1)) ;;;
    ret dataBuffer.

Definition createVertexBuffer (data : VertexData) : M Ref :=
  _createVertexBuffer data gl.STATIC_DRAW.

Definition createDynamicVertexBuffer (data : VertexData) : M Ref :=
  _createVertexBuffer data gl.DYNAMIC_DRAW.

Definition createIndexBuffer (indices : IndicesArray) (updatable : option bool) : M Ref :=
  let! vbo := call createBuffer_ in
  let! dataBuffer := call (new_WebGLDataBuffer vbo) in
  if negb (bool_decide (is_Some vbo)) then throw (Error "Unable to create index buffer")
  else
    run (bindIndexBuffer (Some dataBuffer)) ;;;
    let! data := get (_normalizeIndexData indices) in
    run (gl_do (bufferData gl.ELEMENT_ARRAY_BUFFER (IndexData data)
                  (if truthy_bool updatable then gl.DYNAMIC_DRAW else gl.STATIC_DRAW))) ;;;
    run _resetIndexBufferBinding ;;;
    run (update_buffer dataBuffer (DataBuffer_set_references 1)) ;;;
    run (update_buffer dataBuffer
           (DataBuffer_set_is32Bits (bool_decide (BYTES_PER_ELEMENT data = Some 4)))) ;;;
    ret dataBuffer.

Definition _deleteBuffer (buffer : Ref) (e : Engine) : Engine :=
  gl_do (deleteBuffer (resourceOf e (Some buffer))) e.

(** [buffer.references] *)
Definition references_of (e : Engine) (buffer : Ref) : option Z :=
  references <$> buffers e !! buffer.

Definition _releaseBuffer (buffer : Ref) (e : Engine) : bool * Engine :=
  let e := update_buffer buffer (fun d => DataBuffer_set_references (references d - 1) d) e in
  if bool_decide (references_of e buffer = Some 0)
  then (true, _deleteBuffer buffer e)
  else (false, e).

(** A further consumer attaches the buffer: [buffer.references++]. *)
Definition addReference (buffer : Ref) (e : Engine) : Engine :=
  update_buffer buffer (fun d => DataBuffer_set_references (references d + 1) d) e.

Definition _bindIndexBufferWithCache (indexBuffer : Nullable Ref) (e : Engine) : Engine :=
  match indexBuffer with
  | None => e
  | Some b =>
      if strict_ne (_cachedIndexBuffer e) (Some indexBuffer) then
        let e := set_cachedIndexBuffer (Some indexBuffer) e in
        let e := bindIndexBuffer indexBuffer e in
        set_uintIndicesCurrentlySet
          (match buffers e !! b with Some d => is32Bits d | None => false end) e
      else e
  end.

(** ** Vertex attributes *)

Definition BufferPointer_set_active (v : bool) (p : BufferPointer) : BufferPointer :=
  {| active := v; bp_index := bp_index p; bp_size := bp_size p; bp_type := bp_type p;
     bp_normalized := bp_normalized p; bp_stride := bp_stride p; bp_offset := bp_offset p;
     bp_buffer := bp_buffer p |}.

Definition disableAttributeByIndex (attributeLocation : Z) : M unit :=
  run (gl_do (disableVertexAttribArray attributeLocation)) ;;;
  run (fun e => set_vertexAttribArraysEnabled
                  (js_array_set (_vertexAttribArraysEnabled e) attributeLocation false) e) ;;;
  let! pointer := get (fun e => js_index (_currentBufferPointers e) attributeLocation) in
  match pointer with
  | None => throw (TypeError "Cannot set properties of undefined (setting 'active')")
  | Some p =>
      run (fun e => set_currentBufferPointers
                      (<[Z.to_nat attributeLocation := BufferPointer_set_active false p]>
                         (_currentBufferPointers e)) e)
  end.

Definition unbindAllAttributes : M unit :=
  let! mustWipe := get (fun e => _mustWipeVertexAttributes e) in
  if mustWipe then
    run (set_mustWipeVertexAttributes false) ;;;
    let! n := get (fun e => maxVertexAttribs (_caps e)) in
    for_each (seqZ 0 n) disableAttributeByIndex
  else
    let! ul := get (fun e => Z.of_nat (length (_vertexAttribArraysEnabled e))) in
    for_each (seqZ 0 ul) (fun i =>
      let! skip := get (fun e =>
        (maxVertexAttribs (_caps e) <=? i)
        || negb (default false (js_index (_vertexAttribArraysEnabled e) i))) in
      if skip then ret tt else disableAttributeByIndex i).

(** One comparison of [_vertexAttribPointer]:
    [if (pointer.f !== v) { pointer.f = v; changed = true; }] *)
Definition assign_if_ne {A} `{EqDecision A} (old : option A) (v : A) (changed : bool)
  : option A * bool :=
  if strict_ne old (Some v) then (Some v, true) else (old, changed).

Definition _vertexAttribPointer (buffer : Ref) (indx size type : Z) (normalized : bool)
    (stride offset : Z) (e : Engine) : Engine :=
  match js_index (_currentBufferPointers e) indx with
  | None => e
  | Some pointer =>
      let '(pointer, changed) :=
        if negb (active pointer) then
          ({| active := true; bp_index := Some indx; bp_size := Some size;
              bp_type := Some type; bp_normalized := Some normalized;
              bp_stride := Some stride; bp_offset := Some offset;
              bp_buffer := Some buffer |}, true)
        else
          let changed := false in
          let '(b, changed) := assign_if_ne (bp_buffer pointer) buffer changed in
          let '(s, changed) := assign_if_ne (bp_size pointer) size changed in
          let '(t, changed) := assign_if_ne (bp_type pointer) type changed in
          let '(n, changed) := assign_if_ne (bp_normalized pointer) normalized changed in
          let '(st, changed) := assign_if_ne (bp_stride pointer) stride changed in
          let '(o, changed) := assign_if_ne (bp_offset pointer) offset changed in
          ({| active := active pointer; bp_index := bp_index pointer; bp_size := s;
              bp_type := t; bp_normalized := n; bp_stride := st; bp_offset := o;
              bp_buffer := b |}, changed) in
      let e := set_currentBufferPointers
                 (<[Z.to_nat indx := pointer]> (_currentBufferPointers e)) e in
      if changed || _vaoRecordInProgress e then
        let e := bindArrayBuffer (Some buffer) e in
        if (type =? gl.UNSIGNED_INT) || (type =? gl.INT)
        then gl_do (vertexAttribIPointer indx size type stride offset) e
        else gl_do (vertexAttribPointer indx size type normalized stride offset) e
      else e
  end.

(** A dictionary of vertex buffers keyed by attribute kind; the engine
    remembers which dictionary it bound last by identity. *)
Record VertexBuffers : Type := mkVertexBuffers {
  vbs_id : Ref;
  vbs_entries : gmap string (Nullable VertexBuffer)
}.

(** [dict[ai]], read for its truthiness. *)
Definition vbs_lookup (d : gmap string (Nullable VertexBuffer)) (ai : string)
  : option VertexBuffer :=
  match d !! ai with Some (Some vb) => Some vb | _ => None end.

(** The body of the loop of [_bindVertexBuffersAttributes]. *)
Definition bindAttribute (vertexBuffers : VertexBuffers) (f : Effect)
    (overrideVertexBuffers : option (gmap string (Nullable VertexBuffer)))
    (index : nat) (e : Engine) : Engine :=
  match attributeLocations f !! index with
  | Some order =>
      if 0 <=? order then
        match attributesNames f !! index with
        | None => e
        | Some ai =>
            let vertexBuffer :=
              match overrideVertexBuffers with
              | Some o => vbs_lookup o ai
              | None => None
              end in
            let vertexBuffer :=
              match vertexBuffer with
              | Some vb => Some vb
              | None => vbs_lookup (vbs_entries vertexBuffers) ai
              end in
            match vertexBuffer with
            | None => e
            | Some vb =>
                let e := gl_do (enableVertexAttribArray order) e in
                let e := if negb (_vaoRecordInProgress e)
                         then set_vertexAttribArraysEnabled
                                (js_array_set (_vertexAttribArraysEnabled e) order true) e
                         else e in
                match getBuffer vb with
                | None => e
                | Some buffer =>
                    let e := _vertexAttribPointer buffer order (getSize vb) (vb_type vb)
                               (vb_normalized vb) (byteStride vb) (byteOffset vb) e in
                    if getIsInstanced vb then
                      let e := gl_do (vertexAttribDivisor order (getInstanceDivisor vb)) e in
                      if negb (_vaoRecordInProgress e) then
                        set_currentInstanceBuffers (_currentInstanceBuffers e ++ [buffer])
                          (set_currentInstanceLocations
                             (_currentInstanceLocations e ++ [order]) e)
                      else e
                    else e
                end
            end
        end
      else e
  | None => e
  end.

Definition _bindVertexBuffersAttributes (vertexBuffers : VertexBuffers) (effect : Ref)
    (overrideVertexBuffers : option (gmap string (Nullable VertexBuffer))) : M unit :=
  let! f := get (fun e => effects e !! effect) in
  match f with
  | None => throw (TypeError "effect is not an object")
  | Some f =>
      run (fun e => if negb (_vaoRecordInProgress e) then _unbindVertexArrayObject e else e) ;;;
      unbindAllAttributes ;;;
      for_each (seq 0 (length (attributesNames f)))
        (fun index => run (bindAttribute vertexBuffers f overrideVertexBuffers index))
  end.

Definition bindBuffers (vertexBuffers : VertexBuffers) (indexBuffer : Nullable Ref)
    (effect : Ref) (overrideVertexBuffers : option (gmap string (Nullable VertexBuffer)))
  : M unit :=
  let! stale := get (fun e =>
    strict_ne (_cachedVertexBuffers e) (Some (Some (vbs_id vertexBuffers)))
    || strict_ne (_cachedEffectForVertexBuffers e) (Some (Some effect))) in
  (if stale then
     run (set_cachedVertexBuffers (Some (Some (vbs_id vertexBuffers)))) ;;;
     run (set_cachedEffectForVertexBuffers (Some (Some effect))) ;;;
     _bindVertexBuffersAttributes vertexBuffers effect overrideVertexBuffers
   else ret tt) ;;;
  run (_bindIndexBufferWithCache indexBuffer).

(** ** Program binding *)

(** Modelled from the spec: the helper [_setProgram(program, gl)] that the
    method delegates to is imported from a module outside the sources; for a
    value that differs from the cached one the state cache "issues the
    underlying bind call", which for a program is [useProgram]. *)
Definition setProgram_helper (program : Nullable WebGLProgram) (e : Engine) : Engine :=
  gl_do (useProgram program) e.

Definition _setProgram (program : Nullable WebGLProgram) (e : Engine) : Engine :=
  if strict_ne (_currentProgram e) (Some program)
  then set_currentProgram (Some program) (setProgram_helper program e)
  else e.

(** ** Texture binding *)

Definition _activateCurrentTexture (e : Engine) : Engine :=
  if negb (_currentTextureChannel e =? _activeChannel e)
  then set_currentTextureChannel (_activeChannel e)
         (gl_do (activeTexture (gl.TEXTURE0 + _activeChannel e)) e)
  else e.

Definition _bindSamplerUniformToChannel (sourceSlot destination : Z) (e : Engine) : Engine :=
  match _boundUniforms e !! sourceSlot with
  | None => e
  | Some uniform =>
      if bool_decide (mjoin (uniforms e !! uniform) = Some destination) then e
      else set_uniforms (<[uniform := Some destination]> (uniforms e))
             (gl_do (uniform1i uniform destination) e)
  end.

(** [texture._associatedChannel = v] *)
Definition update_texture (r : Ref) (f : InternalTexture -> InternalTexture) (e : Engine)
  : Engine :=
  set_textures (alter f r (textures e)) e.

Definition multiviewMessage : string := "_bindTextureDirectly called with a multiview texture!".

Definition _bindTextureDirectly (target : Z) (texture : Nullable Ref)
    (forTextureDataUpdate force : bool) : M bool :=
  let! obj := get (fun e => match texture with
                            | Some r => textures e !! r
                            | None => None
                            end) in
  if bool_decide (is_Some texture) && negb (bool_decide (is_Some obj))
  then throw (TypeError "texture is not an object")
  else
    let isTextureForRendering :=
      match obj with Some t => -1 <? _associatedChannel t | None => false end in
    (if forTextureDataUpdate && isTextureForRendering
     then run (fun e => set_activeChannel
                          (match obj with
                           | Some t => _associatedChannel t
                           | None => _activeChannel e
                           end) e)
     else ret tt) ;;;
    let! currentTextureBound := get (fun e => _boundTexturesCache e !! _activeChannel e) in
    let! wasPreviouslyBound :=
      (if strict_ne currentTextureBound (Some texture) || force then
         run _activateCurrentTexture ;;;
         (if match obj with Some t => isMultiview t | None => false end then
            run (fun e => set_logger
                            (logger e
                             ++ [LogError multiviewMessage
                                   (target :: match texture with
                                              | Some r => [r]
                                              | None => []
                                              end)]) e) ;;;
            throw (ThrownString multiviewMessage)
          else
            run (gl_do (bindTexture target
                          (match obj with Some t => _hardwareTexture t | None => None end)))) ;;;
         run (fun e => set_boundTexturesCache
                         (<[_activeChannel e := texture]> (_boundTexturesCache e)) e) ;;;
         match texture with
         | Some r =>
             run (fun e => update_texture r
                             (InternalTexture_set_associatedChannel (_activeChannel e)) e) ;;;
             ret false
         | None => ret false
         end
       else if forTextureDataUpdate then
         run _activateCurrentTexture ;;; ret true
       else ret false) in
    (if isTextureForRendering && negb forTextureDataUpdate then
       run (fun e =>
              match texture with
              | Some r =>
                  match textures e !! r with
                  | Some t => _bindSamplerUniformToChannel (_associatedChannel t)
                                (_activeChannel e) e
                  | None => e
                  end
              | None => e
              end)
     else ret tt) ;;;
    ret wasPreviouslyBound.

Definition _getTextureTarget (t : InternalTexture) : Z :=
  if isCube t then gl.TEXTURE_CUBE_MAP
  else if is3D t then gl.TEXTURE_3D
  else if is2DArray t || isMultiview t then gl.TEXTURE_2D_ARRAY
  else gl.TEXTURE_2D.

(** [_bindTexture(channel, texture, name)]; [channel] is [None] when the
    caller passes [undefined]. *)
Definition _bindTexture (channel : option Z) (texture : Nullable Ref) : M unit :=
  match channel with
  | None => ret tt
  | Some channel =>
      let! obj := get (fun e => match texture with
                                | Some r => textures e !! r
                                | None => None
                                end) in
      if bool_decide (is_Some texture) && negb (bool_decide (is_Some obj))
      then throw (TypeError "texture is not an object")
      else
        match texture with
        | Some r => run (update_texture r (InternalTexture_set_associatedChannel channel))
        | None => ret tt
        end ;;;
        run (set_activeChannel channel) ;;;
        let target := match obj with
                      | Some t => _getTextureTarget t
                      | None => gl.TEXTURE_2D
                      end in
        _bindTextureDirectly target texture false false ;;; ret tt
  end.

(** Modelled from the spec: [resetTextureCache] is a method of the base
    class, outside the sources; a wipe "forcibly resets every cached value
    to an unknown/unset sentinel", which for the texture channels means no
    texture on any channel and no channel known to be active. *)
Definition resetTextureCache (e : Engine) : Engine :=
  set_currentTextureChannel (-1)
    (set_boundTexturesCache ((fun _ => None) <$> _boundTexturesCache e) e).

(** ** Draw calls *)

(** A collaborator is applied: its own state moves on and the driver
    receives whatever calls it issues. *)
Definition apply_ext (f : Ext -> Ext * list GLCall) (e : Engine) : Engine :=
  let '(x, cs) := f (ext e) in
  set_ext x (set_gl (gl_calls cs (_gl e)) e).

Definition applyStates (e : Engine) : Engine :=
  let e := apply_ext (depthCullingState_apply X) e in
  let e := apply_ext (stencilStateComposer_apply X) e in
  let n := match _currentRenderTarget e with
           | Some rt => match rt_textures rt with
                        | Some ts => Z.of_nat (length ts)
                        | None => 1
                        end
           | None => 1
           end in
  let e := apply_ext (alphaState_apply X n) e in
  if _colorWriteChanged e then
    let e := set_colorWriteChanged false e in
    let enable := _colorWrite e in
    gl_do (colorMask enable enable enable enable) e
  else e.

Definition reportDrawCall (e : Engine) : Engine := set_ext (_reportDrawCall X (ext e)) e.

Definition _drawMode (fillMode : Z) : Z :=
  if fillMode =? MATERIAL_TriangleFillMode K then gl.TRIANGLES
  else if fillMode =? MATERIAL_PointFillMode K then gl.POINTS
  else if fillMode =? MATERIAL_WireFrameFillMode K then gl.LINES
  else if fillMode =? MATERIAL_PointListDrawMode K then gl.POINTS
  else if fillMode =? MATERIAL_LineListDrawMode K then gl.LINES
  else if fillMode =? MATERIAL_LineLoopDrawMode K then gl.LINE_LOOP
  else if fillMode =? MATERIAL_LineStripDrawMode K then gl.LINE_STRIP
  else if fillMode =? MATERIAL_TriangleStripDrawMode K then gl.TRIANGLE_STRIP
  else if fillMode =? MATERIAL_TriangleFanDrawMode K then gl.TRIANGLE_FAN
  else gl.TRIANGLES.

Definition drawElementsType (fillMode indexStart indexCount : Z) (instancesCount : option Z)
    (e : Engine) : Engine :=
  let e := applyStates e in
  let e := reportDrawCall e in
  let drawMode := _drawMode fillMode in
  let indexFormat := if _uintIndicesCurrentlySet e then gl.UNSIGNED_INT
                     else gl.UNSIGNED_SHORT in
  let mult := if _uintIndicesCurrentlySet e then 4 else 2 in
  if truthy_num instancesCount then
    gl_do (drawElementsInstanced drawMode indexCount indexFormat (indexStart * mult)
             (default 0 instancesCount)) e
  else
    gl_do (drawElements drawMode indexCount indexFormat (indexStart * mult)) e.

Definition drawArraysType (fillMode verticesStart verticesCount : Z)
    (instancesCount : option Z) (e : Engine) : Engine :=
  let e := applyStates e in
  let e := reportDrawCall e in
  let drawMode := _drawMode fillMode in
  if truthy_num instancesCount then
    gl_do (drawArraysInstanced drawMode verticesStart verticesCount
             (default 0 instancesCount)) e
  else
    gl_do (drawArrays drawMode verticesStart verticesCount) e.

Definition draw (useTriangles : bool) (indexStart indexCount : Z)
    (instancesCount : option Z) : Engine -> Engine :=
  drawElementsType
    (if useTriangles then MATERIAL_TriangleFillMode K else MATERIAL_WireFrameFillMode K)
    indexStart indexCount instancesCount.

Definition drawPointClouds (verticesStart verticesCount : Z) (instancesCount : option Z)
  : Engine -> Engine :=
  drawArraysType (MATERIAL_PointFillMode K) verticesStart verticesCount instancesCount.

Definition drawUnIndexed (useTriangles : bool) (verticesStart verticesCount : Z)
    (instancesCount : option Z) : Engine -> Engine :=
  drawArraysType
    (if useTriangles then MATERIAL_TriangleFillMode K else MATERIAL_WireFrameFillMode K)
    verticesStart verticesCount instancesCount.

(** ** Context loss *)

(** The handler installed on the canvas for [webglcontextlost]. *)
Definition _onContextLost (e : Engine) : Engine :=
  if negb (_doNotHandleContextLost e) then
    let e := set_events (events e ++ [PreventDefault]) e in
    let e := set_contextWasLost true e in
    let e := set_ext (deleteStateObject X (ext e)) e in
    let e := set_logger (logger e ++ [Warn "WebGL context lost."]) e in
    set_events (events e ++ [ContextLostNotified]) e
  else
    set_ext (deleteStateObject X (ext e)) e.

(** ** Wiping the caches *)

Definition wipeCaches (bruteForce : option bool) : M unit :=
  let! prevent := get (fun e => preventCacheWipeBetweenFrames e) in
  if prevent && negb (truthy_bool bruteForce) then ret tt
  else
    run (set_currentEffect (Some None)) ;;;
    run (set_viewportCached {| vx := 0; vy := 0; vz := 0; vw := 0 |}) ;;;
    run _unbindVertexArrayObject ;;;
    (if truthy_bool bruteForce then
       run (set_currentProgram (Some None)) ;;;
       run resetTextureCache ;;;
       run (fun e => set_ext (stencilStateComposer_reset X (ext e)) e) ;;;
       run (fun e => set_ext (depthCullingState_reset X (ext e)) e) ;;;
       run (fun e => set_ext (depthCullingState_set_depthFunc X gl.LEQUAL (ext e)) e) ;;;
       run (fun e => set_ext (alphaState_reset X (ext e)) e) ;;;
       run (fun e => set_ext (_resetAlphaMode X (ext e)) e) ;;;
       run (set_colorWrite true) ;;;
       run (set_colorWriteChanged true) ;;;
       run (set_unpackFlipYCached None) ;;;
       run (gl_do (pixelStorei gl.UNPACK_COLORSPACE_CONVERSION_WEBGL gl.NONE)) ;;;
       run (gl_do (pixelStorei gl.UNPACK_PREMULTIPLY_ALPHA_WEBGL 0)) ;;;
       run (set_mustWipeVertexAttributes true) ;;;
       unbindAllAttributes
     else ret tt) ;;;
    run _resetVertexBufferBinding ;;;
    run (set_cachedIndexBuffer (Some None)) ;;;
    run (set_cachedEffectForVertexBuffers (Some None)) ;;;
    run (bindIndexBuffer None).

(** ** Effects *)

(** [a || b || c || d] on optional strings. *)
Definition first_truthy (a b c d : option string) : option string :=
  if truthy_str a then a
  else if truthy_str b then b
  else if truthy_str c then c
  else d.

(** A value used as an operand of string [+]. *)
Definition js_string (s : option string) : string := default "undefined" s.

Definition vertex_of (baseName : BaseName) : option string :=
  match baseName with
  | BaseNameString s => Some s
  | BaseNamePath p =>
      first_truthy (vertexToken p) (vertexSource p) (vertexElement p) (vertex p)
  end.

Definition fragment_of (baseName : BaseName) : option string :=
  match baseName with
  | BaseNameString s => Some s
  | BaseNamePath p =>
      first_truthy (fragmentToken p) (fragmentSource p) (fragmentElement p) (fragment p)
  end.

Definition _getGlobalDefines (e : Engine) : option string :=
  _GetGlobalDefines X (isNDCHalfZRange e) (useReverseDepthBuffer e)
    (useExactSrgbConversions e).

(** [defines ?? options.defines ?? ""]: the defines of the call, given as
    the [defines] argument or inside the options. *)
Definition declared_defines (attributesNamesOrOptions : AttributesNamesOrOptions)
    (defines : option string) : string :=
  match defines with
  | Some d => d
  | None => match attributesNamesOrOptions with
            | CreationOptions o => default "" (opt_defines o)
            | AttributesNames _ => ""
            end
  end.

(** The defines of the call, then the global defines appended. *)
Definition fullDefines_of (attributesNamesOrOptions : AttributesNamesOrOptions)
    (defines : option string) (e : Engine) : string :=
  let fullDefines := declared_defines attributesNamesOrOptions defines in
  let globalDefines := _getGlobalDefines e in
  if truthy_str globalDefines then fullDefines +:+ js_string globalDefines
  else fullDefines.

(** The [name] computed by [createEffect], under which the effect is filed. *)
Definition effect_name (baseName : BaseName)
    (attributesNamesOrOptions : AttributesNamesOrOptions) (defines : option string)
    (e : Engine) : string :=
  js_string (vertex_of baseName) +:+ "+" +:+ js_string (fragment_of baseName) +:+ "@"
    +:+ fullDefines_of attributesNamesOrOptions defines e.

(** [createEffect]; [onCompiled] tells whether the caller passed a callback. *)
Definition createEffect (baseName : BaseName)
    (attributesNamesOrOptions : AttributesNamesOrOptions) (defines : option string)
    (onCompiled : bool) (e : Engine) : Ref * Engine :=
  let name := effect_name baseName attributesNamesOrOptions defines e in
  match _compiledEffects e !! name with
  | Some compiledEffect =>
      let ready := match effects e !! compiledEffect with
                   | Some f => effect_isReady f
                   | None => false
                   end in
      let e := if onCompiled && ready
               then set_events (events e ++ [OnCompiledCalled compiledEffect]) e
               else e in
      let e := set_effects
                 (alter (fun f => Effect_set_refCount (_refCount f + 1) f) compiledEffect
                    (effects e)) e in
      (compiledEffect, e)
  | None =>
      let e := set_ext (getStateObject X (ext e)) e in
      let effect := nextObject e in
      let e := set_nextObject (effect + 1)
                 (set_effects
                    (<[effect := Effect_new X baseName attributesNamesOrOptions defines name]>
                       (effects e)) e) in
      let e := set_compiledEffects (<[name := effect]> (_compiledEffects e)) e in
      (effect, e)
  end.

(** ** Texture creation: settings *)

(** The statements of [_createInternalTexture] that run before the texture
    object is allocated: defaults, options, and the adjustments forced by
    missing capabilities.  The rest of the method copies [samplingMode] and
    [type] into the new texture unchanged. *)
Definition _createInternalTexture_settings (options : TextureOptions) (e : Engine)
  : TextureSettings * Engine :=
  let s :=
    match options with
    | OptionsObject o =>
        {| generateMipMaps := default false (o_generateMipMaps o);
           createMipMaps := default false (o_createMipMaps o);
           type_ := default (TEXTURETYPE_UNSIGNED_BYTE K) (o_type o);
           samplingMode := default (TEXTURE_TRILINEAR_SAMPLINGMODE K) (o_samplingMode o);
           format := default (TEXTUREFORMAT_RGBA K) (o_format o);
           useSRGBBuffer := default false (o_useSRGBBuffer o);
           samples := default 1 (o_samples o);
           label := o_label o;
           createMSAATexture := default false (o_createMSAATexture o);
           comparisonFunction := default 0 (o_comparisonFunction o) |}
    | _ =>
        {| generateMipMaps := match options with OptionsBoolean b => b | _ => false end;
           createMipMaps := false;
           type_ := TEXTURETYPE_UNSIGNED_BYTE K;
           samplingMode := TEXTURE_TRILINEAR_SAMPLINGMODE K;
           format := TEXTUREFORMAT_RGBA K;
           useSRGBBuffer := false;
           samples := 1;
           label := None;
           createMSAATexture := false;
           comparisonFunction := 0 |}
    end in
  let useSRGBBuffer' :=
    useSRGBBuffer s && (supportSRGBBuffers (_caps e) && ((1 <? _webGLVersion e) || isWebGPU e)) in
  let samplingMode' :=
    if (type_ s =? TEXTURETYPE_FLOAT K) && negb (textureFloatLinearFiltering (_caps e))
    then TEXTURE_NEAREST_SAMPLINGMODE K
    else if (type_ s =? TEXTURETYPE_HALF_FLOAT K)
            && negb (textureHalfFloatLinearFiltering (_caps e))
    then TEXTURE_NEAREST_SAMPLINGMODE K
    else samplingMode s in
  let '(type', e) :=
    if (type_ s =? TEXTURETYPE_FLOAT K) && negb (textureFloat (_caps e))
    then (TEXTURETYPE_UNSIGNED_BYTE K,
          set_logger
            (logger e
             ++ [Warn "Float textures are not supported. Type forced to TEXTURETYPE_UNSIGNED_BYTE"])
            e)
    else (type_ s, e) in
  ({| generateMipMaps := generateMipMaps s; createMipMaps := createMipMaps s;
      type_ := type'; samplingMode := samplingMode'; format := format s;
      useSRGBBuffer := useSRGBBuffer'; samples := samples s; label := label s;
      createMSAATexture := createMSAATexture s;
      comparisonFunction := comparisonFunction s |}, e).

(** ** Viewport and pixel-store caches *)

Definition _viewport (x y width height : Z) (e : Engine) : Engine :=
  if negb (x =? vx (_viewportCached e)) || negb (y =? vy (_viewportCached e))
     || negb (width =? vz (_viewportCached e)) || negb (height =? vw (_viewportCached e))
  then gl_do (stateCall "viewport" [x; y; width; height])
         (set_viewportCached {| vx := x; vy := y; vz := width; vw := height |} e)
  else e.

(** [_unpackFlipY(value)].  The public field [enableUnpackFlipYCached],
    which no method of the engine writes, is passed in. *)
Definition _unpackFlipY (enableUnpackFlipYCached : bool) (value : bool) (e : Engine)
  : Engine :=
  if strict_ne (_unpackFlipYCached e) (Some value) then
    let e := gl_do (pixelStorei gl.UNPACK_FLIP_Y_WEBGL (if value then 1 else 0)) e in
    if enableUnpackFlipYCached then set_unpackFlipYCached (Some value) e else e
  else e.

(** ** Vertex array objects *)

(** [this._gl.createVertexArray()]: a fresh handle, or [null]. *)
Definition gl_createVertexArray (g : GL) : Nullable WebGLVertexArrayObject * GL :=
  if failAlloc g
  then (None, gl_call (stateCall "createVertexArray" []) g)
  else (Some (nextHandle g),
        {| calls := calls g ++ [stateCall "createVertexArray" []];
           nextHandle := nextHandle g + 1;
           failAlloc := failAlloc g |}).

Definition createVertexArray_ (e : Engine) : Nullable WebGLVertexArrayObject * Engine :=
  let '(vao, g) := gl_createVertexArray (_gl e) in (vao, set_gl g e).

Definition recordVertexArrayObject (vertexBuffers : VertexBuffers)
    (indexBuffer : Nullable Ref) (effect : Ref)
    (overrideVertexBuffers : option (gmap string (Nullable VertexBuffer)))
  : M WebGLVertexArrayObject :=
  let! vao := call createVertexArray_ in
  match vao with
  | None => throw (Error "Unable to create VAO")
  | Some vao =>
      run (set_vaoRecordInProgress true) ;;;
      run (gl_do (bindVertexArray (Some vao))) ;;;
      run (set_mustWipeVertexAttributes true) ;;;
      _bindVertexBuffersAttributes vertexBuffers effect overrideVertexBuffers ;;;
      run (bindIndexBuffer indexBuffer) ;;;
      run (set_vaoRecordInProgress false) ;;;
      run (gl_do (bindVertexArray None)) ;;;
      ret vao
  end.

Definition bindVertexArrayObject (vertexArrayObject : WebGLVertexArrayObject)
    (indexBuffer : Nullable Ref) (e : Engine) : Engine :=
  if strict_ne (_cachedVertexArrayObject e) (Some (Some vertexArrayObject)) then
    let e := set_cachedVertexArrayObject (Some (Some vertexArrayObject)) e in
    let e := gl_do (bindVertexArray (Some vertexArrayObject)) e in
    let e := set_cachedVertexBuffers (Some None) e in
    let e := set_cachedIndexBuffer (Some None) e in
    let e := set_uintIndicesCurrentlySet
               (match indexBuffer with
                | Some b => match buffers e !! b with
                            | Some d => is32Bits d
                            | None => false
                            end
                | None => false
                end) e in
    set_mustWipeVertexAttributes true e
  else e.

(** ** Instance attributes *)

(** [a != b] on two values that are an object or [undefined]. *)
Definition loose_ne (a b : option Ref) : bool := bool_decide (a ≠ b).

(** The loop of [unbindInstanceAttributes]; [boundBuffer] is its local
    variable, [undefined] at first. *)
Fixpoint unbindInstanceAttributes_loop (indices : list Z) (boundBuffer : option Ref)
  : M unit :=
  match indices with
  | [] => ret tt
  | i :: indices' =>
      let! instancesBuffer := get (fun e => js_index (_currentInstanceBuffers e) i) in
      let! boundBuffer :=
        if loose_ne boundBuffer instancesBuffer then
          match instancesBuffer with
          | None => throw (TypeError "Cannot read properties of undefined (reading 'references')")
          | Some b =>
              let! d := get (fun e => buffers e !! b) in
              match d with
              | None => throw (TypeError "instancesBuffer is not an object")
              | Some d =>
                  if negb (references d =? 0)
                  then run (bindArrayBuffer (Some b)) ;;; ret (Some b)
                  else ret boundBuffer
              end
          end
        else ret boundBuffer in
      let! offsetLocation := get (fun e => js_index (_currentInstanceLocations e) i) in
      run (gl_do (vertexAttribDivisor (default 0 offsetLocation) 0)) ;;;
      unbindInstanceAttributes_loop indices' boundBuffer
  end.

Definition unbindInstanceAttributes : M unit :=
  let! ul := get (fun e => Z.of_nat (length (_currentInstanceLocations e))) in
  unbindInstanceAttributes_loop (seqZ 0 ul) None ;;;
  run (set_currentInstanceBuffers []) ;;;
  run (set_currentInstanceLocations []).

(** [arr.indexOf(x)], [None] standing for [-1]. *)
Fixpoint indexOf (l : list Z) (x : Z) : option nat :=
  match l with
  | [] => None
  | y :: l' => if bool_decide (y = x) then Some 0%nat else S <$> indexOf l' x
  end.

(** The [while] loop of [disableInstanceAttribute].  Every turn takes one
    entry out of [_currentInstanceLocations]; [fuel] bounds the turns. *)
Fixpoint disableInstanceAttribute_loop (fuel : nat) (attributeLocation : Z)
    (shouldClean : bool) (e : Engine) : bool * Engine :=
  match fuel with
  | O => (shouldClean, e)
  | S fuel' =>
      match indexOf (_currentInstanceLocations e) attributeLocation with
      | None => (shouldClean, e)
      | Some index =>
          let e := set_currentInstanceLocations (delete index (_currentInstanceLocations e)) e in
          let e := set_currentInstanceBuffers (delete index (_currentInstanceBuffers e)) e in
          disableInstanceAttribute_loop fuel' attributeLocation true e
      end
  end.

Definition disableInstanceAttribute (attributeLocation : Z) : M unit :=
  let! shouldClean :=
    call (fun e => disableInstanceAttribute_loop (length (_currentInstanceLocations e))
                     attributeLocation false e) in
  if shouldClean then
    run (gl_do (vertexAttribDivisor attributeLocation 0)) ;;;
    disableAttributeByIndex attributeLocation
  else ret tt.

(** ** Releasing effects *)

(** Collaborators of the release methods that are outside the sources:
    [resetCachedPipeline] and the observers of
    [onReleaseEffectsObservable]. *)
Variable resetCachedPipeline : WebGLProgram -> Ext -> Ext.
Variable onReleaseEffectsObservable_notifyObservers : Ext -> Ext.

(** [_deletePipelineContext]; the argument is the context's [program]. *)
Definition _deletePipelineContext (program : Nullable WebGLProgram) (e : Engine) : Engine :=
  match program with
  | None => e
  | Some p =>
      let e := set_ext (resetCachedPipeline p (ext e)) e in
      let e := if negb (strict_ne (_currentProgram e) (Some (Some p)))
               then _setProgram None e else e in
      gl_do (stateCall "deleteProgram" [p]) e
  end.

Definition _releaseEffect (effect : Ref) : M unit :=
  let! f := get (fun e => effects e !! effect) in
  match f with
  | None => throw (TypeError "effect is not an object")
  | Some f =>
      run (fun e => if bool_decide (is_Some (_compiledEffects e !! _key f))
                    then set_compiledEffects (delete (_key f) (_compiledEffects e)) e
                    else e) ;;;
      run (_deletePipelineContext (pipelineProgram f))
  end.

Definition releaseEffects (e : Engine) : Engine :=
  let e := set_compiledEffects ∅ e in
  set_ext (onReleaseEffectsObservable_notifyObservers (ext e)) e.

(** ** Unbinding textures *)

(** The body of the loop of [unbindAllTextures]. *)
Definition unbindAllTextures_turn (channel : Z) : M unit :=
  run (set_activeChannel channel) ;;;
  _bindTextureDirectly gl.TEXTURE_2D None false false ;;;
  _bindTextureDirectly gl.TEXTURE_CUBE_MAP None false false ;;;
  let! version := get (fun e => _webGLVersion e) in
  if 1 <? version then
    _bindTextureDirectly gl.TEXTURE_3D None false false ;;;
    _bindTextureDirectly gl.TEXTURE_2D_ARRAY None false false ;;;
    ret tt
  else ret tt.

(** [unbindAllTextures].  The private field [_maxSimultaneousTextures],
    set once when the context is initialised, is passed in. *)
Definition unbindAllTextures (_maxSimultaneousTextures : Z) : M unit :=
  for_each (seqZ 0 _maxSimultaneousTextures) unbindAllTextures_turn.

(** ** Sampling parameters *)

(** The sampling-mode constants ([Constants.TEXTURE_*]) that
    [_getSamplingParameters] switches on; their defining module is not part
    of the sources. *)
Record SamplingModes : Type := mkSamplingModes {
  TEXTURE_LINEAR_LINEAR_MIPNEAREST : Z;
  TEXTURE_LINEAR_LINEAR_MIPLINEAR : Z;
  TEXTURE_NEAREST_NEAREST_MIPLINEAR : Z;
  TEXTURE_NEAREST_NEAREST_MIPNEAREST : Z;
  TEXTURE_NEAREST_LINEAR_MIPNEAREST : Z;
  TEXTURE_NEAREST_LINEAR_MIPLINEAR : Z;
  TEXTURE_NEAREST_LINEAR : Z;
  TEXTURE_NEAREST_NEAREST : Z;
  TEXTURE_LINEAR_NEAREST_MIPNEAREST : Z;
  TEXTURE_LINEAR_NEAREST_MIPLINEAR : Z;
  TEXTURE_LINEAR_LINEAR : Z;
  TEXTURE_LINEAR_NEAREST : Z
}.

Record SamplingParameters : Type := mkSamplingParameters {
  minFilter : Z;
  magFilter : Z;
  hasMipMaps : bool
}.

(** The [switch] takes the first case whose constant equals the mode. *)
Definition _getSamplingParameters (S : SamplingModes) (samplingMode : Z)
    (generateMipMaps : bool) : SamplingParameters :=
  if samplingMode =? TEXTURE_LINEAR_LINEAR_MIPNEAREST S then
    {| magFilter := gl.LINEAR;
       minFilter := if generateMipMaps then gl.LINEAR_MIPMAP_NEAREST else gl.LINEAR;
       hasMipMaps := false |}
  else if samplingMode =? TEXTURE_LINEAR_LINEAR_MIPLINEAR S then
    {| magFilter := gl.LINEAR;
       minFilter := if generateMipMaps then gl.LINEAR_MIPMAP_LINEAR else gl.LINEAR;
       hasMipMaps := true |}
  else if samplingMode =? TEXTURE_NEAREST_NEAREST_MIPLINEAR S then
    {| magFilter := gl.NEAREST;
       minFilter := if generateMipMaps then gl.NEAREST_MIPMAP_LINEAR else gl.NEAREST;
       hasMipMaps := true |}
  else if samplingMode =? TEXTURE_NEAREST_NEAREST_MIPNEAREST S then
    {| magFilter := gl.NEAREST;
       minFilter := if generateMipMaps then gl.NEAREST_MIPMAP_NEAREST else gl.NEAREST;
       hasMipMaps := false |}
  else if samplingMode =? TEXTURE_NEAREST_LINEAR_MIPNEAREST S then
    {| magFilter := gl.NEAREST;
       minFilter := if generateMipMaps then gl.LINEAR_MIPMAP_NEAREST else gl.LINEAR;
       hasMipMaps := false |}
  else if samplingMode =? TEXTURE_NEAREST_LINEAR_MIPLINEAR S then
    {| magFilter := gl.NEAREST;
       minFilter := if generateMipMaps then gl.LINEAR_MIPMAP_LINEAR else gl.LINEAR;
       hasMipMaps := true |}
  else if samplingMode =? TEXTURE_NEAREST_LINEAR S then
    {| magFilter := gl.NEAREST; minFilter := gl.LINEAR; hasMipMaps := false |}
  else if samplingMode =? TEXTURE_NEAREST_NEAREST S then
    {| magFilter := gl.NEAREST; minFilter := gl.NEAREST; hasMipMaps := false |}
  else if samplingMode =? TEXTURE_LINEAR_NEAREST_MIPNEAREST S then
    {| magFilter := gl.LINEAR;
       minFilter := if generateMipMaps then gl.NEAREST_MIPMAP_NEAREST else gl.NEAREST;
       hasMipMaps := false |}
  else if samplingMode =? TEXTURE_LINEAR_NEAREST_MIPLINEAR S then
    {| magFilter := gl.LINEAR;
       minFilter := if generateMipMaps then gl.NEAREST_MIPMAP_LINEAR else gl.NEAREST;
       hasMipMaps := true |}
  else if samplingMode =? TEXTURE_LINEAR_LINEAR S then
    {| magFilter := gl.LINEAR; minFilter := gl.LINEAR; hasMipMaps := false |}
  else if samplingMode =? TEXTURE_LINEAR_NEAREST S then
    {| magFilter := gl.LINEAR; minFilter := gl.NEAREST; hasMipMaps := false |}
  else
    {| magFilter := gl.NEAREST; minFilter := gl.NEAREST; hasMipMaps := false |}.

(** ** Observing the driver *)

(** Between [e] and [e'] the driver received exactly the calls [cs]. *)
Definition emits (e e' : Engine) (cs : list GLCall) : Prop :=
  calls (_gl e') = calls (_gl e) ++ cs.

End ThinEngine.

Arguments Engine : clear implicits.
Arguments Externals : clear implicits.
Arguments M : clear implicits.

(** ** A concrete environment

    Collaborators without state that issue no calls, one choice of values
    for the constants (distinct within each family, which is all the engine
    relies on), and an engine with the field values its constructor leaves
    on a WebGL 2 context with sixteen vertex attributes, the log of driver
    calls starting there. *)

Definition plainExternals : Externals unit :=
  {| depthCullingState_apply := fun x => (x, []);
     stencilStateComposer_apply := fun x => (x, []);
     alphaState_apply := fun _ x => (x, []);
     depthCullingState_reset := fun x => x;
     depthCullingState_set_depthFunc := fun _ x => x;
     stencilStateComposer_reset := fun x => x;
     alphaState_reset := fun x => x;
     _resetAlphaMode := fun x => x;
     _reportDrawCall := fun x => x;
     getStateObject := fun x => x;
     deleteStateObject := fun x => x;
     _GetGlobalDefines := fun ndcHalfZRange reverseDepth exactSrgb =>
       let s := if ndcHalfZRange then "#define IS_NDC_HALF_ZRANGE" else "" in
       let s := if reverseDepth
                then (if truthy_str (Some s) then s +:+ line_feed else s)
                     +:+ "#define USE_REVERSE_DEPTHBUFFER"
                else s in
       let s := if exactSrgb
                then (if truthy_str (Some s) then s +:+ line_feed else s)
                     +:+ "#define USE_EXACT_SRGB_CONVERSIONS"
                else s in
       Some s;
     typedArray_maxLength := 4294967295;
     WebGLDataBuffer_fields :=
       {| references := 0; capacity := 0; is32Bits := false; underlyingResource := None |};
     Effect_new := fun _ attributesNamesOrOptions _ name =>
       {| _key := name; _refCount := 1; effect_isReady := false;
          attributesNames := match attributesNamesOrOptions with
                             | AttributesNames names => names
                             | CreationOptions o => default [] (opt_attributes o)
                             end;
          attributeLocations := [];
          pipelineProgram := None |} |}.

Definition engineConstants : Constants :=
  {| MATERIAL_TriangleFillMode := 0;
     MATERIAL_WireFrameFillMode := 1;
     MATERIAL_PointFillMode := 2;
     MATERIAL_PointListDrawMode := 3;
     MATERIAL_LineListDrawMode := 4;
     MATERIAL_LineLoopDrawMode := 5;
     MATERIAL_LineStripDrawMode := 6;
     MATERIAL_TriangleStripDrawMode := 7;
     MATERIAL_TriangleFanDrawMode := 8;
     TEXTURETYPE_UNSIGNED_BYTE := 0;
     TEXTURETYPE_FLOAT := 1;
     TEXTURETYPE_HALF_FLOAT := 2;
     TEXTURE_NEAREST_SAMPLINGMODE := 1;
     TEXTURE_TRILINEAR_SAMPLINGMODE := 3;
     TEXTUREFORMAT_RGBA := 5 |}.

Definition blankPointer : BufferPointer :=
  {| active := false; bp_index := None; bp_size := None; bp_type := None;
     bp_normalized := None; bp_stride := None; bp_offset := None; bp_buffer := None |}.

Definition webgl2Caps : Caps :=
  {| maxVertexAttribs := 16; uintIndices := true; textureFloat := true;
     textureFloatLinearFiltering := false; textureHalfFloatLinearFiltering := true;
     supportSRGBBuffers := true |}.

Definition newEngine : Engine unit :=
  {| _gl := {| calls := []; nextHandle := 1; failAlloc := false |};
     _caps := webgl2Caps;
     _webGLVersion := 2;
     isWebGPU := false;
     _contextWasLost := false;
     _doNotHandleContextLost := false;
     preventCacheWipeBetweenFrames := false;
     isNDCHalfZRange := false;
     useReverseDepthBuffer := false;
     useExactSrgbConversions := false;
     _currentProgram := None;
     _vertexAttribArraysEnabled := [];
     _cachedVertexArrayObject := None;
     _uintIndicesCurrentlySet := false;
     _currentBoundBuffer := ∅;
     _currentBufferPointers := replicate 16 blankPointer;
     _currentInstanceLocations := [];
     _currentInstanceBuffers := [];
     _vaoRecordInProgress := false;
     _mustWipeVertexAttributes := false;
     _cachedVertexBuffers := None;
     _cachedIndexBuffer := None;
     _cachedEffectForVertexBuffers := None;
     _currentEffect := None;
     _viewportCached := {| vx := 0; vy := 0; vz := 0; vw := 0 |};
     _colorWrite := true;
     _colorWriteChanged := true;
     _unpackFlipYCached := None;
     _currentRenderTarget := None;
     _boundTexturesCache := ∅;
     _activeChannel := 0;
     _currentTextureChannel := -1;
     _boundUniforms := ∅;
     _compiledEffects := ∅;
     buffers := ∅;
     textures := ∅;
     uniforms := ∅;
     effects := ∅;
     nextObject := 1;
     logger := [];
     events := [];
     ext := tt |}.

(** * Properties *)

Section Properties.

Context {Ext : Type} (X : Externals Ext) (K : Constants).
Implicit Types e : Engine Ext.

(** ** The driver log only grows *)

Lemma gl_calls_nil (g : GL) : gl_calls [] g = g.
Proof. destruct g. unfold gl_calls. simpl. by rewrite app_nil_r. Qed.

Lemma gl_calls_app cs1 cs2 (g : GL) :
  gl_calls cs2 (gl_calls cs1 g) = gl_calls (cs1 ++ cs2) g.
Proof. unfold gl_calls. simpl. by rewrite app_assoc. Qed.

Lemma gl_call_calls c (g : GL) : gl_call c g = gl_calls [c] g.
Proof. reflexivity. Qed.

Lemma emits_refl e : emits e e [].
Proof. unfold emits. by rewrite app_nil_r. Qed.

Lemma emits_trans e1 e2 e3 cs1 cs2 :
  emits e1 e2 cs1 -> emits e2 e3 cs2 -> emits e1 e3 (cs1 ++ cs2).
Proof. unfold emits. intros H1 H2. by rewrite H2, H1, app_assoc. Qed.

Lemma emits_inj e e' cs1 cs2 : emits e e' cs1 -> emits e e' cs2 -> cs1 = cs2.
Proof. unfold emits. intros H1 H2. rewrite H1 in H2. by apply app_inv_head in H2. Qed.

Lemma strict_ne_false {A} `{EqDecision A} (a b : A) : strict_ne a b = false -> a = b.
Proof.
  unfold strict_ne. intros Hd. apply bool_decide_eq_false in Hd.
  by destruct (decide (a = b)).
Qed.

Lemma strict_ne_true {A} `{EqDecision A} (a b : A) : a ≠ b -> strict_ne a b = true.
Proof. intros Hne. unfold strict_ne. by apply bool_decide_eq_true. Qed.

Lemma strict_ne_refl {A} `{EqDecision A} (a : A) : strict_ne a a = false.
Proof. unfold strict_ne. by apply bool_decide_eq_false; intros []. Qed.

(** ** Buffer binding, as one assignment each

    Every binding method is rewritten as the writes it amounts to: the
    driver calls it issues and the cache entries it leaves. *)

(** Does [_bindBuffer] reach the driver? *)
Definition rebinds (buffer : option Z) (target : Z) e : bool :=
  _vaoRecordInProgress e || strict_ne (_currentBoundBuffer e !! target) (Some buffer).

Definition bind_calls (buffer : option Z) (target : Z) e : list GLCall :=
  if rebinds buffer target e then [bindBuffer target (resourceOf e buffer)] else [].

Lemma _bindBuffer_nf buffer target e :
  _bindBuffer buffer target e =
  set_currentBoundBuffer (<[target := buffer]> (_currentBoundBuffer e))
    (set_gl (gl_calls (bind_calls buffer target e) (_gl e)) e).
Proof.
  unfold _bindBuffer, bind_calls, rebinds.
  destruct (_vaoRecordInProgress e || strict_ne _ _) eqn:Hc; [reflexivity|].
  apply orb_false_iff in Hc as [_ Hc]. apply strict_ne_false in Hc.
  rewrite gl_calls_nil, (insert_id _ _ _ Hc). by destruct e.
Qed.

Definition vao_calls e : list GLCall :=
  if truthy_slot (_cachedVertexArrayObject e) then [bindVertexArray None] else [].
Definition vao_after e : option (option Z) :=
  if truthy_slot (_cachedVertexArrayObject e) then Some None
  else _cachedVertexArrayObject e.

Lemma _unbindVertexArrayObject_nf e :
  _unbindVertexArrayObject e =
  set_cachedVertexArrayObject (vao_after e) (set_gl (gl_calls (vao_calls e) (_gl e)) e).
Proof.
  unfold _unbindVertexArrayObject, vao_calls, vao_after.
  destruct (truthy_slot _); simpl; [by destruct e|].
  rewrite gl_calls_nil. by destruct e.
Qed.

(** The guarded [_unbindVertexArrayObject] that opens both bind methods. *)
Definition unbind_calls e : list GLCall :=
  if _vaoRecordInProgress e then [] else vao_calls e.
Definition unbind_after e : option (option Z) :=
  if _vaoRecordInProgress e then _cachedVertexArrayObject e else vao_after e.

Lemma bindTarget_nf buffer target e :
  _bindBuffer buffer target
    (if negb (_vaoRecordInProgress e) then _unbindVertexArrayObject e else e) =
  set_currentBoundBuffer (<[target := buffer]> (_currentBoundBuffer e))
    (set_cachedVertexArrayObject (unbind_after e)
       (set_gl (gl_calls (unbind_calls e ++ bind_calls buffer target e) (_gl e)) e)).
Proof.
  unfold unbind_calls, unbind_after.
  destruct (_vaoRecordInProgress e) eqn:Hv; simpl.
  - rewrite _bindBuffer_nf. by destruct e.
  - rewrite _bindBuffer_nf, _unbindVertexArrayObject_nf. cbn.
    rewrite gl_calls_app. reflexivity.
Qed.

Lemma bindArrayBuffer_nf buffer e :
  bindArrayBuffer buffer e =
  set_currentBoundBuffer (<[gl.ARRAY_BUFFER := buffer]> (_currentBoundBuffer e))
    (set_cachedVertexArrayObject (unbind_after e)
       (set_gl (gl_calls (unbind_calls e ++ bind_calls buffer gl.ARRAY_BUFFER e) (_gl e)) e)).
Proof. apply bindTarget_nf. Qed.

Lemma bindIndexBuffer_nf buffer e :
  bindIndexBuffer buffer e =
  set_currentBoundBuffer (<[gl.ELEMENT_ARRAY_BUFFER := buffer]> (_currentBoundBuffer e))
    (set_cachedVertexArrayObject (unbind_after e)
       (set_gl
          (gl_calls (unbind_calls e ++ bind_calls buffer gl.ELEMENT_ARRAY_BUFFER e) (_gl e))
          e)).
Proof. apply bindTarget_nf. Qed.

(** Once unbound, the vertex array object stays unbound. *)
Lemma unbind_calls_after e' e :
  _vaoRecordInProgress e' = _vaoRecordInProgress e ->
  _cachedVertexArrayObject e' = unbind_after e ->
  unbind_calls e' = [].
Proof.
  unfold unbind_calls, unbind_after, vao_calls, vao_after. intros -> ->.
  destruct (_vaoRecordInProgress e); [done|].
  by destruct (truthy_slot (_cachedVertexArrayObject e)) eqn:Ht; simpl; [|rewrite Ht].
Qed.

Lemma unbind_after_after e' e :
  _vaoRecordInProgress e' = _vaoRecordInProgress e ->
  _cachedVertexArrayObject e' = unbind_after e ->
  unbind_after e' = unbind_after e.
Proof.
  unfold unbind_after, vao_after. intros -> ->.
  destruct (_vaoRecordInProgress e); [done|].
  by destruct (truthy_slot (_cachedVertexArrayObject e)) eqn:Ht; simpl; [|rewrite Ht].
Qed.

(** ** Index data *)

Lemma needs32Bits_Exists xs : needs32Bits xs = true <-> Exists (fun x => 65535 <= x) xs.
Proof.
  induction xs as [|x xs IH]; simpl.
  - split; [discriminate | by intros ?%Exists_nil].
  - destruct (65535 <=? x) eqn:Hx.
    + split; [|done]. intros _. apply Exists_cons_hd. lia.
    + rewrite IH, Exists_cons. split; [tauto|]. intros [?|?]; [lia|done].
Qed.

Lemma needs32Bits_Forall xs : needs32Bits xs = false <-> Forall (fun x => x < 65535) xs.
Proof.
  induction xs as [|x xs IH]; simpl.
  - split; [constructor | done].
  - destruct (65535 <=? x) eqn:Hx.
    + split; [discriminate|]. intros [? _]%Forall_cons. lia.
    + rewrite IH, Forall_cons. split; [|tauto]. intros ?; split; [lia|done].
Qed.

(** The element width depends on the capabilities alone. *)
Lemma _normalizeIndexData_caps indices e e' :
  _caps e' = _caps e -> _normalizeIndexData indices e' = _normalizeIndexData indices e.
Proof. unfold _normalizeIndexData. by intros ->. Qed.

(** ** Buffer creation *)

Definition payload (data : VertexData) : BufferSource :=
  match data with
  | DataNumbers xs => Float32ArrayOf xs
  | DataBytes bytes => RawData bytes
  | DataSize n => Uint8ArrayOfLength n
  end.

Definition byteCapacity (data : VertexData) : Z :=
  match data with
  | DataNumbers xs => Z.of_nat (length xs) * 4
  | DataBytes bytes => Z.of_nat (length bytes)
  | DataSize n => n
  end.

(** A size is one that [new Uint8Array(size)] accepts. *)
Definition valid_data (data : VertexData) : Prop :=
  match data with DataSize n => 0 <= n <= typedArray_maxLength X | _ => True end.

(** The engine right after [createBuffer] handed out a handle and the
    wrapping [WebGLDataBuffer] was allocated. *)
Definition allocated e : Engine Ext :=
  snd (new_WebGLDataBuffer X (Some (nextHandle (_gl e)))
         (set_gl {| calls := calls (_gl e) ++ [createBuffer];
                    nextHandle := nextHandle (_gl e) + 1;
                    failAlloc := false |} e)).

Definition createdVertexBuffer (data : VertexData) (usage : Z) e : Engine Ext :=
  let r := nextObject e in
  update_buffer r (DataBuffer_set_references 1)
    (_resetVertexBufferBinding
       (update_buffer r (DataBuffer_set_capacity (byteCapacity data))
          (gl_do (bufferData gl.ARRAY_BUFFER (payload data) usage)
             (bindArrayBuffer (Some r) (allocated e))))).

Lemma _createVertexBuffer_ok data usage e :
  failAlloc (_gl e) = false -> valid_data data ->
  _createVertexBuffer X data usage e = (Return (nextObject e), createdVertexBuffer data usage e).
Proof.
  intros Hf Hd.
  unfold _createVertexBuffer, createdVertexBuffer, allocated, bind, call, run, ret, throw,
    createBuffer_, gl_createBuffer.
  rewrite Hf. cbn.
  destruct data as [xs|bytes|n]; cbn; try reflexivity.
  cbn in Hd. destruct (n <? 0) eqn:Hn; [lia|].
  destruct (typedArray_maxLength X <? n) eqn:Hm; [lia|]. reflexivity.
Qed.

Lemma _createVertexBuffer_inv data usage e r e' :
  _createVertexBuffer X data usage e = (Return r, e') ->
  failAlloc (_gl e) = false /\ valid_data data
  /\ r = nextObject e /\ e' = createdVertexBuffer data usage e.
Proof.
  intros Hrun.
  destruct (failAlloc (_gl e)) eqn:Hf.
  { revert Hrun.
    unfold _createVertexBuffer, bind, call, throw, createBuffer_, gl_createBuffer.
    rewrite Hf. cbn. discriminate. }
  assert (valid_data data) as Hd.
  { destruct data as [xs|bytes|n]; cbn; try done.
    destruct ((n <? 0) || (typedArray_maxLength X <? n)) eqn:Hn;
      [|apply orb_false_iff in Hn; lia].
    revert Hrun.
    unfold _createVertexBuffer, bind, call, run, throw, createBuffer_, gl_createBuffer.
    rewrite Hf. cbn. rewrite Hn. cbn. discriminate. }
  rewrite (_createVertexBuffer_ok _ _ _ Hf Hd) in Hrun.
  by injection Hrun as <- <-.
Qed.

Definition createdIndexBuffer (indices : IndicesArray) (updatable : option bool) e
  : Engine Ext :=
  let r := nextObject e in
  let data := _normalizeIndexData indices e in
  update_buffer r (DataBuffer_set_is32Bits (bool_decide (BYTES_PER_ELEMENT data = Some 4)))
    (update_buffer r (DataBuffer_set_references 1)
       (_resetIndexBufferBinding
          (gl_do (bufferData gl.ELEMENT_ARRAY_BUFFER (IndexData data)
                    (if truthy_bool updatable then gl.DYNAMIC_DRAW else gl.STATIC_DRAW))
             (bindIndexBuffer (Some r) (allocated e))))).

Lemma _caps_bindIndexBuffer_allocated r e :
  _caps (bindIndexBuffer r (allocated e)) = _caps e.
Proof. rewrite bindIndexBuffer_nf. reflexivity. Qed.

Lemma createIndexBuffer_ok indices updatable e :
  failAlloc (_gl e) = false ->
  createIndexBuffer X indices updatable e
  = (Return (nextObject e), createdIndexBuffer indices updatable e).
Proof.
  intros Hf.
  unfold createIndexBuffer, createdIndexBuffer, allocated, bind, call, run, ret, throw, get,
    createBuffer_, gl_createBuffer.
  rewrite Hf. cbn.
  rewrite (_normalizeIndexData_caps indices e); [reflexivity|].
  rewrite bindIndexBuffer_nf. reflexivity.
Qed.

Lemma createIndexBuffer_inv indices updatable e r e' :
  createIndexBuffer X indices updatable e = (Return r, e') ->
  failAlloc (_gl e) = false
  /\ r = nextObject e /\ e' = createdIndexBuffer indices updatable e.
Proof.
  intros Hrun.
  destruct (failAlloc (_gl e)) eqn:Hf.
  { revert Hrun.
    unfold createIndexBuffer, bind, call, throw, createBuffer_, gl_createBuffer.
    rewrite Hf. cbn. discriminate. }
  rewrite (createIndexBuffer_ok _ _ _ Hf) in Hrun.
  by injection Hrun as <- <-.
Qed.

(** When the driver declines, both factories throw. *)
Lemma create_throws_on_null data usage indices updatable e :
  failAlloc (_gl e) = true ->
  fst (_createVertexBuffer X data usage e) = Throw (Error "Unable to create vertex buffer")
  /\ fst (createIndexBuffer X indices updatable e)
     = Throw (Error "Unable to create index buffer").
Proof.
  intros Hf.
  unfold _createVertexBuffer, createIndexBuffer, bind, call, throw, createBuffer_,
    gl_createBuffer.
  rewrite Hf. by cbn.
Qed.

(** The store entry of a buffer that a factory just returned. *)
Lemma createdVertexBuffer_store data usage e :
  buffers (createdVertexBuffer data usage e) !! nextObject e
  = Some {| references := 1; capacity := byteCapacity data;
            is32Bits := is32Bits (WebGLDataBuffer_fields X);
            underlyingResource := Some (nextHandle (_gl e)) |}.
Proof.
  unfold createdVertexBuffer, update_buffer, _resetVertexBufferBinding. cbn.
  rewrite !bindArrayBuffer_nf. cbn.
  rewrite lookup_alter_eq. cbn. rewrite lookup_alter_eq, lookup_insert_eq. reflexivity.
Qed.

Lemma createdIndexBuffer_store indices updatable e :
  buffers (createdIndexBuffer indices updatable e) !! nextObject e
  = Some {| references := 1; capacity := capacity (WebGLDataBuffer_fields X);
            is32Bits := bool_decide
                          (BYTES_PER_ELEMENT (_normalizeIndexData indices e) = Some 4);
            underlyingResource := Some (nextHandle (_gl e)) |}.
Proof.
  unfold createdIndexBuffer, update_buffer, _resetIndexBufferBinding. cbn.
  rewrite !bindIndexBuffer_nf. cbn.
  rewrite lookup_alter_eq. cbn. rewrite lookup_alter_eq, lookup_insert_eq. reflexivity.
Qed.

(** What one release does to any buffer of the store. *)
Lemma _releaseBuffer_spec buffer d e :
  buffers e !! buffer = Some d ->
  fst (_releaseBuffer buffer e) = bool_decide (references d - 1 = 0)
  /\ buffers (snd (_releaseBuffer buffer e)) !! buffer
     = Some (DataBuffer_set_references (references d - 1) d)
  /\ emits e (snd (_releaseBuffer buffer e))
       (if bool_decide (references d - 1 = 0)
        then [deleteBuffer (underlyingResource d)] else []).
Proof.
  intros Hd. unfold _releaseBuffer, references_of, update_buffer, _deleteBuffer. cbn.
  rewrite lookup_alter_eq, Hd. cbn.
  destruct (decide (references d - 1 = 0)) as [Hz|Hz].
  - rewrite !bool_decide_eq_true_2 by (done || by rewrite Hz). cbn.
    rewrite lookup_alter_eq, Hd. by repeat split.
  - rewrite !bool_decide_eq_false_2 by (done || by intros [= ?]). cbn.
    rewrite lookup_alter_eq, Hd. repeat split. unfold emits. cbn. by rewrite app_nil_r.
Qed.

Lemma addReference_spec buffer d e :
  buffers e !! buffer = Some d ->
  buffers (addReference buffer e) !! buffer
  = Some (DataBuffer_set_references (references d + 1) d)
  /\ emits e (addReference buffer e) [].
Proof.
  intros Hd. unfold addReference, update_buffer. cbn.
  rewrite lookup_alter_eq, Hd. split; [done|]. unfold emits. cbn. by rewrite app_nil_r.
Qed.

(** The buffer [r], holding the driver allocation [vbo], came out of one of
    the two factories, which left the engine in [e1]. *)
Definition created_by e (r : Z) (vbo : Z) (e1 : Engine Ext) : Prop :=
  vbo = nextHandle (_gl e)
  /\ ((exists data usage, _createVertexBuffer X data usage e = (Return r, e1))
      \/ (exists indices updatable, createIndexBuffer X indices updatable e = (Return r, e1))).

Lemma created_by_store e r vbo e1 :
  created_by e r vbo e1 ->
  exists d, buffers e1 !! r = Some d /\ references d = 1 /\ underlyingResource d = Some vbo.
Proof.
  intros [-> [(data & usage & Hc)|(indices & updatable & Hc)]].
  - apply _createVertexBuffer_inv in Hc as (_ & _ & -> & ->).
    eexists. split; [apply createdVertexBuffer_store|done].
  - apply createIndexBuffer_inv in Hc as (_ & -> & ->).
    eexists. split; [apply createdIndexBuffer_store|done].
Qed.

(** C5. A buffer that a factory returns has reference count 1.  A release
    decrements the count and deletes the driver allocation exactly when the
    count has become 0.  So one release of a fresh buffer frees it; with a
    second consumer attached (count 2) the first release frees nothing and
    the second one frees the allocation. *)
Theorem refcounted_buffer_release e r vbo e1 :
  created_by e r vbo e1 ->
  references_of e1 r = Some 1
  /\ (forall e0 b d, buffers e0 !! b = Some d ->
        fst (_releaseBuffer b e0) = bool_decide (references d - 1 = 0)
        /\ references_of (snd (_releaseBuffer b e0)) b = Some (references d - 1)
        /\ emits e0 (snd (_releaseBuffer b e0))
             (if bool_decide (references d - 1 = 0)
              then [deleteBuffer (underlyingResource d)] else []))
  /\ (fst (_releaseBuffer r e1) = true
      /\ emits e1 (snd (_releaseBuffer r e1)) [deleteBuffer (Some vbo)])
  /\ (let e2 := addReference r e1 in
      let e3 := snd (_releaseBuffer r e2) in
      let e4 := snd (_releaseBuffer r e3) in
      references_of e2 r = Some 2
      /\ fst (_releaseBuffer r e2) = false /\ emits e2 e3 []
      /\ references_of e3 r = Some 1
      /\ fst (_releaseBuffer r e3) = true /\ emits e3 e4 [deleteBuffer (Some vbo)]).
Proof.
  intros Hc. destruct (created_by_store _ _ _ _ Hc) as (d & Hd & Hr & Hu).
  split; [by unfold references_of; rewrite Hd; cbn; rewrite Hr|].
  split.
  { intros e0 b d0 Hd0. destruct (_releaseBuffer_spec b d0 e0 Hd0) as (H1 & H2 & H3).
    split; [done|]. split; [|done]. unfold references_of. by rewrite H2. }
  split.
  { destruct (_releaseBuffer_spec r d e1 Hd) as (H1 & _ & H3).
    rewrite Hr in H1, H3. cbn in H1, H3. by rewrite Hu in H3. }
  cbn zeta.
  destruct (addReference_spec r d e1 Hd) as (Ha & _).
  set (d2 := DataBuffer_set_references (references d + 1) d) in *.
  destruct (_releaseBuffer_spec r d2 _ Ha) as (H1 & H2 & H3).
  set (d3 := DataBuffer_set_references (references d2 - 1) d2) in *.
  destruct (_releaseBuffer_spec r d3 _ H2) as (H4 & _ & H6).
  assert (references d2 = 2) as Hr2 by (subst d2; cbn; lia).
  assert (references d3 = 1) as Hr3 by (subst d3; cbn; lia).
  assert (underlyingResource d3 = Some vbo) as Hu3 by done.
  rewrite Hr2 in H1, H3. rewrite Hr3 in H4, H6. rewrite Hu3 in H6.
  unfold references_of. rewrite Ha, H2. cbn [fmap option_fmap option_map].
  rewrite Hr2, Hr3. by repeat split.
Qed.


(** ** What a bind method leaves in each field *)

(** The shape shared by [bindArrayBuffer] and [bindIndexBuffer]. *)
Definition bindTarget (target : Z) (buffer : option Z) e : Engine Ext :=
  _bindBuffer buffer target
    (if negb (_vaoRecordInProgress e) then _unbindVertexArrayObject e else e).

Lemma bindArrayBuffer_bindTarget buffer e :
  bindArrayBuffer buffer e = bindTarget gl.ARRAY_BUFFER buffer e.
Proof. reflexivity. Qed.

Lemma bindIndexBuffer_bindTarget buffer e :
  bindIndexBuffer buffer e = bindTarget gl.ELEMENT_ARRAY_BUFFER buffer e.
Proof. reflexivity. Qed.

Lemma bindTarget_emits target buffer e :
  emits e (bindTarget target buffer e) (unbind_calls e ++ bind_calls buffer target e).
Proof. unfold bindTarget. rewrite bindTarget_nf. reflexivity. Qed.

Lemma bindTarget_bound target buffer e :
  _currentBoundBuffer (bindTarget target buffer e)
  = <[target := buffer]> (_currentBoundBuffer e).
Proof. unfold bindTarget. rewrite bindTarget_nf. reflexivity. Qed.

Lemma bindTarget_vao target buffer e :
  _cachedVertexArrayObject (bindTarget target buffer e) = unbind_after e.
Proof. unfold bindTarget. rewrite bindTarget_nf. reflexivity. Qed.

Lemma bindTarget_recording target buffer e :
  _vaoRecordInProgress (bindTarget target buffer e) = _vaoRecordInProgress e.
Proof. unfold bindTarget. rewrite bindTarget_nf. reflexivity. Qed.

Lemma bindTarget_buffers target buffer e :
  buffers (bindTarget target buffer e) = buffers e.
Proof. unfold bindTarget. rewrite bindTarget_nf. reflexivity. Qed.

(** Binding the buffer a target already holds, with the vertex array object
    already unbound, reaches the driver only while recording. *)
Lemma bind_calls_fresh target r e :
  _currentBoundBuffer e !! target <> Some (Some r) ->
  bind_calls (Some r) target e = [bindBuffer target (resourceOf e (Some r))].
Proof.
  intros Hne. unfold bind_calls, rebinds. by rewrite (strict_ne_true _ _ Hne), orb_true_r.
Qed.

Lemma bind_calls_null target r e :
  _currentBoundBuffer e !! target = Some (Some r) ->
  bind_calls None target e = [bindBuffer target None].
Proof.
  intros Hb. unfold bind_calls, rebinds. rewrite Hb.
  by rewrite (strict_ne_true (Some (Some r)) (Some None)), orb_true_r.
Qed.

(** The sequence both factories run once the buffer object exists: bind
    it, upload, attend to the buffer object, bind null. *)
Lemma bind_upload_unbind target r upload (touch : Engine Ext -> Engine Ext) e :
  _currentBoundBuffer e !! target <> Some (Some r) ->
  (forall e0, touch e0 = set_buffers (buffers (touch e0)) e0) ->
  let e1 := bindTarget target (Some r) e in
  let e2 := touch (gl_do upload e1) in
  let e3 := bindTarget target None e2 in
  emits e e3
    (unbind_calls e
     ++ [bindBuffer target (resourceOf e (Some r)); upload; bindBuffer target None])
  /\ _currentBoundBuffer e3 !! target = Some None.
Proof.
  intros Hfresh Htouch. cbn zeta.
  set (e1 := bindTarget target (Some r) e).
  set (e2 := touch (gl_do upload e1)).
  assert (_vaoRecordInProgress e2 = _vaoRecordInProgress e) as Hrec.
  { subst e2. rewrite Htouch. cbn. apply bindTarget_recording. }
  assert (_cachedVertexArrayObject e2 = unbind_after e) as Hvao.
  { subst e2. rewrite Htouch. cbn. apply bindTarget_vao. }
  assert (_currentBoundBuffer e2 !! target = Some (Some r)) as Hbound.
  { subst e2. rewrite Htouch. cbn. subst e1. by rewrite bindTarget_bound, lookup_insert_eq. }
  split; [|by rewrite bindTarget_bound, lookup_insert_eq].
  pose proof (bindTarget_emits target (Some r) e) as H1.
  pose proof (bindTarget_emits target None e2) as H3.
  rewrite (bind_calls_fresh _ _ _ Hfresh) in H1.
  rewrite (bind_calls_null _ _ _ Hbound), (unbind_calls_after _ _ Hrec Hvao) in H3.
  assert (emits e1 e2 [upload]) as H2.
  { subst e2. unfold emits. rewrite Htouch. reflexivity. }
  fold e1 in H1.
  pose proof (emits_trans _ _ _ _ _ (emits_trans _ _ _ _ _ H1 H2) H3) as H.
  by rewrite <- !app_assoc in H.
Qed.

Lemma allocated_emits e : emits e (allocated e) [createBuffer].
Proof. reflexivity. Qed.

Lemma allocated_resource e :
  resourceOf (allocated e) (Some (nextObject e)) = Some (nextHandle (_gl e)).
Proof.
  unfold resourceOf, allocated, new_WebGLDataBuffer. cbn. by rewrite lookup_insert_eq.
Qed.

Lemma update_buffer_touch r f e : update_buffer r f e = set_buffers (buffers (update_buffer r f e)) e.
Proof. reflexivity. Qed.

(** The driver calls of a vertex-buffer creation. *)
Lemma createdVertexBuffer_emits data usage e :
  (forall t, _currentBoundBuffer e !! t <> Some (Some (nextObject e))) ->
  emits e (createdVertexBuffer data usage e)
    ([createBuffer] ++ unbind_calls e
     ++ [bindBuffer gl.ARRAY_BUFFER (Some (nextHandle (_gl e)));
         bufferData gl.ARRAY_BUFFER (payload data) usage;
         bindBuffer gl.ARRAY_BUFFER None])
  /\ _currentBoundBuffer (createdVertexBuffer data usage e) !! gl.ARRAY_BUFFER = Some None.
Proof.
  intros Hfresh.
  destruct (bind_upload_unbind gl.ARRAY_BUFFER (nextObject e)
              (bufferData gl.ARRAY_BUFFER (payload data) usage)
              (update_buffer (nextObject e) (DataBuffer_set_capacity (byteCapacity data)))
              (allocated e) (Hfresh _) (update_buffer_touch _ _)) as [Hem Hb].
  rewrite allocated_resource in Hem.
  split; [|exact Hb].
  exact (emits_trans _ _ _ _ _ (allocated_emits e) Hem).
Qed.

Lemma createdIndexBuffer_emits indices updatable e :
  (forall t, _currentBoundBuffer e !! t <> Some (Some (nextObject e))) ->
  emits e (createdIndexBuffer indices updatable e)
    ([createBuffer] ++ unbind_calls e
     ++ [bindBuffer gl.ELEMENT_ARRAY_BUFFER (Some (nextHandle (_gl e)));
         bufferData gl.ELEMENT_ARRAY_BUFFER (IndexData (_normalizeIndexData indices e))
           (if truthy_bool updatable then gl.DYNAMIC_DRAW else gl.STATIC_DRAW);
         bindBuffer gl.ELEMENT_ARRAY_BUFFER None])
  /\ _currentBoundBuffer (createdIndexBuffer indices updatable e) !! gl.ELEMENT_ARRAY_BUFFER
     = Some None
  /\ _cachedIndexBuffer (createdIndexBuffer indices updatable e) = Some None.
Proof.
  intros Hfresh.
  destruct (bind_upload_unbind gl.ELEMENT_ARRAY_BUFFER (nextObject e)
              (bufferData gl.ELEMENT_ARRAY_BUFFER
                 (IndexData (_normalizeIndexData indices e))
                 (if truthy_bool updatable then gl.DYNAMIC_DRAW else gl.STATIC_DRAW))
              (fun e0 => e0)
              (allocated e) (Hfresh _)) as [Hem Hb].
  { intros e0. by destruct e0. }
  rewrite allocated_resource in Hem.
  split; [|split; [exact Hb|reflexivity]].
  exact (emits_trans _ _ _ _ _ (allocated_emits e) Hem).
Qed.

(** Whatever was bound before, the creation hands the normalized data to
    the driver. *)
Lemma createdIndexBuffer_upload indices updatable e :
  exists cs1 cs2,
    emits e (createdIndexBuffer indices updatable e)
      (cs1 ++ bufferData gl.ELEMENT_ARRAY_BUFFER (IndexData (_normalizeIndexData indices e))
                (if truthy_bool updatable then gl.DYNAMIC_DRAW else gl.STATIC_DRAW)
              :: cs2).
Proof.
  pose proof (allocated_emits e) as H0.
  pose proof (bindTarget_emits gl.ELEMENT_ARRAY_BUFFER (Some (nextObject e)) (allocated e))
    as H1.
  set (e1 := bindTarget gl.ELEMENT_ARRAY_BUFFER (Some (nextObject e)) (allocated e)) in *.
  set (upload := bufferData gl.ELEMENT_ARRAY_BUFFER
                   (IndexData (_normalizeIndexData indices e))
                   (if truthy_bool updatable then gl.DYNAMIC_DRAW else gl.STATIC_DRAW)).
  pose proof (bindTarget_emits gl.ELEMENT_ARRAY_BUFFER None (gl_do upload e1)) as H3.
  assert (emits e1 (gl_do upload e1) [upload]) as H2 by reflexivity.
  pose proof (emits_trans _ _ _ _ _ (emits_trans _ _ _ _ _ (emits_trans _ _ _ _ _ H0 H1) H2)
                H3) as H.
  exists ([createBuffer] ++ unbind_calls (allocated e)
          ++ bind_calls (Some (nextObject e)) gl.ELEMENT_ARRAY_BUFFER (allocated e)),
    (unbind_calls (gl_do upload e1)
     ++ bind_calls None gl.ELEMENT_ARRAY_BUFFER (gl_do upload e1)).
  unfold emits in *.
  change (calls (_gl (createdIndexBuffer indices updatable e)))
    with (calls (_gl (bindTarget gl.ELEMENT_ARRAY_BUFFER None (gl_do upload e1)))).
  rewrite H, <- !app_assoc. reflexivity.
Qed.

(** C7. Creating a vertex or an index buffer binds the new buffer through
    the state cache, uploads the data and unbinds again.  When the driver
    hands out a buffer (and, for a vertex buffer given as a size, the size
    is one a typed array can have) the factory returns; and when it
    returns, the driver has seen bind, upload, bind-null on the buffer's
    target and the cached binding of that target is null, not the new
    buffer.  (The new object being new, no cache entry refers to it
    beforehand.) *)
Theorem creation_binds_uploads_unbinds e :
  (forall t, _currentBoundBuffer e !! t <> Some (Some (nextObject e))) ->
  (forall data usage,
     (failAlloc (_gl e) = false -> valid_data data ->
      returns (_createVertexBuffer X data usage) e)
     /\ forall r e',
         _createVertexBuffer X data usage e = (Return r, e') ->
         emits e e'
           ([createBuffer] ++ unbind_calls e
            ++ [bindBuffer gl.ARRAY_BUFFER (Some (nextHandle (_gl e)));
                bufferData gl.ARRAY_BUFFER (payload data) usage;
                bindBuffer gl.ARRAY_BUFFER None])
         /\ _currentBoundBuffer e' !! gl.ARRAY_BUFFER = Some None
         /\ _currentBoundBuffer e' !! gl.ARRAY_BUFFER <> Some (Some r))
  /\ (forall indices updatable,
     (failAlloc (_gl e) = false -> returns (createIndexBuffer X indices updatable) e)
     /\ forall r e',
         createIndexBuffer X indices updatable e = (Return r, e') ->
         emits e e'
           ([createBuffer] ++ unbind_calls e
            ++ [bindBuffer gl.ELEMENT_ARRAY_BUFFER (Some (nextHandle (_gl e)));
                bufferData gl.ELEMENT_ARRAY_BUFFER (IndexData (_normalizeIndexData indices e))
                  (if truthy_bool updatable then gl.DYNAMIC_DRAW else gl.STATIC_DRAW);
                bindBuffer gl.ELEMENT_ARRAY_BUFFER None])
         /\ _currentBoundBuffer e' !! gl.ELEMENT_ARRAY_BUFFER = Some None
         /\ _currentBoundBuffer e' !! gl.ELEMENT_ARRAY_BUFFER <> Some (Some r)
         /\ _cachedIndexBuffer e' = Some None).
Proof.
  intros Hfresh. split.
  - intros data usage. split.
    + intros Hf Hd. exists (nextObject e). by rewrite (_createVertexBuffer_ok _ _ _ Hf Hd).
    + intros r e' Hc. apply _createVertexBuffer_inv in Hc as (_ & _ & -> & ->).
      destruct (createdVertexBuffer_emits data usage e Hfresh) as [Hem Hb].
      split; [done|]. rewrite Hb. by split.
  - intros indices updatable. split.
    + intros Hf. exists (nextObject e). by rewrite (createIndexBuffer_ok _ _ _ Hf).
    + intros r e' Hc. apply createIndexBuffer_inv in Hc as (_ & -> & ->).
      destruct (createdIndexBuffer_emits indices updatable e Hfresh) as (Hem & Hb & Hi).
      split; [done|]. rewrite Hb. by repeat split.
Qed.

Definition from_numbers (indices : IndicesArray) : Prop :=
  match indices with NumberArray _ | Int32Array _ => True | _ => False end.

(** C3.  For an index list given as [number[]] or
    [Int32Array]: with the 32-bit index capability, the elements are
    16-bit when every value is below 65535 and 32-bit as soon as one value
    is 65535 or more; without the capability they are always 16-bit, every
    value being reduced modulo 65536 and no error raised.  The buffer
    that [createIndexBuffer] returns records that width and the driver is
    handed exactly that data. *)
Theorem index_width_selection indices e :
  from_numbers indices ->
  let xs := elements indices in
  let data := _normalizeIndexData indices e in
  (uintIndices (_caps e) = true -> Forall (fun x => x < 65535) xs ->
     data = Uint16Array (map (fun x => x mod 65536) xs))
  /\ (uintIndices (_caps e) = true -> Exists (fun x => 65535 <= x) xs ->
     data = Uint32Array (map (fun x => x mod 4294967296) xs))
  /\ (uintIndices (_caps e) = false ->
     data = Uint16Array (map (fun x => x mod 65536) xs))
  /\ (forall updatable r e',
     createIndexBuffer X indices updatable e = (Return r, e') ->
     is32Bits <$> buffers e' !! r = Some (bool_decide (BYTES_PER_ELEMENT data = Some 4))
     /\ exists cs1 cs2,
         emits e e'
           (cs1 ++ bufferData gl.ELEMENT_ARRAY_BUFFER (IndexData data)
                     (if truthy_bool updatable then gl.DYNAMIC_DRAW else gl.STATIC_DRAW)
                   :: cs2)).
Proof.
  intros Hn. cbn zeta.
  assert (bool_decide (BYTES_PER_ELEMENT indices = Some 2) = false) as Hb
    by (by destruct indices).
  split; [|split; [|split]].
  - intros Hu Hall. apply needs32Bits_Forall in Hall.
    unfold _normalizeIndexData. rewrite Hb, Hu. destruct indices; try done; by rewrite Hall.
  - intros Hu Hex. apply needs32Bits_Exists in Hex.
    unfold _normalizeIndexData. rewrite Hb, Hu. destruct indices; try done; by rewrite Hex.
  - intros Hu. unfold _normalizeIndexData. by rewrite Hb, Hu.
  - intros updatable r e' Hc. apply createIndexBuffer_inv in Hc as (_ & -> & ->).
    split; [by rewrite createdIndexBuffer_store|].
    apply createdIndexBuffer_upload.
Qed.

(** ** Texture binding *)

Definition activate_calls e : list GLCall :=
  if negb (_currentTextureChannel e =? _activeChannel e)
  then [activeTexture (gl.TEXTURE0 + _activeChannel e)] else [].

Lemma _activateCurrentTexture_nf e :
  _activateCurrentTexture e =
  set_currentTextureChannel (_activeChannel e)
    (set_gl (gl_calls (activate_calls e) (_gl e)) e).
Proof.
  unfold _activateCurrentTexture, activate_calls.
  destruct (_currentTextureChannel e =? _activeChannel e) eqn:Hc; cbn; [|reflexivity].
  apply Z.eqb_eq in Hc. rewrite gl_calls_nil, <- Hc. by destruct e.
Qed.

Definition sampler_calls (sourceSlot destination : Z) e : list GLCall :=
  match _boundUniforms e !! sourceSlot with
  | None => []
  | Some uniform =>
      if bool_decide (mjoin (uniforms e !! uniform) = Some destination) then []
      else [uniform1i uniform destination]
  end.

Lemma _bindSamplerUniformToChannel_spec s d e :
  let e' := _bindSamplerUniformToChannel s d e in
  emits e e' (sampler_calls s d e)
  /\ _boundTexturesCache e' = _boundTexturesCache e
  /\ _activeChannel e' = _activeChannel e
  /\ _currentTextureChannel e' = _currentTextureChannel e
  /\ textures e' = textures e.
Proof.
  unfold _bindSamplerUniformToChannel, sampler_calls. cbn zeta.
  destruct (_boundUniforms e !! s) as [u|]; [|by split; [apply emits_refl|]].
  destruct (bool_decide _); [by split; [apply emits_refl|]|].
  by repeat split.
Qed.

Definition sampler_uniforms (sourceSlot destination : Z) e : gmap Z (option Z) :=
  match _boundUniforms e !! sourceSlot with
  | None => uniforms e
  | Some uniform =>
      if bool_decide (mjoin (uniforms e !! uniform) = Some destination) then uniforms e
      else <[uniform := Some destination]> (uniforms e)
  end.

Lemma set_uniforms_same e : set_uniforms (uniforms e) e = e.
Proof. by destruct e. Qed.

Lemma _bindSamplerUniformToChannel_nf s d e :
  _bindSamplerUniformToChannel s d e =
  set_uniforms (sampler_uniforms s d e) (set_gl (gl_calls (sampler_calls s d e) (_gl e)) e).
Proof.
  unfold _bindSamplerUniformToChannel, sampler_calls, sampler_uniforms.
  destruct (_boundUniforms e !! s) as [u|]; [|by rewrite gl_calls_nil; destruct e].
  destruct (bool_decide _); [by rewrite gl_calls_nil; destruct e|done].
Qed.

Ltac monad := unfold bind, run, get, ret, throw, call in *; cbn in *.

Ltac texture_paths :=
  repeat (case_match; simplify_eq; cbn in * );
  rewrite ?_activateCurrentTexture_nf, ?_bindSamplerUniformToChannel_nf; cbn;
  repeat match goal with
         | H : strict_ne _ _ = false |- _ => apply strict_ne_false in H; cbn in H
         | H : strict_ne _ _ || false = _ |- _ => rewrite orb_false_r in H
         | H : _ && _ = true |- _ => apply andb_true_iff in H as [? ?]
         | H : negb _ = true |- _ => apply negb_true_iff in H
         end.

(** What a returning [_bindTextureDirectly] leaves behind. *)
Lemma _bindTextureDirectly_post target texture u e w1 e1 :
  _bindTextureDirectly target texture u false e = (Return w1, e1) ->
  _boundTexturesCache e1 !! _activeChannel e1 = Some texture
  /\ (forall r, texture = Some r -> is_Some (textures e1 !! r))
  /\ (u = true -> _currentTextureChannel e1 = _activeChannel e1)
  /\ (u = true -> forall r t1, texture = Some r -> textures e1 !! r = Some t1 ->
        (-1 <? _associatedChannel t1) = true -> _associatedChannel t1 = _activeChannel e1).
Proof.
  unfold _bindTextureDirectly, update_texture. destruct u; monad.
  all: intros Hrun; texture_paths.
  all: repeat split; intros; simplify_eq; cbn in *;
    rewrite ?lookup_insert_eq, ?lookup_alter_eq; eauto.
  all: repeat match goal with
              | H : alter _ _ _ !! _ = Some _ |- _ => rewrite lookup_alter_eq in H
              | H : textures _ !! _ = Some _ |- _ => rewrite H in *; clear H
              end; cbn in *; simplify_eq; cbn; eauto; congruence.
Qed.

(** A bind of the texture that is already on the active channel. *)
Lemma _bindTextureDirectly_idle target texture u e :
  _boundTexturesCache e !! _activeChannel e = Some texture ->
  (forall r, texture = Some r -> is_Some (textures e !! r)) ->
  (u = true -> _currentTextureChannel e = _activeChannel e) ->
  (u = true -> forall r t1, texture = Some r -> textures e !! r = Some t1 ->
        (-1 <? _associatedChannel t1) = true -> _associatedChannel t1 = _activeChannel e) ->
  exists w2 e2,
    _bindTextureDirectly target texture u false e = (Return w2, e2)
    /\ w2 = u
    /\ _boundTexturesCache e2 = _boundTexturesCache e
    /\ (emits e e2 [] \/ exists location channel, emits e e2 [uniform1i location channel]).
Proof.
  intros Hb Hs Hc Ha.
  unfold _bindTextureDirectly, update_texture. destruct u; monad.
  - specialize (Hc eq_refl). specialize (Ha eq_refl).
    destruct texture as [r|]; cbn.
    + destruct (Hs r eq_refl) as [t Ht]. rewrite Ht. cbn.
      specialize (Ha r t eq_refl Ht).
      destruct (-1 <? _associatedChannel t) eqn:Hr; cbn.
      * rewrite Ha by done. rewrite Hb, strict_ne_refl. cbn.
        rewrite _activateCurrentTexture_nf. cbn.
        unfold activate_calls. cbn. rewrite Hc, Z.eqb_refl. cbn.
        eexists _, _. split; [reflexivity|]. repeat split. left. unfold emits. by cbn.
      * rewrite Hb, strict_ne_refl. cbn.
        rewrite _activateCurrentTexture_nf. unfold activate_calls. rewrite Hc, Z.eqb_refl. cbn.
        eexists _, _. split; [reflexivity|]. repeat split. left. unfold emits. by cbn.
    + rewrite Hb, strict_ne_refl. cbn.
      rewrite _activateCurrentTexture_nf. unfold activate_calls. rewrite Hc, Z.eqb_refl. cbn.
      eexists _, _. split; [reflexivity|]. repeat split. left. unfold emits. by cbn.
  - destruct texture as [r|]; cbn.
    + destruct (Hs r eq_refl) as [t Ht]. rewrite Ht. cbn.
      rewrite Hb, strict_ne_refl. cbn.
      destruct (-1 <? _associatedChannel t) eqn:Hr; cbn.
      * rewrite Ht. rewrite _bindSamplerUniformToChannel_nf.
        eexists _, _. split; [reflexivity|]. repeat split.
        unfold emits. cbn. unfold sampler_calls.
        destruct (_boundUniforms e !! _associatedChannel t) as [l|]; [|by left; rewrite app_nil_r].
        destruct (bool_decide _); [by left; rewrite app_nil_r|]. right. eauto.
      * eexists _, _. split; [reflexivity|]. repeat split. left. apply emits_refl.
    + rewrite Hb, strict_ne_refl. cbn.
      eexists _, _. split; [reflexivity|]. repeat split. left. apply emits_refl.
Qed.

(** How many [bindTexture] calls a run of driver calls holds. *)
Definition is_bindTexture (c : GLCall) : bool :=
  match c with bindTexture _ _ => true | _ => false end.

Definition bindTexture_count (cs : list GLCall) : nat :=
  length (List.filter is_bindTexture cs).

Lemma bindTexture_count_app cs1 cs2 :
  bindTexture_count (cs1 ++ cs2) = (bindTexture_count cs1 + bindTexture_count cs2)%nat.
Proof. unfold bindTexture_count. by rewrite List.filter_app, length_app. Qed.

Lemma bindTexture_count_activate e : bindTexture_count (activate_calls e) = 0%nat.
Proof. unfold activate_calls. by destruct (negb _). Qed.

Lemma bindTexture_count_sampler s d e : bindTexture_count (sampler_calls s d e) = 0%nat.
Proof.
  unfold sampler_calls. destruct (_boundUniforms e !! s); [|done]. by destruct (bool_decide _).
Qed.

(** One call of [_bindTextureDirectly] reaches [bindTexture] at most once. *)
Lemma _bindTextureDirectly_once target texture u e w1 e1 :
  _bindTextureDirectly target texture u false e = (Return w1, e1) ->
  exists cs, emits e e1 cs /\ (bindTexture_count cs <= 1)%nat.
Proof.
  unfold _bindTextureDirectly, update_texture, emits. destruct u; monad.
  all: intros Hrun; texture_paths.
  all: rewrite <- ?app_assoc.
  all: first [ eexists; split; [reflexivity|]
             | exists []; split; [by rewrite app_nil_r|] ].
  all: rewrite ?bindTexture_count_app, ?bindTexture_count_activate,
         ?bindTexture_count_sampler; cbn; lia.
Qed.

(** ** Binding twice *)

Lemma _bindBuffer_twice buffer target e :
  _vaoRecordInProgress e = false ->
  let e1 := _bindBuffer buffer target e in
  _bindBuffer buffer target e1 = e1
  /\ emits e e1
       (if strict_ne (_currentBoundBuffer e !! target) (Some buffer)
        then [bindBuffer target (resourceOf e buffer)] else []).
Proof.
  intros Hv. cbn zeta. split.
  - unfold _bindBuffer at 1. rewrite _bindBuffer_nf. cbn.
    by rewrite Hv, lookup_insert_eq, strict_ne_refl.
  - rewrite _bindBuffer_nf. unfold emits, bind_calls, rebinds. cbn. by rewrite Hv.
Qed.

Lemma _setProgram_twice program e :
  let e1 := _setProgram program e in
  _setProgram program e1 = e1
  /\ emits e e1
       (if strict_ne (_currentProgram e) (Some program) then [useProgram program] else []).
Proof.
  cbn zeta. unfold _setProgram, setProgram_helper.
  destruct (strict_ne (_currentProgram e) (Some program)) eqn:Hne; cbn.
  - by rewrite strict_ne_refl.
  - rewrite Hne. split; [done|apply emits_refl].
Qed.

(** The handle [texture?._hardwareTexture?.underlyingResource ?? null]. *)
Definition hardwareOf e (texture : option Z) : option Z :=
  match texture with
  | Some r => match textures e !! r with Some t => _hardwareTexture t | None => None end
  | None => None
  end.

Lemma filter_bindTexture_activate e : List.filter is_bindTexture (activate_calls e) = [].
Proof. unfold activate_calls. by destruct (negb _). Qed.

Lemma filter_bindTexture_sampler s d e :
  List.filter is_bindTexture (sampler_calls s d e) = [].
Proof.
  unfold sampler_calls. destruct (_boundUniforms e !! s); [|done]. by destruct (bool_decide _).
Qed.

(** The first bind of a texture reaches [bindTexture] exactly when the
    channel it ends on did not hold the texture. *)
Lemma _bindTextureDirectly_first target texture u e w1 e1 :
  _bindTextureDirectly target texture u false e = (Return w1, e1) ->
  exists cs,
    emits e e1 cs
    /\ List.filter is_bindTexture cs
       = if strict_ne (_boundTexturesCache e !! _activeChannel e1) (Some texture)
         then [bindTexture target (hardwareOf e texture)] else [].
Proof.
  unfold _bindTextureDirectly, update_texture, emits, hardwareOf. destruct u; monad.
  all: intros Hrun; texture_paths.
  all: rewrite <- ?app_assoc.
  all: first [ eexists; split; [reflexivity|]
             | exists []; split; [by rewrite app_nil_r|] ].
  all: rewrite ?List.filter_app, ?filter_bindTexture_activate, ?filter_bindTexture_sampler.
  all: cbn; try reflexivity.
  all: exfalso.
  all: repeat match goal with
              | H : context [_activateCurrentTexture] |- _ =>
                  rewrite _activateCurrentTexture_nf in H; cbn in H
              | H : context [_bindSamplerUniformToChannel] |- _ =>
                  rewrite _bindSamplerUniformToChannel_nf in H; cbn in H
              end.
  all: repeat match goal with
              | H : strict_ne _ _ = true |- _ => apply bool_decide_eq_true in H
              end.
  all: congruence.
Qed.

(** C1.  Outside the recording of a vertex array object, a
    second [_bindBuffer] with the same buffer and target finds the cached
    value equal and changes nothing, so the two calls together reach the
    driver once if the buffer was not already cached for that target and
    not at all if it was; while a vertex array object is recorded, each of
    the two calls issues [bindBuffer].  [_setProgram] behaves like
    [_bindBuffer] outside a recording.  For a texture bound twice in a row
    without the force flag, the first call issues [bindTexture] once if
    the channel did not hold the texture and not at all if it did; the
    second call issues neither [activeTexture] nor [bindTexture] and leaves
    the table of bound textures as it was (it may still send the sampler
    uniform of the channel). *)
Theorem bind_twice_binds_once e :
  (forall buffer target,
     _vaoRecordInProgress e = false ->
     let e1 := _bindBuffer buffer target e in
     _bindBuffer buffer target e1 = e1
     /\ emits e e1
          (if strict_ne (_currentBoundBuffer e !! target) (Some buffer)
           then [bindBuffer target (resourceOf e buffer)] else []))
  /\ (forall buffer target,
     _vaoRecordInProgress e = true ->
     let e1 := _bindBuffer buffer target e in
     emits e e1 [bindBuffer target (resourceOf e buffer)]
     /\ emits e1 (_bindBuffer buffer target e1) [bindBuffer target (resourceOf e buffer)])
  /\ (forall program,
     let e1 := _setProgram program e in
     _setProgram program e1 = e1
     /\ emits e e1
          (if strict_ne (_currentProgram e) (Some program)
           then [useProgram program] else []))
  /\ (forall target texture forTextureDataUpdate w1 e1,
     _bindTextureDirectly target texture forTextureDataUpdate false e = (Return w1, e1) ->
     _boundTexturesCache e1 !! _activeChannel e1 = Some texture
     /\ (exists cs,
          emits e e1 cs
          /\ List.filter is_bindTexture cs
             = if strict_ne (_boundTexturesCache e !! _activeChannel e1) (Some texture)
               then [bindTexture target (hardwareOf e texture)] else [])
     /\ exists w2 e2,
         _bindTextureDirectly target texture forTextureDataUpdate false e1 = (Return w2, e2)
         /\ _boundTexturesCache e2 = _boundTexturesCache e1
         /\ (emits e1 e2 []
             \/ exists location channel, emits e1 e2 [uniform1i location channel])).
Proof.
  split; [|split; [|split]].
  - intros buffer target Hv. by apply _bindBuffer_twice.
  - intros buffer target Hv. cbn zeta. rewrite !_bindBuffer_nf.
    unfold emits, bind_calls, rebinds. cbn. rewrite Hv. cbn. split; [done|].
    unfold resourceOf. done.
  - intros program. apply _setProgram_twice.
  - intros target texture u w1 e1 Hrun.
    destruct (_bindTextureDirectly_post _ _ _ _ _ _ Hrun) as (Hb & Hs & Hc & Ha).
    split; [exact Hb|]. split.
    + by apply (_bindTextureDirectly_first target texture u e w1).
    + destruct (_bindTextureDirectly_idle target texture u e1 Hb Hs Hc Ha)
        as (w2 & e2 & H2 & _ & Hcache & Hem).
      by exists w2, e2.
Qed.

(** ** Draw calls and the lost flag *)

Lemma applyStates_nf e :
  exists cs x c,
    applyStates X e
    = set_colorWriteChanged c (set_ext x (set_gl (gl_calls cs (_gl e)) e)).
Proof.
  unfold applyStates, apply_ext.
  destruct (depthCullingState_apply X (ext e)) as [x1 cs1]. cbn.
  destruct (stencilStateComposer_apply X x1) as [x2 cs2]. cbn.
  destruct (alphaState_apply X _ x2) as [x3 cs3]. cbn.
  destruct (_colorWriteChanged e) eqn:Hc.
  - eexists _, x3, false. unfold gl_do. cbn.
    rewrite gl_call_calls, !gl_calls_app. reflexivity.
  - exists (cs1 ++ cs2 ++ cs3), x3, (_colorWriteChanged e).
    rewrite !gl_calls_app, <- ?app_assoc.
    reflexivity.
Qed.

(** The call that ends [drawElementsType] and the one that ends
    [drawArraysType]. *)
Definition elementsCall (fillMode indexStart indexCount : Z) (instancesCount : option Z) e
  : GLCall :=
  let indexFormat := if _uintIndicesCurrentlySet e then gl.UNSIGNED_INT
                     else gl.UNSIGNED_SHORT in
  let mult := if _uintIndicesCurrentlySet e then 4 else 2 in
  if truthy_num instancesCount
  then drawElementsInstanced (_drawMode K fillMode) indexCount indexFormat
         (indexStart * mult) (default 0 instancesCount)
  else drawElements (_drawMode K fillMode) indexCount indexFormat (indexStart * mult).

Definition arraysCall (fillMode verticesStart verticesCount : Z) (instancesCount : option Z)
  : GLCall :=
  if truthy_num instancesCount
  then drawArraysInstanced (_drawMode K fillMode) verticesStart verticesCount
         (default 0 instancesCount)
  else drawArrays (_drawMode K fillMode) verticesStart verticesCount.

Lemma drawElementsType_emits fillMode indexStart indexCount instancesCount e :
  exists cs,
    emits e (drawElementsType X K fillMode indexStart indexCount instancesCount e)
      (cs ++ [elementsCall fillMode indexStart indexCount instancesCount e]).
Proof.
  unfold drawElementsType, elementsCall, reportDrawCall, emits.
  destruct (applyStates_nf e) as (cs & x & c & ->). cbn. exists cs.
  destruct (truthy_num instancesCount); cbn; by rewrite app_assoc.
Qed.

Lemma drawArraysType_emits fillMode verticesStart verticesCount instancesCount e :
  exists cs,
    emits e (drawArraysType X K fillMode verticesStart verticesCount instancesCount e)
      (cs ++ [arraysCall fillMode verticesStart verticesCount instancesCount]).
Proof.
  unfold drawArraysType, arraysCall, reportDrawCall, emits.
  destruct (applyStates_nf e) as (cs & x & c & ->). cbn. exists cs.
  destruct (truthy_num instancesCount); cbn; by rewrite app_assoc.
Qed.

Lemma applyStates_lost_flag (b : bool) e :
  applyStates X (set_contextWasLost b e) = set_contextWasLost b (applyStates X e).
Proof.
  unfold applyStates, apply_ext. cbn.
  destruct (depthCullingState_apply X (ext e)) as [x1 cs1]. cbn.
  destruct (stencilStateComposer_apply X x1) as [x2 cs2]. cbn.
  destruct (alphaState_apply X _ x2) as [x3 cs3]. cbn.
  by destruct (_colorWriteChanged e).
Qed.

(** No bind or draw method reads [_contextWasLost]: flipping the flag
    before or after the call gives the same engine. *)
Lemma lost_flag_not_consulted (b : bool) e :
  (forall fillMode indexStart indexCount instancesCount,
     drawElementsType X K fillMode indexStart indexCount instancesCount
       (set_contextWasLost b e)
     = set_contextWasLost b
         (drawElementsType X K fillMode indexStart indexCount instancesCount e))
  /\ (forall fillMode verticesStart verticesCount instancesCount,
     drawArraysType X K fillMode verticesStart verticesCount instancesCount
       (set_contextWasLost b e)
     = set_contextWasLost b
         (drawArraysType X K fillMode verticesStart verticesCount instancesCount e))
  /\ (forall buffer target,
     _bindBuffer buffer target (set_contextWasLost b e)
     = set_contextWasLost b (_bindBuffer buffer target e))
  /\ (forall program,
     _setProgram program (set_contextWasLost b e)
     = set_contextWasLost b (_setProgram program e)).
Proof.
  repeat split; intros.
  - unfold drawElementsType, reportDrawCall. cbv zeta. rewrite applyStates_lost_flag.
    destruct (applyStates_nf e) as (cs & x & c & ->). cbn.
    by destruct (truthy_num instancesCount).
  - unfold drawArraysType, reportDrawCall. cbv zeta. rewrite applyStates_lost_flag.
    destruct (applyStates_nf e) as (cs & x & c & ->). cbn.
    by destruct (truthy_num instancesCount).
  - unfold _bindBuffer. cbn. by destruct (_ || _).
  - unfold _setProgram. cbn. by destruct (strict_ne _ _).
Qed.

(** The engine the handler leaves when context loss is handled. *)
Definition lostEngine e : Engine Ext :=
  set_events ((events e ++ [PreventDefault]) ++ [ContextLostNotified])
    (set_logger (logger e ++ [Warn "WebGL context lost."])
       (set_ext (deleteStateObject X (ext e)) (set_contextWasLost true e))).

Lemma _onContextLost_handled e :
  _doNotHandleContextLost e = false -> _onContextLost X e = lostEngine e.
Proof. intros Hh. unfold _onContextLost. by rewrite Hh. Qed.

(** C2.  The context-lost handler records the loss in
    [_contextWasLost], but the bind and draw methods do not look at that
    flag: on the engine the handler leaves, [drawElementsType] and
    [drawArraysType] still end with their draw call to the driver, and
    [_bindBuffer] still issues [bindBuffer] for a buffer that differs from
    the cached one.  None of them throws. *)
Theorem lost_context_calls_reach_driver e :
  _doNotHandleContextLost e = false ->
  let lost := _onContextLost X e in
  _contextWasLost lost = true
  /\ (forall fillMode indexStart indexCount instancesCount,
     exists cs,
       emits lost (drawElementsType X K fillMode indexStart indexCount instancesCount lost)
         (cs ++ [elementsCall fillMode indexStart indexCount instancesCount e]))
  /\ (forall fillMode verticesStart verticesCount instancesCount,
     exists cs,
       emits lost
         (drawArraysType X K fillMode verticesStart verticesCount instancesCount lost)
         (cs ++ [arraysCall fillMode verticesStart verticesCount instancesCount]))
  /\ (forall buffer target,
     _currentBoundBuffer e !! target <> Some buffer ->
     emits lost (_bindBuffer buffer target lost) [bindBuffer target (resourceOf e buffer)]).
Proof.
  intros Hh. cbn zeta. rewrite (_onContextLost_handled e Hh).
  split; [done|]. split; [|split].
  - intros fillMode indexStart indexCount instancesCount.
    destruct (drawElementsType_emits fillMode indexStart indexCount instancesCount
                (lostEngine e)) as [cs H].
    exists cs. exact H.
  - intros. apply drawArraysType_emits.
  - intros buffer target Hne. rewrite _bindBuffer_nf. unfold emits, bind_calls, rebinds.
    unfold lostEngine. cbn.
    by rewrite (strict_ne_true _ _ Hne), orb_true_r.
Qed.

(** ** Texture settings *)

Definition requestedType (options : TextureOptions) : Z :=
  match options with
  | OptionsObject o => default (TEXTURETYPE_UNSIGNED_BYTE K) (o_type o)
  | _ => TEXTURETYPE_UNSIGNED_BYTE K
  end.

Definition floatUnsupported (options : TextureOptions) e : bool :=
  (requestedType options =? TEXTURETYPE_FLOAT K) && negb (textureFloat (_caps e)).

Definition floatWarning : LogEntry :=
  Warn "Float textures are not supported. Type forced to TEXTURETYPE_UNSIGNED_BYTE".

Lemma set_logger_same e : set_logger (logger e) e = e.
Proof. by destruct e. Qed.

(** C8.  When the requested type is float (or half float)
    and the capabilities lack linear filtering for it, the sampling mode
    becomes the nearest-neighbour mode; nothing is thrown and, for this
    downgrade, nothing is logged.  The one warning the method logs is for a
    different condition, float textures not being supported at all, and in
    that case the type falls back to unsigned byte. *)
Theorem float_sampling_downgrade options e :
  let s := fst (_createInternalTexture_settings K options e) in
  let e' := snd (_createInternalTexture_settings K options e) in
  (requestedType options = TEXTURETYPE_FLOAT K ->
     textureFloatLinearFiltering (_caps e) = false ->
     samplingMode s = TEXTURE_NEAREST_SAMPLINGMODE K)
  /\ (requestedType options = TEXTURETYPE_HALF_FLOAT K ->
     textureHalfFloatLinearFiltering (_caps e) = false ->
     samplingMode s = TEXTURE_NEAREST_SAMPLINGMODE K)
  /\ logger e' = logger e ++ (if floatUnsupported options e then [floatWarning] else [])
  /\ e' = set_logger (logger e') e
  /\ type_ s = (if floatUnsupported options e then TEXTURETYPE_UNSIGNED_BYTE K
                else requestedType options).
Proof.
  cbn zeta. unfold _createInternalTexture_settings, floatUnsupported, requestedType.
  destruct options as [|b|o]; cbn.
  all: repeat split.
  all: try (intros Ht Hc; rewrite ?Ht, ?Hc, ?Z.eqb_refl; cbn;
            repeat (case_match; simplify_eq; cbn in * ); done).
  all: repeat (case_match; simplify_eq; cbn in * );
    rewrite ?app_nil_r, ?set_logger_same; done.
Qed.

(** ** The footprint of the vertex-attribute methods

    Everything the attribute machinery does is a sequence of the few
    writes below; whatever those writes preserve, the methods preserve. *)

Definition attrib_call (c : GLCall) : Prop :=
  match c with
  | bindVertexArray None
  | enableVertexAttribArray _ | disableVertexAttribArray _
  | vertexAttribPointer _ _ _ _ _ _ | vertexAttribIPointer _ _ _ _ _
  | vertexAttribDivisor _ _ => True
  | bindBuffer target _ => target = gl.ARRAY_BUFFER
  | _ => False
  end.

Inductive attrib_write : Engine Ext -> Engine Ext -> Prop :=
  | aw_calls e cs :
      Forall attrib_call cs -> attrib_write e (set_gl (gl_calls cs (_gl e)) e)
  | aw_enabled e v : attrib_write e (set_vertexAttribArraysEnabled v e)
  | aw_pointers e v :
      length v = length (_currentBufferPointers e) ->
      attrib_write e (set_currentBufferPointers v e)
  | aw_mustWipe e v : attrib_write e (set_mustWipeVertexAttributes v e)
  | aw_locations e v : attrib_write e (set_currentInstanceLocations v e)
  | aw_instances e v : attrib_write e (set_currentInstanceBuffers v e)
  | aw_vao e v : attrib_write e (set_cachedVertexArrayObject v e)
  | aw_arrayBuffer e b :
      attrib_write e
        (set_currentBoundBuffer (<[gl.ARRAY_BUFFER := b]> (_currentBoundBuffer e)) e)
  | aw_cachedVertexBuffers e v : attrib_write e (set_cachedVertexBuffers v e)
  | aw_cachedEffect e v : attrib_write e (set_cachedEffectForVertexBuffers v e).

Definition attrib_writes : Engine Ext -> Engine Ext -> Prop := rtc attrib_write.

(** The part of the engine that attribute writes cannot reach. *)
Record Untouched (e e' : Engine Ext) : Prop := mkUntouched {
  un_cachedIndexBuffer : _cachedIndexBuffer e' = _cachedIndexBuffer e;
  un_uintIndices : _uintIndicesCurrentlySet e' = _uintIndicesCurrentlySet e;
  un_elementBinding :
    _currentBoundBuffer e' !! gl.ELEMENT_ARRAY_BUFFER
    = _currentBoundBuffer e !! gl.ELEMENT_ARRAY_BUFFER;
  un_program : _currentProgram e' = _currentProgram e;
  un_textures : _boundTexturesCache e' = _boundTexturesCache e;
  un_activeChannel : _activeChannel e' = _activeChannel e;
  un_textureChannel : _currentTextureChannel e' = _currentTextureChannel e;
  un_textureStore : textures e' = textures e;
  un_bufferStore : buffers e' = buffers e;
  un_recording : _vaoRecordInProgress e' = _vaoRecordInProgress e;
  un_caps : _caps e' = _caps e;
  un_pointers : length (_currentBufferPointers e') = length (_currentBufferPointers e);
  un_viewport : _viewportCached e' = _viewportCached e;
  un_currentEffect : _currentEffect e' = _currentEffect e;
  un_calls : exists cs, emits e e' cs /\ Forall attrib_call cs
}.

Lemma Untouched_refl e : Untouched e e.
Proof. split; try done. exists []. split; [apply emits_refl|constructor]. Qed.

Lemma Untouched_trans e1 e2 e3 : Untouched e1 e2 -> Untouched e2 e3 -> Untouched e1 e3.
Proof.
  intros [] []. split; try congruence.
  destruct un_calls0 as (cs1 & H1 & F1), un_calls1 as (cs2 & H2 & F2).
  exists (cs1 ++ cs2). split; [by eapply emits_trans|by apply Forall_app].
Qed.

Lemma attrib_write_Untouched e e' : attrib_write e e' -> Untouched e e'.
Proof.
  destruct 1; split; cbn; try done.
  all: try (by exists cs).
  all: try (by rewrite lookup_insert_ne).
  all: exists []; split; [unfold emits; cbn; by rewrite app_nil_r|constructor].
Qed.

Lemma attrib_writes_Untouched e e' : attrib_writes e e' -> Untouched e e'.
Proof.
  induction 1 as [|e1 e2 e3 Hstep _ IH]; [apply Untouched_refl|].
  eapply Untouched_trans; [by apply attrib_write_Untouched|done].
Qed.

Lemma aw_arrayBuffer_at e m b :
  m = _currentBoundBuffer e ->
  attrib_write e (set_currentBoundBuffer (<[gl.ARRAY_BUFFER := b]> m) e).
Proof. intros ->. apply aw_arrayBuffer. Qed.

Lemma attrib_writes_step e e' : attrib_write e e' -> attrib_writes e e'.
Proof. apply rtc_once. Qed.

Lemma attrib_writes_call e c : attrib_call c -> attrib_writes e (gl_do c e).
Proof.
  intros Hc. apply rtc_once. unfold gl_do. rewrite gl_call_calls.
  apply aw_calls. by constructor.
Qed.

(** A method stays within the footprint. *)
Definition within {A} (m : M Ext A) : Prop := forall e, attrib_writes e (snd (m e)).

Lemma within_ret {A} (a : A) : within (ret a).
Proof. intros e. apply rtc_refl. Qed.

Lemma within_throw {A} err : within (throw (A := A) err).
Proof. intros e. apply rtc_refl. Qed.

Lemma within_get {A} (f : Engine Ext -> A) : within (get f).
Proof. intros e. apply rtc_refl. Qed.

Lemma within_run f : (forall e, attrib_writes e (f e)) -> within (run f).
Proof. intros Hf e. apply Hf. Qed.

Lemma within_bind {A B} (m : M Ext A) (k : A -> M Ext B) :
  within m -> (forall a, within (k a)) -> within (bind m k).
Proof.
  intros Hm Hk e. unfold bind. specialize (Hm e).
  destruct (m e) as [[a|err] e1]; cbn in *; [|done].
  etrans; [done|apply Hk].
Qed.

Lemma within_for_each {A} (l : list A) (body : A -> M Ext unit) :
  (forall x, within (body x)) -> within (for_each l body).
Proof.
  intros Hb. induction l as [|x l IH]; cbn; [apply within_ret|].
  apply within_bind; [apply Hb|done].
Qed.

Lemma _unbindVertexArrayObject_within e : attrib_writes e (_unbindVertexArrayObject e).
Proof.
  rewrite _unbindVertexArrayObject_nf.
  etrans; [apply rtc_once, (aw_calls e (vao_calls e))|apply rtc_once, aw_vao].
  unfold vao_calls. destruct (truthy_slot _); by repeat constructor.
Qed.

Lemma bindArrayBuffer_within buffer e : attrib_writes e (bindArrayBuffer buffer e).
Proof.
  rewrite bindArrayBuffer_nf.
  etrans; [apply rtc_once, (aw_calls e (unbind_calls e ++ bind_calls buffer gl.ARRAY_BUFFER e))|].
  { apply Forall_app. split.
    - unfold unbind_calls, vao_calls.
      destruct (_vaoRecordInProgress e); [constructor|].
      destruct (truthy_slot _); by repeat constructor.
    - unfold bind_calls. destruct (rebinds _ _ _); by repeat constructor. }
  etrans; [apply rtc_once, aw_vao|]. apply rtc_once, aw_arrayBuffer_at. reflexivity.
Qed.

Lemma disableAttributeByIndex_within i : within (disableAttributeByIndex i).
Proof.
  unfold disableAttributeByIndex.
  apply within_bind; [apply within_run; intros e; by apply attrib_writes_call|intros _].
  apply within_bind; [apply within_run; intros e; apply rtc_once, aw_enabled|intros _].
  apply within_bind; [apply within_get|intros [p|]]; [|apply within_throw].
  apply within_run. intros e. apply rtc_once, aw_pointers. apply length_insert.
Qed.

Lemma unbindAllAttributes_within : within unbindAllAttributes.
Proof.
  unfold unbindAllAttributes.
  apply within_bind; [apply within_get|intros [|]].
  - apply within_bind; [apply within_run; intros e; apply rtc_once, aw_mustWipe|intros _].
    apply within_bind; [apply within_get|intros n].
    apply within_for_each, disableAttributeByIndex_within.
  - apply within_bind; [apply within_get|intros ul].
    apply within_for_each. intros i.
    apply within_bind; [apply within_get|intros [|]]; [apply within_ret|].
    apply disableAttributeByIndex_within.
Qed.

Lemma _vertexAttribPointer_within buffer indx size type normalized stride offset e :
  attrib_writes e (_vertexAttribPointer buffer indx size type normalized stride offset e).
Proof.
  unfold _vertexAttribPointer.
  destruct (js_index _ _) as [pointer|]; [|apply rtc_refl].
  match goal with |- context [let '(_, _) := ?p in _] => destruct p as [pointer' changed] end.
  etrans; [apply rtc_once, aw_pointers, length_insert|]. cbn.
  destruct (changed || _); [|apply rtc_refl].
  etrans; [apply bindArrayBuffer_within|].
  destruct (_ || _); by apply attrib_writes_call.
Qed.

Lemma bindAttribute_within vertexBuffers f overrideVertexBuffers index e :
  attrib_writes e (bindAttribute vertexBuffers f overrideVertexBuffers index e).
Proof.
  unfold bindAttribute. cbv zeta.
  destruct (attributeLocations f !! index) as [order|]; [|apply rtc_refl].
  destruct (0 <=? order); [|apply rtc_refl].
  destruct (attributesNames f !! index) as [ai|]; [|apply rtc_refl].
  match goal with
  | |- attrib_writes _ (match ?x with Some _ => _ | None => _ end) => destruct x as [vb|]
  end; [|apply rtc_refl].
  set (e1 := gl_do (enableVertexAttribArray order) e).
  assert (attrib_writes e e1) as H1 by (by apply attrib_writes_call).
  set (e2 := if negb (_vaoRecordInProgress e1)
             then set_vertexAttribArraysEnabled
                    (js_array_set (_vertexAttribArraysEnabled e1) order true) e1
             else e1).
  assert (attrib_writes e e2) as H2.
  { etrans; [exact H1|]. subst e2.
    destruct (negb _); [apply rtc_once, aw_enabled|apply rtc_refl]. }
  clearbody e2. clear H1. clearbody e1.
  destruct (getBuffer vb) as [buffer|]; [|exact H2].
  etrans; [exact H2|]. etrans; [apply _vertexAttribPointer_within|].
  destruct (getIsInstanced vb); [|apply rtc_refl].
  etrans;
    [apply (attrib_writes_call _ (vertexAttribDivisor order (getInstanceDivisor vb))); exact I|].
  destruct (negb _); [|apply rtc_refl].
  etrans; [apply rtc_once, aw_locations|apply rtc_once, aw_instances].
Qed.

Lemma _bindVertexBuffersAttributes_within vertexBuffers effect overrideVertexBuffers :
  within (_bindVertexBuffersAttributes vertexBuffers effect overrideVertexBuffers).
Proof.
  unfold _bindVertexBuffersAttributes.
  apply within_bind; [apply within_get|intros [f|]]; [|apply within_throw].
  apply within_bind; [apply within_run; intros e|intros _].
  { destruct (negb _); [apply _unbindVertexArrayObject_within|apply rtc_refl]. }
  apply within_bind; [apply unbindAllAttributes_within|intros _].
  apply within_for_each. intros index. apply within_run. intros e.
  apply bindAttribute_within.
Qed.

(** With no index buffer, [bindBuffers] stays within the footprint. *)
Lemma bindBuffers_null_within vertexBuffers effect overrideVertexBuffers :
  within (bindBuffers vertexBuffers None effect overrideVertexBuffers).
Proof.
  unfold bindBuffers.
  apply within_bind; [apply within_get|intros stale].
  apply within_bind; [|intros _; apply within_run; intros e; apply rtc_refl].
  destruct stale; [|apply within_ret].
  apply within_bind; [apply within_run; intros e; apply rtc_once, aw_cachedVertexBuffers|].
  intros _.
  apply within_bind; [apply within_run; intros e; apply rtc_once, aw_cachedEffect|].
  intros _. apply _bindVertexBuffersAttributes_within.
Qed.

(** ** Stepping through a method *)

Lemma bind_get {A B} (f : Engine Ext -> A) (k : A -> M Ext B) e :
  bind (get f) k e = k (f e) e.
Proof. reflexivity. Qed.

Lemma bind_run {B} (f : Engine Ext -> Engine Ext) (k : unit -> M Ext B) e :
  bind (run f) k e = k tt (f e).
Proof. reflexivity. Qed.

Lemma bind_ret {A B} (a : A) (k : A -> M Ext B) e : bind (ret a) k e = k a e.
Proof. reflexivity. Qed.

Lemma bind_returned {A B} (m : M Ext A) (k : A -> M Ext B) e a e1 :
  m e = (Return a, e1) -> bind m k e = k a e1.
Proof. intros Hm. unfold bind. by rewrite Hm. Qed.

Lemma bind_assoc {A B C} (m : M Ext A) (k1 : A -> M Ext B) (k2 : B -> M Ext C) e :
  bind (bind m k1) k2 e = bind m (fun a => bind (k1 a) k2) e.
Proof. unfold bind. by destruct (m e) as [[a|err] e1]. Qed.

Lemma run_eq (f : Engine Ext -> Engine Ext) e : run f e = (Return tt, f e).
Proof. reflexivity. Qed.

Ltac step := rewrite ?bind_assoc, ?bind_get, ?bind_run, ?bind_ret, ?run_eq; cbv beta.

(** ** Wiping the caches *)

(** The constructor allocates one buffer pointer per vertex attribute. *)
Definition pointers_ok e : Prop :=
  maxVertexAttribs (_caps e) <= Z.of_nat (length (_currentBufferPointers e)).

Lemma js_index_Some {A} (l : list A) (i : Z) :
  0 <= i < Z.of_nat (length l) -> is_Some (js_index l i).
Proof.
  intros Hi. unfold js_index. destruct (i <? 0) eqn:Hn; [lia|].
  apply lookup_lt_is_Some. lia.
Qed.

Lemma disableAttributeByIndex_returns i e :
  0 <= i < Z.of_nat (length (_currentBufferPointers e)) ->
  fst (disableAttributeByIndex i e) = Return tt.
Proof.
  intros Hi. unfold disableAttributeByIndex, bind, run, get, throw. cbn.
  by destruct (js_index_Some (_currentBufferPointers e) i Hi) as [p ->].
Qed.

Lemma for_each_returns {A} (I : Engine Ext -> Prop) (l : list A) (body : A -> M Ext unit) :
  (forall x e, x ∈ l -> I e -> fst (body x e) = Return tt /\ I (snd (body x e))) ->
  forall e, I e -> fst (for_each l body e) = Return tt /\ I (snd (for_each l body e)).
Proof.
  induction l as [|x l IH]; intros Hbody e HI; cbn; [done|].
  unfold bind. destruct (Hbody x e) as [Hr HI']; [apply list_elem_of_here|done|].
  destruct (body x e) as [[[]|err] e1]; cbn in *; [|done].
  apply IH; [|done]. intros y e0 Hy. apply Hbody. by apply list_elem_of_further.
Qed.

(** The loop invariant of [unbindAllAttributes]. *)
Definition pointers_cover (n : Z) e : Prop :=
  maxVertexAttribs (_caps e) = n /\ n <= Z.of_nat (length (_currentBufferPointers e)).

Lemma disableAttributeByIndex_cover n i e :
  0 <= i < n -> pointers_cover n e ->
  fst (disableAttributeByIndex i e) = Return tt
  /\ pointers_cover n (snd (disableAttributeByIndex i e)).
Proof.
  intros Hi [Hn Hlen]. split; [apply disableAttributeByIndex_returns; lia|].
  destruct (attrib_writes_Untouched _ _ (disableAttributeByIndex_within i e)).
  split; [by rewrite un_caps0|by rewrite un_pointers0].
Qed.

Lemma unbindAllAttributes_returns e :
  pointers_ok e -> fst (unbindAllAttributes e) = Return tt.
Proof.
  intros Hok. unfold unbindAllAttributes, bind, run, get. cbn.
  case_match; cbn.
  - refine (proj1 (for_each_returns (pointers_cover (maxVertexAttribs (_caps e)))
                     _ _ _ _ _)); [|done].
    intros i e0 Hi%elem_of_seqZ Hc. apply disableAttributeByIndex_cover; [lia|done].
  - refine (proj1 (for_each_returns (pointers_cover (maxVertexAttribs (_caps e)))
                     _ _ _ _ _)); [|done].
    intros i e0 Hi%elem_of_seqZ Hc. cbn.
    destruct Hc as [Hn Hlen]. rewrite Hn.
    destruct (maxVertexAttribs (_caps e) <=? i) eqn:Hle; cbn; [done|].
    destruct (negb _); cbn; [done|].
    apply disableAttributeByIndex_cover; [lia|done].
Qed.

(** The writes of [wipeCaches] up to the brute-force block. *)
Definition softPrefix e : Engine Ext :=
  _unbindVertexArrayObject
    (set_viewportCached {| vx := 0; vy := 0; vz := 0; vw := 0 |}
       (set_currentEffect (Some None) e)).

(** The writes of the brute-force block before [unbindAllAttributes]. *)
Definition brutePrefix e : Engine Ext :=
  let e := set_currentProgram (Some None) (softPrefix e) in
  let e := resetTextureCache e in
  let e := set_ext (stencilStateComposer_reset X (ext e)) e in
  let e := set_ext (depthCullingState_reset X (ext e)) e in
  let e := set_ext (depthCullingState_set_depthFunc X gl.LEQUAL (ext e)) e in
  let e := set_ext (alphaState_reset X (ext e)) e in
  let e := set_ext (_resetAlphaMode X (ext e)) e in
  let e := set_colorWrite true e in
  let e := set_colorWriteChanged true e in
  let e := set_unpackFlipYCached None e in
  let e := gl_do (pixelStorei gl.UNPACK_COLORSPACE_CONVERSION_WEBGL gl.NONE) e in
  let e := gl_do (pixelStorei gl.UNPACK_PREMULTIPLY_ALPHA_WEBGL 0) e in
  set_mustWipeVertexAttributes true e.

(** The writes that close [wipeCaches]. *)
Definition wipeTail e : Engine Ext :=
  bindIndexBuffer None
    (set_cachedEffectForVertexBuffers (Some None)
       (set_cachedIndexBuffer (Some None) (_resetVertexBufferBinding e))).

Lemma wipeCaches_soft bruteForce e :
  preventCacheWipeBetweenFrames e = false -> truthy_bool bruteForce = false ->
  wipeCaches X bruteForce e = (Return tt, wipeTail (softPrefix e)).
Proof.
  intros Hp Hb. unfold wipeCaches. step. rewrite Hp, Hb. cbv iota beta.
  repeat step. reflexivity.
Qed.

Lemma wipeCaches_prevented bruteForce e :
  preventCacheWipeBetweenFrames e = true -> truthy_bool bruteForce = false ->
  wipeCaches X bruteForce e = (Return tt, e).
Proof. intros Hp Hb. unfold wipeCaches. step. by rewrite Hp, Hb. Qed.

Lemma softPrefix_pointers_ok e : pointers_ok e -> pointers_ok (softPrefix e).
Proof.
  unfold pointers_ok, softPrefix. by rewrite _unbindVertexArrayObject_nf.
Qed.

Lemma brutePrefix_pointers_ok e : pointers_ok e -> pointers_ok (brutePrefix e).
Proof.
  intros Hok%softPrefix_pointers_ok. exact Hok.
Qed.

Lemma wipeCaches_brute bruteForce e :
  truthy_bool bruteForce = true -> pointers_ok e ->
  exists e1,
    wipeCaches X bruteForce e = (Return tt, wipeTail e1)
    /\ Untouched (brutePrefix e) e1.
Proof.
  intros Hb Hok%brutePrefix_pointers_ok.
  pose proof (unbindAllAttributes_returns _ Hok) as Hret.
  pose proof (attrib_writes_Untouched _ _ (unbindAllAttributes_within (brutePrefix e))) as Hun.
  destruct (unbindAllAttributes (brutePrefix e)) as [[[]|err] e1] eqn:Hrun; [|done].
  exists e1. split; [|done].
  unfold wipeCaches. step. rewrite Hb, andb_false_r. cbv iota beta.
  repeat step.
  rewrite (bind_returned _ _ _ _ _ Hrun). repeat step. reflexivity.
Qed.

(** A brute-force wipe that returned went through [unbindAllAttributes]. *)
Lemma wipeCaches_brute_inv bruteForce e e' :
  truthy_bool bruteForce = true ->
  wipeCaches X bruteForce e = (Return tt, e') ->
  exists e1, e' = wipeTail e1 /\ Untouched (brutePrefix e) e1.
Proof.
  intros Hb Hrun.
  pose proof (attrib_writes_Untouched _ _ (unbindAllAttributes_within (brutePrefix e))) as Hun.
  destruct (unbindAllAttributes (brutePrefix e)) as [[[]|err] e1] eqn:Hu.
  - exists e1. split; [|done]. revert Hrun.
    unfold wipeCaches. step. rewrite Hb, andb_false_r. cbv iota beta.
    repeat step. rewrite (bind_returned _ _ _ _ _ Hu). repeat step. by intros [= <-].
  - exfalso. revert Hrun.
    unfold wipeCaches. step. rewrite Hb, andb_false_r. cbv iota beta.
    repeat step. unfold bind at 1.
    change (unbindAllAttributes _) with (unbindAllAttributes (brutePrefix e)).
    by rewrite Hu.
Qed.

Lemma wipeTail_nf e :
  exists vao cs,
    wipeTail e
    = set_currentBoundBuffer
        (<[gl.ELEMENT_ARRAY_BUFFER := None]>
           (<[gl.ARRAY_BUFFER := None]> (_currentBoundBuffer e)))
        (set_cachedVertexArrayObject vao
           (set_cachedEffectForVertexBuffers (Some None)
              (set_cachedIndexBuffer (Some None)
                 (set_cachedVertexBuffers (Some None)
                    (set_gl (gl_calls cs (_gl e)) e))))).
Proof.
  unfold wipeTail, _resetVertexBufferBinding.
  set (e2 := set_cachedEffectForVertexBuffers _ _).
  exists (unbind_after e2),
    ((unbind_calls e ++ bind_calls None gl.ARRAY_BUFFER e)
     ++ unbind_calls e2 ++ bind_calls None gl.ELEMENT_ARRAY_BUFFER e2).
  rewrite bindIndexBuffer_nf. subst e2. rewrite bindArrayBuffer_nf.
  cbn. rewrite gl_calls_app. reflexivity.
Qed.

(** What a completed wipe guarantees about the buffer targets. *)
Lemma wipeTail_bound e :
  _currentBoundBuffer (wipeTail e) !! gl.ARRAY_BUFFER = Some None
  /\ _currentBoundBuffer (wipeTail e) !! gl.ELEMENT_ARRAY_BUFFER = Some None
  /\ _cachedIndexBuffer (wipeTail e) = Some None
  /\ _cachedVertexBuffers (wipeTail e) = Some None
  /\ _cachedEffectForVertexBuffers (wipeTail e) = Some None.
Proof.
  destruct (wipeTail_nf e) as (vao & cs & ->). cbn.
  rewrite lookup_insert_ne, !lookup_insert_eq by done. done.
Qed.

(** What the closing writes of a wipe leave alone. *)
Lemma wipeTail_other e :
  _currentProgram (wipeTail e) = _currentProgram e
  /\ _boundTexturesCache (wipeTail e) = _boundTexturesCache e
  /\ _currentTextureChannel (wipeTail e) = _currentTextureChannel e
  /\ _viewportCached (wipeTail e) = _viewportCached e
  /\ _currentEffect (wipeTail e) = _currentEffect e.
Proof. by destruct (wipeTail_nf e) as (vao & cs & ->). Qed.

Lemma softPrefix_other e :
  _currentProgram (softPrefix e) = _currentProgram e
  /\ _boundTexturesCache (softPrefix e) = _boundTexturesCache e
  /\ _viewportCached (softPrefix e) = {| vx := 0; vy := 0; vz := 0; vw := 0 |}
  /\ _currentEffect (softPrefix e) = Some None.
Proof. unfold softPrefix. by rewrite _unbindVertexArrayObject_nf. Qed.

Lemma brutePrefix_other e :
  _currentProgram (brutePrefix e) = Some None
  /\ _boundTexturesCache (brutePrefix e) = (fun _ => None) <$> _boundTexturesCache e
  /\ _currentTextureChannel (brutePrefix e) = -1
  /\ _viewportCached (brutePrefix e) = {| vx := 0; vy := 0; vz := 0; vw := 0 |}
  /\ _currentEffect (brutePrefix e) = Some None.
Proof.
  unfold brutePrefix, resetTextureCache, softPrefix. cbv zeta.
  by rewrite _unbindVertexArrayObject_nf.
Qed.

(** After a reset of the texture cache no channel holds a texture. *)
Lemma reset_cache_empty (m : gmap Z (option Z)) (channel r : Z) :
  ((fun _ => None) <$> m) !! channel <> Some (Some r).
Proof. rewrite lookup_fmap. by destruct (m !! channel). Qed.

(** A texture that no channel holds is bound on the driver. *)
Lemma _bindTextureDirectly_binds target r u e w e' :
  (forall channel, _boundTexturesCache e !! channel <> Some (Some r)) ->
  _bindTextureDirectly target (Some r) u false e = (Return w, e') ->
  exists t cs1 cs2,
    textures e !! r = Some t
    /\ emits e e' (cs1 ++ bindTexture target (_hardwareTexture t) :: cs2).
Proof.
  intros Hfree. unfold _bindTextureDirectly, update_texture, emits. destruct u; monad.
  all: intros Hrun; texture_paths.
  all: try match goal with
           | H : _boundTexturesCache _ !! _ = Some (Some _) |- _ => by apply Hfree in H
           end.
  all: eexists _.
  all: match goal with
       | |- exists cs1 cs2, _ /\ ((?pre ++ ?a) ++ [?b]) ++ ?s = _ => exists a, s
       | |- exists cs1 cs2, _ /\ (?pre ++ ?a) ++ [?b] = _ => exists a, []
       end.
  all: split; [reflexivity|]; rewrite <- ?app_assoc; reflexivity.
Qed.

(** The state of the caches after a wipe that was not skipped and did run
    to its end. *)
Lemma wipeCaches_done bruteForce e e' :
  wipeCaches X bruteForce e = (Return tt, e') ->
  preventCacheWipeBetweenFrames e = false \/ truthy_bool bruteForce = true ->
  _currentBoundBuffer e' !! gl.ARRAY_BUFFER = Some None
  /\ _currentBoundBuffer e' !! gl.ELEMENT_ARRAY_BUFFER = Some None
  /\ _cachedIndexBuffer e' = Some None
  /\ _cachedVertexBuffers e' = Some None
  /\ _cachedEffectForVertexBuffers e' = Some None
  /\ _viewportCached e' = {| vx := 0; vy := 0; vz := 0; vw := 0 |}
  /\ _currentEffect e' = Some None
  /\ (truthy_bool bruteForce = true ->
      _currentProgram e' = Some None
      /\ _boundTexturesCache e' = (fun _ => None) <$> _boundTexturesCache e)
  /\ (truthy_bool bruteForce = false ->
      _currentProgram e' = _currentProgram e
      /\ _boundTexturesCache e' = _boundTexturesCache e).
Proof.
  intros Hrun Hnot.
  destruct (truthy_bool bruteForce) eqn:Hb.
  - destruct (wipeCaches_brute_inv bruteForce e e' Hb Hrun) as (e1 & -> & Hun).
    destruct (wipeTail_bound e1) as (H1 & H2 & H3 & H4 & H5).
    destruct (wipeTail_other e1) as (H6 & H7 & _ & H8 & H9).
    destruct (brutePrefix_other e) as (P1 & P2 & _ & P3 & P4).
    destruct Hun.
    repeat split; try done; try congruence.
  - destruct Hnot as [Hp|]; [|done].
    rewrite (wipeCaches_soft bruteForce e Hp Hb) in Hrun. injection Hrun as <-.
    destruct (wipeTail_bound (softPrefix e)) as (H1 & H2 & H3 & H4 & H5).
    destruct (wipeTail_other (softPrefix e)) as (H6 & H7 & _ & H8 & H9).
    destruct (softPrefix_other e) as (P1 & P2 & P3 & P4).
    repeat split; try done; try congruence.
Qed.

(** What a wipe without the brute-force flag leaves alone. *)
Lemma wipeCaches_soft_frame bruteForce e e' :
  wipeCaches X bruteForce e = (Return tt, e') ->
  truthy_bool bruteForce = false ->
  _currentProgram e' = _currentProgram e
  /\ _boundTexturesCache e' = _boundTexturesCache e
  /\ _activeChannel e' = _activeChannel e
  /\ _currentTextureChannel e' = _currentTextureChannel e
  /\ textures e' = textures e.
Proof.
  intros Hrun Hb. destruct (preventCacheWipeBetweenFrames e) eqn:Hp.
  - rewrite (wipeCaches_prevented bruteForce e Hp Hb) in Hrun. by injection Hrun as <-.
  - rewrite (wipeCaches_soft bruteForce e Hp Hb) in Hrun. injection Hrun as <-.
    destruct (wipeTail_nf (softPrefix e)) as (vao & cs & ->). cbn.
    unfold softPrefix. by rewrite _unbindVertexArrayObject_nf.
Qed.

(** C6.  After a [wipeCaches] that ran (not skipped by
    [preventCacheWipeBetweenFrames]) and returned, binding any buffer to
    the array or the element-array target issues [bindBuffer], also when
    that buffer was the one bound before the wipe.  After [wipeCaches(true)]
    the same holds for the program and for a texture: [_setProgram] issues
    [useProgram] and a [_bindTextureDirectly] that returns has issued
    [bindTexture].  Without the brute-force flag the program and texture
    caches are not reset: they are what they were before the wipe, so
    [_setProgram] with the program that was current does nothing, and
    binding again the texture that was bound last issues neither
    [activeTexture] nor [bindTexture] (it may still send the sampler
    uniform of the channel). *)
Theorem rebind_after_wipe bruteForce e e' :
  wipeCaches X bruteForce e = (Return tt, e') ->
  preventCacheWipeBetweenFrames e = false \/ truthy_bool bruteForce = true ->
  (forall b target,
     target = gl.ARRAY_BUFFER \/ target = gl.ELEMENT_ARRAY_BUFFER ->
     emits e' (_bindBuffer (Some b) target e') [bindBuffer target (resourceOf e' (Some b))])
  /\ (truthy_bool bruteForce = true ->
      (forall p, emits e' (_setProgram (Some p) e') [useProgram (Some p)])
      /\ (forall target r forTextureDataUpdate w e'',
           _bindTextureDirectly target (Some r) forTextureDataUpdate false e'
           = (Return w, e'') ->
           exists t cs1 cs2,
             textures e' !! r = Some t
             /\ emits e' e'' (cs1 ++ bindTexture target (_hardwareTexture t) :: cs2)))
  /\ (truthy_bool bruteForce = false ->
      _currentProgram e' = _currentProgram e
      /\ _boundTexturesCache e' = _boundTexturesCache e
      /\ (forall program, _currentProgram e = Some program -> _setProgram program e' = e')
      /\ (forall e0 target texture forTextureDataUpdate w0,
           _bindTextureDirectly target texture forTextureDataUpdate false e0
           = (Return w0, e) ->
           exists w e'',
             _bindTextureDirectly target texture forTextureDataUpdate false e'
             = (Return w, e'')
             /\ _boundTexturesCache e'' = _boundTexturesCache e'
             /\ (emits e' e'' []
                 \/ exists location channel, emits e' e'' [uniform1i location channel]))).
Proof.
  intros Hrun Hnot.
  destruct (wipeCaches_done bruteForce e e' Hrun Hnot)
    as (H1 & H2 & _ & _ & _ & _ & _ & Hbrute & Hsoft).
  split; [|split].
  - intros b target Ht. rewrite _bindBuffer_nf. unfold emits, bind_calls, rebinds. cbn.
    assert (_currentBoundBuffer e' !! target = Some None) as -> by (by destruct Ht as [->| ->]).
    by rewrite (strict_ne_true (Some None) (Some (Some b))), orb_true_r.
  - intros Hb. destruct (Hbrute Hb) as [Hp Ht]. split.
    + intros p. unfold _setProgram, setProgram_helper, emits. rewrite Hp.
      by rewrite (strict_ne_true (Some None) (Some (Some p))).
    + intros target r u w e'' Hbind.
      apply (_bindTextureDirectly_binds target r u e' w e''); [|done].
      intros channel. rewrite Ht. apply reset_cache_empty.
  - intros Hb.
    destruct (wipeCaches_soft_frame bruteForce e e' Hrun Hb) as (Fp & Fc & Fa & Ft & Fs).
    split; [done|]. split; [done|]. split.
    + intros program Hp. unfold _setProgram. by rewrite Fp, Hp, strict_ne_refl.
    + intros e0 target texture u w0 Hbound.
      destruct (_bindTextureDirectly_post _ _ _ _ _ _ Hbound) as (Pb & Ps & Pc & Pa).
      destruct (_bindTextureDirectly_idle target texture u e') as (w & e'' & Hw & _ & Hc & He).
      * by rewrite Fc, Fa.
      * intros r Hr. rewrite Fs. by apply Ps.
      * intros Hu. rewrite Ft, Fa. by apply Pc.
      * intros Hu r t1 Hr. rewrite Fs, Fa. by apply Pa.
      * by exists w, e''.
Qed.

(** ** Effects *)

Lemma list_ascii_of_string_app (s1 s2 : string) :
  list_ascii_of_string (s1 +:+ s2) = list_ascii_of_string s1 ++ list_ascii_of_string s2.
Proof. induction s1 as [|a s1 IH]; [done|]. cbn. by rewrite <- IH. Qed.

Lemma string_app_inj_r (s1 s2 g : string) : s1 +:+ g = s2 +:+ g -> s1 = s2.
Proof.
  intros Heq. apply (f_equal list_ascii_of_string) in Heq.
  rewrite !list_ascii_of_string_app in Heq. apply app_inv_tail in Heq.
  apply (f_equal string_of_list_ascii) in Heq.
  by rewrite !string_of_list_ascii_of_string in Heq.
Qed.

(** The table of compiled effects is well formed: every entry is an effect
    of the store, allocated earlier, and no effect is filed under two
    names.  [createEffect] only ever files an effect it has just created. *)
Record effects_wf e : Prop := mkEffectsWf {
  wf_allocated : forall name r,
    _compiledEffects e !! name = Some r -> is_Some (effects e !! r) /\ r < nextObject e;
  wf_one_name : forall n1 n2 r,
    _compiledEffects e !! n1 = Some r -> _compiledEffects e !! n2 = Some r -> n1 = n2
}.

Lemma createEffect_hit baseName options defines onCompiled e r :
  _compiledEffects e !! effect_name X baseName options defines e = Some r ->
  fst (createEffect X baseName options defines onCompiled e) = r
  /\ _compiledEffects (snd (createEffect X baseName options defines onCompiled e))
     = _compiledEffects e
  /\ nextObject (snd (createEffect X baseName options defines onCompiled e)) = nextObject e
  /\ effects (snd (createEffect X baseName options defines onCompiled e))
     = alter (fun f => Effect_set_refCount (_refCount f + 1) f) r (effects e).
Proof.
  intros Hhit. unfold createEffect. rewrite Hhit. cbv zeta.
  by destruct (onCompiled && _).
Qed.

Lemma createEffect_miss baseName options defines onCompiled e :
  _compiledEffects e !! effect_name X baseName options defines e = None ->
  fst (createEffect X baseName options defines onCompiled e) = nextObject e
  /\ _compiledEffects (snd (createEffect X baseName options defines onCompiled e))
     = <[effect_name X baseName options defines e := nextObject e]> (_compiledEffects e)
  /\ nextObject (snd (createEffect X baseName options defines onCompiled e))
     = nextObject e + 1
  /\ effects (snd (createEffect X baseName options defines onCompiled e))
     = <[nextObject e := Effect_new X baseName options defines
                           (effect_name X baseName options defines e)]> (effects e).
Proof. intros Hmiss. unfold createEffect. by rewrite Hmiss. Qed.

(** The global defines depend on three flags that [createEffect] does not
    write. *)
Lemma createEffect_flags baseName options defines onCompiled e :
  let e' := snd (createEffect X baseName options defines onCompiled e) in
  isNDCHalfZRange e' = isNDCHalfZRange e
  /\ useReverseDepthBuffer e' = useReverseDepthBuffer e
  /\ useExactSrgbConversions e' = useExactSrgbConversions e.
Proof.
  cbv zeta. unfold createEffect.
  destruct (_compiledEffects e !! _); [|done]. cbv zeta. by destruct (onCompiled && _).
Qed.

Lemma fullDefines_of_flags options defines e e' :
  isNDCHalfZRange e' = isNDCHalfZRange e ->
  useReverseDepthBuffer e' = useReverseDepthBuffer e ->
  useExactSrgbConversions e' = useExactSrgbConversions e ->
  fullDefines_of X options defines e' = fullDefines_of X options defines e.
Proof. unfold fullDefines_of, _getGlobalDefines. by intros -> -> ->. Qed.

(** After the call the effect is filed under its name. *)
Lemma createEffect_filed baseName options defines onCompiled e :
  _compiledEffects (snd (createEffect X baseName options defines onCompiled e))
    !! effect_name X baseName options defines e
  = Some (fst (createEffect X baseName options defines onCompiled e)).
Proof.
  destruct (_compiledEffects e !! effect_name X baseName options defines e) as [r|] eqn:Hl.
  - destruct (createEffect_hit _ _ _ onCompiled _ _ Hl) as (-> & -> & _). done.
  - destruct (createEffect_miss _ _ _ onCompiled _ Hl) as (-> & -> & _).
    apply lookup_insert_eq.
Qed.

Lemma createEffect_stored baseName options defines onCompiled e :
  effects_wf e ->
  is_Some (effects (snd (createEffect X baseName options defines onCompiled e))
             !! fst (createEffect X baseName options defines onCompiled e)).
Proof.
  intros Hwf.
  destruct (_compiledEffects e !! effect_name X baseName options defines e) as [r|] eqn:Hl.
  - destruct (createEffect_hit _ _ _ onCompiled _ _ Hl) as (-> & _ & _ & ->).
    rewrite lookup_alter_eq. destruct (wf_allocated e Hwf _ _ Hl) as [[f ->] _]. by eexists.
  - destruct (createEffect_miss _ _ _ onCompiled _ Hl) as (-> & _ & _ & ->).
    rewrite lookup_insert_eq. by eexists.
Qed.

(** Two names, two effects. *)
Lemma createEffect_distinct b1 o1 d1 c1 b2 o2 d2 c2 e :
  effects_wf e ->
  let e1 := snd (createEffect X b1 o1 d1 c1 e) in
  effect_name X b1 o1 d1 e <> effect_name X b2 o2 d2 e1 ->
  fst (createEffect X b2 o2 d2 c2 e1) <> fst (createEffect X b1 o1 d1 c1 e).
Proof.
  intros Hwf. cbv zeta. intros Hne.
  set (n1 := effect_name X b1 o1 d1 e) in *.
  set (e1 := snd (createEffect X b1 o1 d1 c1 e)) in *.
  set (n2 := effect_name X b2 o2 d2 e1) in *.
  destruct (_compiledEffects e !! n1) as [r1|] eqn:Hl1.
  - destruct (createEffect_hit _ _ _ c1 _ _ Hl1) as (-> & Ht & Hn & _).
    fold e1 in Ht, Hn.
    destruct (_compiledEffects e1 !! n2) as [r2|] eqn:Hl2.
    + destruct (createEffect_hit _ _ _ c2 _ _ Hl2) as (-> & _).
      intros ->. rewrite Ht in Hl2. by destruct Hne; eapply (wf_one_name e Hwf).
    + destruct (createEffect_miss _ _ _ c2 _ Hl2) as (-> & _).
      rewrite Hn. destruct (wf_allocated e Hwf _ _ Hl1) as [_ Hlt]. lia.
  - destruct (createEffect_miss _ _ _ c1 _ Hl1) as (-> & Ht & Hn & _).
    fold e1 in Ht, Hn. fold n1 in Ht.
    destruct (_compiledEffects e1 !! n2) as [r2|] eqn:Hl2.
    + destruct (createEffect_hit _ _ _ c2 _ _ Hl2) as (-> & _).
      rewrite Ht, lookup_insert_ne in Hl2 by done.
      destruct (wf_allocated e Hwf _ _ Hl2) as [_ Hlt]. lia.
    + destruct (createEffect_miss _ _ _ c2 _ Hl2) as (-> & _). rewrite Hn. lia.
Qed.

(** The name of an effect, written out. *)
Lemma effect_name_eq baseName options defines e :
  effect_name X baseName options defines e
  = js_string (vertex_of baseName) +:+ "+" +:+ js_string (fragment_of baseName) +:+ "@"
    +:+ (let globalDefines :=
           _GetGlobalDefines X (isNDCHalfZRange e) (useReverseDepthBuffer e)
             (useExactSrgbConversions e) in
         if truthy_str globalDefines
         then declared_defines options defines +:+ js_string globalDefines
         else declared_defines options defines).
Proof. reflexivity. Qed.

(** C4.  The name under which [createEffect] files an effect
    is the vertex source id, a ["+"], the fragment source id, an ["@"] and
    the defines of the call (given as the argument or inside the options)
    with the global defines appended; nothing else is filed by the call.
    Two calls in a row whose vertex id, fragment id and expanded defines
    agree return the same effect object and its reference count goes up by
    one; two calls that differ only in their defines return two different
    objects. *)
Theorem effect_memoization b1 o1 d1 c1 b2 o2 d2 c2 e :
  effects_wf e ->
  let r1 := fst (createEffect X b1 o1 d1 c1 e) in
  let e1 := snd (createEffect X b1 o1 d1 c1 e) in
  let r2 := fst (createEffect X b2 o2 d2 c2 e1) in
  let e2 := snd (createEffect X b2 o2 d2 c2 e1) in
  let globalDefines :=
    _GetGlobalDefines X (isNDCHalfZRange e) (useReverseDepthBuffer e)
      (useExactSrgbConversions e) in
  let expanded o d :=
    if truthy_str globalDefines then declared_defines o d +:+ js_string globalDefines
    else declared_defines o d in
  let key b o d :=
    js_string (vertex_of b) +:+ "+" +:+ js_string (fragment_of b) +:+ "@" +:+ expanded o d in
  _compiledEffects e1 !! key b1 o1 d1 = Some r1
  /\ (forall name, name <> key b1 o1 d1 ->
      _compiledEffects e1 !! name = _compiledEffects e !! name)
  /\ (js_string (vertex_of b2) = js_string (vertex_of b1) ->
      js_string (fragment_of b2) = js_string (fragment_of b1) ->
      expanded o2 d2 = expanded o1 d1 ->
      r2 = r1
      /\ exists f, effects e1 !! r1 = Some f
                   /\ effects e2 !! r1 = Some (Effect_set_refCount (_refCount f + 1) f))
  /\ (b2 = b1 -> declared_defines o2 d2 <> declared_defines o1 d1 -> r2 <> r1).
Proof.
  intros Hwf. cbv zeta.
  destruct (createEffect_flags b1 o1 d1 c1 e) as (F1 & F2 & F3). cbv zeta in F1, F2, F3.
  split; [rewrite <- effect_name_eq; apply createEffect_filed|]. split; [|split].
  - intros name Hname. rewrite <- effect_name_eq in Hname.
    destruct (_compiledEffects e !! effect_name X b1 o1 d1 e) as [r|] eqn:Hl.
    + by destruct (createEffect_hit _ _ _ c1 _ _ Hl) as (_ & -> & _).
    + destruct (createEffect_miss _ _ _ c1 _ Hl) as (_ & -> & _).
      by rewrite lookup_insert_ne.
  - intros Hv Hf Hd.
    assert (effect_name X b2 o2 d2 (snd (createEffect X b1 o1 d1 c1 e))
            = effect_name X b1 o1 d1 e) as Hname.
    { rewrite !effect_name_eq. cbv zeta. by rewrite F1, F2, F3, Hv, Hf, Hd. }
    pose proof (createEffect_filed b1 o1 d1 c1 e) as Hfiled. rewrite <- Hname in Hfiled.
    destruct (createEffect_hit _ _ _ c2 _ _ Hfiled) as (Hr & _ & _ & He).
    split; [done|].
    destruct (createEffect_stored b1 o1 d1 c1 e Hwf) as [f Hf1].
    exists f. split; [done|]. by rewrite He, lookup_alter_eq, Hf1.
  - intros -> Hne. apply createEffect_distinct; [done|].
    rewrite !effect_name_eq. cbv zeta. rewrite F1, F2, F3.
    intros Heq. apply Hne. do 4 apply (inj (String.app _)) in Heq.
    destruct (truthy_str _); [by apply string_app_inj_r in Heq|done].
Qed.

(** [createEffect] keeps the table well formed. *)
Lemma createEffect_wf baseName options defines onCompiled e :
  effects_wf e -> effects_wf (snd (createEffect X baseName options defines onCompiled e)).
Proof.
  intros Hwf.
  destruct (_compiledEffects e !! effect_name X baseName options defines e) as [r|] eqn:Hl.
  - destruct (createEffect_hit _ _ _ onCompiled _ _ Hl) as (_ & Ht & Hn & He).
    split.
    + intros name r0 Hr0. rewrite Ht in Hr0. rewrite Hn, He.
      destruct (wf_allocated e Hwf _ _ Hr0) as [[f Hf] Hlt]. split; [|done].
      destruct (decide (r = r0)) as [->|Hne].
      * rewrite lookup_alter_eq, Hf. by eexists.
      * rewrite lookup_alter_ne, Hf by done. by eexists.
    + intros n1 n2 r0. rewrite Ht. apply (wf_one_name e Hwf).
  - destruct (createEffect_miss _ _ _ onCompiled _ Hl) as (_ & Ht & Hn & He).
    split.
    + intros name r0 Hr0. rewrite Ht in Hr0. rewrite Hn, He.
      apply lookup_insert_Some in Hr0 as [[_ <-]|[_ Hr0]].
      * rewrite lookup_insert_eq. split; [by eexists|lia].
      * destruct (wf_allocated e Hwf _ _ Hr0) as [[f Hf] Hlt]. split; [|lia].
        rewrite lookup_insert_ne by lia. by eexists.
    + intros n1 n2 r0. rewrite Ht. intros H1 H2.
      apply lookup_insert_Some in H1 as [[<- <-]|[Hn1 H1]];
        apply lookup_insert_Some in H2 as [[<- Hr]|[Hn2 H2]]; try done.
      * destruct (wf_allocated e Hwf _ _ H2) as [_ Hlt]. lia.
      * subst r0. destruct (wf_allocated e Hwf _ _ H1) as [_ Hlt]. lia.
      * by apply (wf_one_name e Hwf _ _ r0).
Qed.

(** * Further properties of the engine *)

(** ** Index data *)

Definition is_typed (a : IndicesArray) : Prop :=
  match a with Uint16Array _ | Uint32Array _ => True | _ => False end.

Lemma map_mod_idemp (m : Z) (xs : list Z) :
  map (fun x => x mod m) (map (fun x => x mod m) xs) = map (fun x => x mod m) xs.
Proof.
  rewrite map_map. apply map_ext. intros x. apply Zmod_mod.
Qed.

Lemma map_mod_small (m : Z) (xs : list Z) :
  Forall (fun x => 0 <= x < m) xs -> map (fun x => x mod m) xs = xs.
Proof.
  induction 1 as [|x xs Hx _ IH]; [done|]. cbn. by rewrite IH, Z.mod_small.
Qed.

(** X1.  Whatever it is given, [_normalizeIndexData] returns a typed array
    ([Uint16Array] or [Uint32Array]), and its result is a fixed point:
    normalising it again returns it unchanged. *)
Theorem normalizeIndexData_idempotent indices e :
  let data := _normalizeIndexData indices e in
  is_typed data /\ _normalizeIndexData data e = data.
Proof.
  cbn zeta. unfold _normalizeIndexData, new_Uint16Array, new_Uint32Array.
  destruct indices as [xs|xs|xs|xs]; cbn.
  all: destruct (uintIndices (_caps e)) eqn:Hc; cbn; rewrite ?Hc; cbn.
  all: try destruct (needs32Bits xs); cbn; rewrite ?Hc; cbn.
  all: by rewrite ?map_mod_idemp.
Qed.

Lemma needs32Bits_false_bound xs :
  Forall (fun x => 0 <= x) xs -> needs32Bits xs = false ->
  Forall (fun x => 0 <= x < 65536) xs.
Proof.
  induction 1 as [|x xs Hx _ IH]; cbn; [done|].
  destruct (65535 <=? x) eqn:Hc; [done|]. intros Hn.
  constructor; [lia|by apply IH].
Qed.

(** X2.  With the 32-bit index capability, normalising a [number[]] or an
    [Int32Array] whose values are valid indices (0 up to 2^32 - 1) loses
    nothing: the typed array that comes out holds the same values in the
    same order.  Without the capability the same holds for values below
    65536. *)
Theorem normalizeIndexData_lossless indices e :
  from_numbers indices ->
  (uintIndices (_caps e) = true ->
     Forall (fun x => 0 <= x < 4294967296) (elements indices) ->
     elements (_normalizeIndexData indices e) = elements indices)
  /\ (uintIndices (_caps e) = false ->
     Forall (fun x => 0 <= x < 65536) (elements indices) ->
     elements (_normalizeIndexData indices e) = elements indices).
Proof.
  intros Hn. unfold _normalizeIndexData, new_Uint16Array, new_Uint32Array.
  destruct indices as [xs|xs|xs|xs]; try done; cbn.
  all: split; intros -> Hall.
  all: try (destruct (needs32Bits xs) eqn:Hs; cbn).
  all: try (by apply map_mod_small).
  all: apply map_mod_small, needs32Bits_false_bound; [|done].
  all: eapply Forall_impl; [exact Hall|]; cbn; lia.
Qed.

(** ** Sampling parameters *)

(** X3.  Whatever the values of the sampling-mode constants,
    [_getSamplingParameters] returns a magnification filter that is
    [NEAREST] or [LINEAR]; without mipmaps the minification filter is
    [NEAREST] or [LINEAR] too, never a mipmap filter; and when it reports
    [hasMipMaps] for a texture with mipmaps, the minification filter
    interpolates between mip levels. *)
Theorem getSamplingParameters_filters (S : SamplingModes) samplingMode generateMipMaps :
  let p := _getSamplingParameters S samplingMode generateMipMaps in
  (magFilter p = gl.NEAREST \/ magFilter p = gl.LINEAR)
  /\ (generateMipMaps = false -> minFilter p = gl.NEAREST \/ minFilter p = gl.LINEAR)
  /\ (generateMipMaps = true -> hasMipMaps p = true ->
      minFilter p = gl.NEAREST_MIPMAP_LINEAR \/ minFilter p = gl.LINEAR_MIPMAP_LINEAR).
Proof.
  cbn zeta. unfold _getSamplingParameters.
  repeat (destruct (samplingMode =? _); [destruct generateMipMaps; cbn; intuition congruence|]).
  destruct generateMipMaps; cbn; intuition congruence.
Qed.

(** ** Buffer creation: failure and bookkeeping *)

(** X4.  When the driver declines to allocate a buffer, [createVertexBuffer]
    and [createIndexBuffer] throw their "Unable to create ..." errors; the
    only call the driver has seen is the failed [createBuffer], and no
    buffer binding of the state cache has changed. *)
Theorem creation_failure_is_clean data indices updatable e :
  failAlloc (_gl e) = true ->
  let v := createVertexBuffer X data e in
  let i := createIndexBuffer X indices updatable e in
  fst v = Throw (Error "Unable to create vertex buffer")
  /\ fst i = Throw (Error "Unable to create index buffer")
  /\ emits e (snd v) [createBuffer]
  /\ emits e (snd i) [createBuffer]
  /\ _currentBoundBuffer (snd v) = _currentBoundBuffer e
  /\ _currentBoundBuffer (snd i) = _currentBoundBuffer e
  /\ _cachedIndexBuffer (snd i) = _cachedIndexBuffer e.
Proof.
  intros Hf. cbn zeta.
  unfold createVertexBuffer, _createVertexBuffer, createIndexBuffer, bind, call, throw,
    createBuffer_, gl_createBuffer, new_WebGLDataBuffer, emits.
  rewrite Hf. cbn. by repeat split.
Qed.

(** X5.  The buffer object that [createVertexBuffer] or
    [createDynamicVertexBuffer] returns records as its capacity the byte
    size of what was uploaded: four bytes per element of a [number[]], the
    byte length of a binary buffer, or the size that was asked for; and it
    wraps the handle the driver handed out. *)
Theorem vertex_buffer_capacity data r e e' :
  createVertexBuffer X data e = (Return r, e')
  \/ createDynamicVertexBuffer X data e = (Return r, e') ->
  capacity <$> buffers e' !! r = Some (byteCapacity data)
  /\ underlyingResource <$> buffers e' !! r = Some (Some (nextHandle (_gl e)))
  /\ nextHandle (_gl e') = nextHandle (_gl e) + 1.
Proof.
  unfold createVertexBuffer, createDynamicVertexBuffer.
  intros [Hc|Hc]; apply _createVertexBuffer_inv in Hc as (_ & _ & -> & ->).
  all: rewrite createdVertexBuffer_store; repeat split.
  all: unfold createdVertexBuffer, update_buffer, _resetVertexBufferBinding; cbn.
  all: by rewrite !bindArrayBuffer_nf.
Qed.

(** ** Viewport and pixel-store caches *)

Definition viewport_is (x y width height : Z) e : bool :=
  (x =? vx (_viewportCached e)) && (y =? vy (_viewportCached e))
  && (width =? vz (_viewportCached e)) && (height =? vw (_viewportCached e)).

Lemma _viewport_nf x y width height e :
  _viewport x y width height e
  = if viewport_is x y width height e then e
    else gl_do (stateCall "viewport" [x; y; width; height])
           (set_viewportCached {| vx := x; vy := y; vz := width; vw := height |} e).
Proof. unfold _viewport, viewport_is. by repeat destruct (_ =? _). Qed.

(** X6.  [_viewport] goes to the driver exactly when one of the four
    values differs from the cached viewport; afterwards the cache holds the
    four values, so the same viewport set again changes nothing and
    issues nothing. *)
Theorem viewport_is_cached x y width height e :
  let e1 := _viewport x y width height e in
  emits e e1 (if viewport_is x y width height e then []
              else [stateCall "viewport" [x; y; width; height]])
  /\ _viewportCached e1 = {| vx := x; vy := y; vz := width; vw := height |}
  /\ _viewport x y width height e1 = e1.
Proof.
  cbn zeta. rewrite !_viewport_nf.
  destruct (viewport_is x y width height e) eqn:Hv.
  - rewrite Hv. split; [apply emits_refl|]. split; [|done].
    unfold viewport_is in Hv.
    apply andb_true_iff in Hv as [Hv Hh]. apply andb_true_iff in Hv as [Hv Hw].
    apply andb_true_iff in Hv as [Hx Hy].
    apply Z.eqb_eq in Hx, Hy, Hw, Hh. subst. by destruct (_viewportCached e).
  - unfold viewport_is at 1. cbn. rewrite !Z.eqb_refl. cbn. by repeat split.
Qed.

(** X7.  [_unpackFlipY] sends [pixelStorei(UNPACK_FLIP_Y_WEBGL, ...)]
    exactly when the value differs from the cached one.  With
    [enableUnpackFlipYCached] the value is then cached and a repeated call
    is free; without it the cache is never written, so a value that differs
    from the cached one is sent again on every call. *)
Theorem unpackFlipY_cache enable value e :
  let e1 := _unpackFlipY enable value e in
  emits e e1
    (if strict_ne (_unpackFlipYCached e) (Some value)
     then [pixelStorei gl.UNPACK_FLIP_Y_WEBGL (if value then 1 else 0)] else [])
  /\ (enable = true ->
      _unpackFlipYCached e1 = Some value /\ _unpackFlipY enable value e1 = e1)
  /\ (enable = false ->
      _unpackFlipYCached e1 = _unpackFlipYCached e
      /\ emits e1 (_unpackFlipY enable value e1)
           (if strict_ne (_unpackFlipYCached e) (Some value)
            then [pixelStorei gl.UNPACK_FLIP_Y_WEBGL (if value then 1 else 0)] else [])).
Proof.
  cbn zeta. unfold _unpackFlipY, emits.
  destruct (strict_ne (_unpackFlipYCached e) (Some value)) eqn:Hne.
  - split; [by destruct enable|]. split; intros ->; cbn.
    + by rewrite strict_ne_refl.
    + by rewrite Hne.
  - rewrite Hne, app_nil_r. apply strict_ne_false in Hne.
    split; [done|]. split; intros ->; by rewrite ?app_nil_r.
Qed.

(** ** Vertex array objects *)

(** X8.  [bindVertexArrayObject] binds a vertex array object that is not
    the cached one and then forgets the cached vertex and index buffers,
    asks for a wipe of the vertex attributes and takes the index width
    from the index buffer it was given.  Binding the cached object again
    does nothing at all, whatever index buffer comes with it. *)
Theorem bindVertexArrayObject_cached vao indexBuffer indexBuffer' e :
  let e1 := bindVertexArrayObject vao indexBuffer e in
  _cachedVertexArrayObject e1 = Some (Some vao)
  /\ bindVertexArrayObject vao indexBuffer' e1 = e1
  /\ emits e e1 (if strict_ne (_cachedVertexArrayObject e) (Some (Some vao))
                 then [bindVertexArray (Some vao)] else [])
  /\ (_cachedVertexArrayObject e <> Some (Some vao) ->
      _cachedVertexBuffers e1 = Some None
      /\ _cachedIndexBuffer e1 = Some None
      /\ _mustWipeVertexAttributes e1 = true
      /\ _uintIndicesCurrentlySet e1
         = match indexBuffer with
           | Some b => default false (is32Bits <$> buffers e !! b)
           | None => false
           end).
Proof.
  cbn zeta. unfold bindVertexArrayObject, emits.
  destruct (strict_ne (_cachedVertexArrayObject e) (Some (Some vao))) eqn:Hne; cbn.
  - rewrite strict_ne_refl. repeat split.
    destruct indexBuffer as [b|]; [|done]. by destruct (buffers e !! b).
  - rewrite Hne, app_nil_r. apply strict_ne_false in Hne. by repeat split.
Qed.

(** X9.  Outside the recording of a vertex array object, binding an array
    or index buffer first unbinds the cached vertex array object: when one
    is cached the driver receives [bindVertexArray(null)] before anything
    else, and afterwards no vertex array object is cached, so a buffer is
    never bound into an object that was bound for drawing. *)
Theorem buffer_bind_unbinds_vao buffer e :
  _vaoRecordInProgress e = false ->
  let a := bindArrayBuffer buffer e in
  let i := bindIndexBuffer buffer e in
  truthy_slot (_cachedVertexArrayObject a) = false
  /\ truthy_slot (_cachedVertexArrayObject i) = false
  /\ (truthy_slot (_cachedVertexArrayObject e) = true ->
      (exists cs, emits e a (bindVertexArray None :: cs))
      /\ (exists cs, emits e i (bindVertexArray None :: cs))
      /\ _cachedVertexArrayObject a = Some None
      /\ _cachedVertexArrayObject i = Some None).
Proof.
  intros Hrec. cbn zeta. rewrite bindArrayBuffer_nf, bindIndexBuffer_nf.
  unfold emits, unbind_after, unbind_calls, vao_after, vao_calls. cbn. rewrite Hrec.
  destruct (truthy_slot (_cachedVertexArrayObject e)) eqn:Ht; cbn.
  - repeat split; try done; eexists; reflexivity.
  - by rewrite Ht.
Qed.

(** ** Draw calls *)

Lemma _bindIndexBufferWithCache_flag b d e :
  buffers e !! b = Some d ->
  _cachedIndexBuffer e <> Some (Some b) ->
  let e1 := _bindIndexBufferWithCache (Some b) e in
  _uintIndicesCurrentlySet e1 = is32Bits d
  /\ _cachedIndexBuffer e1 = Some (Some b)
  /\ _currentBoundBuffer e1 !! gl.ELEMENT_ARRAY_BUFFER = Some (Some b).
Proof.
  intros Hd Hne. cbn zeta. unfold _bindIndexBufferWithCache.
  rewrite (strict_ne_true _ _ Hne), bindIndexBuffer_nf. cbn.
  by rewrite Hd, lookup_insert_eq.
Qed.

(** X10.  An index buffer that [createIndexBuffer] returned and that is
    then bound through [_bindIndexBufferWithCache] is drawn with the element
    type of its data: [drawElementsType] ends with a [drawElements] call
    whose type is [UNSIGNED_INT] exactly when the normalised data is 32-bit
    ([UNSIGNED_SHORT] otherwise), and whose byte offset is the start index
    times the element size (4 or 2). *)
Theorem indexed_draw_matches_index_width indices updatable fillMode indexStart indexCount
    e r e1 :
  createIndexBuffer X indices updatable e = (Return r, e1) ->
  let wide := bool_decide (BYTES_PER_ELEMENT (_normalizeIndexData indices e) = Some 4) in
  let e2 := _bindIndexBufferWithCache (Some r) e1 in
  exists cs,
    emits e2 (drawElementsType X K fillMode indexStart indexCount None e2)
      (cs ++ [drawElements (_drawMode K fillMode) indexCount
                (if wide then gl.UNSIGNED_INT else gl.UNSIGNED_SHORT)
                (indexStart * (if wide then 4 else 2))]).
Proof.
  intros Hc. cbn zeta. apply createIndexBuffer_inv in Hc as (_ & -> & ->).
  set (e1 := createdIndexBuffer indices updatable e).
  assert (_cachedIndexBuffer e1 <> Some (Some (nextObject e))) as Hne.
  { subst e1. unfold createdIndexBuffer, update_buffer, _resetIndexBufferBinding. cbn.
    discriminate. }
  pose proof (_bindIndexBufferWithCache_flag (nextObject e) _ e1
                (createdIndexBuffer_store indices updatable e) Hne) as Hflag.
  cbv zeta in Hflag. destruct Hflag as (Hflag & _).
  set (e2 := _bindIndexBufferWithCache (Some (nextObject e)) e1) in *. clearbody e2.
  simpl in Hflag.
  destruct (drawElementsType_emits fillMode indexStart indexCount None e2) as [cs Hcs].
  exists cs. unfold elementsCall in Hcs. rewrite Hflag in Hcs. exact Hcs.
Qed.

Lemma _drawMode_wrappers :
  MATERIAL_WireFrameFillMode K <> MATERIAL_TriangleFillMode K ->
  MATERIAL_WireFrameFillMode K <> MATERIAL_PointFillMode K ->
  MATERIAL_PointFillMode K <> MATERIAL_TriangleFillMode K ->
  _drawMode K (MATERIAL_TriangleFillMode K) = gl.TRIANGLES
  /\ _drawMode K (MATERIAL_WireFrameFillMode K) = gl.LINES
  /\ _drawMode K (MATERIAL_PointFillMode K) = gl.POINTS.
Proof.
  intros H1 H2 H3. unfold _drawMode. rewrite !Z.eqb_refl.
  apply Z.eqb_neq in H1, H2, H3. by rewrite H1, H2, H3.
Qed.

(** X11.  Provided the triangle, wireframe and point fill modes are three
    different constants: [draw] and [drawUnIndexed] end with a draw call in
    [TRIANGLES] mode when [useTriangles] is set and in [LINES] mode when it
    is not, and [drawPointClouds] ends with one in [POINTS] mode.  The call
    is the instanced variant exactly when an instance count other than 0
    is given. *)
Theorem draw_wrappers_choose_primitive (useTriangles : bool) start count instancesCount e :
  MATERIAL_WireFrameFillMode K <> MATERIAL_TriangleFillMode K ->
  MATERIAL_WireFrameFillMode K <> MATERIAL_PointFillMode K ->
  MATERIAL_PointFillMode K <> MATERIAL_TriangleFillMode K ->
  let mode := if useTriangles then gl.TRIANGLES else gl.LINES in
  let type := if _uintIndicesCurrentlySet e then gl.UNSIGNED_INT else gl.UNSIGNED_SHORT in
  let size := if _uintIndicesCurrentlySet e then 4 else 2 in
  (exists cs,
     emits e (draw X K useTriangles start count instancesCount e)
       (cs ++ [match instancesCount with
               | Some n => if n =? 0 then drawElements mode count type (start * size)
                           else drawElementsInstanced mode count type (start * size) n
               | None => drawElements mode count type (start * size)
               end]))
  /\ (exists cs,
     emits e (drawUnIndexed X K useTriangles start count instancesCount e)
       (cs ++ [match instancesCount with
               | Some n => if n =? 0 then drawArrays mode start count
                           else drawArraysInstanced mode start count n
               | None => drawArrays mode start count
               end]))
  /\ (exists cs,
     emits e (drawPointClouds X K start count instancesCount e)
       (cs ++ [match instancesCount with
               | Some n => if n =? 0 then drawArrays gl.POINTS start count
                           else drawArraysInstanced gl.POINTS start count n
               | None => drawArrays gl.POINTS start count
               end])).
Proof.
  intros H1 H2 H3. cbn zeta.
  destruct (_drawMode_wrappers H1 H2 H3) as (Ht & Hw & Hp).
  unfold draw, drawUnIndexed, drawPointClouds. repeat split.
  - destruct (drawElementsType_emits
                (if useTriangles then MATERIAL_TriangleFillMode K
                 else MATERIAL_WireFrameFillMode K) start count instancesCount e)
      as [cs Hcs].
    exists cs. unfold elementsCall in Hcs.
    destruct useTriangles; rewrite ?Ht, ?Hw in Hcs.
    all: destruct instancesCount as [n|]; cbn in *; [by destruct (n =? 0)|done].
  - destruct (drawArraysType_emits
                (if useTriangles then MATERIAL_TriangleFillMode K
                 else MATERIAL_WireFrameFillMode K) start count instancesCount e)
      as [cs Hcs].
    exists cs. unfold arraysCall in Hcs.
    destruct useTriangles; rewrite ?Ht, ?Hw in Hcs.
    all: destruct instancesCount as [n|]; cbn in *; [by destruct (n =? 0)|done].
  - destruct (drawArraysType_emits (MATERIAL_PointFillMode K) start count instancesCount e)
      as [cs Hcs].
    exists cs. unfold arraysCall in Hcs. rewrite Hp in Hcs.
    destruct instancesCount as [n|]; cbn in *; [by destruct (n =? 0)|done].
Qed.

(** ** Releasing effects *)

Section Release.

Variable resetCachedPipeline : WebGLProgram -> Ext -> Ext.
Variable notifyObservers : Ext -> Ext.

(** X12.  [_deletePipelineContext] never leaves the program it deletes as
    the current program: when the program is current, [useProgram(null)]
    is issued and the cache reset before [deleteProgram]; otherwise
    [deleteProgram] is the only call.  A context without a program is left
    alone. *)
Theorem deleted_program_is_not_current p e :
  let e1 := _deletePipelineContext resetCachedPipeline (Some p) e in
  _currentProgram e1 <> Some (Some p)
  /\ emits e e1
       ((if bool_decide (_currentProgram e = Some (Some p)) then [useProgram None] else [])
        ++ [stateCall "deleteProgram" [p]])
  /\ _compiledEffects e1 = _compiledEffects e
  /\ _deletePipelineContext resetCachedPipeline None e = e.
Proof.
  cbn zeta. unfold _deletePipelineContext, _setProgram, setProgram_helper, emits, strict_ne.
  cbn. destruct (decide (_currentProgram e = Some (Some p))) as [Hc|Hc].
  - rewrite (bool_decide_eq_true_2 _ Hc), Hc.
    rewrite (bool_decide_eq_false_2 (Some (Some p) ≠ Some (Some p))) by (by intros []).
    cbn. rewrite (bool_decide_eq_true_2 (Some (Some p) ≠ Some None)) by done.
    cbn. by rewrite <- app_assoc.
  - rewrite (bool_decide_eq_false_2 _ Hc), (bool_decide_eq_true_2 _ Hc). by cbn.
Qed.

Lemma _releaseEffect_returns effect f e :
  effects e !! effect = Some f ->
  _releaseEffect resetCachedPipeline effect e
  = (Return tt,
     _deletePipelineContext resetCachedPipeline (pipelineProgram f)
       (set_compiledEffects (delete (_key f) (_compiledEffects e)) e)).
Proof.
  intros Hf. unfold _releaseEffect. step. rewrite Hf. step.
  destruct (bool_decide _) eqn:Hd; [done|].
  apply bool_decide_eq_false in Hd. apply eq_None_not_Some in Hd.
  rewrite delete_id by done. by destruct e.
Qed.

Lemma _deletePipelineContext_frame program e :
  let e1 := _deletePipelineContext resetCachedPipeline program e in
  _compiledEffects e1 = _compiledEffects e
  /\ effects e1 = effects e
  /\ nextObject e1 = nextObject e
  /\ isNDCHalfZRange e1 = isNDCHalfZRange e
  /\ useReverseDepthBuffer e1 = useReverseDepthBuffer e
  /\ useExactSrgbConversions e1 = useExactSrgbConversions e.
Proof.
  cbn zeta. unfold _deletePipelineContext, _setProgram, setProgram_helper.
  destruct program as [p|]; [|done]. cbn.
  destruct (negb _); [|done]. by destruct (strict_ne _ _).
Qed.

(** X13.  Provided the [Effect] constructor keeps the key it is given: an
    effect that [createEffect] has just compiled and that is then released
    with [_releaseEffect] is no longer filed under its name, and the next
    [createEffect] with the same arguments compiles a new effect object
    instead of returning the released one. *)
Theorem released_effect_is_recompiled baseName options defines onCompiled e :
  (forall b o d n, _key (Effect_new X b o d n) = n) ->
  _compiledEffects e !! effect_name X baseName options defines e = None ->
  let r1 := fst (createEffect X baseName options defines onCompiled e) in
  let e1 := snd (createEffect X baseName options defines onCompiled e) in
  exists e2,
    _releaseEffect resetCachedPipeline r1 e1 = (Return tt, e2)
    /\ _compiledEffects e2 !! effect_name X baseName options defines e2 = None
    /\ _compiledEffects e2 = _compiledEffects e
    /\ fst (createEffect X baseName options defines onCompiled e2) = nextObject e1
    /\ fst (createEffect X baseName options defines onCompiled e2) <> r1.
Proof.
  intros Hkey Hmiss. cbn zeta.
  destruct (createEffect_miss _ _ _ onCompiled _ Hmiss) as (Hr & Ht & Hn & He).
  destruct (createEffect_flags baseName options defines onCompiled e) as (F1 & F2 & F3).
  set (e1 := snd (createEffect X baseName options defines onCompiled e)) in *.
  set (name := effect_name X baseName options defines e) in *.
  rewrite Hr.
  assert (effects e1 !! nextObject e = Some (Effect_new X baseName options defines name))
    as Hf by (by rewrite He, lookup_insert_eq).
  eexists. split; [by apply _releaseEffect_returns|].
  rewrite Hkey.
  set (e1' := set_compiledEffects (delete name (_compiledEffects e1)) e1).
  destruct (_deletePipelineContext_frame
              (pipelineProgram (Effect_new X baseName options defines name)) e1')
    as (G1 & G2 & G3 & G4 & G5 & G6).
  set (e2 := _deletePipelineContext resetCachedPipeline _ e1') in *. clearbody e2.
  assert (effect_name X baseName options defines e2 = name) as Hname.
  { unfold name, effect_name. f_equal. f_equal. f_equal. f_equal.
    apply fullDefines_of_flags; rewrite ?G4, ?G5, ?G6; subst e1'; cbn; congruence. }
  assert (_compiledEffects e2 = _compiledEffects e) as Htable.
  { rewrite G1. subst e1'. cbn. rewrite Ht. by rewrite delete_insert_id. }
  assert (_compiledEffects e2 !! effect_name X baseName options defines e2 = None) as Hgone.
  { by rewrite Hname, Htable. }
  destruct (createEffect_miss _ _ _ onCompiled _ Hgone) as (-> & _).
  rewrite G3. subst e1'. cbn. rewrite Hn. repeat split; try done. lia.
Qed.

(** X14.  After [releaseEffects] nothing is filed any more: the next
    [createEffect], whatever its arguments and whether or not the same
    name was compiled before, creates a new effect object. *)
Theorem releaseEffects_forgets baseName options defines onCompiled e :
  let e1 := releaseEffects notifyObservers e in
  _compiledEffects e1 = ∅
  /\ effects e1 = effects e
  /\ fst (createEffect X baseName options defines onCompiled e1) = nextObject e
  /\ (forall r, is_Some (effects e !! r) -> r < nextObject e ->
      fst (createEffect X baseName options defines onCompiled e1) <> r).
Proof.
  cbn zeta.
  assert (_compiledEffects (releaseEffects notifyObservers e)
            !! effect_name X baseName options defines (releaseEffects notifyObservers e)
          = None) as Hmiss by (unfold releaseEffects; cbn; apply lookup_empty).
  destruct (createEffect_miss _ _ _ onCompiled _ Hmiss) as (-> & _).
  unfold releaseEffects. cbn. repeat split; try done. intros r _ Hr. lia.
Qed.

End Release.

(** ** Unbinding textures *)

(** Binding no texture: only the cache entry of the active channel
    decides. *)
Lemma _bindTextureDirectly_null target e :
  _bindTextureDirectly target None false false e
  = (Return false,
     if strict_ne (_boundTexturesCache e !! _activeChannel e) (Some None)
     then set_boundTexturesCache (<[_activeChannel e := None]> (_boundTexturesCache e))
            (gl_do (bindTexture target None) (_activateCurrentTexture e))
     else e).
Proof.
  unfold _bindTextureDirectly. monad.
  destruct (strict_ne _ _) eqn:Hne; cbn; [|done].
  rewrite _activateCurrentTexture_nf. reflexivity.
Qed.

(** A loop over [0 .. n-1] that keeps an invariant indexed by the
    counter. *)
Lemma for_each_seqZ_inv (P : Z -> Engine Ext -> Prop) (body : Z -> M Ext unit) (n : nat) :
  forall s,
  (forall i e, s <= i < s + Z.of_nat n -> P i e ->
     fst (body i e) = Return tt /\ P (i + 1) (snd (body i e))) ->
  forall e, P s e ->
  fst (for_each (seqZ s (Z.of_nat n)) body e) = Return tt
  /\ P (s + Z.of_nat n) (snd (for_each (seqZ s (Z.of_nat n)) body e)).
Proof.
  induction n as [|n IH]; intros s Hbody e HP.
  - cbn. by rewrite Z.add_0_r.
  - rewrite seqZ_cons by lia. cbn [for_each]. unfold bind.
    destruct (Hbody s e) as [Hr HP1]; [lia|done|].
    destruct (body s e) as [[[]|err] e1]; cbn in Hr, HP1; [|done].
    replace (Z.pred (Z.of_nat (S n))) with (Z.of_nat n) by lia.
    replace (s + Z.of_nat (S n)) with (Z.succ s + Z.of_nat n) by lia.
    apply IH; [|by replace (Z.succ s) with (s + 1) by lia].
    intros i e' Hi. apply Hbody. lia.
Qed.

(** What one turn of the loop of [unbindAllTextures] leaves. *)
Definition channel_unbound (channel : Z) e : Engine Ext :=
  let e := set_activeChannel channel e in
  if strict_ne (_boundTexturesCache e !! channel) (Some None)
  then set_boundTexturesCache (<[channel := None]> (_boundTexturesCache e))
         (gl_do (bindTexture gl.TEXTURE_2D None) (_activateCurrentTexture e))
  else e.

Lemma channel_unbound_cache channel e :
  _boundTexturesCache (channel_unbound channel e)
  = <[channel := None]> (_boundTexturesCache e)
  /\ _activeChannel (channel_unbound channel e) = channel.
Proof.
  unfold channel_unbound. cbn.
  destruct (strict_ne _ _) eqn:Hne; cbn.
  - by rewrite _activateCurrentTexture_nf.
  - apply strict_ne_false in Hne. by rewrite insert_id.
Qed.

Lemma unbind_again target channel e :
  _bindTextureDirectly target None false false (channel_unbound channel e)
  = (Return false, channel_unbound channel e).
Proof.
  rewrite _bindTextureDirectly_null.
  destruct (channel_unbound_cache channel e) as [-> ->].
  by rewrite lookup_insert_eq, strict_ne_refl.
Qed.

Definition unbind_call (c : GLCall) : Prop :=
  match c with
  | activeTexture _ => True
  | bindTexture target texture => target = gl.TEXTURE_2D /\ texture = None
  | _ => False
  end.

Lemma channel_unbound_emits channel e :
  exists cs, emits e (channel_unbound channel e) cs /\ Forall unbind_call cs.
Proof.
  unfold channel_unbound, emits. cbn.
  destruct (strict_ne _ _); cbn.
  - rewrite _activateCurrentTexture_nf. cbn. unfold activate_calls. cbn.
    destruct (negb _); cbn; rewrite <- ?app_assoc; eexists; (split; [reflexivity|]).
    all: by repeat constructor.
  - exists []. by rewrite app_nil_r.
Qed.

Lemma channel_unbound_frame channel e :
  textures (channel_unbound channel e) = textures e
  /\ _webGLVersion (channel_unbound channel e) = _webGLVersion e
  /\ _currentProgram (channel_unbound channel e) = _currentProgram e
  /\ _currentBoundBuffer (channel_unbound channel e) = _currentBoundBuffer e.
Proof.
  unfold channel_unbound. cbn.
  destruct (strict_ne _ _); cbn; [|done]. by rewrite _activateCurrentTexture_nf.
Qed.

Lemma unbindAllTextures_turn_nf channel e :
  unbindAllTextures_turn channel e = (Return tt, channel_unbound channel e).
Proof.
  unfold unbindAllTextures_turn. step.
  assert (_bindTextureDirectly gl.TEXTURE_2D None false false (set_activeChannel channel e)
          = (Return false, channel_unbound channel e)) as H1.
  { by rewrite _bindTextureDirectly_null. }
  rewrite (bind_returned _ _ _ _ _ H1).
  rewrite (bind_returned _ _ _ _ _ (unbind_again gl.TEXTURE_CUBE_MAP channel e)).
  step. destruct (1 <? _); [|done].
  rewrite (bind_returned _ _ _ _ _ (unbind_again gl.TEXTURE_3D channel e)).
  by rewrite (bind_returned _ _ _ _ _ (unbind_again gl.TEXTURE_2D_ARRAY channel e)).
Qed.

(** X15.  [unbindAllTextures] always returns.  Afterwards every channel
    below [_maxSimultaneousTextures] holds no texture in the cache and every
    other channel holds what it held.  The driver has been sent nothing but
    [activeTexture] calls and [bindTexture(TEXTURE_2D, null)]: once the 2D
    target of a channel is unbound the cache entry is null, so the binds
    of null to the cube, 3D and array targets that follow never reach the
    driver. *)
Theorem unbindAllTextures_unbinds maxTextures e :
  let e' := snd (unbindAllTextures maxTextures e) in
  fst (unbindAllTextures maxTextures e) = Return tt
  /\ (forall c, 0 <= c < maxTextures -> _boundTexturesCache e' !! c = Some None)
  /\ (forall c, ~ 0 <= c < maxTextures ->
      _boundTexturesCache e' !! c = _boundTexturesCache e !! c)
  /\ textures e' = textures e
  /\ exists cs, emits e e' cs /\ Forall unbind_call cs.
Proof.
  cbn zeta. unfold unbindAllTextures.
  set (P := fun (i : Z) (e1 : Engine Ext) =>
              (forall c, 0 <= c < i -> _boundTexturesCache e1 !! c = Some None)
              /\ (forall c, ~ 0 <= c < i ->
                  _boundTexturesCache e1 !! c = _boundTexturesCache e !! c)
              /\ textures e1 = textures e
              /\ exists cs, emits e e1 cs /\ Forall unbind_call cs).
  destruct (Z.le_gt_cases 0 maxTextures) as [Hn|Hn].
  - assert (forall i e1, 0 <= i < 0 + Z.of_nat (Z.to_nat maxTextures) -> P i e1 ->
              fst (unbindAllTextures_turn i e1) = Return tt
              /\ P (i + 1) (snd (unbindAllTextures_turn i e1))) as Hbody.
    { intros i e1 Hi (Q1 & Q2 & Q3 & cs & Q4 & Q5).
      rewrite unbindAllTextures_turn_nf. split; [done|].
      destruct (channel_unbound_cache i e1) as [Hc _].
      destruct (channel_unbound_frame i e1) as (Ht & _).
      destruct (channel_unbound_emits i e1) as (cs1 & E1 & F1).
      unfold P, snd. rewrite Hc, Ht. repeat split.
      - intros c Hci. destruct (decide (c = i)) as [->|Hne].
        { apply lookup_insert_eq. }
        rewrite lookup_insert_ne by done. apply Q1. lia.
      - intros c Hci. rewrite lookup_insert_ne by lia. apply Q2. lia.
      - done.
      - exists (cs ++ cs1). split; [by eapply emits_trans|by apply Forall_app]. }
    assert (P 0 e) as HP0.
    { unfold P. repeat split; try done; [lia|]. exists []. split; [apply emits_refl|done]. }
    destruct (for_each_seqZ_inv P _ _ 0 Hbody e HP0) as [Hr HP].
    rewrite Z2Nat.id in Hr, HP by done. rewrite Z.add_0_l in HP.
    split; [exact Hr|exact HP].
  - rewrite seqZ_nil by lia. cbn. repeat split; try done; [lia|].
    exists []. split; [apply emits_refl|done].
Qed.

(** ** Binding a texture to a channel *)

(** A bind for rendering stays on the active channel. *)
Lemma _bindTextureDirectly_channel target texture e w1 e1 :
  _bindTextureDirectly target texture false false e = (Return w1, e1) ->
  _activeChannel e1 = _activeChannel e
  /\ (forall r t, texture = Some r -> textures e !! r = Some t ->
      _associatedChannel t = _activeChannel e ->
      exists t1, textures e1 !! r = Some t1 /\ _associatedChannel t1 = _activeChannel e).
Proof.
  unfold _bindTextureDirectly, update_texture. monad.
  intros Hrun; texture_paths.
  all: repeat split; intros; simplify_eq; cbn in *;
    rewrite ?lookup_insert_eq, ?lookup_alter_eq; eauto.
  all: repeat match goal with
              | H : textures _ !! _ = Some _ |- _ => rewrite H in *; clear H
              end; cbn in *; simplify_eq; cbn; eauto.
Qed.

(** X16.  [_bindTexture] with an undefined channel does nothing.  With a
    channel, once it returns, that channel is the active one, the cache
    holds the texture for it, and the texture (when there is one) records
    the channel as its associated channel. *)
Theorem bindTexture_binds_channel channel texture e e' :
  _bindTexture None texture e = (Return tt, e)
  /\ (_bindTexture (Some channel) texture e = (Return tt, e') ->
      _activeChannel e' = channel
      /\ _boundTexturesCache e' !! channel = Some texture
      /\ forall r, texture = Some r ->
           exists t, textures e' !! r = Some t /\ _associatedChannel t = channel).
Proof.
  split; [done|]. unfold _bindTexture. step.
  destruct texture as [r|]; cbn.
  - destruct (textures e !! r) as [t|] eqn:Ht; cbn; [|discriminate].
    step.
    set (e0 := set_activeChannel channel
                 (update_texture r (InternalTexture_set_associatedChannel channel) e)).
    destruct (_bindTextureDirectly (_getTextureTarget t) (Some r) false false e0)
      as [[w|err] e1] eqn:Hrun; unfold bind; rewrite Hrun; [|discriminate].
    intros [= <-].
    destruct (_bindTextureDirectly_post _ _ _ _ _ _ Hrun) as (Hc & _).
    destruct (_bindTextureDirectly_channel _ _ _ _ _ Hrun) as (Ha & Ht1).
    rewrite Ha in Hc. split; [exact Ha|]. split; [exact Hc|].
    intros r' [= <-].
    apply (Ht1 r (InternalTexture_set_associatedChannel channel t) eq_refl).
    + subst e0. unfold update_texture. cbn. by rewrite lookup_alter_eq, Ht.
    + done.
  - step.
    set (e0 := set_activeChannel channel e).
    destruct (_bindTextureDirectly gl.TEXTURE_2D None false false e0)
      as [[w|err] e1] eqn:Hrun; unfold bind; rewrite Hrun; [|discriminate].
    intros [= <-].
    destruct (_bindTextureDirectly_post _ _ _ _ _ _ Hrun) as (Hc & _).
    destruct (_bindTextureDirectly_channel _ _ _ _ _ Hrun) as (Ha & _).
    rewrite Ha in Hc. by repeat split.
Qed.

(** ** Vertex attribute pointers *)

(** The pointer record [_vertexAttribPointer] leaves and whether it found
    anything to change. *)
Definition pointer_set (buffer : Ref) (indx size type : Z) (normalized : bool)
    (stride offset : Z) (p : BufferPointer) : BufferPointer :=
  {| active := true;
     bp_index := if active p then bp_index p else Some indx;
     bp_size := Some size; bp_type := Some type; bp_normalized := Some normalized;
     bp_stride := Some stride; bp_offset := Some offset; bp_buffer := Some buffer |}.

Definition pointer_changed (buffer : Ref) (size type : Z) (normalized : bool)
    (stride offset : Z) (p : BufferPointer) : bool :=
  negb (active p)
  || (strict_ne (bp_buffer p) (Some buffer) || strict_ne (bp_size p) (Some size)
      || strict_ne (bp_type p) (Some type) || strict_ne (bp_normalized p) (Some normalized)
      || strict_ne (bp_stride p) (Some stride) || strict_ne (bp_offset p) (Some offset)).

Definition pointer_call (indx size type : Z) (normalized : bool) (stride offset : Z)
  : GLCall :=
  if (type =? gl.UNSIGNED_INT) || (type =? gl.INT)
  then vertexAttribIPointer indx size type stride offset
  else vertexAttribPointer indx size type normalized stride offset.

Lemma _vertexAttribPointer_nf buffer indx size type normalized stride offset p e :
  js_index (_currentBufferPointers e) indx = Some p ->
  _vertexAttribPointer buffer indx size type normalized stride offset e
  = let e1 := set_currentBufferPointers
                (<[Z.to_nat indx := pointer_set buffer indx size type normalized stride
                                      offset p]> (_currentBufferPointers e)) e in
    if pointer_changed buffer size type normalized stride offset p || _vaoRecordInProgress e
    then gl_do (pointer_call indx size type normalized stride offset)
           (bindArrayBuffer (Some buffer) e1)
    else e1.
Proof.
  intros Hp. unfold _vertexAttribPointer, pointer_set, pointer_changed, pointer_call.
  rewrite Hp. destruct p as [a pi ps pt pn pst po pb]. cbn [active].
  destruct a; cbn [negb orb].
  - unfold assign_if_ne. cbn [bp_buffer bp_size bp_type bp_normalized bp_stride bp_offset
                               bp_index active].
    destruct (strict_ne pb _) eqn:H1, (strict_ne ps _) eqn:H2, (strict_ne pt _) eqn:H3,
      (strict_ne pn _) eqn:H4, (strict_ne pst _) eqn:H5, (strict_ne po _) eqn:H6.
    all: repeat match goal with
                | H : strict_ne _ _ = false |- _ => apply strict_ne_false in H; subst
                end.
    all: cbn [orb]; by destruct (_ || _).
  - cbn [orb]. by destruct (_ || _).
Qed.

Lemma js_index_insert {A} (l : list A) (i : Z) (p q : A) :
  js_index l i = Some p -> js_index (<[Z.to_nat i := q]> l) i = Some q.
Proof.
  unfold js_index. destruct (i <? 0); [done|]. intros Hl.
  apply list_lookup_insert_eq. by apply lookup_lt_Some in Hl.
Qed.

Lemma pointer_set_again buffer indx size type normalized stride offset p :
  let q := pointer_set buffer indx size type normalized stride offset p in
  pointer_set buffer indx size type normalized stride offset q = q
  /\ pointer_changed buffer size type normalized stride offset q = false.
Proof.
  cbn zeta. unfold pointer_set, pointer_changed. cbn. by rewrite !strict_ne_refl.
Qed.

(** X17.  [_vertexAttribPointer] on an attribute index that has a pointer
    record leaves that record active and holding exactly the buffer, size,
    type, normalisation, stride and offset it was given; repeated with the
    same arguments outside the recording of a vertex array object it
    changes nothing and sends nothing.  On an index without a pointer
    record it returns at once. *)
Theorem vertexAttribPointer_is_cached buffer indx size type normalized stride offset e :
  let e1 := _vertexAttribPointer buffer indx size type normalized stride offset e in
  (js_index (_currentBufferPointers e) indx = None -> e1 = e)
  /\ (is_Some (js_index (_currentBufferPointers e) indx) ->
      (exists q, js_index (_currentBufferPointers e1) indx = Some q
                 /\ active q = true /\ bp_buffer q = Some buffer /\ bp_size q = Some size
                 /\ bp_type q = Some type /\ bp_normalized q = Some normalized
                 /\ bp_stride q = Some stride /\ bp_offset q = Some offset)
      /\ (_vaoRecordInProgress e = false ->
          _vertexAttribPointer buffer indx size type normalized stride offset e1 = e1)).
Proof.
  cbn zeta. split.
  { intros Hn. unfold _vertexAttribPointer. by rewrite Hn. }
  intros [p Hp].
  set (q := pointer_set buffer indx size type normalized stride offset p).
  assert (js_index
            (_currentBufferPointers
               (_vertexAttribPointer buffer indx size type normalized stride offset e)) indx
          = Some q
          /\ _vaoRecordInProgress
               (_vertexAttribPointer buffer indx size type normalized stride offset e)
             = _vaoRecordInProgress e) as [Hq Hrec].
  { rewrite (_vertexAttribPointer_nf _ _ _ _ _ _ _ _ _ Hp). cbv zeta.
    destruct (_ || _); [rewrite bindArrayBuffer_nf|]; cbn.
    all: split; [|done]; by eapply js_index_insert. }
  split; [by exists q|].
  intros Hoff. rewrite Hoff in Hrec.
  set (e1 := _vertexAttribPointer buffer indx size type normalized stride offset e) in *.
  rewrite (_vertexAttribPointer_nf _ _ _ _ _ _ _ _ _ Hq). cbv zeta.
  destruct (pointer_set_again buffer indx size type normalized stride offset p) as [Hs Hc].
  fold q in Hs, Hc. rewrite Hs, Hc.
  rewrite Hrec. cbn [orb].
  unfold js_index in Hq. destruct (indx <? 0); [done|].
  by rewrite list_insert_id.
Qed.

(** ** Disabling vertex attributes *)

(** Is attribute [i] marked as enabled?  Holes and indices past the end
    of the array read as [undefined], which is falsy. *)
Definition enabled_at (l : list bool) (i : Z) : bool := default false (js_index l i).

Lemma enabled_at_set l i v j :
  0 <= i ->
  enabled_at (js_array_set l i v) j = if bool_decide (j = i) then v else enabled_at l j.
Proof.
  intros Hi. unfold enabled_at, js_array_set, js_index.
  destruct (i <? 0) eqn:Hi0; [lia|].
  destruct (j <? 0) eqn:Hj0.
  { rewrite bool_decide_eq_false_2 by lia. done. }
  destruct (Z.to_nat i <? length l)%nat eqn:Hlt.
  - apply Nat.ltb_lt in Hlt. case_bool_decide as Hji.
    + subst. by rewrite list_lookup_insert_eq.
    + rewrite list_lookup_insert_ne by lia. done.
  - apply Nat.ltb_ge in Hlt. case_bool_decide as Hji.
    + subst. rewrite lookup_app_r by lia.
      rewrite lookup_app_r by (rewrite length_replicate; lia).
      rewrite length_replicate.
      by replace (Z.to_nat i - length l - (Z.to_nat i - length l))%nat with 0%nat by lia.
    + destruct (decide (Z.to_nat j < length l)%nat) as [Hjl|Hjl].
      * rewrite lookup_app_l by done. done.
      * rewrite lookup_app_r by lia.
        rewrite (lookup_ge_None_2 l) by lia.
        destruct (decide (Z.to_nat j < Z.to_nat i)%nat) as [Hji'|Hji'].
        { rewrite lookup_app_l by (rewrite length_replicate; lia).
          rewrite lookup_replicate_2 by lia. done. }
        rewrite lookup_app_r by (rewrite length_replicate; lia).
        rewrite length_replicate.
        rewrite lookup_ge_None_2; [done|]. cbn. lia.
Qed.

Lemma disableAttributeByIndex_nf i p e :
  js_index (_currentBufferPointers e) i = Some p ->
  disableAttributeByIndex i e
  = (Return tt,
     set_currentBufferPointers
       (<[Z.to_nat i := BufferPointer_set_active false p]> (_currentBufferPointers e))
       (set_vertexAttribArraysEnabled (js_array_set (_vertexAttribArraysEnabled e) i false)
          (gl_do (disableVertexAttribArray i) e))).
Proof.
  intros Hp. unfold disableAttributeByIndex. step. cbn. rewrite Hp. reflexivity.
Qed.

Lemma js_index_insert_ne {A} (l : list A) (i j : Z) (q : A) :
  0 <= i -> j <> i -> js_index (<[Z.to_nat i := q]> l) j = js_index l j.
Proof.
  intros Hi Hne. unfold js_index. destruct (j <? 0) eqn:Hj; [done|].
  apply list_lookup_insert_ne. lia.
Qed.

Lemma seqZ_snoc (i : Z) : 0 <= i -> seqZ 0 (i + 1) = seqZ 0 i ++ [i].
Proof. intros Hi. rewrite seqZ_app by lia. by rewrite Z.add_0_l. Qed.

(** The state the wipe loop has reached before turn [i]. *)
Definition wiped_below (e0 : Engine Ext) (i : Z) (e : Engine Ext) : Prop :=
  _caps e = _caps e0
  /\ length (_currentBufferPointers e) = length (_currentBufferPointers e0)
  /\ _mustWipeVertexAttributes e = false
  /\ (forall j, 0 <= j < i ->
        enabled_at (_vertexAttribArraysEnabled e) j = false
        /\ exists p, js_index (_currentBufferPointers e) j = Some p /\ active p = false)
  /\ emits e0 e (map disableVertexAttribArray (seqZ 0 i)).

Lemma wiped_below_step e0 i e :
  pointers_ok e0 -> 0 <= i < maxVertexAttribs (_caps e0) ->
  wiped_below e0 i e ->
  fst (disableAttributeByIndex i e) = Return tt
  /\ wiped_below e0 (i + 1) (snd (disableAttributeByIndex i e)).
Proof.
  unfold pointers_ok. intros Hok Hi (Hcaps & Hlen & Hflag & Hbelow & Hem).
  destruct (js_index_Some (_currentBufferPointers e) i) as [p Hp]; [lia|].
  rewrite (disableAttributeByIndex_nf _ _ _ Hp). split; [done|].
  unfold wiped_below. cbn -[enabled_at js_index js_array_set emits seqZ].
  repeat split; try done.
  - by rewrite length_insert.
  - destruct (decide (j = i)) as [->|Hne].
    + rewrite enabled_at_set by lia. by rewrite bool_decide_eq_true_2.
    + rewrite enabled_at_set by lia. rewrite bool_decide_eq_false_2 by done.
      apply Hbelow. lia.
  - destruct (decide (j = i)) as [->|Hne].
    + eexists. split; [by eapply js_index_insert|done].
    + destruct (Hbelow j) as (_ & q & Hq & Ha); [lia|].
      exists q. split; [|done]. by rewrite js_index_insert_ne by lia.
  - unfold emits in *. cbn. rewrite Hem, seqZ_snoc by lia.
    by rewrite map_app, app_assoc.
Qed.

Lemma wipe_loop e0 e n :
  pointers_ok e0 -> n = maxVertexAttribs (_caps e0) -> wiped_below e0 0 e ->
  fst (for_each (seqZ 0 n) disableAttributeByIndex e) = Return tt
  /\ wiped_below e0 (Z.max 0 n) (snd (for_each (seqZ 0 n) disableAttributeByIndex e)).
Proof.
  intros Hok -> H0.
  destruct (Z.le_gt_cases 0 (maxVertexAttribs (_caps e0))) as [Hn|Hn].
  - destruct (for_each_seqZ_inv (wiped_below e0) disableAttributeByIndex
                (Z.to_nat (maxVertexAttribs (_caps e0))) 0) with (e := e) as [Hr HP];
      [|exact H0|].
    { intros i e1 Hi. apply wiped_below_step; [done|]. lia. }
    rewrite Z2Nat.id in Hr, HP by done. rewrite Z.add_0_l in HP.
    by rewrite Z.max_r by lia.
  - rewrite seqZ_nil by lia. rewrite Z.max_l by lia. done.
Qed.

(** The state the selective loop has reached before turn [i]. *)
Definition disabled_below (e0 : Engine Ext) (i : Z) (e : Engine Ext) : Prop :=
  _caps e = _caps e0
  /\ length (_currentBufferPointers e) = length (_currentBufferPointers e0)
  /\ _mustWipeVertexAttributes e = _mustWipeVertexAttributes e0
  /\ length (_vertexAttribArraysEnabled e) = length (_vertexAttribArraysEnabled e0)
  /\ (forall j, 0 <= j < i -> j < maxVertexAttribs (_caps e0) ->
        enabled_at (_vertexAttribArraysEnabled e) j = false).

Definition selective_turn (i : Z) : M Ext unit :=
  bind (get (fun e => (maxVertexAttribs (_caps e) <=? i)
                      || negb (default false (js_index (_vertexAttribArraysEnabled e) i))))
    (fun skip => if skip then ret tt else disableAttributeByIndex i).

Lemma disabled_below_step e0 i e :
  pointers_ok e0 -> 0 <= i < Z.of_nat (length (_vertexAttribArraysEnabled e0)) ->
  disabled_below e0 i e ->
  fst (selective_turn i e) = Return tt /\ disabled_below e0 (i + 1) (snd (selective_turn i e)).
Proof.
  unfold pointers_ok. intros Hok Hi (Hcaps & Hlen & Hflag & Hen & Hbelow).
  unfold selective_turn. step. rewrite Hcaps.
  destruct (maxVertexAttribs (_caps e0) <=? i) eqn:Hmax; cbn [orb].
  { split; [done|]. repeat split; try done. intros j Hj Hjm.
    apply Hbelow; [|done]. apply Z.leb_le in Hmax. lia. }
  apply Z.leb_gt in Hmax.
  destruct (default false (js_index (_vertexAttribArraysEnabled e) i)) eqn:Hon; cbn [negb].
  - destruct (js_index_Some (_currentBufferPointers e) i) as [p Hp]; [lia|].
    rewrite (disableAttributeByIndex_nf _ _ _ Hp). split; [done|].
    unfold disabled_below. cbn -[enabled_at js_index js_array_set emits seqZ].
    repeat split; try done.
    + by rewrite length_insert.
    + unfold js_array_set. destruct (i <? 0) eqn:Hi0; [lia|].
      destruct (Z.to_nat i <? length (_vertexAttribArraysEnabled e))%nat eqn:Hlt.
      * by rewrite length_insert.
      * apply Nat.ltb_ge in Hlt. lia.
    + intros j Hj Hjm. rewrite enabled_at_set by lia.
      case_bool_decide; [done|]. apply Hbelow; lia.
  - split; [done|]. repeat split; try done. intros j Hj Hjm.
    destruct (decide (j = i)) as [->|Hne]; [exact Hon|]. apply Hbelow; lia.
Qed.

Lemma selective_loop e :
  pointers_ok e ->
  let loop :=
    for_each (seqZ 0 (Z.of_nat (length (_vertexAttribArraysEnabled e)))) selective_turn in
  fst (loop e) = Return tt
  /\ disabled_below e (Z.of_nat (length (_vertexAttribArraysEnabled e))) (snd (loop e)).
Proof.
  intros Hok. cbn zeta.
  assert (disabled_below e 0 e) as H0.
  { repeat split; try done; lia. }
  pose proof (for_each_seqZ_inv (disabled_below e) selective_turn
                (length (_vertexAttribArraysEnabled e)) 0) as Hloop.
  destruct (Hloop ltac:(intros i e1 Hi; apply disabled_below_step; [done|lia]) e H0)
    as [Hr HP].
  rewrite Z.add_0_l in HP. by split.
Qed.

Lemma unbindAllAttributes_eq e :
  unbindAllAttributes e
  = if _mustWipeVertexAttributes e
    then for_each (seqZ 0 (maxVertexAttribs (_caps e))) disableAttributeByIndex
           (set_mustWipeVertexAttributes false e)
    else for_each (seqZ 0 (Z.of_nat (length (_vertexAttribArraysEnabled e))))
           selective_turn e.
Proof.
  unfold unbindAllAttributes. step. case_match; by step.
Qed.

(** What [unbindAllAttributes] leaves behind. *)
Lemma unbindAllAttributes_post e :
  pointers_ok e ->
  let e' := snd (unbindAllAttributes e) in
  fst (unbindAllAttributes e) = Return tt
  /\ _mustWipeVertexAttributes e' = false
  /\ (forall i, 0 <= i < maxVertexAttribs (_caps e) ->
      enabled_at (_vertexAttribArraysEnabled e') i = false)
  /\ (_mustWipeVertexAttributes e = true ->
      emits e e' (map disableVertexAttribArray (seqZ 0 (maxVertexAttribs (_caps e))))
      /\ forall i, 0 <= i < maxVertexAttribs (_caps e) ->
           exists p, js_index (_currentBufferPointers e') i = Some p /\ active p = false).
Proof.
  intros Hok. cbn zeta. rewrite unbindAllAttributes_eq.
  destruct (_mustWipeVertexAttributes e) eqn:Hwipe.
  - assert (wiped_below e 0 (set_mustWipeVertexAttributes false e)) as H0.
    { repeat split; try done; try lia. unfold emits. cbn. by rewrite app_nil_r. }
    destruct (wipe_loop e (set_mustWipeVertexAttributes false e) _ Hok eq_refl H0)
      as [Hr (_ & _ & Hflag & Hbelow & Hem)].
    split; [exact Hr|]. split; [exact Hflag|]. split.
    + intros i Hi. apply Hbelow. lia.
    + intros _. split.
      * destruct (Z.le_gt_cases 0 (maxVertexAttribs (_caps e))) as [Hn|Hn].
        { by rewrite Z.max_r in Hem by lia. }
        rewrite Z.max_l in Hem by lia. rewrite !seqZ_nil in Hem by lia.
        rewrite !seqZ_nil by lia. exact Hem.
      * intros i Hi. apply Hbelow. lia.
  - destruct (selective_loop e Hok) as [Hr (_ & _ & Hflag & Hen & Hbelow)].
    split; [exact Hr|]. split; [by rewrite Hflag|]. split; [|done].
    intros i Hi.
    destruct (decide (i < Z.of_nat (length (_vertexAttribArraysEnabled e)))) as [Hlt|Hge].
    + apply Hbelow; lia.
    + unfold enabled_at, js_index. destruct (i <? 0); [done|].
      rewrite lookup_ge_None_2; [done|]. rewrite Hen. lia.
Qed.

(** X18.  On an engine that has a pointer record for each of its
    [maxVertexAttribs] attributes, [unbindAllAttributes] returns, and
    afterwards no attribute below [maxVertexAttribs] is marked as enabled
    and the wipe flag is off.  When the wipe flag was on, the driver has
    received [disableVertexAttribArray] for every attribute from 0 to
    [maxVertexAttribs - 1], in that order and nothing else, and every one
    of their pointer records is inactive. *)
Theorem unbindAllAttributes_disables e :
  pointers_ok e ->
  let e' := snd (unbindAllAttributes e) in
  fst (unbindAllAttributes e) = Return tt
  /\ _mustWipeVertexAttributes e' = false
  /\ (forall i, 0 <= i < maxVertexAttribs (_caps e) ->
      enabled_at (_vertexAttribArraysEnabled e') i = false)
  /\ (_mustWipeVertexAttributes e = true ->
      emits e e' (map disableVertexAttribArray (seqZ 0 (maxVertexAttribs (_caps e))))
      /\ forall i, 0 <= i < maxVertexAttribs (_caps e) ->
           exists p, js_index (_currentBufferPointers e') i = Some p /\ active p = false).
Proof. apply unbindAllAttributes_post. Qed.

(** ** What binding vertex attributes leaves alone

    A finer footprint than [attrib_write]: the attribute machinery never
    writes the cached vertex buffers, the cached effect or the cached
    flip-Y value, and it leaves the cached vertex array object alone while
    one is recorded and when none is bound. *)

Record Framed (e e' : Engine Ext) : Prop := mkFramed {
  fr_recording : _vaoRecordInProgress e' = _vaoRecordInProgress e;
  fr_cachedVertexBuffers : _cachedVertexBuffers e' = _cachedVertexBuffers e;
  fr_cachedEffect : _cachedEffectForVertexBuffers e' = _cachedEffectForVertexBuffers e;
  fr_unpackFlipY : _unpackFlipYCached e' = _unpackFlipYCached e;
  fr_vao : _vaoRecordInProgress e = true \/ truthy_slot (_cachedVertexArrayObject e) = false ->
           _cachedVertexArrayObject e' = _cachedVertexArrayObject e
}.

Lemma Framed_refl e : Framed e e.
Proof. by split. Qed.

Lemma Framed_trans e1 e2 e3 : Framed e1 e2 -> Framed e2 e3 -> Framed e1 e3.
Proof.
  intros [R1 V1 E1 F1 A1] [R2 V2 E2 F2 A2]. split; try congruence.
  intros Hrec. rewrite A2; [by apply A1|]. rewrite R1, A1 by done. exact Hrec.
Qed.

Definition framed {A} (m : M Ext A) : Prop := forall e, Framed e (snd (m e)).

Lemma framed_ret {A} (a : A) : framed (ret a).
Proof. intros e. apply Framed_refl. Qed.

Lemma framed_throw {A} err : framed (throw (A := A) err).
Proof. intros e. apply Framed_refl. Qed.

Lemma framed_get {A} (f : Engine Ext -> A) : framed (get f).
Proof. intros e. apply Framed_refl. Qed.

Lemma framed_run f : (forall e, Framed e (f e)) -> framed (run f).
Proof. intros Hf e. apply Hf. Qed.

Lemma framed_bind {A B} (m : M Ext A) (k : A -> M Ext B) :
  framed m -> (forall a, framed (k a)) -> framed (bind m k).
Proof.
  intros Hm Hk e. unfold bind. specialize (Hm e).
  destruct (m e) as [[a|err] e1]; cbn in *; [|done].
  eapply Framed_trans; [exact Hm|apply Hk].
Qed.

Lemma framed_for_each {A} (l : list A) (body : A -> M Ext unit) :
  (forall x, framed (body x)) -> framed (for_each l body).
Proof.
  intros Hb. induction l as [|x l IH]; cbn; [apply framed_ret|].
  apply framed_bind; [apply Hb|done].
Qed.

Lemma gl_do_Framed c e : Framed e (gl_do c e).
Proof. by split. Qed.

Lemma bindArrayBuffer_Framed buffer e : Framed e (bindArrayBuffer buffer e).
Proof.
  rewrite bindArrayBuffer_nf. split; cbn; try done.
  unfold unbind_after, vao_after. intros [->| ->]; [done|]. by destruct (_vaoRecordInProgress e).
Qed.

Lemma unbind_guarded_Framed e :
  Framed e (if negb (_vaoRecordInProgress e) then _unbindVertexArrayObject e else e).
Proof.
  destruct (_vaoRecordInProgress e) eqn:Hrec; cbn; [apply Framed_refl|].
  rewrite _unbindVertexArrayObject_nf. split; cbn; try done.
  unfold vao_after. intros [Hr| ->]; [congruence|done].
Qed.

Lemma disableAttributeByIndex_framed i : framed (disableAttributeByIndex i).
Proof.
  unfold disableAttributeByIndex.
  apply framed_bind; [apply framed_run; intros e; apply gl_do_Framed|intros _].
  apply framed_bind; [apply framed_run; intros e; by split|intros _].
  apply framed_bind; [apply framed_get|intros [p|]]; [|apply framed_throw].
  apply framed_run. intros e. by split.
Qed.

Lemma unbindAllAttributes_framed : framed unbindAllAttributes.
Proof.
  unfold unbindAllAttributes.
  apply framed_bind; [apply framed_get|intros [|]].
  - apply framed_bind; [apply framed_run; intros e; by split|intros _].
    apply framed_bind; [apply framed_get|intros n].
    apply framed_for_each. intros i. apply disableAttributeByIndex_framed.
  - apply framed_bind; [apply framed_get|intros ul].
    apply framed_for_each. intros i.
    apply framed_bind; [apply framed_get|intros [|]]; [apply framed_ret|].
    apply disableAttributeByIndex_framed.
Qed.

Lemma _vertexAttribPointer_Framed buffer indx size type normalized stride offset e :
  Framed e (_vertexAttribPointer buffer indx size type normalized stride offset e).
Proof.
  destruct (js_index (_currentBufferPointers e) indx) as [p|] eqn:Hp.
  - rewrite (_vertexAttribPointer_nf _ _ _ _ _ _ _ _ _ Hp). cbv zeta.
    destruct (_ || _); [|by split].
    eapply Framed_trans; [|apply gl_do_Framed].
    eapply Framed_trans; [|apply bindArrayBuffer_Framed]. by split.
  - unfold _vertexAttribPointer. rewrite Hp. apply Framed_refl.
Qed.

Lemma bindAttribute_Framed vertexBuffers f overrideVertexBuffers index e :
  Framed e (bindAttribute vertexBuffers f overrideVertexBuffers index e).
Proof.
  unfold bindAttribute. cbv zeta.
  destruct (attributeLocations f !! index) as [order|]; [|apply Framed_refl].
  destruct (0 <=? order); [|apply Framed_refl].
  destruct (attributesNames f !! index) as [ai|]; [|apply Framed_refl].
  match goal with
  | |- Framed _ (match ?x with Some _ => _ | None => _ end) => destruct x as [vb|]
  end; [|apply Framed_refl].
  set (e1 := gl_do (enableVertexAttribArray order) e).
  assert (Framed e e1) as H1 by apply gl_do_Framed.
  set (e2 := if negb (_vaoRecordInProgress e1)
             then set_vertexAttribArraysEnabled
                    (js_array_set (_vertexAttribArraysEnabled e1) order true) e1
             else e1).
  assert (Framed e e2) as H2.
  { eapply Framed_trans; [exact H1|]. subst e2.
    destruct (negb _); [by split|apply Framed_refl]. }
  clearbody e2. clear H1. clearbody e1.
  destruct (getBuffer vb) as [buffer|]; [|exact H2].
  eapply Framed_trans; [exact H2|].
  eapply Framed_trans; [apply _vertexAttribPointer_Framed|].
  destruct (getIsInstanced vb); [|apply Framed_refl].
  eapply Framed_trans; [apply gl_do_Framed|].
  destruct (negb _); [|apply Framed_refl]. by split.
Qed.

Lemma _bindVertexBuffersAttributes_framed vertexBuffers effect overrideVertexBuffers :
  framed (_bindVertexBuffersAttributes vertexBuffers effect overrideVertexBuffers).
Proof.
  unfold _bindVertexBuffersAttributes.
  apply framed_bind; [apply framed_get|intros [f|]]; [|apply framed_throw].
  apply framed_bind; [apply framed_run; intros e; apply unbind_guarded_Framed|intros _].
  apply framed_bind; [apply unbindAllAttributes_framed|intros _].
  apply framed_for_each. intros index. apply framed_run. intros e.
  apply bindAttribute_Framed.
Qed.

(** ** Binding the same buffers again *)

Lemma _bindIndexBufferWithCache_post indexBuffer e :
  let e1 := _bindIndexBufferWithCache indexBuffer e in
  _cachedVertexBuffers e1 = _cachedVertexBuffers e
  /\ _cachedEffectForVertexBuffers e1 = _cachedEffectForVertexBuffers e
  /\ _bindIndexBufferWithCache indexBuffer e1 = e1.
Proof.
  cbn zeta. unfold _bindIndexBufferWithCache. destruct indexBuffer as [b|]; [|done].
  destruct (strict_ne (_cachedIndexBuffer e) (Some (Some b))) eqn:Hne.
  - rewrite bindIndexBuffer_nf. cbn. by rewrite strict_ne_refl.
  - by rewrite Hne.
Qed.

Lemma bindBuffers_inv vertexBuffers indexBuffer effect overrideVertexBuffers e e1 :
  bindBuffers vertexBuffers indexBuffer effect overrideVertexBuffers e = (Return tt, e1) ->
  exists e0,
    e1 = _bindIndexBufferWithCache indexBuffer e0
    /\ _cachedVertexBuffers e0 = Some (Some (vbs_id vertexBuffers))
    /\ _cachedEffectForVertexBuffers e0 = Some (Some effect).
Proof.
  unfold bindBuffers. step.
  destruct (strict_ne (_cachedVertexBuffers e) _
            || strict_ne (_cachedEffectForVertexBuffers e) _) eqn:Hstale.
  - repeat step.
    set (e' := set_cachedEffectForVertexBuffers (Some (Some effect))
                 (set_cachedVertexBuffers (Some (Some (vbs_id vertexBuffers))) e)).
    pose proof (_bindVertexBuffersAttributes_framed vertexBuffers effect
                  overrideVertexBuffers e') as [_ Hv He _ _].
    destruct (_bindVertexBuffersAttributes vertexBuffers effect overrideVertexBuffers e')
      as [[[]|err] e0] eqn:Hrun.
    + rewrite (bind_returned _ _ _ _ _ Hrun). step. intros [= <-].
      exists e0. cbn in Hv, He. by repeat split.
    + unfold bind. rewrite Hrun. discriminate.
  - step. intros [= <-]. exists e. apply orb_false_iff in Hstale as [H1 H2].
    apply strict_ne_false in H1, H2. by repeat split.
Qed.

(** X19.  Once [bindBuffers] has returned, calling it again with the same
    vertex buffers, effect and index buffer returns without changing the
    engine and without a driver call; the override dictionary plays no
    part in that decision. *)
Theorem bindBuffers_again_is_free vertexBuffers indexBuffer effect overrideVertexBuffers
    overrideVertexBuffers' e e1 :
  bindBuffers vertexBuffers indexBuffer effect overrideVertexBuffers e = (Return tt, e1) ->
  bindBuffers vertexBuffers indexBuffer effect overrideVertexBuffers' e1 = (Return tt, e1).
Proof.
  intros (e0 & -> & Hv & He)%bindBuffers_inv.
  destruct (_bindIndexBufferWithCache_post indexBuffer e0) as (Hv1 & He1 & Hidem).
  unfold bindBuffers. step. rewrite Hv1, He1, Hv, He, !strict_ne_refl. cbn [orb].
  step. by rewrite Hidem.
Qed.

(** ** Recording a vertex array object *)

Lemma createVertexArray__ok e :
  failAlloc (_gl e) = false ->
  createVertexArray_ e
  = (Some (nextHandle (_gl e)),
     set_gl {| calls := calls (_gl e) ++ [stateCall "createVertexArray" []];
               nextHandle := nextHandle (_gl e) + 1;
               failAlloc := failAlloc (_gl e) |} e).
Proof. intros Hf. unfold createVertexArray_, gl_createVertexArray. by rewrite Hf. Qed.

(** X20.  When the driver declines to create a vertex array object,
    [recordVertexArrayObject] throws "Unable to create VAO".  When it
    returns, it returns the handle the driver handed out; the driver calls
    are the creation, [bindVertexArray] of the new object, vertex attribute
    calls, a [bindBuffer] of the index buffer on the element-array target
    (issued whether or not that buffer was the cached binding) and
    [bindVertexArray(null)]; the recording flag is off again and the cached
    vertex array object is the one from before. *)
Theorem recordVertexArrayObject_brackets vertexBuffers indexBuffer effect
    overrideVertexBuffers e :
  (failAlloc (_gl e) = true ->
   fst (recordVertexArrayObject vertexBuffers indexBuffer effect overrideVertexBuffers e)
   = Throw (Error "Unable to create VAO"))
  /\ forall vao e',
      recordVertexArrayObject vertexBuffers indexBuffer effect overrideVertexBuffers e
      = (Return vao, e') ->
      vao = nextHandle (_gl e)
      /\ _vaoRecordInProgress e' = false
      /\ _cachedVertexArrayObject e' = _cachedVertexArrayObject e
      /\ _currentBoundBuffer e' !! gl.ELEMENT_ARRAY_BUFFER = Some indexBuffer
      /\ exists cs,
          Forall attrib_call cs
          /\ emits e e'
               ([stateCall "createVertexArray" []; bindVertexArray (Some vao)] ++ cs
                ++ [bindBuffer gl.ELEMENT_ARRAY_BUFFER (resourceOf e indexBuffer);
                    bindVertexArray None]).
Proof.
  split.
  { intros Hf. unfold recordVertexArrayObject, bind, call, createVertexArray_,
      gl_createVertexArray. by rewrite Hf. }
  intros vao e'. unfold recordVertexArrayObject.
  destruct (failAlloc (_gl e)) eqn:Hf.
  { unfold bind, call, createVertexArray_, gl_createVertexArray. rewrite Hf. discriminate. }
  unfold bind at 1, call. rewrite (createVertexArray__ok _ Hf). repeat step.
  set (ea := set_mustWipeVertexAttributes true
               (gl_do (bindVertexArray (Some (nextHandle (_gl e))))
                  (set_vaoRecordInProgress true
                     (set_gl {| calls := calls (_gl e) ++ [stateCall "createVertexArray" []];
                                nextHandle := nextHandle (_gl e) + 1;
                                failAlloc := failAlloc (_gl e) |} e)))).
  pose proof (_bindVertexBuffersAttributes_framed vertexBuffers effect
                overrideVertexBuffers ea) as [Hrec _ _ _ Hvao].
  pose proof (attrib_writes_Untouched _ _
                (_bindVertexBuffersAttributes_within vertexBuffers effect
                   overrideVertexBuffers ea)) as Hun.
  destruct (_bindVertexBuffersAttributes vertexBuffers effect overrideVertexBuffers ea)
    as [[[]|err] eb] eqn:Hrun.
  2: { unfold bind. rewrite Hrun. discriminate. }
  rewrite (bind_returned _ _ _ _ _ Hrun). step. intros [= <- <-].
  cbn [snd] in Hrec, Hvao, Hun. destruct Hun as [_ _ _ _ _ _ _ _ Hstore _ _ _ _ _ Hcalls].
  destruct Hcalls as (cs & Hcs & Hall).
  assert (_vaoRecordInProgress eb = true) as Hrb by (by rewrite Hrec).
  rewrite bindIndexBuffer_nf. cbn.
  unfold unbind_after, unbind_calls, bind_calls, rebinds. rewrite Hrb. cbn.
  rewrite lookup_insert_eq, Hvao by (by left).
  repeat split. exists cs. split; [exact Hall|].
  assert (resourceOf eb indexBuffer = resourceOf e indexBuffer) as ->.
  { unfold resourceOf. by rewrite Hstore. }
  unfold emits in *. cbn. rewrite Hcs. subst ea. cbn. by rewrite <- !app_assoc.
Qed.

(** ** Instance attributes *)

(** The recorded pairs of attribute location and instance buffer. *)
Definition instance_pairs e : list (Z * Ref) :=
  zip (_currentInstanceLocations e) (_currentInstanceBuffers e).

Definition other_location (attributeLocation : Z) (p : Z * Ref) : bool :=
  negb (bool_decide (fst p = attributeLocation)).

Lemma other_location_true x y (b : Ref) : y <> x -> other_location x (y, b) = true.
Proof. intros Hy. unfold other_location. cbn. by rewrite bool_decide_eq_false_2. Qed.

Lemma other_location_false x (b : Ref) : other_location x (x, b) = false.
Proof. unfold other_location. cbn. by rewrite bool_decide_eq_true_2. Qed.

Lemma indexOf_None_filter x (l : list Z) (bs : list Ref) :
  indexOf l x = None ->
  (x ∉ l) /\ List.filter (other_location x) (zip l bs) = zip l bs.
Proof.
  revert bs. induction l as [|y l IH]; intros bs; cbn [indexOf].
  { intros _. split; [apply not_elem_of_nil|done]. }
  case_bool_decide as Hy; [done|]. intros Hn.
  destruct (indexOf l x) eqn:Hl; [done|].
  split; [apply not_elem_of_cons; split; [done|by apply (IH [])]|].
  destruct bs as [|b bs]; [done|]. cbn -[other_location].
  rewrite other_location_true by done. f_equal. by apply IH.
Qed.

Lemma indexOf_Some_filter x (l : list Z) (bs : list Ref) i :
  indexOf l x = Some i ->
  (x ∈ l)
  /\ List.filter (other_location x) (zip (delete i l) (delete i bs))
     = List.filter (other_location x) (zip l bs)
  /\ (length l = length bs -> length (delete i l) = length (delete i bs))
  /\ S (length (delete i l)) = length l.
Proof.
  revert bs i. induction l as [|y l IH]; intros bs i; cbn [indexOf]; [done|].
  case_bool_decide as Hy.
  - intros [= <-]. subst y. split; [apply list_elem_of_here|].
    destruct bs as [|b bs].
    + cbn. split; [by destruct l|]. split; [done|done].
    + cbn -[other_location]. rewrite other_location_false.
      split; [done|]. split; [by intros [= ->]|done].
  - destruct (indexOf l x) as [i'|] eqn:Hl; [|done]. intros [= <-].
    destruct (IH (tail bs) i' eq_refl) as (Hin & Hf & Hlen & Hs).
    split; [by apply list_elem_of_further|].
    destruct bs as [|b bs].
    + cbn. split; [done|]. split; [done|]. f_equal. exact Hs.
    + cbn -[other_location]. cbn -[other_location] in Hf, Hlen.
      rewrite other_location_true by done.
      split; [f_equal; exact Hf|].
      split; [intros [= Hl']; f_equal; by apply Hlen|f_equal; exact Hs].
Qed.

(** The loop, given enough turns, removes exactly the pairs at the given
    location. *)
Lemma disableInstanceAttribute_loop_spec x fuel :
  forall shouldClean e,
  (length (_currentInstanceLocations e) <= fuel)%nat ->
  length (_currentInstanceLocations e) = length (_currentInstanceBuffers e) ->
  let r := disableInstanceAttribute_loop fuel x shouldClean e in
  instance_pairs (snd r) = List.filter (other_location x) (instance_pairs e)
  /\ (x ∉ _currentInstanceLocations (snd r))
  /\ length (_currentInstanceLocations (snd r)) = length (_currentInstanceBuffers (snd r))
  /\ fst r = shouldClean || bool_decide (x ∈ _currentInstanceLocations e)
  /\ snd r = set_currentInstanceBuffers (_currentInstanceBuffers (snd r))
               (set_currentInstanceLocations (_currentInstanceLocations (snd r)) e).
Proof.
  induction fuel as [|fuel IH]; intros shouldClean e Hfuel Hlen; cbn zeta.
  - cbn. destruct (_currentInstanceLocations e) as [|y l] eqn:Hl; [|cbn in Hfuel; lia].
    unfold instance_pairs. rewrite Hl. cbn.
    rewrite bool_decide_eq_false_2 by apply not_elem_of_nil.
    rewrite orb_false_r. repeat split; try done; [apply not_elem_of_nil|].
    rewrite <- Hl. by destruct e.
  - cbn [disableInstanceAttribute_loop].
    destruct (indexOf (_currentInstanceLocations e) x) as [i|] eqn:Hi.
    + destruct (indexOf_Some_filter x _ (_currentInstanceBuffers e) i Hi)
        as (Hin & Hf & Hl & Hs).
      set (e1 := set_currentInstanceBuffers (delete i (_currentInstanceBuffers _)) _).
      destruct (IH true e1) as (Q1 & Q2 & Q3 & Q4 & Q5).
      { subst e1. cbn. lia. }
      { subst e1. cbn. by apply Hl. }
      rewrite Q1. split; [exact Hf|]. split; [exact Q2|]. split; [exact Q3|].
      split; [rewrite Q4; cbn [orb]; by rewrite (bool_decide_eq_true_2 _ Hin), orb_true_r|].
      rewrite Q5 at 1. by subst e1.
    + destruct (indexOf_None_filter x _ (_currentInstanceBuffers e) Hi) as [Hnin Hf].
      cbn. unfold instance_pairs. rewrite Hf.
      rewrite bool_decide_eq_false_2, orb_false_r by done. by repeat split.
Qed.

(** X21.  With as many recorded instance buffers as instance locations,
    [disableInstanceAttribute] takes out every recorded pair whose location
    is the given one and keeps all the other pairs, in their order.  When
    the location was not recorded nothing changes and the driver is not
    called; when it was, the driver receives
    [vertexAttribDivisor(location, 0)] followed by
    [disableVertexAttribArray(location)], once each. *)
Theorem disableInstanceAttribute_removes attributeLocation e :
  length (_currentInstanceLocations e) = length (_currentInstanceBuffers e) ->
  let e' := snd (disableInstanceAttribute attributeLocation e) in
  instance_pairs e' = List.filter (other_location attributeLocation) (instance_pairs e)
  /\ (attributeLocation ∉ _currentInstanceLocations e')
  /\ (attributeLocation ∉ _currentInstanceLocations e ->
      disableInstanceAttribute attributeLocation e = (Return tt, e))
  /\ (attributeLocation ∈ _currentInstanceLocations e ->
      emits e e' [vertexAttribDivisor attributeLocation 0;
                  disableVertexAttribArray attributeLocation]).
Proof.
  intros Hlen. cbn zeta.
  destruct (disableInstanceAttribute_loop_spec attributeLocation
              (length (_currentInstanceLocations e)) false e (le_n _) Hlen)
    as (Q1 & Q2 & Q3 & Q4 & Q5).
  unfold disableInstanceAttribute. unfold bind at 1 3 5 7, call.
  destruct (disableInstanceAttribute_loop _ _ _ e) as [shouldClean e1].
  cbn [fst snd] in Q1, Q2, Q3, Q4, Q5. cbn [orb] in Q4. subst shouldClean.
  case_bool_decide as Hin.
  - repeat step.
    assert (let e2 := snd (disableAttributeByIndex attributeLocation
                             (gl_do (vertexAttribDivisor attributeLocation 0) e1)) in
            _currentInstanceLocations e2 = _currentInstanceLocations e1
            /\ _currentInstanceBuffers e2 = _currentInstanceBuffers e1
            /\ emits e1 e2 [vertexAttribDivisor attributeLocation 0;
                            disableVertexAttribArray attributeLocation]) as (L & B & E).
    { cbn zeta. unfold disableAttributeByIndex. repeat step.
      destruct (js_index _ _); unfold emits; cbn; by rewrite <- ?app_assoc. }
    unfold instance_pairs in *. rewrite L, B.
    split; [exact Q1|]. split; [exact Q2|]. split; [done|]. intros _.
    unfold emits in *. rewrite E, Q5. by cbn.
  - cbn. split; [exact Q1|]. split; [exact Q2|]. split; [|done]. intros _.
    f_equal. rewrite Q5.
    destruct (indexOf_None_filter attributeLocation (_currentInstanceLocations e)
                (_currentInstanceBuffers e)) as [_ Hf].
    { destruct (indexOf _ _) as [i|] eqn:Hi; [|done].
      by destruct (indexOf_Some_filter _ _ (_currentInstanceBuffers e) _ Hi). }
    unfold instance_pairs in Q1. rewrite Hf in Q1.
    assert (_currentInstanceLocations e1 = _currentInstanceLocations e
            /\ _currentInstanceBuffers e1 = _currentInstanceBuffers e) as [-> ->].
    { apply (f_equal (fun l => (l.*1, l.*2))) in Q1.
      rewrite !fst_zip, !snd_zip in Q1 by lia. by injection Q1. }
    by destruct e.
Qed.

(** ** Unbinding the instance attributes *)

Definition is_divisor (c : GLCall) : bool :=
  match c with vertexAttribDivisor _ _ => true | _ => false end.

Lemma bindArrayBuffer_calls buffer e :
  exists cs,
    emits e (bindArrayBuffer buffer e) cs
    /\ Forall attrib_call cs /\ List.filter is_divisor cs = [].
Proof.
  rewrite bindArrayBuffer_nf. eexists. split; [reflexivity|].
  unfold unbind_calls, vao_calls, bind_calls.
  destruct (_vaoRecordInProgress e), (truthy_slot (_cachedVertexArrayObject e)),
    (rebinds buffer gl.ARRAY_BUFFER e); cbn.
  all: split; [by repeat constructor|done].
Qed.

(** The instance lists read back through their indices. *)
Lemma read_back (l : list Z) :
  map (fun i => default 0 (js_index l i)) (seqZ 0 (Z.of_nat (length l))) = l.
Proof.
  apply list_eq. intros k. rewrite list_lookup_fmap.
  destruct (decide (k < length l)%nat) as [Hk|Hk].
  - rewrite lookup_seqZ_lt by lia. cbn. unfold js_index.
    destruct (0 + Z.of_nat k <? 0) eqn:Hn; [lia|].
    rewrite Z.add_0_l, Nat2Z.id.
    destruct (lookup_lt_is_Some_2 l k Hk) as [x ->]. done.
  - rewrite lookup_seqZ_ge by lia. cbn. by rewrite lookup_ge_None_2 by lia.
Qed.

Lemma unbindInstanceAttributes_loop_spec indices :
  forall boundBuffer e,
  length (_currentInstanceLocations e) = length (_currentInstanceBuffers e) ->
  Forall (fun b => is_Some (buffers e !! b)) (_currentInstanceBuffers e) ->
  Forall (fun i => 0 <= i < Z.of_nat (length (_currentInstanceLocations e))) indices ->
  exists e' cs,
    unbindInstanceAttributes_loop indices boundBuffer e = (Return tt, e')
    /\ _currentInstanceLocations e' = _currentInstanceLocations e
    /\ _currentInstanceBuffers e' = _currentInstanceBuffers e
    /\ buffers e' = buffers e
    /\ emits e e' cs
    /\ Forall attrib_call cs
    /\ List.filter is_divisor cs
       = map (fun i => vertexAttribDivisor
                         (default 0 (js_index (_currentInstanceLocations e) i)) 0) indices.
Proof.
  induction indices as [|i indices IH]; intros boundBuffer e Hlen Hstore Hidx.
  { exists e, []. cbn. repeat split; try done. apply emits_refl. }
  apply Forall_cons in Hidx as [Hi Hidx].
  cbn [unbindInstanceAttributes_loop]. step.
  destruct (js_index_Some (_currentInstanceBuffers e) i) as [b Hb]; [lia|].
  rewrite Hb.
  assert (is_Some (buffers e !! b)) as [d Hd].
  { rewrite Forall_forall in Hstore. apply Hstore.
    unfold js_index in Hb. destruct (i <? 0); [done|]. by eapply list_elem_of_lookup_2. }
  (* the engine after the optional bind of the instance buffer *)
  assert (exists e1 cs1 bound1,
            (forall k : option Ref -> M Ext unit,
               bind (if loose_ne boundBuffer (Some b)
                     then bind (get (fun e => buffers e !! b))
                            (fun d => match d with
                                      | None => throw (TypeError "instancesBuffer is not an object")
                                      | Some d =>
                                          if negb (references d =? 0)
                                          then bind (run (bindArrayBuffer (Some b)))
                                                 (fun _ => ret (Some b))
                                          else ret boundBuffer
                                      end)
                     else ret boundBuffer) k e
               = k bound1 e1)
            /\ _currentInstanceLocations e1 = _currentInstanceLocations e
            /\ _currentInstanceBuffers e1 = _currentInstanceBuffers e
            /\ buffers e1 = buffers e
            /\ emits e e1 cs1 /\ Forall attrib_call cs1 /\ List.filter is_divisor cs1 = [])
    as (e1 & cs1 & bound1 & Hk & L1 & B1 & S1 & E1 & A1 & D1).
  { destruct (loose_ne boundBuffer (Some b)).
    - destruct (negb (references d =? 0)) eqn:Hr.
      + destruct (bindArrayBuffer_calls (Some b) e) as (cs1 & E1 & A1 & D1).
        exists (bindArrayBuffer (Some b) e), cs1, (Some b).
        split; [intros k; repeat step; rewrite Hd, Hr; by repeat step|].
        repeat split; try done; by rewrite bindArrayBuffer_nf.
      + exists e, [], boundBuffer.
        split; [intros k; repeat step; rewrite Hd, Hr; by repeat step|].
        repeat split; try done. apply emits_refl.
    - exists e, [], boundBuffer. split; [intros k; by repeat step|].
      repeat split; try done. apply emits_refl. }
  rewrite Hk. repeat step. rewrite L1.
  set (loc := default 0 (js_index (_currentInstanceLocations e) i)).
  set (e2 := gl_do (vertexAttribDivisor loc 0) e1).
  destruct (IH bound1 e2) as (e' & cs & Hrun & L & B & S & E & A & D).
  { subst e2. cbn. by rewrite L1, B1. }
  { subst e2. cbn. by rewrite B1, S1. }
  { subst e2. cbn. by rewrite L1. }
  exists e', (cs1 ++ [vertexAttribDivisor loc 0] ++ cs).
  split; [exact Hrun|]. subst e2. cbn in L, B, S, D.
  split; [by rewrite L|]. split; [by rewrite B|]. split; [by rewrite S|].
  split; [|split].
  - eapply emits_trans; [exact E1|]. eapply emits_trans; [|exact E]. reflexivity.
  - apply Forall_app. split; [done|]. by constructor.
  - rewrite !List.filter_app, D1, D. cbn. by rewrite L1.
Qed.

(** X22.  With as many recorded instance buffers as instance locations,
    all of them buffers of the store, [unbindInstanceAttributes] returns
    and leaves both lists empty.  The driver has received
    [vertexAttribDivisor(location, 0)] once for every recorded location,
    in the order of the list; the only other calls are binds of the array
    buffer (and the unbinding of a cached vertex array object). *)
Theorem unbindInstanceAttributes_resets e :
  length (_currentInstanceLocations e) = length (_currentInstanceBuffers e) ->
  Forall (fun b => is_Some (buffers e !! b)) (_currentInstanceBuffers e) ->
  exists e' cs,
    unbindInstanceAttributes e = (Return tt, e')
    /\ _currentInstanceLocations e' = []
    /\ _currentInstanceBuffers e' = []
    /\ emits e e' cs
    /\ Forall attrib_call cs
    /\ List.filter is_divisor cs
       = map (fun location => vertexAttribDivisor location 0) (_currentInstanceLocations e).
Proof.
  intros Hlen Hstore.
  destruct (unbindInstanceAttributes_loop_spec
              (seqZ 0 (Z.of_nat (length (_currentInstanceLocations e)))) None e Hlen Hstore)
    as (e1 & cs & Hrun & L & B & S & E & A & D).
  { apply Forall_forall. intros i Hi%elem_of_seqZ. lia. }
  exists (set_currentInstanceLocations [] (set_currentInstanceBuffers [] e1)), cs.
  split.
  { unfold unbindInstanceAttributes. step. rewrite (bind_returned _ _ _ _ _ Hrun).
    by repeat step. }
  repeat split; try done.
  rewrite D.
  transitivity
    (map (fun location => vertexAttribDivisor location 0)
       (map (fun i => default 0 (js_index (_currentInstanceLocations e) i))
          (seqZ 0 (Z.of_nat (length (_currentInstanceLocations e)))))).
  - by rewrite map_map.
  - by rewrite read_back.
Qed.

(** ** A brute-force wipe and the vertex attributes *)

Lemma wipeCaches_brute_eq bruteForce e :
  truthy_bool bruteForce = true -> pointers_ok e ->
  wipeCaches X bruteForce e
  = (Return tt, wipeTail (snd (unbindAllAttributes (brutePrefix e)))).
Proof.
  intros Hb Hok%brutePrefix_pointers_ok.
  pose proof (unbindAllAttributes_returns _ Hok) as Hret.
  destruct (unbindAllAttributes (brutePrefix e)) as [[[]|err] e1] eqn:Hrun; [|done].
  unfold wipeCaches. step. rewrite Hb, andb_false_r. cbv iota beta.
  repeat step.
  rewrite (bind_returned _ _ _ _ _ Hrun). repeat step. reflexivity.
Qed.

(** X23.  On an engine that has a pointer record for each of its
    [maxVertexAttribs] attributes, [wipeCaches(true)] returns, and
    afterwards no vertex attribute below [maxVertexAttribs] is marked as
    enabled, every one of their pointer records is inactive and the wipe
    flag is off: whatever is bound next has to enable and point its
    attributes again. *)
Theorem brute_wipe_disables_attributes e :
  pointers_ok e ->
  exists e',
    wipeCaches X (Some true) e = (Return tt, e')
    /\ _mustWipeVertexAttributes e' = false
    /\ forall i, 0 <= i < maxVertexAttribs (_caps e) ->
         enabled_at (_vertexAttribArraysEnabled e') i = false
         /\ exists p, js_index (_currentBufferPointers e') i = Some p /\ active p = false.
Proof.
  intros Hok. eexists. split; [by apply (wipeCaches_brute_eq (Some true))|].
  pose proof (unbindAllAttributes_post (brutePrefix e) (brutePrefix_pointers_ok _ Hok))
    as H.
  cbv zeta in H. destruct H as (_ & Hflag & Hen & Hwipe).
  destruct (Hwipe eq_refl) as [_ Hptr].
  destruct (wipeTail_nf (snd (unbindAllAttributes (brutePrefix e)))) as (vao & cs & ->).
  cbn -[enabled_at js_index].
  assert (_caps (brutePrefix e) = _caps e) as Hcaps.
  { unfold brutePrefix, resetTextureCache, softPrefix. cbv zeta.
    by rewrite _unbindVertexArrayObject_nf. }
  rewrite Hcaps in Hen, Hptr.
  split; [exact Hflag|]. intros i Hi. split; [by apply Hen|by apply Hptr].
Qed.

(** ** What a draw leaves alone *)

(** X24.  [applyStates] applies the depth-culling state, the stencil
    state and the alpha state, in that order, and then sends [colorMask]
    with the current color-write value exactly when the color-write flag
    has changed; afterwards the changed flag is off.  It writes no
    binding cache. *)
Theorem applyStates_order e :
  let depth := depthCullingState_apply X (ext e) in
  let stencil := stencilStateComposer_apply X (fst depth) in
  let alpha :=
    alphaState_apply X
      (match _currentRenderTarget e with
       | Some rt => match rt_textures rt with
                    | Some ts => Z.of_nat (length ts)
                    | None => 1
                    end
       | None => 1
       end) (fst stencil) in
  let e' := applyStates X e in
  emits e e'
    (snd depth ++ snd stencil ++ snd alpha
     ++ (if _colorWriteChanged e
         then [colorMask (_colorWrite e) (_colorWrite e) (_colorWrite e) (_colorWrite e)]
         else []))
  /\ _colorWriteChanged e' = false
  /\ ext e' = fst alpha
  /\ _currentBoundBuffer e' = _currentBoundBuffer e
  /\ _currentProgram e' = _currentProgram e
  /\ _boundTexturesCache e' = _boundTexturesCache e
  /\ _cachedIndexBuffer e' = _cachedIndexBuffer e
  /\ _uintIndicesCurrentlySet e' = _uintIndicesCurrentlySet e.
Proof.
  cbn zeta. unfold applyStates, apply_ext, emits. cbn.
  destruct (depthCullingState_apply X (ext e)) as [x1 cs1]. cbn.
  destruct (stencilStateComposer_apply X x1) as [x2 cs2]. cbn.
  destruct (alphaState_apply X _ x2) as [x3 cs3]. cbn.
  destruct (_colorWriteChanged e) eqn:Hc; cbn.
  - by rewrite <- !app_assoc.
  - by rewrite Hc, app_nil_r, <- !app_assoc.
Qed.

(** X25.  A draw ([drawElementsType] or [drawArraysType]) reads the
    caches but writes none of them: the buffer bindings, the current
    program, the bound textures, the cached index buffer and the index
    width are what they were before the call. *)
Theorem draw_keeps_caches fillMode start count instancesCount e :
  let d := drawElementsType X K fillMode start count instancesCount e in
  let a := drawArraysType X K fillMode start count instancesCount e in
  (_currentBoundBuffer d = _currentBoundBuffer e
   /\ _currentProgram d = _currentProgram e
   /\ _boundTexturesCache d = _boundTexturesCache e
   /\ _cachedIndexBuffer d = _cachedIndexBuffer e
   /\ _cachedVertexBuffers d = _cachedVertexBuffers e
   /\ _uintIndicesCurrentlySet d = _uintIndicesCurrentlySet e)
  /\ (_currentBoundBuffer a = _currentBoundBuffer e
      /\ _currentProgram a = _currentProgram e
      /\ _boundTexturesCache a = _boundTexturesCache e
      /\ _cachedIndexBuffer a = _cachedIndexBuffer e
      /\ _cachedVertexBuffers a = _cachedVertexBuffers e
      /\ _uintIndicesCurrentlySet a = _uintIndicesCurrentlySet e).
Proof.
  cbn zeta. unfold drawElementsType, drawArraysType, reportDrawCall. cbv zeta.
  destruct (applyStates_nf e) as (cs & x & c & ->). cbn.
  by destruct (truthy_num instancesCount).
Qed.

(** ** Index data that is already typed *)

(** X26.  A [Uint16Array] is passed through unchanged whatever the
    capabilities.  A [Uint32Array] is passed through unchanged when 32-bit
    indices are supported, also when all its values would fit 16 bits;
    without the capability it is converted to 16-bit elements, each value
    reduced modulo 65536. *)
Theorem normalizeIndexData_typed_inputs xs e :
  _normalizeIndexData (Uint16Array xs) e = Uint16Array xs
  /\ (uintIndices (_caps e) = true ->
      _normalizeIndexData (Uint32Array xs) e = Uint32Array xs)
  /\ (uintIndices (_caps e) = false ->
      _normalizeIndexData (Uint32Array xs) e
      = Uint16Array (map (fun x => x mod 65536) xs)).
Proof.
  unfold _normalizeIndexData, new_Uint16Array. cbn.
  split; [done|]. by split; intros ->.
Qed.

(** ** A multiview texture cannot be bound directly *)

(** X27.  [_bindTextureDirectly] with a multiview texture that has to be
    bound (the force flag is set, or no channel holds the texture) logs
    the message as an error, together with the target and the texture, and
    throws the message.  The driver has received no [bindTexture] and the
    cache of bound textures is unchanged. *)
Theorem multiview_bind_throws target r t forTextureDataUpdate force e :
  textures e !! r = Some t ->
  isMultiview t = true ->
  force = true \/ (forall channel, _boundTexturesCache e !! channel <> Some (Some r)) ->
  let e' := snd (_bindTextureDirectly target (Some r) forTextureDataUpdate force e) in
  fst (_bindTextureDirectly target (Some r) forTextureDataUpdate force e)
  = Throw (ThrownString multiviewMessage)
  /\ logger e' = logger e ++ [LogError multiviewMessage [target; r]]
  /\ _boundTexturesCache e' = _boundTexturesCache e
  /\ textures e' = textures e
  /\ exists cs, emits e e' cs /\ bindTexture_count cs = 0%nat.
Proof.
  intros Ht Hm Hbind. cbn zeta. unfold _bindTextureDirectly.
  step. rewrite Ht. cbn [bool_decide_pack andb negb]. rewrite Hm.
  assert (bool_decide (is_Some (Some r)) && negb (bool_decide (is_Some (Some t))) = false)
    as -> by done.
  set (e0 := if forTextureDataUpdate && (-1 <? _associatedChannel t)
             then set_activeChannel (_associatedChannel t) e else e).
  assert (_boundTexturesCache e0 = _boundTexturesCache e /\ logger e0 = logger e
          /\ textures e0 = textures e /\ emits e e0 []) as (Hc0 & Hl0 & Ht0 & He0).
  { subst e0. destruct (_ && _); repeat split; unfold emits; cbn; by rewrite app_nil_r. }
  assert (strict_ne (_boundTexturesCache e0 !! _activeChannel e0) (Some (Some r)) || force
          = true) as Hgo.
  { destruct Hbind as [->|Hfree]; [apply orb_true_r|].
    rewrite strict_ne_true; [done|]. rewrite Hc0. apply Hfree. }
  assert (forall (k : unit -> M Ext bool),
            bind (if forTextureDataUpdate && (-1 <? _associatedChannel t)
                  then run (fun e => set_activeChannel (_associatedChannel t) e)
                  else ret tt) k e = k tt e0) as Hk.
  { intros k. subst e0. by destruct (_ && _). }
  rewrite Hk. step. rewrite Hgo. repeat step.
  rewrite _activateCurrentTexture_nf. cbn.
  rewrite Hl0, Hc0, Ht0. repeat split.
  exists (activate_calls e0). split.
  - unfold emits in *. cbn. rewrite He0. by rewrite app_nil_r.
  - apply bindTexture_count_activate.
Qed.

(** ** The table of compiled effects *)

Section Table.

Variable resetCachedPipeline : WebGLProgram -> Ext -> Ext.
Variable notifyObservers : Ext -> Ext.

(** X28.  The table of compiled effects stays well formed (every entry
    is an effect object of the store that was allocated earlier, and no
    effect object is filed under two names) through [createEffect],
    through a [_releaseEffect] that returns, and through
    [releaseEffects]. *)
Theorem effects_table_stays_wf e :
  effects_wf e ->
  (forall baseName options defines onCompiled,
     effects_wf (snd (createEffect X baseName options defines onCompiled e)))
  /\ (forall effect e',
     _releaseEffect resetCachedPipeline effect e = (Return tt, e') -> effects_wf e')
  /\ effects_wf (releaseEffects notifyObservers e).
Proof.
  intros Hwf. split; [intros; by apply createEffect_wf|]. split.
  - intros effect e'. destruct (effects e !! effect) as [f|] eqn:Hf.
    + rewrite (_releaseEffect_returns resetCachedPipeline _ _ _ Hf). intros [= <-].
      destruct (_deletePipelineContext_frame resetCachedPipeline (pipelineProgram f)
                  (set_compiledEffects (delete (_key f) (_compiledEffects e)) e))
        as (G1 & G2 & G3 & _).
      cbn in G1, G2, G3. split.
      * intros name r. rewrite G1, G2, G3. intros Hr.
        apply lookup_delete_Some in Hr as [_ Hr]. by apply (wf_allocated e Hwf name).
      * intros n1 n2 r. rewrite G1. intros H1 H2.
        apply lookup_delete_Some in H1 as [_ H1].
        apply lookup_delete_Some in H2 as [_ H2].
        by apply (wf_one_name e Hwf n1 n2 r).
    + unfold _releaseEffect. step. rewrite Hf. discriminate.
  - unfold releaseEffects. split; cbn; intros *; by rewrite lookup_empty.
Qed.

End Table.

(** ** Binding geometry after a vertex array object *)

Lemma after_bind {A B} (m : M Ext A) (k : A -> M Ext B) e :
  snd (bind m k e)
  = match m e with
    | (Return a, e1) => snd (k a e1)
    | (Throw _, e1) => e1
    end.
Proof. unfold bind. by destruct (m e) as [[a|err] e1]. Qed.

(** The guard that opens [_bindVertexBuffersAttributes] can be run ahead
    of it. *)
Lemma _bindVertexBuffersAttributes_unbound vertexBuffers effect overrideVertexBuffers e :
  _vaoRecordInProgress e = false -> is_Some (effects e !! effect) ->
  _bindVertexBuffersAttributes vertexBuffers effect overrideVertexBuffers e
  = _bindVertexBuffersAttributes vertexBuffers effect overrideVertexBuffers
      (_unbindVertexArrayObject e).
Proof.
  intros Hrec [f Hf].
  assert (effects (_unbindVertexArrayObject e) = effects e) as Heff
    by (by rewrite _unbindVertexArrayObject_nf).
  assert (_vaoRecordInProgress (_unbindVertexArrayObject e) = false) as Hrec'
    by (by rewrite _unbindVertexArrayObject_nf).
  assert (_unbindVertexArrayObject (_unbindVertexArrayObject e) = _unbindVertexArrayObject e)
    as Hidem.
  { unfold _unbindVertexArrayObject at 1.
    assert (truthy_slot (_cachedVertexArrayObject (_unbindVertexArrayObject e)) = false)
      as ->; [|done].
    rewrite _unbindVertexArrayObject_nf. cbn. unfold vao_after.
    by destruct (truthy_slot (_cachedVertexArrayObject e)) eqn:Ht. }
  unfold _bindVertexBuffersAttributes. step. rewrite Heff, Hf.
  step. by rewrite Hrec, Hrec', Hidem.
Qed.



(** ** What a wipe makes the engine send again *)

Lemma wipeCaches_brute_inv_eq bruteForce e e' :
  truthy_bool bruteForce = true ->
  wipeCaches X bruteForce e = (Return tt, e') ->
  e' = wipeTail (snd (unbindAllAttributes (brutePrefix e))).
Proof.
  intros Hb Hrun.
  destruct (unbindAllAttributes (brutePrefix e)) as [[[]|err] e1] eqn:Hu.
  - revert Hrun. unfold wipeCaches. step. rewrite Hb, andb_false_r. cbv iota beta.
    repeat step. rewrite (bind_returned _ _ _ _ _ Hu). repeat step. by intros [= <-].
  - exfalso. revert Hrun.
    unfold wipeCaches. step. rewrite Hb, andb_false_r. cbv iota beta.
    repeat step. unfold bind at 1.
    change (unbindAllAttributes _) with (unbindAllAttributes (brutePrefix e)).
    by rewrite Hu.
Qed.

(** X30.  After a [wipeCaches] that ran and returned, the cached viewport
    is all zeros: any other viewport, the one in use before the wipe
    included, is sent to the driver again, while an all-zero viewport is
    not sent.  After [wipeCaches(true)] the cached flip-Y value is null,
    so the next [_unpackFlipY] sends [pixelStorei] whichever value it is
    given. *)
Theorem wipe_resends_viewport_and_flipY bruteForce e e' :
  wipeCaches X bruteForce e = (Return tt, e') ->
  preventCacheWipeBetweenFrames e = false \/ truthy_bool bruteForce = true ->
  (forall x y width height,
     (x, y, width, height) <> (0, 0, 0, 0) ->
     emits e' (_viewport x y width height e') [stateCall "viewport" [x; y; width; height]])
  /\ _viewport 0 0 0 0 e' = e'
  /\ (truthy_bool bruteForce = true ->
      forall enable value,
        emits e' (_unpackFlipY enable value e')
          [pixelStorei gl.UNPACK_FLIP_Y_WEBGL (if value then 1 else 0)]).
Proof.
  intros Hrun Hnot.
  destruct (wipeCaches_done bruteForce e e' Hrun Hnot) as (_ & _ & _ & _ & _ & Hview & _).
  split; [|split].
  - intros x y width height Hne. rewrite _viewport_nf. unfold viewport_is. rewrite Hview.
    cbn [vx vy vz vw].
    destruct (x =? 0) eqn:Hx, (y =? 0) eqn:Hy, (width =? 0) eqn:Hw, (height =? 0) eqn:Hh;
      cbn [andb]; try reflexivity.
    apply Z.eqb_eq in Hx, Hy, Hw, Hh. by subst.
  - rewrite _viewport_nf. unfold viewport_is. by rewrite Hview.
  - intros Hb enable value.
    rewrite (wipeCaches_brute_inv_eq _ _ _ Hb Hrun).
    pose proof (unbindAllAttributes_framed (brutePrefix e)) as [_ _ _ Hflip _].
    set (e1 := snd (unbindAllAttributes (brutePrefix e))) in *.
    assert (_unpackFlipYCached (wipeTail e1) = None) as Hnone.
    { destruct (wipeTail_nf e1) as (vao & cs & ->). cbn. rewrite Hflip.
      unfold brutePrefix, resetTextureCache, softPrefix. cbv zeta.
      by rewrite _unbindVertexArrayObject_nf. }
    unfold _unpackFlipY. rewrite Hnone.
    rewrite (strict_ne_true None (Some value)) by done.
    unfold emits. by destruct enable.
Qed.

(** ** When binding attributes leaves the vertex array object alone

    The attribute machinery sends [bindVertexArray] from one place only:
    the unbinding of the cached vertex array object, which is skipped while
    one is recorded and has nothing to do when none is cached. *)

(** No vertex array object stands to be unbound. *)
Definition settled e : Prop :=
  _vaoRecordInProgress e = true \/ truthy_slot (_cachedVertexArrayObject e) = false.

Definition no_vao_call (c : GLCall) : Prop := forall v, c <> bindVertexArray v.

Record Quiet (e e' : Engine Ext) : Prop := mkQuiet {
  qt_recording : _vaoRecordInProgress e' = _vaoRecordInProgress e;
  qt_vao : _cachedVertexArrayObject e' = _cachedVertexArrayObject e;
  qt_calls : exists cs, emits e e' cs /\ Forall no_vao_call cs
}.

Lemma Quiet_refl e : Quiet e e.
Proof. split; try done. exists []. split; [apply emits_refl|constructor]. Qed.

Lemma Quiet_trans e1 e2 e3 : Quiet e1 e2 -> Quiet e2 e3 -> Quiet e1 e3.
Proof.
  intros [R1 V1 (cs1 & E1 & F1)] [R2 V2 (cs2 & E2 & F2)]. split; try congruence.
  exists (cs1 ++ cs2). split; [by eapply emits_trans|by apply Forall_app].
Qed.

Lemma Quiet_settled e e' : Quiet e e' -> settled e -> settled e'.
Proof. intros [R V _]. unfold settled. by rewrite R, V. Qed.

(** A write that issues no call and touches neither the recording flag nor
    the cached vertex array object. *)
Lemma Quiet_write e e' :
  _gl e' = _gl e -> _vaoRecordInProgress e' = _vaoRecordInProgress e ->
  _cachedVertexArrayObject e' = _cachedVertexArrayObject e -> Quiet e e'.
Proof.
  intros Hg Hr Hv. split; try done. exists []. split; [|constructor].
  unfold emits. by rewrite Hg, app_nil_r.
Qed.

Lemma gl_do_Quiet c e : no_vao_call c -> Quiet e (gl_do c e).
Proof. intros Hc. split; try done. exists [c]. split; [done|by constructor]. Qed.

Definition quiet {A} (m : M Ext A) : Prop := forall e, settled e -> Quiet e (snd (m e)).

Lemma quiet_ret {A} (a : A) : quiet (ret a).
Proof. intros e _. apply Quiet_refl. Qed.

Lemma quiet_throw {A} err : quiet (throw (A := A) err).
Proof. intros e _. apply Quiet_refl. Qed.

Lemma quiet_get {A} (f : Engine Ext -> A) : quiet (get f).
Proof. intros e _. apply Quiet_refl. Qed.

Lemma quiet_run f : (forall e, settled e -> Quiet e (f e)) -> quiet (run f).
Proof. intros Hf e. apply Hf. Qed.

Lemma quiet_bind {A B} (m : M Ext A) (k : A -> M Ext B) :
  quiet m -> (forall a, quiet (k a)) -> quiet (bind m k).
Proof.
  intros Hm Hk e Hs. unfold bind. specialize (Hm e Hs).
  destruct (m e) as [[a|err] e1]; cbn in *; [|done].
  eapply Quiet_trans; [exact Hm|]. apply Hk. by eapply Quiet_settled.
Qed.

Lemma quiet_for_each {A} (l : list A) (body : A -> M Ext unit) :
  (forall x, quiet (body x)) -> quiet (for_each l body).
Proof.
  intros Hb. induction l as [|x l IH]; cbn; [apply quiet_ret|].
  apply quiet_bind; [apply Hb|done].
Qed.

Lemma unbind_guarded_Quiet e :
  settled e ->
  Quiet e (if negb (_vaoRecordInProgress e) then _unbindVertexArrayObject e else e).
Proof.
  intros [Hr|Hv].
  - rewrite Hr. apply Quiet_refl.
  - destruct (negb _); [|apply Quiet_refl].
    unfold _unbindVertexArrayObject. rewrite Hv. apply Quiet_refl.
Qed.

Lemma bindArrayBuffer_Quiet buffer e : settled e -> Quiet e (bindArrayBuffer buffer e).
Proof.
  intros Hs. rewrite bindArrayBuffer_nf.
  assert (unbind_calls e = [] /\ unbind_after e = _cachedVertexArrayObject e) as [Hc Ha].
  { unfold unbind_calls, unbind_after, vao_calls, vao_after.
    destruct Hs as [->| ->]; [done|]. by destruct (_vaoRecordInProgress e). }
  rewrite Hc, Ha. split; cbn; try done.
  exists (bind_calls buffer gl.ARRAY_BUFFER e). split; [done|].
  unfold bind_calls. destruct (rebinds _ _ _); repeat constructor. by intros v.
Qed.

Lemma disableAttributeByIndex_quiet i : quiet (disableAttributeByIndex i).
Proof.
  unfold disableAttributeByIndex.
  apply quiet_bind; [apply quiet_run; intros e _; by apply gl_do_Quiet|intros _].
  apply quiet_bind; [apply quiet_run; intros e _; by apply Quiet_write|intros _].
  apply quiet_bind; [apply quiet_get|intros [p|]]; [|apply quiet_throw].
  apply quiet_run. intros e _. by apply Quiet_write.
Qed.

Lemma unbindAllAttributes_quiet : quiet unbindAllAttributes.
Proof.
  unfold unbindAllAttributes.
  apply quiet_bind; [apply quiet_get|intros [|]].
  - apply quiet_bind; [apply quiet_run; intros e _; by apply Quiet_write|intros _].
    apply quiet_bind; [apply quiet_get|intros n].
    apply quiet_for_each. intros i. apply disableAttributeByIndex_quiet.
  - apply quiet_bind; [apply quiet_get|intros ul].
    apply quiet_for_each. intros i.
    apply quiet_bind; [apply quiet_get|intros [|]]; [apply quiet_ret|].
    apply disableAttributeByIndex_quiet.
Qed.

Lemma _vertexAttribPointer_Quiet buffer indx size type normalized stride offset e :
  settled e ->
  Quiet e (_vertexAttribPointer buffer indx size type normalized stride offset e).
Proof.
  intros Hs.
  destruct (js_index (_currentBufferPointers e) indx) as [p|] eqn:Hp.
  - rewrite (_vertexAttribPointer_nf _ _ _ _ _ _ _ _ _ Hp). cbv zeta.
    destruct (_ || _); [|by apply Quiet_write].
    eapply Quiet_trans; [|apply gl_do_Quiet].
    + eapply Quiet_trans; [|apply bindArrayBuffer_Quiet; exact Hs]. by apply Quiet_write.
    + unfold pointer_call. by destruct (_ || _); intros v.
  - unfold _vertexAttribPointer. rewrite Hp. apply Quiet_refl.
Qed.

Lemma bindAttribute_Quiet vertexBuffers f overrideVertexBuffers index e :
  settled e -> Quiet e (bindAttribute vertexBuffers f overrideVertexBuffers index e).
Proof.
  intros Hs. unfold bindAttribute. cbv zeta.
  destruct (attributeLocations f !! index) as [order|]; [|apply Quiet_refl].
  destruct (0 <=? order); [|apply Quiet_refl].
  destruct (attributesNames f !! index) as [ai|]; [|apply Quiet_refl].
  match goal with
  | |- Quiet _ (match ?x with Some _ => _ | None => _ end) => destruct x as [vb|]
  end; [|apply Quiet_refl].
  set (e1 := gl_do (enableVertexAttribArray order) e).
  assert (Quiet e e1) as H1 by (by apply gl_do_Quiet).
  set (e2 := if negb (_vaoRecordInProgress e1)
             then set_vertexAttribArraysEnabled
                    (js_array_set (_vertexAttribArraysEnabled e1) order true) e1
             else e1).
  assert (Quiet e e2) as H2.
  { eapply Quiet_trans; [exact H1|]. subst e2.
    destruct (negb _); [by apply Quiet_write|apply Quiet_refl]. }
  clearbody e2. clear H1. clearbody e1.
  destruct (getBuffer vb) as [buffer|]; [|exact H2].
  eapply Quiet_trans; [exact H2|].
  pose proof (Quiet_settled _ _ H2 Hs) as Hs2.
  pose proof (_vertexAttribPointer_Quiet buffer order (getSize vb) (vb_type vb)
                (vb_normalized vb) (byteStride vb) (byteOffset vb) e2 Hs2) as H3.
  eapply Quiet_trans; [exact H3|].
  destruct (getIsInstanced vb); [|apply Quiet_refl].
  eapply Quiet_trans;
    [by apply (gl_do_Quiet (vertexAttribDivisor order (getInstanceDivisor vb)))|].
  destruct (negb _); [|apply Quiet_refl]. by apply Quiet_write.
Qed.

Lemma _bindVertexBuffersAttributes_quiet vertexBuffers effect overrideVertexBuffers :
  quiet (_bindVertexBuffersAttributes vertexBuffers effect overrideVertexBuffers).
Proof.
  unfold _bindVertexBuffersAttributes.
  apply quiet_bind; [apply quiet_get|intros [f|]]; [|apply quiet_throw].
  apply quiet_bind; [apply quiet_run; intros e; apply unbind_guarded_Quiet|intros _].
  apply quiet_bind; [apply unbindAllAttributes_quiet|intros _].
  apply quiet_for_each. intros index. apply quiet_run. intros e.
  apply bindAttribute_Quiet.
Qed.

Lemma bindBuffers_null_quiet vertexBuffers effect overrideVertexBuffers :
  quiet (bindBuffers vertexBuffers None effect overrideVertexBuffers).
Proof.
  unfold bindBuffers.
  apply quiet_bind; [apply quiet_get|intros stale].
  apply quiet_bind; [|intros _; apply quiet_run; intros e _; apply Quiet_refl].
  destruct stale; [|apply quiet_ret].
  apply quiet_bind; [apply quiet_run; intros e _; by apply Quiet_write|intros _].
  apply quiet_bind; [apply quiet_run; intros e _; by apply Quiet_write|intros _].
  apply _bindVertexBuffersAttributes_quiet.
Qed.

(** C9.  With a null index buffer, [_bindIndexBufferWithCache] does
    nothing at all, and [bindBuffers], whether it returns or throws, sends
    the driver no bind on the element-array target and leaves the cached
    index buffer, the cached element-array binding and the 32-bit-index
    flag as they were, so that an indexed draw that follows is issued with
    the same element width.  When the vertex buffers and the effect are the
    cached ones it does nothing at all; while a vertex array object is
    recorded, or when none is cached, it sends no [bindVertexArray] and the
    cached vertex array object stays.  But when a vertex array object is
    cached outside a recording and the vertex buffers or the effect are
    not the cached ones, its first driver call is [bindVertexArray(null)]
    and no vertex array object is cached afterwards: the driver has left
    the object, and the index buffer recorded in it, while the flag keeps
    the width that was set with that object. *)
Theorem null_index_buffer_keeps_binding e :
  _bindIndexBufferWithCache None e = e
  /\ forall vertexBuffers effect overrideVertexBuffers,
       let e' := after (bindBuffers vertexBuffers None effect overrideVertexBuffers) e in
       let stale :=
         strict_ne (_cachedVertexBuffers e) (Some (Some (vbs_id vertexBuffers)))
         || strict_ne (_cachedEffectForVertexBuffers e) (Some (Some effect)) in
       _cachedIndexBuffer e' = _cachedIndexBuffer e
       /\ _uintIndicesCurrentlySet e' = _uintIndicesCurrentlySet e
       /\ _currentBoundBuffer e' !! gl.ELEMENT_ARRAY_BUFFER
          = _currentBoundBuffer e !! gl.ELEMENT_ARRAY_BUFFER
       /\ (exists cs,
            emits e e' cs
            /\ Forall (fun c => forall b, c <> bindBuffer gl.ELEMENT_ARRAY_BUFFER b) cs)
       /\ (forall fillMode indexStart indexCount instancesCount,
            elementsCall fillMode indexStart indexCount instancesCount e'
            = elementsCall fillMode indexStart indexCount instancesCount e)
       /\ (stale = false -> e' = e)
       /\ (_vaoRecordInProgress e = true
           \/ truthy_slot (_cachedVertexArrayObject e) = false ->
           _cachedVertexArrayObject e' = _cachedVertexArrayObject e
           /\ exists cs, emits e e' cs /\ Forall (fun c => forall v, c <> bindVertexArray v) cs)
       /\ (_vaoRecordInProgress e = false ->
           truthy_slot (_cachedVertexArrayObject e) = true ->
           stale = true ->
           is_Some (effects e !! effect) ->
           _cachedVertexArrayObject e' = Some None
           /\ exists cs, emits e e' (bindVertexArray None :: cs)).
Proof.
  split; [done|]. intros vertexBuffers effect overrideVertexBuffers. cbn zeta.
  pose proof (attrib_writes_Untouched _ _
    (bindBuffers_null_within vertexBuffers effect overrideVertexBuffers e)) as [].
  unfold after. repeat split; try done.
  - destruct un_calls0 as (cs & Hem & Hall). exists cs. split; [done|].
    eapply Forall_impl; [done|]. intros c Hc b ->. cbn in Hc. discriminate.
  - intros. unfold elementsCall. by rewrite un_uintIndices0.
  - intros Hstale. unfold bindBuffers. step. rewrite Hstale. by repeat step.
  - by destruct (bindBuffers_null_quiet vertexBuffers effect overrideVertexBuffers e H).
  - by destruct (bindBuffers_null_quiet vertexBuffers effect overrideVertexBuffers e H)
      as [_ _ Hcalls].
  - revert H H0 H1 H2. intros Hrec Hvao Hstale [f Hf].
    unfold bindBuffers. step. rewrite Hstale. repeat step.
    set (es := set_cachedEffectForVertexBuffers (Some (Some effect))
                 (set_cachedVertexBuffers (Some (Some (vbs_id vertexBuffers))) e)).
    rewrite !after_bind.
    rewrite (_bindVertexBuffersAttributes_unbound _ _ _ es Hrec) by (by exists f).
    set (eu := _unbindVertexArrayObject es).
    assert (_cachedVertexArrayObject eu = Some None) as Vu.
    { subst eu. rewrite _unbindVertexArrayObject_nf. unfold vao_after. subst es. cbn.
      by rewrite Hvao. }
    pose proof (_bindVertexBuffersAttributes_framed vertexBuffers effect
                  overrideVertexBuffers eu) as [_ _ _ _ Vv].
    destruct (_bindVertexBuffersAttributes vertexBuffers effect overrideVertexBuffers eu)
      as [[[]|err] ev]; cbn [snd] in *.
    all: try change (_cachedVertexArrayObject ev = Some None).
    all: rewrite Vv; [done|right; by rewrite Vu].
  - revert H H0 H1 H2. intros Hrec Hvao Hstale [f Hf].
    unfold bindBuffers. step. rewrite Hstale. repeat step.
    set (es := set_cachedEffectForVertexBuffers (Some (Some effect))
                 (set_cachedVertexBuffers (Some (Some (vbs_id vertexBuffers))) e)).
    rewrite !after_bind.
    rewrite (_bindVertexBuffersAttributes_unbound _ _ _ es Hrec) by (by exists f).
    set (eu := _unbindVertexArrayObject es).
    assert (emits e eu [bindVertexArray None]) as Eu.
    { subst eu. rewrite _unbindVertexArrayObject_nf. unfold emits, vao_calls. subst es. cbn.
      by rewrite Hvao. }
    pose proof (attrib_writes_Untouched _ _
                  (_bindVertexBuffersAttributes_within vertexBuffers effect
                     overrideVertexBuffers eu)) as Hun.
    destruct Hun as [_ _ _ _ _ _ _ _ _ _ _ _ _ _ (cs & Ecs & _)].
    destruct (_bindVertexBuffersAttributes vertexBuffers effect overrideVertexBuffers eu)
      as [[[]|err] ev]; cbn [snd] in *.
    all: exists cs; try change (emits e ev (bindVertexArray None :: cs)).
    all: exact (emits_trans _ _ _ _ _ Eu Ecs).
Qed.

(** ** A wipe between frames *)

(** What a brute-force wipe does to the vertex attributes. *)
Lemma wipeCaches_brute_attributes bruteForce e :
  truthy_bool bruteForce = true -> pointers_ok e ->
  let e' := snd (wipeCaches X bruteForce e) in
  _mustWipeVertexAttributes e' = false
  /\ (forall i, 0 <= i < maxVertexAttribs (_caps e) ->
       enabled_at (_vertexAttribArraysEnabled e') i = false
       /\ exists p, js_index (_currentBufferPointers e') i = Some p /\ active p = false)
  /\ exists cs1 cs2,
       emits e e'
         (cs1 ++ map disableVertexAttribArray (seqZ 0 (maxVertexAttribs (_caps e))) ++ cs2).
Proof.
  intros Hb Hok. cbn zeta. rewrite (wipeCaches_brute_eq bruteForce e Hb Hok). cbn [snd].
  pose proof (unbindAllAttributes_post (brutePrefix e) (brutePrefix_pointers_ok _ Hok))
    as H.
  cbv zeta in H. destruct H as (_ & Hflag & Hen & Hwipe).
  destruct (Hwipe eq_refl) as [Hcalls Hptr].
  assert (_caps (brutePrefix e) = _caps e) as Hcaps.
  { unfold brutePrefix, resetTextureCache, softPrefix. cbv zeta.
    by rewrite _unbindVertexArrayObject_nf. }
  assert (exists cs, emits e (brutePrefix e) cs) as [cs1 Hpre].
  { unfold brutePrefix, resetTextureCache, softPrefix. cbv zeta.
    rewrite _unbindVertexArrayObject_nf. eexists. unfold emits. cbn.
    rewrite <- !app_assoc. reflexivity. }
  rewrite Hcaps in Hen, Hptr, Hcalls. unfold emits in Hcalls, Hpre.
  set (eu := snd (unbindAllAttributes (brutePrefix e))) in *. clearbody eu.
  destruct (wipeTail_nf eu) as (vao & cs2 & ->).
  cbn -[enabled_at js_index seqZ].
  split; [exact Hflag|]. split.
  - intros i Hi. split; [by apply Hen|by apply Hptr].
  - exists cs1, cs2. unfold emits. cbn -[seqZ]. rewrite Hcalls, Hpre.
    by rewrite <- !app_assoc.
Qed.

(** C10.  With [preventCacheWipeBetweenFrames] set, [wipeCaches] without
    the brute-force flag returns at once: the engine, driver log included,
    is exactly what it was.  Only [wipeCaches(true)] resets in that
    configuration: it returns with the program, buffer and texture caches
    reset, the cached viewport zeroed, and every vertex attribute disabled
    on the driver and marked as disabled, its pointer record inactive. *)
Theorem prevented_wipe_is_skipped e :
  preventCacheWipeBetweenFrames e = true ->
  wipeCaches X None e = (Return tt, e)
  /\ wipeCaches X (Some false) e = (Return tt, e)
  /\ (pointers_ok e ->
      exists e',
        wipeCaches X (Some true) e = (Return tt, e')
        /\ _currentProgram e' = Some None
        /\ _boundTexturesCache e' = (fun _ => None) <$> _boundTexturesCache e
        /\ _currentBoundBuffer e' !! gl.ARRAY_BUFFER = Some None
        /\ _currentBoundBuffer e' !! gl.ELEMENT_ARRAY_BUFFER = Some None
        /\ _cachedIndexBuffer e' = Some None
        /\ _cachedVertexBuffers e' = Some None
        /\ _viewportCached e' = {| vx := 0; vy := 0; vz := 0; vw := 0 |}
        /\ _mustWipeVertexAttributes e' = false
        /\ (forall i, 0 <= i < maxVertexAttribs (_caps e) ->
             enabled_at (_vertexAttribArraysEnabled e') i = false
             /\ exists p, js_index (_currentBufferPointers e') i = Some p
                          /\ active p = false)
        /\ exists cs1 cs2,
             emits e e'
               (cs1 ++ map disableVertexAttribArray (seqZ 0 (maxVertexAttribs (_caps e)))
                ++ cs2)).
Proof.
  intros Hp. split; [by apply wipeCaches_prevented|].
  split; [by apply wipeCaches_prevented|].
  intros Hok. destruct (wipeCaches_brute (Some true) e eq_refl Hok) as (e1 & Hw & _).
  exists (wipeTail e1). split; [done|].
  destruct (wipeCaches_done (Some true) e _ Hw (or_intror eq_refl))
    as (H1 & H2 & H3 & H4 & _ & H6 & _ & H8 & _).
  destruct (H8 eq_refl) as [H9 H10].
  pose proof (wipeCaches_brute_attributes (Some true) e eq_refl Hok) as Ha.
  cbv zeta in Ha. rewrite Hw in Ha. cbn [snd] in Ha.
  destruct Ha as (A1 & A2 & A3).
  do 8 (split; [done|]). split; [exact A2|exact A3].
Qed.

End Properties.

(** * The properties on concrete engines *)

(** ** Engines *)

(** A vertex buffer created on a new engine: object 1, driver handle 1. *)
Definition engineWithBuffer : Engine unit :=
  snd (createVertexBuffer plainExternals (DataNumbers [0; 0; 0]) newEngine).

(** The same engine while a vertex array object is being recorded. *)
Definition recordingEngine : Engine unit :=
  set_vaoRecordInProgress true engineWithBuffer.

Definition aTexture : InternalTexture :=
  {| _associatedChannel := -1; isMultiview := false; isCube := false; is3D := false;
     is2DArray := false; _hardwareTexture := Some 9 |}.

(** An engine that knows one texture (object 5) and has a sampler uniform
    (object 70) bound for channel 0. *)
Definition engineWithTexture : Engine unit :=
  set_boundUniforms {[ 0 := 70 ]} (set_textures {[ 5 := aTexture ]} newEngine).

(** An engine whose program 7 is current. *)
Definition engineWithProgram : Engine unit :=
  _setProgram (Some 7) newEngine.

(** An engine that keeps its caches between frames, with program 7
    current and the vertex attributes 0 and 2 enabled. *)
Definition frameLockedEngine : Engine unit :=
  set_preventCacheWipeBetweenFrames true
    (set_vertexAttribArraysEnabled [true; false; true] engineWithProgram).

Lemma effects_wf_newEngine : effects_wf newEngine.
Proof. split; intros *; cbn; by rewrite lookup_empty. Qed.

(** ** C1 *)

(** While a vertex array object is recorded every [_bindBuffer] reaches the
    driver: binding the same buffer twice gives two driver calls, the second
    of them issued by the second call. *)
Lemma bind_twice_while_recording :
  let e1 := _bindBuffer (Some 1) gl.ARRAY_BUFFER recordingEngine in
  let e2 := _bindBuffer (Some 1) gl.ARRAY_BUFFER e1 in
  emits recordingEngine e2
    [bindBuffer gl.ARRAY_BUFFER (Some 1); bindBuffer gl.ARRAY_BUFFER (Some 1)]
  /\ emits e1 e2 [bindBuffer gl.ARRAY_BUFFER (Some 1)].
Proof. split; reflexivity. Qed.

(** A texture bound for the first time leaves its sampler uniform to the
    second bind, which then still talks to the driver. *)
Lemma second_texture_bind_sends_uniform :
  let e1 := snd (_bindTextureDirectly gl.TEXTURE_2D (Some 5) false false engineWithTexture) in
  let e2 := snd (_bindTextureDirectly gl.TEXTURE_2D (Some 5) false false e1) in
  emits engineWithTexture e1 [activeTexture gl.TEXTURE0; bindTexture gl.TEXTURE_2D (Some 9)]
  /\ emits e1 e2 [uniform1i 70 0].
Proof. split; reflexivity. Qed.

Lemma bind_twice_witness :
  (let e1 := _bindBuffer (Some 1) gl.ARRAY_BUFFER engineWithBuffer in
   _bindBuffer (Some 1) gl.ARRAY_BUFFER e1 = e1
   /\ emits engineWithBuffer e1 [bindBuffer gl.ARRAY_BUFFER (Some 1)])
  /\ (let e1 := _bindBuffer (Some 1) gl.ARRAY_BUFFER recordingEngine in
      emits e1 (_bindBuffer (Some 1) gl.ARRAY_BUFFER e1) [bindBuffer gl.ARRAY_BUFFER (Some 1)])
  /\ (let e1 := _setProgram (Some 7) newEngine in
      _setProgram (Some 7) e1 = e1 /\ emits newEngine e1 [useProgram (Some 7)])
  /\ (let e1 := snd (_bindTextureDirectly gl.TEXTURE_2D (Some 5) false false
                       engineWithTexture) in
      (exists cs,
         emits engineWithTexture e1 cs
         /\ List.filter is_bindTexture cs = [bindTexture gl.TEXTURE_2D (Some 9)])
      /\ exists w2 e2,
          _bindTextureDirectly gl.TEXTURE_2D (Some 5) false false e1 = (Return w2, e2)
          /\ _boundTexturesCache e2 = _boundTexturesCache e1).
Proof.
  split; [|split; [|split]].
  - apply (proj1 (bind_twice_binds_once engineWithBuffer) (Some 1) gl.ARRAY_BUFFER).
    reflexivity.
  - apply (proj1 (proj2 (bind_twice_binds_once recordingEngine)) (Some 1) gl.ARRAY_BUFFER).
    reflexivity.
  - apply (proj1 (proj2 (proj2 (bind_twice_binds_once newEngine))) (Some 7)).
  - destruct (proj2 (proj2 (proj2 (bind_twice_binds_once engineWithTexture)))
                gl.TEXTURE_2D (Some 5) false false
                (snd (_bindTextureDirectly gl.TEXTURE_2D (Some 5) false false
                        engineWithTexture)))
      as (_ & Hfirst & w2 & e2 & Hrun & Hcache & _); [reflexivity|].
    split; [exact Hfirst|].
    exists w2, e2. split; [exact Hrun|exact Hcache].
Defined.

(** ** C2 *)

(** On an engine whose context was lost, a draw and a bind both reach the
    driver (the draw, being the first one, sends the color mask ahead). *)
Lemma draw_on_lost_context :
  let lost := _onContextLost plainExternals engineWithBuffer in
  _contextWasLost lost = true
  /\ emits lost (drawElementsType plainExternals engineConstants 0 0 6 None lost)
       [colorMask true true true true; drawElements gl.TRIANGLES 6 gl.UNSIGNED_SHORT 0]
  /\ emits lost (drawArraysType plainExternals engineConstants 0 0 3 None lost)
       [colorMask true true true true; drawArrays gl.TRIANGLES 0 3]
  /\ emits lost (_bindBuffer (Some 1) gl.ARRAY_BUFFER lost)
       [bindBuffer gl.ARRAY_BUFFER (Some 1)].
Proof. repeat split; reflexivity. Qed.

Lemma lost_context_witness :
  let lost := _onContextLost plainExternals engineWithBuffer in
  _contextWasLost lost = true
  /\ emits lost (_bindBuffer (Some 1) gl.ARRAY_BUFFER lost)
       [bindBuffer gl.ARRAY_BUFFER (Some 1)].
Proof.
  pose proof (lost_context_calls_reach_driver plainExternals engineConstants
                engineWithBuffer eq_refl) as (Hlost & _ & _ & Hbind).
  split; [exact Hlost|].
  apply (Hbind (Some 1) gl.ARRAY_BUFFER). vm_compute. discriminate.
Defined.

(** ** C3 *)

(** The index 65535 is below 65536, the capability is present, and yet the
    buffer is created with 32-bit elements. *)
Lemma index_65535_is_32_bits :
  uintIndices (_caps newEngine) = true
  /\ Forall (fun x => x < 65536) [0; 1; 65535]
  /\ _normalizeIndexData (NumberArray [0; 1; 65535]) newEngine = Uint32Array [0; 1; 65535]
  /\ (let created := createIndexBuffer plainExternals (NumberArray [0; 1; 65535]) None
                       newEngine in
      is32Bits <$> buffers (snd created) !! 1 = Some true).
Proof. repeat split; try reflexivity. repeat constructor; lia. Qed.

(** The scenario of the specification: six small indices give a 16-bit
    buffer of twelve bytes. *)
Lemma six_indices_are_16_bits :
  _normalizeIndexData (NumberArray [0; 1; 2; 0; 2; 3]) newEngine
  = Uint16Array [0; 1; 2; 0; 2; 3]
  /\ (Z.of_nat (length [0; 1; 2; 0; 2; 3]) * 2 = 12).
Proof. split; reflexivity. Qed.

(** Without the capability the values are cut down to 16 bits. *)
Lemma wide_index_is_truncated :
  _normalizeIndexData (NumberArray [70000; 65536; -1])
    (set_caps {| maxVertexAttribs := 16; uintIndices := false; textureFloat := true;
                 textureFloatLinearFiltering := false;
                 textureHalfFloatLinearFiltering := true;
                 supportSRGBBuffers := true |} newEngine)
  = Uint16Array [4464; 0; 65535].
Proof. reflexivity. Qed.

Lemma index_width_witness :
  _normalizeIndexData (NumberArray [0; 1; 2; 0; 2; 3]) newEngine
  = Uint16Array [0; 1; 2; 0; 2; 3]
  /\ _normalizeIndexData (NumberArray [0; 1; 65535]) newEngine = Uint32Array [0; 1; 65535]
  /\ is32Bits <$> buffers (snd (createIndexBuffer plainExternals
                                  (NumberArray [0; 1; 65535]) None newEngine)) !! 1
     = Some true.
Proof.
  split; [|split].
  - apply (proj1 (index_width_selection plainExternals (NumberArray [0; 1; 2; 0; 2; 3])
                    newEngine I)); [reflexivity|].
    repeat constructor; lia.
  - apply (proj1 (proj2 (index_width_selection plainExternals (NumberArray [0; 1; 65535])
                           newEngine I))); [reflexivity|].
    do 2 apply Exists_cons_tl. apply Exists_cons_hd. lia.
  - apply (proj1 (proj2 (proj2 (proj2 (index_width_selection plainExternals
                                         (NumberArray [0; 1; 65535]) newEngine I)))
                   None 1
                   (snd (createIndexBuffer plainExternals (NumberArray [0; 1; 65535]) None
                           newEngine)) eq_refl)).
Defined.

(** ** C4 *)

(** The key as the specification words it: vertex id, fragment id, ["@"],
    expanded defines, nothing between the two ids. *)
Definition spec_key {Ext : Type} (X : Externals Ext) (baseName : BaseName)
    (attributesNamesOrOptions : AttributesNamesOrOptions) (defines : option string)
    (e : Engine Ext) : string :=
  js_string (vertex_of baseName) +:+ js_string (fragment_of baseName) +:+ "@"
    +:+ fullDefines_of X attributesNamesOrOptions defines e.

Definition shaderPath (v f : string) : BaseName :=
  BaseNamePath {| vertexToken := None; vertexSource := None; vertexElement := None;
                  vertex := Some v;
                  fragmentToken := None; fragmentSource := None; fragmentElement := None;
                  fragment := Some f |}.

(** The effect for the shader pair ("ab", "c") is filed under ["ab+c@"], not
    under the concatenation ["abc@"]; and the pair ("a", "bc"), whose
    concatenation is the same, gets an effect object of its own. *)
Lemma effect_key_has_separator :
  let first := createEffect plainExternals (shaderPath "ab" "c") (AttributesNames [])
                 None false newEngine in
  let second := createEffect plainExternals (shaderPath "a" "bc") (AttributesNames [])
                  None false (snd first) in
  _compiledEffects (snd first)
    !! spec_key plainExternals (shaderPath "ab" "c") (AttributesNames []) None newEngine
  = None
  /\ _compiledEffects (snd first) !! "ab+c@" = Some (fst first)
  /\ spec_key plainExternals (shaderPath "a" "bc") (AttributesNames []) None (snd first)
     = spec_key plainExternals (shaderPath "ab" "c") (AttributesNames []) None newEngine
  /\ fst second <> fst first.
Proof. repeat split; try by vm_compute. Qed.

(** An engine that renders with a reversed depth buffer: every effect gets
    the corresponding global define. *)
Definition reverseDepthEngine : Engine unit := set_useReverseDepthBuffer true newEngine.

Definition definesInOptions (defines : string) : AttributesNamesOrOptions :=
  CreationOptions {| opt_attributes := Some []; opt_defines := Some defines |}.

Lemma effects_wf_reverseDepthEngine : effects_wf reverseDepthEngine.
Proof. split; intros *; cbn; by rewrite lookup_empty. Qed.

Lemma effect_memoization_witness :
  let first := createEffect plainExternals (BaseNameString "color") (AttributesNames [])
                 (Some "#define A") false reverseDepthEngine in
  let again := createEffect plainExternals (BaseNameString "color")
                 (definesInOptions "#define A") None false (snd first) in
  let other := createEffect plainExternals (BaseNameString "color")
                 (definesInOptions "#define B") None false (snd first) in
  _compiledEffects (snd first) !! "color+color@#define A#define USE_REVERSE_DEPTHBUFFER"
  = Some (fst first)
  /\ _compiledEffects (snd first) !! "color+color@#define A"
     = _compiledEffects reverseDepthEngine !! "color+color@#define A"
  /\ fst again = fst first
  /\ fst other <> fst first.
Proof.
  cbv zeta.
  pose proof (effect_memoization plainExternals
                (BaseNameString "color") (AttributesNames []) (Some "#define A") false
                (BaseNameString "color") (definesInOptions "#define A") None false
                reverseDepthEngine effects_wf_reverseDepthEngine) as Hsame.
  pose proof (effect_memoization plainExternals
                (BaseNameString "color") (AttributesNames []) (Some "#define A") false
                (BaseNameString "color") (definesInOptions "#define B") None false
                reverseDepthEngine effects_wf_reverseDepthEngine) as Hother.
  cbv zeta in Hsame, Hother.
  destruct Hsame as (Hkey & Honly & Hagain & _). destruct Hother as (_ & _ & _ & Hdiff).
  split; [exact Hkey|].
  split; [apply (Honly "color+color@#define A"); vm_compute; discriminate|]. split.
  - exact (proj1 (Hagain eq_refl eq_refl eq_refl)).
  - apply (Hdiff eq_refl). discriminate.
Defined.

(** ** C5 *)

Lemma refcounted_release_witness :
  references_of engineWithBuffer 1 = Some 1
  /\ fst (_releaseBuffer 1 engineWithBuffer) = true
  /\ emits engineWithBuffer (snd (_releaseBuffer 1 engineWithBuffer))
       [deleteBuffer (Some 1)].
Proof.
  assert (created_by plainExternals newEngine 1 1 engineWithBuffer) as Hc.
  { split; [reflexivity|]. left. exists (DataNumbers [0; 0; 0]), gl.STATIC_DRAW.
    reflexivity. }
  pose proof (refcounted_buffer_release plainExternals newEngine 1 1 engineWithBuffer Hc)
    as (Hone & _ & (Hfreed & Hcalls) & _).
  split; [exact Hone|]. split; [exact Hfreed|exact Hcalls].
Defined.

(** ** C6 *)

(** A wipe without the brute-force flag keeps the program cache: the
    program that was current before it is set again without a driver
    call. *)
Lemma program_cache_survives_wipe :
  let wiped := snd (wipeCaches plainExternals None engineWithProgram) in
  preventCacheWipeBetweenFrames engineWithProgram = false
  /\ wipeCaches plainExternals None engineWithProgram = (Return tt, wiped)
  /\ emits engineWithProgram (_setProgram (Some 7) engineWithProgram) []
  /\ emits wiped (_setProgram (Some 7) wiped) [].
Proof. repeat split; by vm_compute. Qed.

(** It keeps the texture cache as well: a texture bound for a data update
    is found on its channel after the wipe. *)
Lemma texture_cache_survives_wipe :
  let bound := snd (_bindTextureDirectly gl.TEXTURE_2D (Some 5) true false
                      (set_textures {[ 5 := aTexture ]} newEngine)) in
  let wiped := snd (wipeCaches plainExternals None bound) in
  emits (set_textures {[ 5 := aTexture ]} newEngine) bound
    [activeTexture gl.TEXTURE0; bindTexture gl.TEXTURE_2D (Some 9)]
  /\ wipeCaches plainExternals None bound = (Return tt, wiped)
  /\ _bindTextureDirectly gl.TEXTURE_2D (Some 5) true false wiped = (Return true, wiped).
Proof. repeat split; by vm_compute. Qed.

(** Program 7 is current and texture 5 is the texture bound last. *)
Definition texturedEngine : Engine unit :=
  snd (_bindTextureDirectly gl.TEXTURE_2D (Some 5) false false
         (_setProgram (Some 7) engineWithTexture)).

Lemma rebind_after_wipe_witness :
  let brute := snd (wipeCaches plainExternals (Some true) texturedEngine) in
  let soft := snd (wipeCaches plainExternals None texturedEngine) in
  emits brute (_bindBuffer (Some 1) gl.ARRAY_BUFFER brute)
    [bindBuffer gl.ARRAY_BUFFER (resourceOf brute (Some 1))]
  /\ emits brute (_setProgram (Some 7) brute) [useProgram (Some 7)]
  /\ (exists t cs1 cs2,
        textures brute !! 5 = Some t
        /\ emits brute (snd (_bindTextureDirectly gl.TEXTURE_2D (Some 5) false false brute))
             (cs1 ++ bindTexture gl.TEXTURE_2D (_hardwareTexture t) :: cs2))
  /\ emits soft (_bindBuffer (Some 1) gl.ARRAY_BUFFER soft)
       [bindBuffer gl.ARRAY_BUFFER (resourceOf soft (Some 1))]
  /\ _setProgram (Some 7) soft = soft
  /\ exists w e'',
       _bindTextureDirectly gl.TEXTURE_2D (Some 5) false false soft = (Return w, e'')
       /\ _boundTexturesCache e'' = _boundTexturesCache soft.
Proof.
  cbv zeta.
  assert (wipeCaches plainExternals (Some true) texturedEngine
          = (Return tt, snd (wipeCaches plainExternals (Some true) texturedEngine)))
    as Hbrute by (vm_compute; reflexivity).
  assert (wipeCaches plainExternals None texturedEngine
          = (Return tt, snd (wipeCaches plainExternals None texturedEngine)))
    as Hsoft by (vm_compute; reflexivity).
  pose proof (rebind_after_wipe plainExternals (Some true) texturedEngine _ Hbrute
                (or_introl eq_refl)) as (Bbuffer & Bbrute & _).
  pose proof (rebind_after_wipe plainExternals None texturedEngine _ Hsoft
                (or_introl eq_refl)) as (Sbuffer & _ & Ssoft).
  destruct (Bbrute eq_refl) as [Bprogram Btexture].
  destruct (Ssoft eq_refl) as (_ & _ & Sprogram & Stexture).
  split; [apply (Bbuffer 1 gl.ARRAY_BUFFER); by left|].
  split; [apply (Bprogram 7)|].
  split.
  { apply (Btexture gl.TEXTURE_2D 5 false false). vm_compute. reflexivity. }
  split; [apply (Sbuffer 1 gl.ARRAY_BUFFER); by left|].
  split; [apply (Sprogram (Some 7)); vm_compute; reflexivity|].
  destruct (Stexture (_setProgram (Some 7) engineWithTexture) gl.TEXTURE_2D (Some 5) false
              false) as (w & e'' & Hw & Hc & _); [vm_compute; reflexivity|].
  exists w, e''. split; [exact Hw|exact Hc].
Defined.

(** ** C7 *)

Lemma creation_witness :
  (returns (createVertexBuffer plainExternals (DataNumbers [0; 0; 0])) newEngine
   /\ emits newEngine engineWithBuffer
        [createBuffer; bindBuffer gl.ARRAY_BUFFER (Some 1);
         bufferData gl.ARRAY_BUFFER (payload (DataNumbers [0; 0; 0])) gl.STATIC_DRAW;
         bindBuffer gl.ARRAY_BUFFER None]
   /\ _currentBoundBuffer engineWithBuffer !! gl.ARRAY_BUFFER = Some None)
  /\ (let created := createIndexBuffer plainExternals (NumberArray [0; 1; 2]) None
                       newEngine in
      returns (createIndexBuffer plainExternals (NumberArray [0; 1; 2]) None) newEngine
      /\ emits newEngine (snd created)
           [createBuffer; bindBuffer gl.ELEMENT_ARRAY_BUFFER (Some 1);
            bufferData gl.ELEMENT_ARRAY_BUFFER (IndexData (Uint16Array [0; 1; 2]))
              gl.STATIC_DRAW;
            bindBuffer gl.ELEMENT_ARRAY_BUFFER None]
      /\ _currentBoundBuffer (snd created) !! gl.ELEMENT_ARRAY_BUFFER = Some None).
Proof.
  assert (forall t, _currentBoundBuffer newEngine !! t <> Some (Some (nextObject newEngine)))
    as Hfresh by (intros t; cbn; by rewrite lookup_empty).
  destruct (creation_binds_uploads_unbinds plainExternals newEngine Hfresh)
    as [Hvertex Hindex].
  split.
  - destruct (Hvertex (DataNumbers [0; 0; 0]) gl.STATIC_DRAW) as [Hret Hdone].
    destruct (Hdone 1 engineWithBuffer eq_refl) as (Hcalls & Hnull & _).
    split; [exact (Hret eq_refl I)|]. split; [exact Hcalls|exact Hnull].
  - cbv zeta. destruct (Hindex (NumberArray [0; 1; 2]) None) as [Hret Hdone].
    destruct (Hdone 1 (snd (createIndexBuffer plainExternals (NumberArray [0; 1; 2]) None
                              newEngine)) eq_refl) as (Hcalls & Hnull & _).
    split; [exact (Hret eq_refl)|]. split; [exact Hcalls|exact Hnull].
Defined.

(** ** C8 *)

Definition floatOptions : TextureOptions :=
  OptionsObject {| o_generateMipMaps := None; o_createMipMaps := None;
                   o_type := Some (TEXTURETYPE_FLOAT engineConstants);
                   o_samplingMode := None; o_format := None; o_useSRGBBuffer := None;
                   o_samples := None; o_label := None; o_createMSAATexture := None;
                   o_comparisonFunction := None |}.

(** A float texture on an engine that has float textures but no linear
    filtering for them: nearest-neighbour sampling, and an empty log. *)
Lemma float_downgrade_is_silent :
  let made := _createInternalTexture_settings engineConstants floatOptions newEngine in
  textureFloatLinearFiltering (_caps newEngine) = false
  /\ samplingMode (fst made) = TEXTURE_NEAREST_SAMPLINGMODE engineConstants
  /\ type_ (fst made) = TEXTURETYPE_FLOAT engineConstants
  /\ logger (snd made) = []
  /\ snd made = newEngine.
Proof. repeat split. Qed.

Lemma float_downgrade_witness :
  samplingMode (fst (_createInternalTexture_settings engineConstants floatOptions newEngine))
  = TEXTURE_NEAREST_SAMPLINGMODE engineConstants.
Proof.
  apply (proj1 (float_sampling_downgrade engineConstants floatOptions newEngine));
    reflexivity.
Defined.

(** ** C10 *)

Lemma prevented_wipe_witness :
  wipeCaches plainExternals None frameLockedEngine = (Return tt, frameLockedEngine)
  /\ wipeCaches plainExternals (Some false) frameLockedEngine
     = (Return tt, frameLockedEngine)
  /\ _currentProgram frameLockedEngine = Some (Some 7)
  /\ enabled_at (_vertexAttribArraysEnabled frameLockedEngine) 2 = true
  /\ exists e',
       wipeCaches plainExternals (Some true) frameLockedEngine = (Return tt, e')
       /\ _currentProgram e' = Some None
       /\ enabled_at (_vertexAttribArraysEnabled e') 2 = false.
Proof.
  pose proof (prevented_wipe_is_skipped plainExternals frameLockedEngine eq_refl)
    as (Hnone & Hfalse & Hreset).
  split; [exact Hnone|]. split; [exact Hfalse|]. split; [reflexivity|].
  split; [reflexivity|].
  destruct (Hreset ltac:(by vm_compute))
    as (e' & Hw & Hp & _ & _ & _ & _ & _ & _ & _ & Ha & _).
  exists e'. split; [exact Hw|]. split; [exact Hp|].
  apply (proj1 (Ha 2 ltac:(by vm_compute))).
Defined.

(** * The further properties on concrete engines *)

(** A driver that declines every allocation. *)
Definition decliningEngine : Engine unit :=
  set_gl {| calls := []; nextHandle := 1; failAlloc := true |} newEngine.

(** An engine with vertex array object 7 bound. *)
Definition vaoEngine : Engine unit := bindVertexArrayObject 7 None newEngine.

(** An index buffer (object 1) with an index that needs 32 bits. *)
Definition wideIndexEngine : Engine unit :=
  snd (createIndexBuffer plainExternals (NumberArray [0; 1; 65535]) None newEngine).

(** An index buffer (object 1) and an effect (object 2). *)
Definition effectEngine : Engine unit :=
  snd (createEffect plainExternals (BaseNameString "color") (AttributesNames ["position"])
         None false
         (snd (createIndexBuffer plainExternals (NumberArray [0; 1; 2]) None newEngine))).

Definition noVertexBuffers : VertexBuffers := {| vbs_id := 50; vbs_entries := ∅ |}.

(** Three instanced attributes fed from buffer 1, two of them at
    location 3. *)
Definition instancedEngine : Engine unit :=
  set_currentInstanceBuffers [1; 1; 1]
    (set_currentInstanceLocations [3; 4; 3] engineWithBuffer).

(** An engine with three attributes marked as enabled and a wipe pending. *)
Definition staleAttributesEngine : Engine unit :=
  set_mustWipeVertexAttributes true
    (set_vertexAttribArraysEnabled [true; false; true] newEngine).

Definition multiviewTexture : InternalTexture :=
  {| _associatedChannel := -1; isMultiview := true; isCube := false; is3D := false;
     is2DArray := false; _hardwareTexture := Some 11 |}.

Definition multiviewEngine : Engine unit :=
  set_textures {[ 6 := multiviewTexture ]} newEngine.

Lemma normalizeIndexData_lossless_witness :
  elements (_normalizeIndexData (NumberArray [0; 65535; 70000]) newEngine)
  = [0; 65535; 70000].
Proof.
  apply (proj1 (normalizeIndexData_lossless (NumberArray [0; 65535; 70000]) newEngine I));
    [reflexivity|].
  repeat (apply Forall_cons_2; [lia|]). apply Forall_nil_2.
Defined.

Lemma creation_failure_witness :
  fst (createVertexBuffer plainExternals (DataNumbers [1; 2; 3]) decliningEngine)
  = Throw (Error "Unable to create vertex buffer")
  /\ emits decliningEngine
       (snd (createVertexBuffer plainExternals (DataNumbers [1; 2; 3]) decliningEngine))
       [createBuffer].
Proof.
  pose proof (creation_failure_is_clean plainExternals (DataNumbers [1; 2; 3])
                (NumberArray [0]) None decliningEngine eq_refl) as H.
  cbv zeta in H. destruct H as (H1 & _ & H3 & _). split; [exact H1|exact H3].
Defined.

Lemma vertex_buffer_capacity_witness :
  capacity <$> buffers engineWithBuffer !! 1 = Some 12.
Proof.
  apply (proj1 (vertex_buffer_capacity plainExternals (DataNumbers [0; 0; 0]) 1 newEngine
                  engineWithBuffer (or_introl eq_refl))).
Defined.

Lemma buffer_bind_unbinds_vao_witness :
  _cachedVertexArrayObject vaoEngine = Some (Some 7)
  /\ _cachedVertexArrayObject (bindArrayBuffer (Some 1) vaoEngine) = Some None.
Proof.
  split; [reflexivity|].
  pose proof (buffer_bind_unbinds_vao (Some 1) vaoEngine eq_refl) as H.
  cbv zeta in H. destruct H as (_ & _ & H).
  destruct (H eq_refl) as (_ & _ & Ha & _). exact Ha.
Defined.

Lemma indexed_draw_witness :
  let bound := _bindIndexBufferWithCache (Some 1) wideIndexEngine in
  exists cs,
    emits bound (drawElementsType plainExternals engineConstants 0 2 3 None bound)
      (cs ++ [drawElements gl.TRIANGLES 3 gl.UNSIGNED_INT 8]).
Proof.
  exact (indexed_draw_matches_index_width plainExternals engineConstants
           (NumberArray [0; 1; 65535]) None 0 2 3 newEngine 1 wideIndexEngine eq_refl).
Defined.

Lemma draw_wrappers_witness :
  exists cs,
    emits newEngine (draw plainExternals engineConstants false 0 6 None newEngine)
      (cs ++ [drawElements gl.LINES 6 gl.UNSIGNED_SHORT 0]).
Proof.
  apply (proj1 (draw_wrappers_choose_primitive plainExternals engineConstants false 0 6 None
                  newEngine ltac:(vm_compute; discriminate) ltac:(vm_compute; discriminate)
                  ltac:(vm_compute; discriminate))).
Defined.

Lemma released_effect_witness :
  let first := createEffect plainExternals (BaseNameString "color") (AttributesNames [])
                 None false newEngine in
  exists e2,
    _releaseEffect (fun _ x => x) (fst first) (snd first) = (Return tt, e2)
    /\ fst (createEffect plainExternals (BaseNameString "color") (AttributesNames [])
              None false e2) <> fst first.
Proof.
  cbv zeta.
  destruct (released_effect_is_recompiled plainExternals (fun _ x => x)
              (BaseNameString "color") (AttributesNames []) None false newEngine
              (fun _ _ _ _ => eq_refl) ltac:(vm_compute; reflexivity))
    as (e2 & H1 & _ & _ & _ & H5).
  exists e2. split; [exact H1|exact H5].
Defined.

Lemma unbindAllAttributes_witness :
  fst (unbindAllAttributes staleAttributesEngine) = Return tt
  /\ enabled_at (_vertexAttribArraysEnabled (snd (unbindAllAttributes staleAttributesEngine)))
       2 = false.
Proof.
  pose proof (unbindAllAttributes_disables staleAttributesEngine
                ltac:(unfold pointers_ok; cbn; lia)) as H.
  cbv zeta in H. destruct H as (Hr & _ & Hen & _).
  split; [exact Hr|]. apply Hen. cbn. lia.
Defined.

Lemma bindBuffers_again_witness :
  let bound := snd (bindBuffers noVertexBuffers (Some 1) 2 None effectEngine) in
  bindBuffers noVertexBuffers (Some 1) 2 None bound = (Return tt, bound).
Proof.
  cbv zeta.
  apply (bindBuffers_again_is_free noVertexBuffers (Some 1) 2 None None effectEngine).
  vm_compute. reflexivity.
Defined.

Lemma disableInstanceAttribute_witness :
  instance_pairs (snd (disableInstanceAttribute 3 instancedEngine)) = [(4, 1)].
Proof.
  exact (proj1 (disableInstanceAttribute_removes 3 instancedEngine eq_refl)).
Defined.

Lemma unbindInstanceAttributes_witness :
  exists e' cs,
    unbindInstanceAttributes instancedEngine = (Return tt, e')
    /\ _currentInstanceLocations e' = []
    /\ emits instancedEngine e' cs
    /\ List.filter is_divisor cs
       = [vertexAttribDivisor 3 0; vertexAttribDivisor 4 0; vertexAttribDivisor 3 0].
Proof.
  destruct (unbindInstanceAttributes_resets instancedEngine eq_refl) as
    (e' & cs & H1 & H2 & _ & H4 & _ & H6).
  { repeat (apply Forall_cons_2; [eexists; vm_compute; reflexivity|]). apply Forall_nil_2. }
  exists e', cs. split; [exact H1|]. split; [exact H2|]. split; [exact H4|exact H6].
Defined.

Lemma brute_wipe_witness :
  exists e',
    wipeCaches plainExternals (Some true) staleAttributesEngine = (Return tt, e')
    /\ _mustWipeVertexAttributes e' = false
    /\ enabled_at (_vertexAttribArraysEnabled e') 0 = false.
Proof.
  destruct (brute_wipe_disables_attributes plainExternals staleAttributesEngine
              ltac:(unfold pointers_ok; cbn; lia)) as (e' & H1 & H2 & H3).
  exists e'. split; [exact H1|]. split; [exact H2|].
  apply (proj1 (H3 0 ltac:(cbn; lia))).
Defined.

Lemma multiview_bind_witness :
  fst (_bindTextureDirectly gl.TEXTURE_2D_ARRAY (Some 6) false true multiviewEngine)
  = Throw (ThrownString multiviewMessage).
Proof.
  apply (proj1 (multiview_bind_throws gl.TEXTURE_2D_ARRAY 6 multiviewTexture false true
                  multiviewEngine ltac:(vm_compute; reflexivity) eq_refl
                  (or_introl eq_refl))).
Defined.

Lemma effects_table_witness :
  effects_wf (snd (createEffect plainExternals (BaseNameString "color") (AttributesNames [])
                     None false newEngine)).
Proof.
  exact (proj1 (effects_table_stays_wf plainExternals (fun _ x => x) (fun x => x) newEngine
                  effects_wf_newEngine)
           (BaseNameString "color") (AttributesNames []) None false).
Defined.


Lemma wipe_resends_witness :
  let wiped := snd (wipeCaches plainExternals None engineWithProgram) in
  emits wiped (_viewport 0 0 640 480 wiped) [stateCall "viewport" [0; 0; 640; 480]].
Proof.
  cbv zeta.
  apply (proj1 (wipe_resends_viewport_and_flipY plainExternals None engineWithProgram
                  (snd (wipeCaches plainExternals None engineWithProgram))
                  ltac:(vm_compute; reflexivity) (or_introl eq_refl))).
  discriminate.
Defined.

(** ** C9 *)

(** A 32-bit index buffer (object 1) and an effect (object 2). *)
Definition wideEffectEngine : Engine unit :=
  snd (createEffect plainExternals (BaseNameString "color") (AttributesNames ["position"])
         None false wideIndexEngine).

Definition otherVertexBuffers : VertexBuffers := {| vbs_id := 51; vbs_entries := ∅ |}.

(** A vertex array object is recorded with the 32-bit index buffer and
    bound.  [bindBuffers] with other vertex buffers and a null index buffer
    then unbinds it on the driver, so the index buffer recorded in it is no
    longer the one in effect; the engine still has the 32-bit flag set, and
    the indexed draw that follows is issued with 32-bit indices. *)
Lemma null_index_buffer_leaves_vao :
  let recorded := recordVertexArrayObject noVertexBuffers (Some 1) 2 None wideEffectEngine in
  let bound := bindVertexArrayObject 2 (Some 1) (snd recorded) in
  let e' := after (bindBuffers otherVertexBuffers None 2 None) bound in
  fst recorded = Return 2
  /\ _cachedVertexArrayObject bound = Some (Some 2)
  /\ _uintIndicesCurrentlySet bound = true
  /\ emits bound e'
       (bindVertexArray None :: map disableVertexAttribArray (seqZ 0 16))
  /\ _cachedVertexArrayObject e' = Some None
  /\ _cachedIndexBuffer e' = Some None
  /\ _uintIndicesCurrentlySet e' = true
  /\ emits e' (drawElementsType plainExternals engineConstants 0 0 3 None e')
       [colorMask true true true true; drawElements gl.TRIANGLES 3 gl.UNSIGNED_INT 0].
Proof. cbv zeta. do 7 (split; [vm_compute; reflexivity|]). vm_compute. reflexivity. Qed.

(** The engine of the scenario above once the vertex array object is
    bound. *)
Definition vaoBoundEngine : Engine unit :=
  bindVertexArrayObject 2 (Some 1)
    (snd (recordVertexArrayObject noVertexBuffers (Some 1) 2 None wideEffectEngine)).

Lemma null_index_buffer_witness :
  (let bound := snd (bindBuffers noVertexBuffers (Some 1) 2 None effectEngine) in
   let e' := after (bindBuffers otherVertexBuffers None 2 None) bound in
   _cachedIndexBuffer bound = Some (Some 1)
   /\ _cachedIndexBuffer e' = _cachedIndexBuffer bound
   /\ exists cs, emits bound e' cs /\ Forall (fun c => forall v, c <> bindVertexArray v) cs)
  /\ (let e' := after (bindBuffers otherVertexBuffers None 2 None) vaoBoundEngine in
      _uintIndicesCurrentlySet e' = _uintIndicesCurrentlySet vaoBoundEngine
      /\ _cachedVertexArrayObject e' = Some None
      /\ exists cs, emits vaoBoundEngine e' (bindVertexArray None :: cs)).
Proof.
  cbv zeta. split.
  - split; [reflexivity|].
    destruct (proj2 (null_index_buffer_keeps_binding engineConstants
                       (snd (bindBuffers noVertexBuffers (Some 1) 2 None effectEngine)))
                otherVertexBuffers 2 None)
      as (Hindex & _ & _ & _ & _ & _ & Hsettled & _).
    split; [exact Hindex|]. exact (proj2 (Hsettled (or_intror eq_refl))).
  - destruct (proj2 (null_index_buffer_keeps_binding engineConstants vaoBoundEngine)
                otherVertexBuffers 2 None)
      as (_ & Hwidth & _ & _ & _ & _ & _ & Hunbound).
    split; [exact Hwidth|].
    apply Hunbound; [reflexivity|reflexivity|vm_compute; reflexivity|].
    eexists. vm_compute. reflexivity.
Defined.
